(** * Health scoring and recommendation engine: a shallow embedding

    This development embeds the scoring engine of [simulation/predictor.py]
    (class [LifePredictor]), the health-metrics generator of
    [simulation/data_generator.py] and the quit-smoking mutator of
    [simulation/run_simulation.py], and states the properties of the
    specification over that embedding.

    Conventions.
    - Python numbers (int and float) are exact rationals [Q]; equality of
      numbers is [Qeq] ([==]).  [round] is rounding to the nearest multiple
      of a power of ten with ties to the even neighbour.
    - A Python dict with a fixed set of keys is a [Record].  The five
      sections of a user record and the key [user_id] are looked up by the
      orchestrator's handler itself (it tests ["user_profile" in user_data]),
      so they are options: [None] is an absent key, and reading it raises
      [KeyError].  Dicts that the code iterates ([.values()], [.items()],
      [.get]) are association lists in insertion order.
    - Exceptions are values: a computation returns [Ok v] or [Raise e].
    - [datetime.now().isoformat()] is a reading of the clock handed to the
      function; random draws are handed to the function as well. *)

From Stdlib Require Import QArith Qround Qminmax Lqa ZArith Lia.
From Stdlib Require Import Bool String Ascii List.
Import ListNotations.

Open Scope string_scope.
Open Scope list_scope.
Open Scope Q_scope.

(* ================================================================= *)
(** ** Python numbers *)

Module PyNum.

Definition Qltb (x y : Q) : bool := negb (Qle_bool y x).

Definition py_max (a b : Q) : Q := if Qltb a b then b else a.

Definition py_min (a b : Q) : Q := if Qltb b a then b else a.

(** [sum(l)]: left fold from [0]. *)
Definition py_sum (l : list Q) : Q := fold_left Qplus l 0.

Definition py_len {A : Type} (l : list A) : Q := inject_Z (Z.of_nat (length l)).

(** [round(x)]: the nearest integer, a tie going to the even one. *)
Definition py_round (x : Q) : Z :=
  let f := Qfloor x in
  match Qcompare (x - inject_Z f) (1 # 2) with
  | Lt => f
  | Gt => (f + 1)%Z
  | Eq => if Z.even f then f else (f + 1)%Z
  end.

Definition pow10 (ndigits : nat) : Q := inject_Z (10 ^ Z.of_nat ndigits).

(** [round(x, ndigits)]. *)
Definition py_round_n (x : Q) (ndigits : nat) : Q :=
  inject_Z (py_round (x * pow10 ndigits)) / pow10 ndigits.

End PyNum.
Export PyNum.

Notation "x <? y" := (Qltb x y) (at level 70, no associativity) : Q_scope.
Notation "x >? y" := (Qltb y x) (at level 70, no associativity) : Q_scope.
Notation "x <=? y" := (Qle_bool x y) (at level 70, no associativity) : Q_scope.
Notation "x >=? y" := (Qle_bool y x) (at level 70, no associativity) : Q_scope.
Notation "x =? y" := (Qeq_bool x y) (at level 70, no associativity) : Q_scope.

(* ================================================================= *)
(** ** Python strings and dicts *)

Module PyStr.

Definition lower_ascii (c : ascii) : ascii :=
  let n := nat_of_ascii c in
  if (Nat.leb 65 n && Nat.leb n 90)%bool then ascii_of_nat (n + 32) else c.

(** [s.lower()] on ASCII text. *)
Fixpoint lower (s : string) : string :=
  match s with
  | EmptyString => EmptyString
  | String c s' => String (lower_ascii c) (lower s')
  end.

(** [s in l] for a list of strings. *)
Definition str_in (s : string) (l : list string) : bool :=
  existsb (String.eqb s) l.

(** [d.get(k, default)] on a dict kept in insertion order. *)
Fixpoint dict_get {A : Type} (d : list (string * A)) (k : string) (default : A) : A :=
  match d with
  | [] => default
  | (k', v) :: d' => if String.eqb k k' then v else dict_get d' k default
  end.

Definition keys {A : Type} (d : list (string * A)) : list string := map fst d.

Definition values {A : Type} (d : list (string * A)) : list A := map snd d.

End PyStr.
Export PyStr.

(* ================================================================= *)
(** ** Exceptions *)

Inductive exn : Type :=
| KeyError (key : string)
| ZeroDivisionError.

Inductive result (A : Type) : Type :=
| Ok (a : A)
| Raise (e : exn).

Arguments Ok {A} a.
Arguments Raise {A} e.

Definition bind {A B : Type} (c : result A) (k : A -> result B) : result B :=
  match c with
  | Ok a => k a
  | Raise e => Raise e
  end.

Notation "x <- c ;; k" := (bind c (fun x => k))
  (at level 61, c at next level, right associativity).

(** [d[k]] on a key that may be absent. *)
Definition getitem {A : Type} (k : string) (field : option A) : result A :=
  match field with
  | Some v => Ok v
  | None => Raise (KeyError k)
  end.

(** [d[k]] on a dict kept in insertion order. *)
Fixpoint dict_getitem {A : Type} (d : list (string * A)) (k : string) : result A :=
  match d with
  | [] => Raise (KeyError k)
  | (k', v) :: d' => if String.eqb k k' then Ok v else dict_getitem d' k
  end.

(** [a / b]: true division raises on a zero divisor. *)
Definition py_div (a b : Q) : result Q :=
  if b =? 0 then Raise ZeroDivisionError else Ok (a / b).

(* ================================================================= *)
(** ** The user record *)

(** The sections of a user record, with the keys that the embedded
    functions read; keys that none of them reads (timestamps, device ids,
    the frequency scan, the family history, the daily vitals) are left
    out. *)

Record UserProfile : Type := {
  user_id : option string;
  gender : string;
  age : Q;
  height_cm : Q;
  weight_kg : Q;
  bmi : Q;
  smoking_status : string;
  alcohol_frequency : string
}.

Record BloodPressure : Type := { systolic : Q; diastolic : Q }.

Record Cholesterol : Type := { total : Q; hdl : Q; ldl : Q }.

Record HealthMetrics : Type := {
  blood_pressure : BloodPressure;
  resting_heart_rate : Q;
  cholesterol : Cholesterol;
  fasting_glucose : Q;
  hba1c : Q;
  vo2_max : Q;
  body_fat_percentage : Q
}.

Record ImpedanceData : Type := {
  chronological_age : Q;
  estimated_biological_age : Q
}.

Record Exercise : Type := {
  frequency : string;
  minutes_per_week : Q;
  types : list string
}.

Record Sleep : Type := { average_hours : Q; quality : string }.

Record Diet : Type := {
  diet_type : string;
  fruit_veg_servings_daily : Q;
  processed_food_frequency : string
}.

Record LifestyleData : Type := {
  exercise : Exercise;
  sleep : Sleep;
  diet : Diet;
  stress_level : string
}.

Record RiskFactors : Type := {
  cardiovascular_disease : Q;
  type_2_diabetes : Q;
  cancer : list (string * Q);
  neurodegenerative : list (string * Q)
}.

Record GeneticData : Type := { risk_factors : RiskFactors }.

Record UserData : Type := {
  user_profile : option UserProfile;
  health_metrics : option HealthMetrics;
  impedance_data : option ImpedanceData;
  lifestyle_data : option LifestyleData;
  genetic_data : option GeneticData
}.

(** A record with its five sections present. *)
Definition complete_record (p : UserProfile) (h : HealthMetrics) (i : ImpedanceData)
    (l : LifestyleData) (g : GeneticData) : UserData :=
  {| user_profile := Some p; health_metrics := Some h; impedance_data := Some i;
     lifestyle_data := Some l; genetic_data := Some g |}.

(* ================================================================= *)
(** ** [LifePredictor.__init__]: the table of risk factor weights *)

Module weights.

Definition base_life_expectancy : list (string * Q) :=
  [("male", 76.1); ("female", 81.1)].

Definition smoking : list (string * Q) :=
  [("never", 0); ("former", -2.0); ("current", -10.0)].

Definition bmi_optimal_range : Q * Q := (18.5, 25.0).
Definition bmi_per_unit_above : Q := -0.4.
Definition bmi_per_unit_below : Q := -0.3.

Definition optimal_systolic : Q := 115.
Definition per_10mmHg_above : Q := -1.2.

Definition optimal_ratio : Q := 3.5.
Definition cholesterol_per_unit_above : Q := -1.0.

Definition exercise_minutes_per_week : list (string * Q) :=
  [("0", 0); ("1-60", 1.0); ("61-150", 2.5); ("151-300", 3.5); ("300+", 4.2)].

Definition fruit_veg_servings : Q := 0.4.
Definition mediterranean : Q := 2.5.
Definition processed_food : list (string * Q) :=
  [("rarely", 0); ("sometimes", -0.8); ("often", -1.8); ("very_frequently", -3.0)].

Definition optimal_hours : Q := 7.5.
Definition per_hour_deficit : Q := -0.5.
Definition sleep_quality : list (string * Q) :=
  [("poor", -1.5); ("fair", -0.7); ("good", 0); ("excellent", 0.8)].

Definition alcohol : list (string * Q) :=
  [("none", 0); ("rare", 0.5); ("moderate", 0); ("frequent", -3.0)].

Definition stress : list (string * Q) :=
  [("low", 1.0); ("moderate", 0); ("high", -2.0); ("very_high", -4.0)].

Definition social_connection_factor : Q := 1.8.

Definition cardiovascular_factor : Q := -5.0.
Definition diabetes_factor : Q := -3.5.
Definition cancer_factor : Q := -4.0.
Definition neurodegenerative_factor : Q := -3.0.

Definition biological_vs_chronological : Q := 1.5.

(** [table[k]] for a literal key [k] of a literal table. *)
Definition item (table : list (string * Q)) (k : string) : Q := dict_get table k 0.

End weights.

(* ================================================================= *)
(** ** [LifePredictor.predict_life_expectancy] *)

Record Prediction : Type := {
  pred_user_id : string;
  current_age : Q;
  pred_gender : string;
  base_life_expectancy : Q;
  predicted_life_expectancy : Q;
  confidence_interval : Q * Q;
  expected_remaining_years : Q;
  factors : list (string * Q);
  predicted_at : string
}.

(** The twelve numbered steps of the function body, one definition each,
    under the name of the local variable the step assigns. *)
Module adjustment.

(* 1. Smoking adjustment *)
Definition smoking_adj (user_profile : UserProfile) : Q :=
  let smoking_status := lower (smoking_status user_profile) in
  dict_get weights.smoking smoking_status 0.

(* 2. BMI adjustment *)
Definition bmi_adj (user_profile : UserProfile) : Q :=
  let bmi := bmi user_profile in
  if bmi >? snd weights.bmi_optimal_range then
    (bmi - snd weights.bmi_optimal_range) * weights.bmi_per_unit_above
  else if bmi <? fst weights.bmi_optimal_range then
    (fst weights.bmi_optimal_range - bmi) * weights.bmi_per_unit_below
  else 0.

(* 3. Blood pressure adjustment *)
Definition bp_adj (health_metrics : HealthMetrics) : Q :=
  let systolic := systolic (blood_pressure health_metrics) in
  if systolic >? weights.optimal_systolic then
    ((systolic - weights.optimal_systolic) / 10) * weights.per_10mmHg_above
  else 0.

(* 4. Cholesterol adjustment *)
Definition chol_adj (health_metrics : HealthMetrics) : result Q :=
  chol_ratio <- py_div (total (cholesterol health_metrics))
                       (hdl (cholesterol health_metrics)) ;;
  if chol_ratio >? weights.optimal_ratio then
    Ok ((chol_ratio - weights.optimal_ratio) * weights.cholesterol_per_unit_above)
  else Ok 0.

(* 5. Exercise adjustment *)
Definition exercise_adj (lifestyle_data : LifestyleData) : Q :=
  let exercise_minutes := minutes_per_week (exercise lifestyle_data) in
  if exercise_minutes =? 0 then
    weights.item weights.exercise_minutes_per_week "0"
  else if exercise_minutes <=? 60 then
    weights.item weights.exercise_minutes_per_week "1-60"
  else if exercise_minutes <=? 150 then
    weights.item weights.exercise_minutes_per_week "61-150"
  else if exercise_minutes <=? 300 then
    weights.item weights.exercise_minutes_per_week "151-300"
  else
    weights.item weights.exercise_minutes_per_week "300+".

(* 6. Diet adjustment *)
Definition diet_adj (lifestyle_data : LifestyleData) : Q :=
  let diet_adj := 0 in
  let fruit_veg := fruit_veg_servings_daily (diet lifestyle_data) in
  let diet_adj := diet_adj + fruit_veg * weights.fruit_veg_servings in
  let diet_adj :=
    if String.eqb (lower (diet_type (diet lifestyle_data))) "mediterranean"
    then diet_adj + weights.mediterranean else diet_adj in
  let processed_food := lower (processed_food_frequency (diet lifestyle_data)) in
  diet_adj + dict_get weights.processed_food processed_food 0.

(* 7. Sleep adjustment *)
Definition sleep_adj (lifestyle_data : LifestyleData) : Q :=
  let sleep_adj := 0 in
  let sleep_hours := average_hours (sleep lifestyle_data) in
  let sleep_adj :=
    if sleep_hours <? weights.optimal_hours
    then sleep_adj + (sleep_hours - weights.optimal_hours) * weights.per_hour_deficit
    else sleep_adj in
  let sleep_quality := lower (quality (sleep lifestyle_data)) in
  sleep_adj + dict_get weights.sleep_quality sleep_quality 0.

(* 8. Alcohol adjustment *)
Definition alcohol_adj (user_profile : UserProfile) : Q :=
  let alcohol_freq := lower (alcohol_frequency user_profile) in
  dict_get weights.alcohol alcohol_freq 0.

(* 9. Stress adjustment *)
Definition stress_adj (lifestyle_data : LifestyleData) : Q :=
  let stress_level := lower (stress_level lifestyle_data) in
  dict_get weights.stress stress_level 0.

(* 10. Social connection adjustment *)
Definition team_activities (lifestyle_data : LifestyleData) : list string :=
  filter (fun act => str_in (lower act) ["team sports"; "dancing"; "yoga"; "pilates"])
         (types (exercise lifestyle_data)).

Definition social_adj (lifestyle_data : LifestyleData) : Q :=
  let social_adj := 0 in
  let team_activities := team_activities lifestyle_data in
  match team_activities with
  | [] => social_adj
  | _ :: _ =>
      let social_adj := weights.social_connection_factor * (py_len team_activities / 4) in
      py_min social_adj weights.social_connection_factor
  end.

(* 11. Genetic risk adjustment *)
Definition genetic_adj (genetic_data : GeneticData) : result Q :=
  let genetic_adj := 0 in
  let genetic_adj := genetic_adj +
    cardiovascular_disease (risk_factors genetic_data) * weights.cardiovascular_factor in
  let genetic_adj := genetic_adj +
    type_2_diabetes (risk_factors genetic_data) * weights.diabetes_factor in
  let cancer_risks := values (cancer (risk_factors genetic_data)) in
  avg_cancer_risk <- py_div (py_sum cancer_risks) (py_len cancer_risks) ;;
  let genetic_adj := genetic_adj + avg_cancer_risk * weights.cancer_factor in
  let neuro_risks := values (neurodegenerative (risk_factors genetic_data)) in
  avg_neuro_risk <- py_div (py_sum neuro_risks) (py_len neuro_risks) ;;
  let genetic_adj := genetic_adj + avg_neuro_risk * weights.neurodegenerative_factor in
  Ok genetic_adj.

(* 12. Biomarker aging adjustment *)
Definition bio_age_adj (user_profile : UserProfile) (impedance_data : ImpedanceData) : Q :=
  let bio_age := estimated_biological_age impedance_data in
  let bio_age_diff := age user_profile - bio_age in
  bio_age_diff * weights.biological_vs_chronological.

End adjustment.

Definition predict_life_expectancy (now : string) (user_data : UserData)
  : result Prediction :=
  user_profile <- getitem "user_profile" (user_profile user_data) ;;
  health_metrics <- getitem "health_metrics" (health_metrics user_data) ;;
  impedance_data <- getitem "impedance_data" (impedance_data user_data) ;;
  lifestyle_data <- getitem "lifestyle_data" (lifestyle_data user_data) ;;
  genetic_data <- getitem "genetic_data" (genetic_data user_data) ;;
  let gender := gender user_profile in
  let age := age user_profile in
  let base_expectancy :=
    weights.item weights.base_life_expectancy
      (if String.eqb (lower gender) "male" then "male" else "female") in
  let adjustments := [] in
  let smoking_adj := adjustment.smoking_adj user_profile in
  let adjustments := adjustments ++ [("Smoking", smoking_adj)] in
  let bmi_adj := adjustment.bmi_adj user_profile in
  let adjustments := adjustments ++ [("BMI", bmi_adj)] in
  let bp_adj := adjustment.bp_adj health_metrics in
  let adjustments := adjustments ++ [("Blood Pressure", bp_adj)] in
  chol_adj <- adjustment.chol_adj health_metrics ;;
  let adjustments := adjustments ++ [("Cholesterol", chol_adj)] in
  let exercise_adj := adjustment.exercise_adj lifestyle_data in
  let adjustments := adjustments ++ [("Exercise", exercise_adj)] in
  let diet_adj := adjustment.diet_adj lifestyle_data in
  let adjustments := adjustments ++ [("Diet", diet_adj)] in
  let sleep_adj := adjustment.sleep_adj lifestyle_data in
  let adjustments := adjustments ++ [("Sleep", sleep_adj)] in
  let alcohol_adj := adjustment.alcohol_adj user_profile in
  let adjustments := adjustments ++ [("Alcohol", alcohol_adj)] in
  let stress_adj := adjustment.stress_adj lifestyle_data in
  let adjustments := adjustments ++ [("Stress", stress_adj)] in
  let social_adj := adjustment.social_adj lifestyle_data in
  let adjustments := adjustments ++ [("Social Connection", social_adj)] in
  genetic_adj <- adjustment.genetic_adj genetic_data ;;
  let adjustments := adjustments ++ [("Genetic Factors", genetic_adj)] in
  let bio_age_adj := adjustment.bio_age_adj user_profile impedance_data in
  let adjustments := adjustments ++ [("Biological Age", bio_age_adj)] in
  let total_adjustment := py_sum (map snd adjustments) in
  let life_expectancy := base_expectancy + total_adjustment in
  let remaining_years := life_expectancy - age in
  let uncertainty := 4.2 in
  uid <- getitem "user_id" (user_id user_profile) ;;
  Ok {| pred_user_id := uid;
        current_age := age;
        pred_gender := gender;
        base_life_expectancy := base_expectancy;
        predicted_life_expectancy := py_round_n life_expectancy 1;
        confidence_interval :=
          (py_round_n (life_expectancy - uncertainty) 1,
           py_round_n (life_expectancy + uncertainty) 1);
        expected_remaining_years := py_round_n remaining_years 1;
        factors := adjustments;
        predicted_at := now |}.

(* ================================================================= *)
(** ** [LifePredictor.calculate_biological_age] *)

Record BiologicalAge : Type := {
  bio_user_id : string;
  bio_chronological_age : Q;
  biological_age : Q;
  age_difference : Q;
  (* factor name, its rounded value, its nominal weight *)
  bio_factors : list (string * (Q * Q));
  calculated_at : string
}.

(** The threshold lookups of the function body, under the names of the
    local variables they assign. *)
Module age_factor.

Definition bp_age_factor (health_metrics : HealthMetrics) : Q :=
  let systolic := systolic (blood_pressure health_metrics) in
  let diastolic := diastolic (blood_pressure health_metrics) in
  if (systolic <=? 120) && (diastolic <=? 80) then -5
  else if (systolic <=? 130) && (diastolic <=? 85) then 0
  else if (systolic <=? 140) && (diastolic <=? 90) then 5
  else 10.

Definition hr_age_factor (health_metrics : HealthMetrics) : Q :=
  let heart_rate := resting_heart_rate health_metrics in
  if heart_rate <? 60 then -5
  else if heart_rate <=? 70 then -2
  else if heart_rate <=? 80 then 0
  else if heart_rate <=? 90 then 3
  else 7.

Definition chol_age_factor (health_metrics : HealthMetrics) : result Q :=
  let total_chol := total (cholesterol health_metrics) in
  let hdl := hdl (cholesterol health_metrics) in
  chol_ratio <- py_div total_chol hdl ;;
  if chol_ratio <? 3.5 then Ok (-3)
  else if chol_ratio <? 4.5 then Ok 0
  else if chol_ratio <? 5.5 then Ok 3
  else Ok 7.

Definition glucose_age_factor (health_metrics : HealthMetrics) : Q :=
  let glucose := fasting_glucose health_metrics in
  if glucose <? 90 then -3
  else if glucose <=? 100 then 0
  else if glucose <=? 110 then 2
  else if glucose <=? 125 then 5
  else 10.

Definition hba1c_age_factor (health_metrics : HealthMetrics) : Q :=
  let hba1c := hba1c health_metrics in
  if hba1c <? 5.0 then -3
  else if hba1c <=? 5.6 then 0
  else if hba1c <=? 6.0 then 2
  else if hba1c <=? 6.4 then 5
  else 10.

Definition bmi_age_factor (user_profile : UserProfile) : Q :=
  let bmi := bmi user_profile in
  if (18.5 <=? bmi) && (bmi <=? 24.9) then -2
  else if (25.0 <=? bmi) && (bmi <=? 29.9) then 1
  else if bmi >=? 30 then 5
  else 0.

Definition vo2_ref (gender : string) (chronological_age : Q) : Q :=
  if String.eqb (lower gender) "male" then
    if chronological_age <? 30 then 45
    else if chronological_age <? 40 then 42
    else if chronological_age <? 50 then 38
    else if chronological_age <? 60 then 35
    else 32
  else
    if chronological_age <? 30 then 38
    else if chronological_age <? 40 then 35
    else if chronological_age <? 50 then 32
    else if chronological_age <? 60 then 29
    else 26.

Definition fitness_age_factor (gender : string) (chronological_age : Q)
    (health_metrics : HealthMetrics) : Q :=
  let vo2_max := vo2_max health_metrics in
  let vo2_diff := vo2_max - vo2_ref gender chronological_age in
  (- vo2_diff) / 2.

Definition exercise_age_factor (lifestyle_data : LifestyleData) : Q :=
  let exercise_minutes := minutes_per_week (exercise lifestyle_data) in
  if exercise_minutes >=? 300 then -4
  else if exercise_minutes >=? 150 then -2
  else if exercise_minutes >=? 60 then 0
  else 3.

Definition sleep_age_factor (lifestyle_data : LifestyleData) : Q :=
  let sleep_hours := average_hours (sleep lifestyle_data) in
  let sleep_quality := lower (quality (sleep lifestyle_data)) in
  if (sleep_hours >=? 7) && str_in sleep_quality ["good"; "excellent"] then -3
  else if (sleep_hours >=? 6.5) && str_in sleep_quality ["fair"; "good"; "excellent"] then -1
  else if (sleep_hours <? 6) || String.eqb sleep_quality "poor" then 3
  else 0.

Definition diet_age_factor (lifestyle_data : LifestyleData) : Q :=
  let diet_type := lower (diet_type (diet lifestyle_data)) in
  let fruit_veg := fruit_veg_servings_daily (diet lifestyle_data) in
  let processed_food := lower (processed_food_frequency (diet lifestyle_data)) in
  let diet_age_factor := 0 in
  let diet_age_factor :=
    if str_in diet_type ["mediterranean"; "vegetarian"; "vegan"]
    then diet_age_factor - 2 else diet_age_factor in
  let diet_age_factor :=
    if fruit_veg >=? 5 then diet_age_factor - 2
    else if fruit_veg >=? 3 then diet_age_factor - 1
    else if fruit_veg <? 1 then diet_age_factor + 2
    else diet_age_factor in
  if String.eqb processed_food "rarely" then diet_age_factor - 1
  else if String.eqb processed_food "very frequently" then diet_age_factor + 2
  else diet_age_factor.

Definition stress_age_factor (lifestyle_data : LifestyleData) : Q :=
  let stress_level := lower (stress_level lifestyle_data) in
  if String.eqb stress_level "low" then -2
  else if String.eqb stress_level "moderate" then 0
  else if String.eqb stress_level "high" then 2
  else 4.

Definition factor_weights : list (string * Q) :=
  [("impedance", 0.4); ("cardiovascular", 0.2); ("metabolic", 0.2);
   ("fitness", 0.1); ("lifestyle", 0.1)].

End age_factor.

Definition calculate_biological_age (now : string) (user_data : UserData)
  : result BiologicalAge :=
  user_profile <- getitem "user_profile" (user_profile user_data) ;;
  health_metrics <- getitem "health_metrics" (health_metrics user_data) ;;
  impedance_data <- getitem "impedance_data" (impedance_data user_data) ;;
  lifestyle_data <- getitem "lifestyle_data" (lifestyle_data user_data) ;;
  let chronological_age := age user_profile in
  let gender := gender user_profile in
  let impedance_age := estimated_biological_age impedance_data in
  (* cardiovascular age *)
  let cv_factors := [] in
  let cv_factors := cv_factors ++ [age_factor.bp_age_factor health_metrics] in
  let cv_factors := cv_factors ++ [age_factor.hr_age_factor health_metrics] in
  chol_age_factor <- age_factor.chol_age_factor health_metrics ;;
  let cv_factors := cv_factors ++ [chol_age_factor] in
  cv_age_adjustment <- py_div (py_sum cv_factors) (py_len cv_factors) ;;
  (* metabolic age *)
  let metabolic_factors := [] in
  let metabolic_factors := metabolic_factors ++ [age_factor.glucose_age_factor health_metrics] in
  let metabolic_factors := metabolic_factors ++ [age_factor.hba1c_age_factor health_metrics] in
  let metabolic_factors := metabolic_factors ++ [age_factor.bmi_age_factor user_profile] in
  metabolic_age_adjustment <- py_div (py_sum metabolic_factors) (py_len metabolic_factors) ;;
  (* fitness age *)
  let fitness_factors := [] in
  let fitness_factors := fitness_factors ++
    [age_factor.fitness_age_factor gender chronological_age health_metrics] in
  let fitness_factors := fitness_factors ++ [age_factor.exercise_age_factor lifestyle_data] in
  fitness_age_adjustment <- py_div (py_sum fitness_factors) (py_len fitness_factors) ;;
  (* lifestyle age *)
  let lifestyle_factors := [] in
  let lifestyle_factors := lifestyle_factors ++ [age_factor.sleep_age_factor lifestyle_data] in
  let lifestyle_factors := lifestyle_factors ++ [age_factor.diet_age_factor lifestyle_data] in
  let lifestyle_factors := lifestyle_factors ++ [age_factor.stress_age_factor lifestyle_data] in
  lifestyle_age_adjustment <- py_div (py_sum lifestyle_factors) (py_len lifestyle_factors) ;;
  let factor_weights := age_factor.factor_weights in
  (* the headline number: every domain added with weight one *)
  let biological_age := chronological_age in
  let biological_age := biological_age + (impedance_age - chronological_age) in
  let biological_age := biological_age + cv_age_adjustment in
  let biological_age := biological_age + metabolic_age_adjustment in
  let biological_age := biological_age + fitness_age_adjustment in
  let biological_age := biological_age + lifestyle_age_adjustment in
  let biological_age := py_max 20 biological_age in
  uid <- getitem "user_id" (user_id user_profile) ;;
  Ok {| bio_user_id := uid;
        bio_chronological_age := chronological_age;
        biological_age := py_round_n biological_age 1;
        age_difference := py_round_n (biological_age - chronological_age) 1;
        bio_factors :=
          [("impedance_based",
              (py_round_n impedance_age 1, weights.item factor_weights "impedance"));
           ("cardiovascular",
              (py_round_n cv_age_adjustment 1, weights.item factor_weights "cardiovascular"));
           ("metabolic",
              (py_round_n metabolic_age_adjustment 1, weights.item factor_weights "metabolic"));
           ("fitness",
              (py_round_n fitness_age_adjustment 1, weights.item factor_weights "fitness"));
           ("lifestyle",
              (py_round_n lifestyle_age_adjustment 1, weights.item factor_weights "lifestyle"))];
        calculated_at := now |}.

(* ================================================================= *)
(** ** [LifePredictor._categorize_risk] *)

Definition _categorize_risk (risk_level : Q) : string :=
  if risk_level <? 0.15 then "Low"
  else if risk_level <? 0.35 then "Moderate"
  else if risk_level <? 0.60 then "High"
  else "Very High".

(* ================================================================= *)
(** ** [LifePredictor.calculate_health_risks] *)

Record RiskEntry : Type := {
  risk_level : Q;
  category : string;
  risk_entry_factors : list (string * Q)
}.

Record Risks : Type := {
  cardiovascular : RiskEntry;
  metabolic : RiskEntry;
  neurological : RiskEntry;
  cancer_entry : RiskEntry
}.

Record RiskAssessment : Type := {
  risk_user_id : string;
  risks : Risks;
  assessed_at : string
}.

(** The threshold lookups of the function body.  The source reuses the
    variable names [smoking_risk_factor], [exercise_risk_factor],
    [bmi_risk_factor] and [diet_risk_factor] from one disease to the next;
    here each assignment has its own definition and
    [calculate_health_risks] rebinds the source's names in its order. *)
Module risk_factor.

Definition bp_risk_factor (health_metrics : HealthMetrics) : Q :=
  let systolic := systolic (blood_pressure health_metrics) in
  let diastolic := diastolic (blood_pressure health_metrics) in
  if (systolic >? 140) || (diastolic >? 90) then 0.3
  else if (systolic >? 130) || (diastolic >? 85) then 0.2
  else if (systolic >? 120) || (diastolic >? 80) then 0.1
  else 0.0.

Definition chol_risk_factor (health_metrics : HealthMetrics) : result Q :=
  let total_chol := total (cholesterol health_metrics) in
  let hdl := hdl (cholesterol health_metrics) in
  chol_ratio <- py_div total_chol hdl ;;
  if chol_ratio >? 5.0 then Ok 0.3
  else if chol_ratio >? 4.0 then Ok 0.2
  else if chol_ratio >? 3.5 then Ok 0.1
  else Ok 0.0.

Definition cv_smoking_risk_factor (smoking_status : string) : Q :=
  if String.eqb smoking_status "current" then 0.4
  else if String.eqb smoking_status "former" then 0.1
  else 0.0.

Definition exercise_risk_factor (exercise_minutes : Q) : Q :=
  if exercise_minutes <? 30 then 0.2
  else if exercise_minutes <? 90 then 0.1
  else 0.0.

Definition cv_bmi_risk_factor (bmi : Q) : Q :=
  if bmi >? 30 then 0.2
  else if bmi >? 25 then 0.1
  else 0.0.

Definition glucose_risk_factor (health_metrics : HealthMetrics) : Q :=
  let glucose := fasting_glucose health_metrics in
  let hba1c := hba1c health_metrics in
  if (glucose >? 125) || (hba1c >? 6.4) then 0.5
  else if (glucose >? 100) || (hba1c >? 5.7) then 0.3
  else 0.0.

Definition metabolic_bmi_risk_factor (bmi : Q) : Q :=
  if bmi >? 30 then 0.3
  else if bmi >? 25 then 0.2
  else 0.0.

Definition metabolic_diet_risk_factor (processed_food : string) (fruit_veg : Q) : Q :=
  let diet_risk_factor := 0.0 in
  let diet_risk_factor :=
    if String.eqb processed_food "very frequently" then diet_risk_factor + 0.2
    else if String.eqb processed_food "often" then diet_risk_factor + 0.1
    else diet_risk_factor in
  if fruit_veg <? 2 then diet_risk_factor + 0.1 else diet_risk_factor.

Definition sleep_risk_factor (lifestyle_data : LifestyleData) : Q :=
  let sleep_hours := average_hours (sleep lifestyle_data) in
  let sleep_quality := lower (quality (sleep lifestyle_data)) in
  let sleep_risk_factor := 0.0 in
  let sleep_risk_factor :=
    if sleep_hours <? 6 then sleep_risk_factor + 0.2
    else if sleep_hours <? 7 then sleep_risk_factor + 0.1
    else sleep_risk_factor in
  if String.eqb sleep_quality "poor" then sleep_risk_factor + 0.1 else sleep_risk_factor.

Definition stress_risk_factor (lifestyle_data : LifestyleData) : Q :=
  let stress_level := lower (stress_level lifestyle_data) in
  if String.eqb stress_level "very high" then 0.3
  else if String.eqb stress_level "high" then 0.2
  else if String.eqb stress_level "moderate" then 0.1
  else 0.0.

Definition neuro_diet_risk_factor (diet_type : string) (fruit_veg : Q) : Q :=
  let diet_risk_factor :=
    if String.eqb diet_type "mediterranean" then -0.1 else 0.0 in
  if fruit_veg <? 3 then diet_risk_factor + 0.1 else diet_risk_factor.

Definition cancer_smoking_risk_factor (smoking_status : string) : Q :=
  if String.eqb smoking_status "current" then 0.3
  else if String.eqb smoking_status "former" then 0.1
  else 0.0.

Definition cancer_exercise_risk_factor (exercise_minutes : Q) : Q :=
  if exercise_minutes <? 30 then 0.1 else 0.0.

Definition cancer_diet_risk_factor (fruit_veg : Q) : Q :=
  if fruit_veg <? 2 then 0.1 else 0.0.

End risk_factor.

Definition calculate_health_risks (now : string) (user_data : UserData)
  : result RiskAssessment :=
  user_profile <- getitem "user_profile" (user_profile user_data) ;;
  health_metrics <- getitem "health_metrics" (health_metrics user_data) ;;
  genetic_data <- getitem "genetic_data" (genetic_data user_data) ;;
  lifestyle_data <- getitem "lifestyle_data" (lifestyle_data user_data) ;;
  let cardiovascular_genetic_risk := cardiovascular_disease (risk_factors genetic_data) in
  let diabetes_genetic_risk := type_2_diabetes (risk_factors genetic_data) in
  let cancer_genetic_risks := cancer (risk_factors genetic_data) in
  let neurodegenerative_risks := neurodegenerative (risk_factors genetic_data) in
  (* cardiovascular risk *)
  let cv_risk_factors := [] in
  let cv_risk_factors := cv_risk_factors ++ [cardiovascular_genetic_risk] in
  let bp_risk_factor := risk_factor.bp_risk_factor health_metrics in
  let cv_risk_factors := cv_risk_factors ++ [bp_risk_factor] in
  chol_risk_factor <- risk_factor.chol_risk_factor health_metrics ;;
  let cv_risk_factors := cv_risk_factors ++ [chol_risk_factor] in
  let smoking_status := lower (smoking_status user_profile) in
  let smoking_risk_factor := risk_factor.cv_smoking_risk_factor smoking_status in
  let cv_risk_factors := cv_risk_factors ++ [smoking_risk_factor] in
  let exercise_minutes := minutes_per_week (exercise lifestyle_data) in
  let exercise_risk_factor := risk_factor.exercise_risk_factor exercise_minutes in
  let cv_risk_factors := cv_risk_factors ++ [exercise_risk_factor] in
  let bmi := bmi user_profile in
  let bmi_risk_factor := risk_factor.cv_bmi_risk_factor bmi in
  let cv_risk_factors := cv_risk_factors ++ [bmi_risk_factor] in
  cardiovascular_risk <- py_div (py_sum cv_risk_factors) (py_len cv_risk_factors) ;;
  let cardiovascular_risk := py_min 1.0 cardiovascular_risk in
  (* metabolic risk *)
  let metabolic_risk_factors := [] in
  let metabolic_risk_factors := metabolic_risk_factors ++ [diabetes_genetic_risk] in
  let glucose_risk_factor := risk_factor.glucose_risk_factor health_metrics in
  let metabolic_risk_factors := metabolic_risk_factors ++ [glucose_risk_factor] in
  let bmi_risk_factor := risk_factor.metabolic_bmi_risk_factor bmi in
  let metabolic_risk_factors := metabolic_risk_factors ++ [bmi_risk_factor] in
  let exercise_risk_factor := risk_factor.exercise_risk_factor exercise_minutes in
  let metabolic_risk_factors := metabolic_risk_factors ++ [exercise_risk_factor] in
  let processed_food := lower (processed_food_frequency (diet lifestyle_data)) in
  let fruit_veg := fruit_veg_servings_daily (diet lifestyle_data) in
  let diet_risk_factor := risk_factor.metabolic_diet_risk_factor processed_food fruit_veg in
  let metabolic_risk_factors := metabolic_risk_factors ++ [diet_risk_factor] in
  metabolic_risk <- py_div (py_sum metabolic_risk_factors) (py_len metabolic_risk_factors) ;;
  let metabolic_risk := py_min 1.0 metabolic_risk in
  (* neurological risk *)
  let neuro_risk_factors := [] in
  alzheimers <- dict_getitem neurodegenerative_risks "alzheimers" ;;
  parkinsons <- dict_getitem neurodegenerative_risks "parkinsons" ;;
  let neuro_genetic_risk := (alzheimers + parkinsons) / 2 in
  let neuro_risk_factors := neuro_risk_factors ++ [neuro_genetic_risk] in
  let sleep_risk_factor := risk_factor.sleep_risk_factor lifestyle_data in
  let neuro_risk_factors := neuro_risk_factors ++ [sleep_risk_factor] in
  let stress_risk_factor := risk_factor.stress_risk_factor lifestyle_data in
  let neuro_risk_factors := neuro_risk_factors ++ [stress_risk_factor] in
  let exercise_risk_factor := risk_factor.exercise_risk_factor exercise_minutes in
  let neuro_risk_factors := neuro_risk_factors ++ [exercise_risk_factor] in
  let diet_type := lower (diet_type (diet lifestyle_data)) in
  let diet_risk_factor := risk_factor.neuro_diet_risk_factor diet_type fruit_veg in
  let neuro_risk_factors := neuro_risk_factors ++ [py_max 0 diet_risk_factor] in
  neurological_risk <- py_div (py_sum neuro_risk_factors) (py_len neuro_risk_factors) ;;
  let neurological_risk := py_min 1.0 neurological_risk in
  (* cancer risk *)
  avg_cancer_genetic_risk <-
    py_div (py_sum (values cancer_genetic_risks)) (py_len cancer_genetic_risks) ;;
  let cancer_risk_factors := [] in
  let cancer_risk_factors := cancer_risk_factors ++ [avg_cancer_genetic_risk] in
  let smoking_risk_factor := risk_factor.cancer_smoking_risk_factor smoking_status in
  let cancer_risk_factors := cancer_risk_factors ++ [smoking_risk_factor] in
  let exercise_risk_factor := risk_factor.cancer_exercise_risk_factor exercise_minutes in
  let cancer_risk_factors := cancer_risk_factors ++ [exercise_risk_factor] in
  let diet_risk_factor := risk_factor.cancer_diet_risk_factor fruit_veg in
  let cancer_risk_factors := cancer_risk_factors ++ [diet_risk_factor] in
  cancer_risk <- py_div (py_sum cancer_risk_factors) (py_len cancer_risk_factors) ;;
  let cancer_risk := py_min 1.0 cancer_risk in
  (* the report; the breakdowns read the variables as last assigned *)
  uid <- getitem "user_id" (user_id user_profile) ;;
  Ok {| risk_user_id := uid;
        risks :=
          {| cardiovascular :=
               {| risk_level := py_round_n cardiovascular_risk 2;
                  category := _categorize_risk cardiovascular_risk;
                  risk_entry_factors :=
                    [("genetic", py_round_n cardiovascular_genetic_risk 2);
                     ("blood_pressure", py_round_n bp_risk_factor 2);
                     ("cholesterol", py_round_n chol_risk_factor 2);
                     ("smoking", py_round_n smoking_risk_factor 2);
                     ("exercise", py_round_n exercise_risk_factor 2);
                     ("bmi", py_round_n bmi_risk_factor 2)] |};
             metabolic :=
               {| risk_level := py_round_n metabolic_risk 2;
                  category := _categorize_risk metabolic_risk;
                  risk_entry_factors :=
                    [("genetic", py_round_n diabetes_genetic_risk 2);
                     ("glucose", py_round_n glucose_risk_factor 2);
                     ("bmi", py_round_n bmi_risk_factor 2);
                     ("exercise", py_round_n exercise_risk_factor 2);
                     ("diet", py_round_n diet_risk_factor 2)] |};
             neurological :=
               {| risk_level := py_round_n neurological_risk 2;
                  category := _categorize_risk neurological_risk;
                  risk_entry_factors :=
                    [("genetic", py_round_n neuro_genetic_risk 2);
                     ("sleep", py_round_n sleep_risk_factor 2);
                     ("stress", py_round_n stress_risk_factor 2);
                     ("exercise", py_round_n exercise_risk_factor 2);
                     ("diet", py_round_n diet_risk_factor 2)] |};
             cancer_entry :=
               {| risk_level := py_round_n cancer_risk 2;
                  category := _categorize_risk cancer_risk;
                  risk_entry_factors :=
                    [("genetic", py_round_n avg_cancer_genetic_risk 2);
                     ("smoking", py_round_n smoking_risk_factor 2);
                     ("exercise", py_round_n exercise_risk_factor 2);
                     ("diet", py_round_n diet_risk_factor 2)] |} |};
        assessed_at := now |}.

(* ================================================================= *)
(** ** Recommendations *)

Record Recommendation : Type := {
  priority : string;
  recommendation : string;
  impact : string
}.

Record PriorityItem : Type := {
  item_category : string;
  item_recommendation : string;
  item_priority : string;
  item_impact : string
}.

Record Impact : Type := {
  current_life_expectancy : Q;
  potential_life_expectancy : Q;
  potential_years_gained : Q;
  note : string
}.

(** The dict of recommendations by category, in insertion order. *)
Definition RecommendationDict : Type := list (string * list Recommendation).

Record Recommendations : Type := {
  rec_user_id : string;
  recommendations : RecommendationDict;
  top_priorities : list PriorityItem;
  potential_impact : Impact;
  generated_at : string
}.

(** [d[k].append(x)]; [generate_recommendations] only appends under the
    six keys of its own dict literal. *)
Fixpoint dict_append {A : Type} (d : list (string * list A)) (k : string) (x : A)
  : list (string * list A) :=
  match d with
  | [] => []
  | (k', l) :: d' =>
      if String.eqb k k' then (k', l ++ [x]) :: d' else (k', l) :: dict_append d' k x
  end.

(** [list.sort(key=...)]: the stable sort by a numeric key.  Each element
    is inserted in front of the first element whose key is not smaller, so
    equal keys keep their order. *)
Fixpoint insert_by_key {A : Type} (key : A -> nat) (x : A) (l : list A) : list A :=
  match l with
  | [] => [x]
  | y :: l' => if Nat.leb (key x) (key y) then x :: y :: l' else y :: insert_by_key key x l'
  end.

Fixpoint sort_by_key {A : Type} (key : A -> nat) (l : list A) : list A :=
  match l with
  | [] => []
  | x :: l' => insert_by_key key x (sort_by_key key l')
  end.

(* ----------------------------------------------------------------- *)
(** *** [LifePredictor._extract_high_priority_recommendations] *)

Definition is_high_priority (rec : Recommendation) : bool :=
  str_in (priority rec) ["High"; "Very High"].

Definition priority_key (x : PriorityItem) : nat :=
  if String.eqb (item_priority x) "Very High" then 0%nat else 1%nat.

Definition _extract_high_priority_recommendations (recommendations : RecommendationDict)
  : list PriorityItem :=
  let high_priority :=
    flat_map (fun '(category, recs) =>
      flat_map (fun rec =>
        if is_high_priority rec then
          [ {| item_category := category;
               item_recommendation := recommendation rec;
               item_priority := priority rec;
               item_impact := impact rec |} ]
        else []) recs) recommendations in
  sort_by_key priority_key high_priority.

(* ----------------------------------------------------------------- *)
(** *** [LifePredictor._estimate_impact_on_life_expectancy] *)

Definition high_priority_count (recommendations : RecommendationDict) : nat :=
  length (flat_map (fun cat => filter is_high_priority cat) (values recommendations)).

Definition _estimate_impact_on_life_expectancy (recommendations : RecommendationDict)
    (predictions : Prediction) : Impact :=
  let high_priority_count := inject_Z (Z.of_nat (high_priority_count recommendations)) in
  let potential_years_gained := py_min (high_priority_count * 0.8) 8.0 in
  let current_life_expectancy := predicted_life_expectancy predictions in
  let potential_life_expectancy := current_life_expectancy + potential_years_gained in
  {| current_life_expectancy := current_life_expectancy;
     potential_life_expectancy := py_round_n potential_life_expectancy 1;
     potential_years_gained := py_round_n potential_years_gained 1;
     note := "Estimated impact if all high priority recommendations are followed consistently" |}.

(* ----------------------------------------------------------------- *)
(** *** [LifePredictor.generate_recommendations] *)

Module catalog.

Definition start_exercising : Recommendation :=
  {| priority := "High";
     recommendation := "Start with 10 minutes of moderate activity daily, gradually increasing to at least 30 minutes per day, 5 days per week.";
     impact := "Essential for cardiovascular health, metabolic health, and longevity" |}.

Definition increase_exercise : Recommendation :=
  {| priority := "Medium";
     recommendation := "Increase physical activity to reach at least 150 minutes of moderate exercise per week.";
     impact := "Can reduce cardiovascular and metabolic disease risk by 20-30%" |}.

Definition maintain_exercise : Recommendation :=
  {| priority := "Low";
     recommendation := "Maintain current exercise levels and consider adding strength training if not already included.";
     impact := "Helps maintain muscle mass and metabolic health with aging" |}.

Definition aerobic : Recommendation :=
  {| priority := "High";
     recommendation := "Include aerobic exercises like brisk walking, swimming, or cycling at least 3 times per week.";
     impact := "Can significantly improve heart health and lower resting heart rate" |}.

Definition resistance : Recommendation :=
  {| priority := "Medium";
     recommendation := "Add resistance training exercises 2-3 times per week to maintain muscle mass and bone density.";
     impact := "Critical for maintaining functional independence with age" |}.

Definition fruit_veg : Recommendation :=
  {| priority := "High";
     recommendation := "Increase fruit and vegetable intake to at least 5 servings per day.";
     impact := "Associated with reduced risk of cardiovascular disease, cancer, and all-cause mortality" |}.

Definition processed_food : Recommendation :=
  {| priority := "High";
     recommendation := "Reduce consumption of processed foods, especially those high in added sugars and unhealthy fats.";
     impact := "Can significantly improve metabolic health and reduce inflammation" |}.

Definition mediterranean : Recommendation :=
  {| priority := "Medium";
     recommendation := "Consider adopting a Mediterranean diet pattern rich in olive oil, nuts, fish, and whole grains.";
     impact := "Strong evidence for reducing cardiovascular disease risk and certain cancers" |}.

Definition sleep_hours : Recommendation :=
  {| priority := "High";
     recommendation := "Aim for 7-8 hours of quality sleep per night by establishing a regular sleep schedule and optimizing your sleep environment.";
     impact := "Critical for cognitive function, immune health, and metabolic regulation" |}.

Definition sleep_hygiene : Recommendation :=
  {| priority := "Medium";
     recommendation := "Implement good sleep hygiene practices: limit screen time before bed, keep bedroom cool and dark, avoid caffeine after noon.";
     impact := "Can significantly improve sleep onset and quality" |}.

Definition stress_practice : Recommendation :=
  {| priority := "High";
     recommendation := "Incorporate daily stress reduction practices such as meditation, deep breathing, or mindfulness for at least 10-15 minutes.";
     impact := "Reduces stress hormones and improves cardiovascular and immune function" |}.

Definition stress_exposure : Recommendation :=
  {| priority := "Medium";
     recommendation := "Consider limiting exposure to stressors, including reducing news consumption and setting boundaries on work hours.";
     impact := "Helps manage chronic stress that contributes to premature aging" |}.

Definition checkups : Recommendation :=
  {| priority := "Medium";
     recommendation := "Schedule annual comprehensive health check-ups including cardiovascular assessment and appropriate cancer screenings.";
     impact := "Early detection significantly improves treatment outcomes" |}.

Definition glucose_monitoring : Recommendation :=
  {| priority := "High";
     recommendation := "Monitor blood glucose levels regularly and get HbA1c tested every 6 months.";
     impact := "Helps detect prediabetes early when lifestyle interventions are most effective" |}.

Definition bp_tracking : Recommendation :=
  {| priority := "High";
     recommendation := "Track blood pressure weekly and work with healthcare provider to develop a management plan.";
     impact := "Reduces risk of stroke, heart disease, and kidney problems" |}.

Definition quit_smoking : Recommendation :=
  {| priority := "Very High";
     recommendation := "Quit smoking with appropriate cessation support such as counseling, nicotine replacement, or medications.";
     impact := "Single most effective action to improve health and longevity, adding up to 10 years of life" |}.

Definition reduce_alcohol : Recommendation :=
  {| priority := "High";
     recommendation := "Reduce alcohol consumption to no more than 1 drink per day for women or 2 drinks per day for men.";
     impact := "Reduces risk of liver disease, cancer, and cardiovascular problems" |}.

End catalog.

(** The threshold rules of the function body, from the extraction of the
    key metrics to the last rule: the dict of recommendations they build. *)
Definition recommendation_rules (user_profile : UserProfile)
    (health_metrics : HealthMetrics) (lifestyle_data : LifestyleData)
    (risks_arg : RiskAssessment) : RecommendationDict :=
  let age := age user_profile in
  let bmi := bmi user_profile in
  let smoking_status := lower (smoking_status user_profile) in
  let blood_pressure := blood_pressure health_metrics in
  let resting_heart_rate := resting_heart_rate health_metrics in
  let sleep := sleep lifestyle_data in
  let exercise := exercise lifestyle_data in
  let diet := diet lifestyle_data in
  let stress_level := lower (stress_level lifestyle_data) in
  let cardiovascular_risk := category (cardiovascular (risks risks_arg)) in
  let metabolic_risk := category (metabolic (risks risks_arg)) in
  let neurological_risk := category (neurological (risks risks_arg)) in
  let cancer_risk := category (cancer_entry (risks risks_arg)) in
  let recommendations : RecommendationDict :=
    [("exercise", []); ("nutrition", []); ("sleep", []); ("stress_management", []);
     ("health_monitoring", []); ("lifestyle", [])] in
  (* 1. Exercise recommendations *)
  let recommendations :=
    if minutes_per_week exercise <? 30 then
      dict_append recommendations "exercise" catalog.start_exercising
    else if minutes_per_week exercise <? 150 then
      dict_append recommendations "exercise" catalog.increase_exercise
    else
      dict_append recommendations "exercise" catalog.maintain_exercise in
  let recommendations :=
    if str_in cardiovascular_risk ["High"; "Very High"] || (resting_heart_rate >? 80) then
      dict_append recommendations "exercise" catalog.aerobic
    else recommendations in
  let recommendations :=
    if (age >? 50) || negb (str_in "weight training" (map lower (types exercise))) then
      dict_append recommendations "exercise" catalog.resistance
    else recommendations in
  (* 2. Nutrition recommendations *)
  let recommendations :=
    if fruit_veg_servings_daily diet <? 3 then
      dict_append recommendations "nutrition" catalog.fruit_veg
    else recommendations in
  let recommendations :=
    if str_in (processed_food_frequency diet) ["often"; "very frequently"] then
      dict_append recommendations "nutrition" catalog.processed_food
    else recommendations in
  let recommendations :=
    if negb (String.eqb (lower (diet_type diet)) "mediterranean")
       && (str_in cardiovascular_risk ["High"; "Very High"]
           || str_in cancer_risk ["High"; "Very High"]) then
      dict_append recommendations "nutrition" catalog.mediterranean
    else recommendations in
  (* 3. Sleep recommendations *)
  let recommendations :=
    if (average_hours sleep <? 7) || str_in (lower (quality sleep)) ["poor"; "fair"] then
      let recommendations := dict_append recommendations "sleep" catalog.sleep_hours in
      if String.eqb (lower (quality sleep)) "poor" then
        dict_append recommendations "sleep" catalog.sleep_hygiene
      else recommendations
    else recommendations in
  (* 4. Stress management recommendations *)
  let recommendations :=
    if str_in stress_level ["high"; "very high"] then
      let recommendations :=
        dict_append recommendations "stress_management" catalog.stress_practice in
      dict_append recommendations "stress_management" catalog.stress_exposure
    else recommendations in
  (* 5. Health monitoring recommendations *)
  let recommendations :=
    if age >? 40 then
      dict_append recommendations "health_monitoring" catalog.checkups
    else recommendations in
  let recommendations :=
    if (bmi >? 30) || str_in metabolic_risk ["High"; "Very High"] then
      dict_append recommendations "health_monitoring" catalog.glucose_monitoring
    else recommendations in
  let recommendations :=
    if (systolic blood_pressure >? 130) || (diastolic blood_pressure >? 85) then
      dict_append recommendations "health_monitoring" catalog.bp_tracking
    else recommendations in
  (* 6. Lifestyle recommendations *)
  let recommendations :=
    if String.eqb smoking_status "current" then
      dict_append recommendations "lifestyle" catalog.quit_smoking
    else recommendations in
  let recommendations :=
    if String.eqb (lower (alcohol_frequency user_profile)) "frequent" then
      dict_append recommendations "lifestyle" catalog.reduce_alcohol
    else recommendations in
  recommendations.

Definition generate_recommendations (now : string) (user_data : UserData)
    (predictions : Prediction) (risks_arg : RiskAssessment) : result Recommendations :=
  user_profile <- getitem "user_profile" (user_profile user_data) ;;
  health_metrics <- getitem "health_metrics" (health_metrics user_data) ;;
  lifestyle_data <- getitem "lifestyle_data" (lifestyle_data user_data) ;;
  let recommendations :=
    recommendation_rules user_profile health_metrics lifestyle_data risks_arg in
  uid <- getitem "user_id" (user_id user_profile) ;;
  Ok {| rec_user_id := uid;
        recommendations := recommendations;
        top_priorities := _extract_high_priority_recommendations recommendations;
        potential_impact := _estimate_impact_on_life_expectancy recommendations predictions;
        generated_at := now |}.

(* ================================================================= *)
(** ** [LifePredictor.run_complete_analysis] *)

(** The returned dict: its [status] key tells the two shapes apart. *)
Inductive AnalysisResult : Type :=
| analysis_results (result_user_id : string) (life_expectancy : Prediction)
    (biological_age_section : BiologicalAge) (health_risks : RiskAssessment)
    (recommendations_section : Recommendations) (analysis_completed_at : string)
| error_results (result_user_id : string) (error_message : string)
    (analysis_attempted_at : string).

Definition status (r : AnalysisResult) : string :=
  match r with
  | analysis_results _ _ _ _ _ _ => "success"
  | error_results _ _ _ => "error"
  end.

(** [str(e)].  Python words a [ZeroDivisionError] "division by zero"
    when both operands of [/] are ints and "float division by zero" when
    one is a float.  Numbers are rationals here, without that distinction:
    [str] has the wording for ints, as the cholesterol readings of a
    generated record are; on a record with a float reading the message of
    Python has the prefix "float " in front of it. *)
Definition str (e : exn) : string :=
  match e with
  | KeyError key => String "'"%char (String.append key (String "'"%char EmptyString))
  | ZeroDivisionError => "division by zero"
  end.

(** [clock n] is the [n]-th reading of [datetime.now()] during the call:
    every stage reads the clock once, as the last step of building its
    result.  [Raise e] is an exception that reaches the caller. *)
Definition run_complete_analysis (clock : nat -> string) (user_data : UserData)
  : result AnalysisResult :=
  let except (readings : nat) (e : exn) : result AnalysisResult :=
    uid <- match user_profile user_data with
           | Some user_profile => getitem "user_id" (user_id user_profile)
           | None => Ok "unknown"
           end ;;
    Ok (error_results uid (str e) (clock readings)) in
  match predict_life_expectancy (clock 0%nat) user_data with
  | Raise e => except 0%nat e
  | Ok life_expectancy =>
  match calculate_biological_age (clock 1%nat) user_data with
  | Raise e => except 1%nat e
  | Ok biological_age =>
  match calculate_health_risks (clock 2%nat) user_data with
  | Raise e => except 2%nat e
  | Ok health_risks =>
  match generate_recommendations (clock 3%nat) user_data life_expectancy health_risks with
  | Raise e => except 3%nat e
  | Ok recommendations =>
  match (user_profile <- getitem "user_profile" (user_profile user_data) ;;
         getitem "user_id" (user_id user_profile)) with
  | Raise e => except 4%nat e
  | Ok uid =>
      Ok (analysis_results uid life_expectancy biological_age health_risks
            recommendations (clock 4%nat))
  end end end end end.

(* ================================================================= *)
(** ** Random draws *)

(** [np.random.normal(loc, scale)] is [loc + scale * z] for a draw [z] of
    the standard normal distribution; [random.uniform(a, b)] is
    [a + (b - a) * u] for a draw [u] of [random.random()], which lies in
    the interval from 0 (included) to 1 (excluded). *)
Definition normal (loc scale z : Q) : Q := loc + scale * z.

Definition uniform (a b u : Q) : Q := a + (b - a) * u.

Definition unit_draw (u : Q) : Prop := 0 <= u /\ u < 1.

(* ================================================================= *)
(** ** [DataGenerator.generate_health_metrics] *)

(** The draws of one call, in the order the function takes them. *)
Record HealthDraws : Type := {
  z_systolic : Q;
  z_diastolic : Q;
  u_fitness_level : Q;
  z_heart_rate : Q;
  z_cholesterol : Q;
  z_hdl : Q;
  z_triglycerides : Q;
  z_glucose : Q;
  z_hba1c : Q;
  z_vo2max : Q;
  z_body_fat : Q
}.

(** [round(x)] as a number. *)
Definition round0 (x : Q) : Q := inject_Z (py_round x).

(** The generated dict also carries [user_id] and [measured_at]; no
    function embedded here reads them from the health metrics, and
    [HealthMetrics] leaves them out. *)
Definition generate_health_metrics (draws : HealthDraws) (user_profile : UserProfile)
  : result HealthMetrics :=
  let age := age user_profile in
  let gender := gender user_profile in
  let bmi := bmi user_profile in
  let smoking := smoking_status user_profile in
  let age_factor := py_max 0 (age - 30) * 0.5 in
  let bmi_factor := py_max 0 (bmi - 25) in
  let smoking_factor :=
    if String.eqb smoking "Current" then 7
    else if String.eqb smoking "Former" then 3 else 0 in
  let systolic_base := if String.eqb gender "Female" then 110 else 115 in
  let systolic :=
    round0 (normal (systolic_base + age_factor + bmi_factor + smoking_factor) 8
                   (z_systolic draws)) in
  let diastolic_base := if String.eqb gender "Female" then 70 else 75 in
  let diastolic :=
    round0 (normal (diastolic_base + (age_factor / 2) + (bmi_factor / 2)
                      + (smoking_factor / 2)) 6 (z_diastolic draws)) in
  let fitness_level := uniform 0 1 (u_fitness_level draws) in
  let heart_rate_base := 75 - (fitness_level * 15) in
  let heart_rate := round0 (normal heart_rate_base 5 (z_heart_rate draws)) in
  let chol_age_factor := py_max 0 (age - 20) * 0.5 in
  let chol_bmi_factor := py_max 0 (bmi - 25) * 2 in
  let cholesterol :=
    round0 (normal (170 + chol_age_factor + chol_bmi_factor) 15 (z_cholesterol draws)) in
  let hdl_base := if String.eqb gender "Female" then 50 else 40 in
  let hdl := round0 (normal hdl_base 8 (z_hdl draws)) in
  let hdl := py_min hdl (cholesterol - 50) in
  let ldl := cholesterol - hdl - round0 (normal 30 5 (z_triglycerides draws)) in
  let ldl := py_max ldl 30 in
  let glucose_bmi_factor := py_max 0 (bmi - 25) * 0.5 in
  let glucose := round0 (normal (85 + glucose_bmi_factor) 8 (z_glucose draws)) in
  let hba1c := py_round_n (normal (5.0 + (glucose - 85) * 0.02) 0.3 (z_hba1c draws)) 1 in
  let vo2max_age_factor := py_max 0 (age - 20) * 0.3 in
  let vo2max_base := if String.eqb gender "Male" then 45 else 35 in
  let vo2max :=
    py_round_n (normal (vo2max_base - vo2max_age_factor + (fitness_level * 15)) 5
                       (z_vo2max draws)) 1 in
  let body_fat :=
    if String.eqb gender "Male" then
      py_round_n (normal (15 + py_max 0 (bmi - 22) * 1.5) 3 (z_body_fat draws)) 1
    else
      py_round_n (normal (25 + py_max 0 (bmi - 22) * 1.3) 3 (z_body_fat draws)) 1 in
  _ <- getitem "user_id" (user_id user_profile) ;;
  Ok {| blood_pressure := {| systolic := systolic; diastolic := diastolic |};
        resting_heart_rate := heart_rate;
        cholesterol := {| total := cholesterol; hdl := hdl; ldl := ldl |};
        fasting_glucose := glucose;
        hba1c := hba1c;
        vo2_max := vo2max;
        body_fat_percentage := body_fat |}.

(* ================================================================= *)
(** ** [SimulationRunner._apply_quit_smoking_scenario] *)

Record QuitSmokingDraws : Type := {
  u_heart_rate_reduction : Q;
  u_bp_systolic_reduction : Q;
  u_bp_diastolic_reduction : Q;
  u_vo2_increase : Q;
  u_chol_improvement : Q
}.

Definition set_smoking_status (v : string) (p : UserProfile) : UserProfile :=
  {| user_id := user_id p; gender := gender p; age := age p; height_cm := height_cm p;
     weight_kg := weight_kg p; bmi := bmi p; smoking_status := v;
     alcohol_frequency := alcohol_frequency p |}.

Definition set_user_profile (p : UserProfile) (u : UserData) : UserData :=
  {| user_profile := Some p; health_metrics := health_metrics u;
     impedance_data := impedance_data u; lifestyle_data := lifestyle_data u;
     genetic_data := genetic_data u |}.

Definition set_health_metrics (h : HealthMetrics) (u : UserData) : UserData :=
  {| user_profile := user_profile u; health_metrics := Some h;
     impedance_data := impedance_data u; lifestyle_data := lifestyle_data u;
     genetic_data := genetic_data u |}.

(** The function updates the dict it is given and returns nothing: the
    embedding returns the exception raised, if any, and the record as the
    call leaves it. *)
Definition _apply_quit_smoking_scenario (draws : QuitSmokingDraws) (user_data : UserData)
  : option exn * UserData :=
  match user_profile user_data with
  | None => (Some (KeyError "user_profile"), user_data)
  | Some profile =>
      if negb (String.eqb (lower (smoking_status profile)) "current") then
        (None, user_data)
      else
        let user_data := set_user_profile (set_smoking_status "Former" profile) user_data in
        let heart_rate_reduction := uniform 5 12 (u_heart_rate_reduction draws) in
        match health_metrics user_data with
        | None => (Some (KeyError "health_metrics"), user_data)
        | Some hm =>
            let resting_heart_rate' :=
              py_max 60 (resting_heart_rate hm - heart_rate_reduction) in
            let bp_systolic_reduction := uniform 5 12 (u_bp_systolic_reduction draws) in
            let bp_diastolic_reduction := uniform 3 8 (u_bp_diastolic_reduction draws) in
            let systolic' :=
              py_max 110 (systolic (blood_pressure hm) - bp_systolic_reduction) in
            let diastolic' :=
              py_max 70 (diastolic (blood_pressure hm) - bp_diastolic_reduction) in
            let vo2_increase := uniform 5 15 (u_vo2_increase draws) in
            let vo2_max' := vo2_max hm + vo2_increase in
            let chol_improvement := uniform 0.05 0.10 (u_chol_improvement draws) in
            let total' := py_max 150 (total (cholesterol hm) * (1 - chol_improvement)) in
            let ldl' := py_max 70 (ldl (cholesterol hm) * (1 - chol_improvement)) in
            (None,
             set_health_metrics
               {| blood_pressure := {| systolic := systolic'; diastolic := diastolic' |};
                  resting_heart_rate := resting_heart_rate';
                  cholesterol :=
                    {| total := total'; hdl := hdl (cholesterol hm); ldl := ldl' |};
                  fasting_glucose := fasting_glucose hm;
                  hba1c := hba1c hm;
                  vo2_max := vo2_max';
                  body_fat_percentage := body_fat_percentage hm |}
               user_data)
        end
  end.

(* ================================================================= *)
(** ** Vocabulary of the statements *)

(** The entry that [_extract_high_priority_recommendations] builds from a
    recommendation of a category. *)
Definition tag (category : string) (rec : Recommendation) : PriorityItem :=
  {| item_category := category;
     item_recommendation := recommendation rec;
     item_priority := priority rec;
     item_impact := impact rec |}.

(** Every recommendation of every category, in encounter order. *)
Definition flattened (recs : RecommendationDict) : list PriorityItem :=
  flat_map (fun '(category, l) => map (tag category) l) recs.

Definition is_very_high (x : PriorityItem) : bool := String.eqb (item_priority x) "Very High".

Definition is_high (x : PriorityItem) : bool := String.eqb (item_priority x) "High".

(** The number of recommendations, over all categories, whose priority is
    "High" or "Very High". *)
Definition count_high (recs : RecommendationDict) : nat :=
  length (filter (fun x => is_high x || is_very_high x) (flattened recs)).

(* ================================================================= *)
(** ** Sample records *)

(** The end-to-end scenario of the specification: a 50 year old male
    smoker with raised blood pressure and cholesterol. *)
Module sample.

Definition profile : UserProfile :=
  {| user_id := Some "user_0001"; gender := "Male"; age := 50; height_cm := 175;
     weight_kg := 95; bmi := 31; smoking_status := "Current";
     alcohol_frequency := "Moderate" |}.

Definition metrics : HealthMetrics :=
  {| blood_pressure := {| systolic := 145; diastolic := 92 |};
     resting_heart_rate := 58;
     cholesterol := {| total := 240; hdl := 35; ldl := 170 |};
     fasting_glucose := 110; hba1c := 6.1; vo2_max := 30; body_fat_percentage := 28 |}.

Definition impedance : ImpedanceData :=
  {| chronological_age := 50; estimated_biological_age := 52 |}.

Definition lifestyle : LifestyleData :=
  {| exercise := {| frequency := "Sedentary"; minutes_per_week := 20;
                    types := ["Walking"; "Yoga"] |};
     sleep := {| average_hours := 5.5; quality := "Fair" |};
     diet := {| diet_type := "Standard"; fruit_veg_servings_daily := 2;
                processed_food_frequency := "Often" |};
     stress_level := "High" |}.

Definition genetics : GeneticData :=
  {| risk_factors :=
       {| cardiovascular_disease := 0.1; type_2_diabetes := 0.1;
          cancer := [("colorectal", 0.05); ("breast", 0.001); ("prostate", 0.07);
                     ("lung", 0.03); ("skin", 0.04)];
          neurodegenerative := [("alzheimers", 0.05); ("parkinsons", 0.02)] |} |}.

Definition user_data : UserData :=
  complete_record profile metrics impedance lifestyle genetics.



(** The same metrics with an HDL reading of zero. *)
Definition zero_hdl_metrics : HealthMetrics :=
  {| blood_pressure := blood_pressure metrics;
     resting_heart_rate := resting_heart_rate metrics;
     cholesterol := {| total := 240; hdl := 0; ldl := 170 |};
     fasting_glucose := fasting_glucose metrics;
     hba1c := hba1c metrics;
     vo2_max := vo2_max metrics;
     body_fat_percentage := body_fat_percentage metrics |}.

Definition zero_hdl_user_data : UserData :=
  complete_record profile zero_hdl_metrics impedance lifestyle genetics.

(** The same metrics with a resting heart rate of 78. *)
Definition fast_heart_metrics : HealthMetrics :=
  {| blood_pressure := blood_pressure metrics;
     resting_heart_rate := 78;
     cholesterol := cholesterol metrics;
     fasting_glucose := fasting_glucose metrics;
     hba1c := hba1c metrics;
     vo2_max := vo2_max metrics;
     body_fat_percentage := body_fat_percentage metrics |}.

(** The same metrics with a resting heart rate of 60. *)
Definition slow_heart_metrics : HealthMetrics :=
  {| blood_pressure := blood_pressure metrics;
     resting_heart_rate := 60;
     cholesterol := cholesterol metrics;
     fasting_glucose := fasting_glucose metrics;
     hba1c := hba1c metrics;
     vo2_max := vo2_max metrics;
     body_fat_percentage := body_fat_percentage metrics |}.

(** Draws in the middle of their range. *)
Definition quit_draws : QuitSmokingDraws :=
  {| u_heart_rate_reduction := 0.5; u_bp_systolic_reduction := 0.5;
     u_bp_diastolic_reduction := 0.5; u_vo2_increase := 0.5;
     u_chol_improvement := 0.5 |}.

(** Draws of the health metrics generator: every normal draw at its mean
    except the HDL draw, five standard deviations below it. *)
Definition low_hdl_draws : HealthDraws :=
  {| z_systolic := 0; z_diastolic := 0; u_fitness_level := 0.5; z_heart_rate := 0;
     z_cholesterol := 0; z_hdl := -5; z_triglycerides := 0; z_glucose := 0;
     z_hba1c := 0; z_vo2max := 0; z_body_fat := 0 |}.

(** The sample profile without its [user_id] key. *)
Definition anonymous_profile : UserProfile :=
  {| user_id := None; gender := "Male"; age := 50; height_cm := 175;
     weight_kg := 95; bmi := 31; smoking_status := "Current";
     alcohol_frequency := "Moderate" |}.

Definition anonymous_user_data : UserData :=
  complete_record anonymous_profile metrics impedance lifestyle genetics.

(** A clock that advances by one tick per reading. *)
Definition clock (n : nat) : string :=
  match n with
  | 0%nat => "2024-05-01T10:00:00.000100"
  | 1%nat => "2024-05-01T10:00:00.000200"
  | 2%nat => "2024-05-01T10:00:00.000300"
  | 3%nat => "2024-05-01T10:00:00.000400"
  | _ => "2024-05-01T10:00:00.000500"
  end.

End sample.


(** The sample record with categorical values outside the lookup tables. *)
Module odd_sample.

Definition profile : UserProfile :=
  {| user_id := Some "user_0002"; gender := "Female"; age := 44; height_cm := 165;
     weight_kg := 60; bmi := 22; smoking_status := "Vaping";
     alcohol_frequency := "Weekly" |}.

Definition lifestyle : LifestyleData :=
  {| exercise := {| frequency := "Moderate"; minutes_per_week := 120;
                    types := ["Running"] |};
     sleep := {| average_hours := 7; quality := "Average" |};
     diet := {| diet_type := "Mediterranean"; fruit_veg_servings_daily := 4;
                processed_food_frequency := "Very Frequently" |};
     stress_level := "Very High" |}.

Definition user_data : UserData :=
  complete_record profile sample.metrics sample.impedance lifestyle sample.genetics.

(** The same record with an HDL reading of zero. *)
Definition zero_hdl_user_data : UserData :=
  complete_record profile sample.zero_hdl_metrics sample.impedance lifestyle
    sample.genetics.

End odd_sample.

(** A probability. *)
Definition unit_interval (x : Q) : Prop := 0 <= x /\ x <= 1.

(** The genetic risk inputs of a record lie between 0 and 1. *)
Definition genetic_risks_in_unit_interval (g : GeneticData) : Prop :=
  unit_interval (cardiovascular_disease (risk_factors g)) /\
  unit_interval (type_2_diabetes (risk_factors g)) /\
  Forall unit_interval (values (cancer (risk_factors g))) /\
  Forall unit_interval (values (neurodegenerative (risk_factors g))).


From Stdlib Require Import DecimalString.
(* ================================================================= *)
(** ** Vocabulary of the further statements *)

(** The factors that enter each of the four means of
    [calculate_health_risks], in the order the function appends them.
    [chol] is the cholesterol factor, [alzheimers] and [parkinsons] are
    the two entries of the neurodegenerative table. *)
Definition cv_risk_factors (p : UserProfile) (h : HealthMetrics) (l : LifestyleData)
    (g : GeneticData) (chol : Q) : list Q :=
  [cardiovascular_disease (risk_factors g);
   risk_factor.bp_risk_factor h;
   chol;
   risk_factor.cv_smoking_risk_factor (lower (smoking_status p));
   risk_factor.exercise_risk_factor (minutes_per_week (exercise l));
   risk_factor.cv_bmi_risk_factor (bmi p)].

Definition metabolic_risk_factors (p : UserProfile) (h : HealthMetrics)
    (l : LifestyleData) (g : GeneticData) : list Q :=
  [type_2_diabetes (risk_factors g);
   risk_factor.glucose_risk_factor h;
   risk_factor.metabolic_bmi_risk_factor (bmi p);
   risk_factor.exercise_risk_factor (minutes_per_week (exercise l));
   risk_factor.metabolic_diet_risk_factor
     (lower (processed_food_frequency (diet l))) (fruit_veg_servings_daily (diet l))].

Definition neuro_risk_factors (l : LifestyleData) (alzheimers parkinsons : Q) : list Q :=
  [(alzheimers + parkinsons) / 2;
   risk_factor.sleep_risk_factor l;
   risk_factor.stress_risk_factor l;
   risk_factor.exercise_risk_factor (minutes_per_week (exercise l));
   py_max 0 (risk_factor.neuro_diet_risk_factor
               (lower (diet_type (diet l))) (fruit_veg_servings_daily (diet l)))].

Definition cancer_risk_factors (p : UserProfile) (l : LifestyleData) (g : GeneticData)
  : list Q :=
  [py_sum (values (cancer (risk_factors g))) / py_len (cancer (risk_factors g));
   risk_factor.cancer_smoking_risk_factor (lower (smoking_status p));
   risk_factor.cancer_exercise_risk_factor (minutes_per_week (exercise l));
   risk_factor.cancer_diet_risk_factor (fruit_veg_servings_daily (diet l))].

(** The mean of the factors, capped at 1. *)
Definition capped_mean (factors : list Q) : Q :=
  py_min 1.0 (py_sum factors / py_len factors).

(** The lifestyle data with other average sleep hours. *)
Definition set_average_hours (v : Q) (l : LifestyleData) : LifestyleData :=
  {| exercise := exercise l;
     sleep := {| average_hours := v; quality := quality (sleep l) |};
     diet := diet l;
     stress_level := stress_level l |}.

(** The dict of the six categories. *)
Definition six_categories (exercise_list nutrition_list sleep_list stress_list
    monitoring_list lifestyle_list : list Recommendation) : RecommendationDict :=
  [("exercise", exercise_list); ("nutrition", nutrition_list); ("sleep", sleep_list);
   ("stress_management", stress_list); ("health_monitoring", monitoring_list);
   ("lifestyle", lifestyle_list)].

(** One rule: the entry is appended under the key when the condition
    holds. *)
Definition rule (condition : bool) (k : string) (x : Recommendation)
    (d : RecommendationDict) : RecommendationDict :=
  if condition then dict_append d k x else d.

(** The rules of [generate_recommendations] read as a table: for each
    category the entries it can hold, in rule order, each with its
    condition. *)
Module rules.

Definition when (condition : bool) (x : Recommendation) : list Recommendation :=
  if condition then [x] else [].

Definition is_raised (risk_category : string) : bool :=
  str_in risk_category ["High"; "Very High"].

Definition for_exercise (p : UserProfile) (h : HealthMetrics) (l : LifestyleData)
    (r : RiskAssessment) : list Recommendation :=
  [if minutes_per_week (exercise l) <? 30 then catalog.start_exercising
   else if minutes_per_week (exercise l) <? 150 then catalog.increase_exercise
   else catalog.maintain_exercise]
  ++ when (is_raised (category (cardiovascular (risks r)))
           || (resting_heart_rate h >? 80)) catalog.aerobic
  ++ when ((age p >? 50)
           || negb (str_in "weight training" (map lower (types (exercise l)))))
       catalog.resistance.

Definition for_nutrition (l : LifestyleData) (r : RiskAssessment) : list Recommendation :=
  when (fruit_veg_servings_daily (diet l) <? 3) catalog.fruit_veg
  ++ when (str_in (processed_food_frequency (diet l)) ["often"; "very frequently"])
       catalog.processed_food
  ++ when (negb (String.eqb (lower (diet_type (diet l))) "mediterranean")
           && (is_raised (category (cardiovascular (risks r)))
               || is_raised (category (cancer_entry (risks r)))))
       catalog.mediterranean.

Definition for_sleep (l : LifestyleData) : list Recommendation :=
  if (average_hours (sleep l) <? 7) || str_in (lower (quality (sleep l))) ["poor"; "fair"]
  then catalog.sleep_hours
       :: when (String.eqb (lower (quality (sleep l))) "poor") catalog.sleep_hygiene
  else [].

Definition for_stress_management (l : LifestyleData) : list Recommendation :=
  if str_in (lower (stress_level l)) ["high"; "very high"]
  then [catalog.stress_practice; catalog.stress_exposure]
  else [].

Definition for_health_monitoring (p : UserProfile) (h : HealthMetrics)
    (r : RiskAssessment) : list Recommendation :=
  when (age p >? 40) catalog.checkups
  ++ when ((bmi p >? 30) || is_raised (category (metabolic (risks r))))
       catalog.glucose_monitoring
  ++ when ((systolic (blood_pressure h) >? 130) || (diastolic (blood_pressure h) >? 85))
       catalog.bp_tracking.

Definition for_lifestyle (p : UserProfile) : list Recommendation :=
  when (String.eqb (lower (smoking_status p)) "current") catalog.quit_smoking
  ++ when (String.eqb (lower (alcohol_frequency p)) "frequent") catalog.reduce_alcohol.

End rules.

(** A recommendation of the highest priority. *)
Definition is_very_high_rec (rec : Recommendation) : bool :=
  String.eqb (priority rec) "Very High".

(** The top priority entry that asks a smoker to quit. *)
Definition quit_smoking_item : PriorityItem := tag "lifestyle" catalog.quit_smoking.

(** A prediction and a risk assessment of the sample record. *)
Module sample_results.

Definition prediction : Prediction :=
  {| pred_user_id := "user_0001"; current_age := 50; pred_gender := "Male";
     base_life_expectancy := 76.1; predicted_life_expectancy := 51.4;
     confidence_interval := (47.2, 55.6); expected_remaining_years := 1.4;
     factors := []; predicted_at := sample.clock 0 |}.

Definition assessment : RiskAssessment :=
  {| risk_user_id := "user_0001";
     risks :=
       {| cardiovascular :=
            {| risk_level := 0.25; category := "Moderate"; risk_entry_factors := [] |};
          metabolic :=
            {| risk_level := 0.2; category := "Moderate"; risk_entry_factors := [] |};
          neurological :=
            {| risk_level := 0.15; category := "Low"; risk_entry_factors := [] |};
          cancer_entry :=
            {| risk_level := 0.11; category := "Low"; risk_entry_factors := [] |} |};
     assessed_at := sample.clock 2 |}.

End sample_results.

(* ================================================================= *)
(** ** The other scenario mutators of [SimulationRunner] *)

(** A scenario updates the record it is given: it yields the exception it
    raises, if any, and the record as it leaves it. *)
Definition mutator : Type := UserData -> option exn * UserData.

Definition and_then (m1 m2 : mutator) : mutator :=
  fun user_data =>
    match m1 user_data with
    | (None, user_data') => m2 user_data'
    | (Some e, user_data') => (Some e, user_data')
    end.

Notation "m1 ;;; m2" := (and_then m1 m2) (at level 62, right associativity).

Definition set_lifestyle_data (l : LifestyleData) (u : UserData) : UserData :=
  {| user_profile := user_profile u; health_metrics := health_metrics u;
     impedance_data := impedance_data u; lifestyle_data := Some l;
     genetic_data := genetic_data u |}.

Definition set_impedance_data (i : ImpedanceData) (u : UserData) : UserData :=
  {| user_profile := user_profile u; health_metrics := health_metrics u;
     impedance_data := Some i; lifestyle_data := lifestyle_data u;
     genetic_data := genetic_data u |}.

(** Statements that read and write one section of the record: the section
    is looked up first, and the statements may stop half way with an
    exception. *)
Definition on_lifestyle_data (f : LifestyleData -> option exn * LifestyleData) : mutator :=
  fun user_data =>
    match lifestyle_data user_data with
    | None => (Some (KeyError "lifestyle_data"), user_data)
    | Some l => let '(e, l') := f l in (e, set_lifestyle_data l' user_data)
    end.

Definition on_health_metrics (f : HealthMetrics -> HealthMetrics) : mutator :=
  fun user_data =>
    match health_metrics user_data with
    | None => (Some (KeyError "health_metrics"), user_data)
    | Some h => (None, set_health_metrics (f h) user_data)
    end.

Definition on_user_profile (f : UserProfile -> option exn * UserProfile) : mutator :=
  fun user_data =>
    match user_profile user_data with
    | None => (Some (KeyError "user_profile"), user_data)
    | Some p => let '(e, p') := f p in (e, set_user_profile p' user_data)
    end.

Definition on_impedance_data (f : ImpedanceData -> ImpedanceData) : mutator :=
  fun user_data =>
    match impedance_data user_data with
    | None => (Some (KeyError "impedance_data"), user_data)
    | Some i => (None, set_impedance_data (f i) user_data)
    end.

(** Statements that read the user profile and write the health metrics. *)
Definition on_health_metrics_with_profile
    (f : UserProfile -> HealthMetrics -> HealthMetrics) : mutator :=
  fun user_data =>
    match user_profile user_data with
    | None => (Some (KeyError "user_profile"), user_data)
    | Some p => on_health_metrics (f p) user_data
    end.

(** [int(x)]: the integer part, towards zero. *)
Definition py_int (x : Q) : Z := if 0 <=? x then Qfloor x else Qceiling x.

(** [random.choice(seq)] picks the element at the index drawn below
    [len(seq)]. *)
Definition choice (seq : list string) (index : nat) : string := nth index seq "".

(** [d[k]] on a dict with integer keys. *)
Fixpoint level_getitem (d : list (Z * string)) (k : Z) : result string :=
  match d with
  | [] => Raise (KeyError "level")
  | (k', v) :: d' => if Z.eqb k k' then Ok v else level_getitem d' k
  end.

(** [k in d] and [d[k]] on a dict from strings to integers. *)
Fixpoint level_of (d : list (string * Z)) (k : string) : option Z :=
  match d with
  | [] => None
  | (k', v) :: d' => if String.eqb k k' then Some v else level_of d' k
  end.

Definition stress_map : list (string * Z) :=
  [("Low", 0%Z); ("Moderate", 1%Z); ("High", 2%Z); ("Very High", 3%Z)].

Definition reverse_map : list (Z * string) :=
  [(0%Z, "Low"); (1%Z, "Moderate"); (2%Z, "High"); (3%Z, "Very High")].

Definition sleep_map : list (string * Z) :=
  [("Poor", 0%Z); ("Fair", 1%Z); ("Good", 2%Z); ("Excellent", 3%Z)].

Definition reverse_sleep_map : list (Z * string) :=
  [(0%Z, "Poor"); (1%Z, "Fair"); (2%Z, "Good"); (3%Z, "Excellent")].

Definition set_stress_level (v : string) (l : LifestyleData) : LifestyleData :=
  {| exercise := exercise l; sleep := sleep l; diet := diet l; stress_level := v |}.

Definition set_sleep_quality (v : string) (l : LifestyleData) : LifestyleData :=
  {| exercise := exercise l;
     sleep := {| average_hours := average_hours (sleep l); quality := v |};
     diet := diet l; stress_level := stress_level l |}.

Definition set_diet (d : Diet) (l : LifestyleData) : LifestyleData :=
  {| exercise := exercise l; sleep := sleep l; diet := d; stress_level := stress_level l |}.

Definition set_exercise (e : Exercise) (l : LifestyleData) : LifestyleData :=
  {| exercise := e; sleep := sleep l; diet := diet l; stress_level := stress_level l |}.

Definition set_weight_kg (v : Q) (p : UserProfile) : UserProfile :=
  {| user_id := user_id p; gender := gender p; age := age p; height_cm := height_cm p;
     weight_kg := v; bmi := bmi p; smoking_status := smoking_status p;
     alcohol_frequency := alcohol_frequency p |}.

Definition set_bmi (v : Q) (p : UserProfile) : UserProfile :=
  {| user_id := user_id p; gender := gender p; age := age p; height_cm := height_cm p;
     weight_kg := weight_kg p; bmi := v; smoking_status := smoking_status p;
     alcohol_frequency := alcohol_frequency p |}.

Definition set_alcohol_frequency (v : string) (p : UserProfile) : UserProfile :=
  {| user_id := user_id p; gender := gender p; age := age p; height_cm := height_cm p;
     weight_kg := weight_kg p; bmi := bmi p; smoking_status := smoking_status p;
     alcohol_frequency := v |}.

Definition set_blood_pressure (bp : BloodPressure) (h : HealthMetrics) : HealthMetrics :=
  {| blood_pressure := bp; resting_heart_rate := resting_heart_rate h;
     cholesterol := cholesterol h; fasting_glucose := fasting_glucose h;
     hba1c := hba1c h; vo2_max := vo2_max h;
     body_fat_percentage := body_fat_percentage h |}.

Definition set_resting_heart_rate (v : Q) (h : HealthMetrics) : HealthMetrics :=
  {| blood_pressure := blood_pressure h; resting_heart_rate := v;
     cholesterol := cholesterol h; fasting_glucose := fasting_glucose h;
     hba1c := hba1c h; vo2_max := vo2_max h;
     body_fat_percentage := body_fat_percentage h |}.

Definition set_cholesterol (c : Cholesterol) (h : HealthMetrics) : HealthMetrics :=
  {| blood_pressure := blood_pressure h; resting_heart_rate := resting_heart_rate h;
     cholesterol := c; fasting_glucose := fasting_glucose h;
     hba1c := hba1c h; vo2_max := vo2_max h;
     body_fat_percentage := body_fat_percentage h |}.

Definition set_fasting_glucose (v : Q) (h : HealthMetrics) : HealthMetrics :=
  {| blood_pressure := blood_pressure h; resting_heart_rate := resting_heart_rate h;
     cholesterol := cholesterol h; fasting_glucose := v;
     hba1c := hba1c h; vo2_max := vo2_max h;
     body_fat_percentage := body_fat_percentage h |}.

Definition set_hba1c (v : Q) (h : HealthMetrics) : HealthMetrics :=
  {| blood_pressure := blood_pressure h; resting_heart_rate := resting_heart_rate h;
     cholesterol := cholesterol h; fasting_glucose := fasting_glucose h;
     hba1c := v; vo2_max := vo2_max h;
     body_fat_percentage := body_fat_percentage h |}.

Definition set_vo2_max (v : Q) (h : HealthMetrics) : HealthMetrics :=
  {| blood_pressure := blood_pressure h; resting_heart_rate := resting_heart_rate h;
     cholesterol := cholesterol h; fasting_glucose := fasting_glucose h;
     hba1c := hba1c h; vo2_max := v;
     body_fat_percentage := body_fat_percentage h |}.

Definition set_body_fat_percentage (v : Q) (h : HealthMetrics) : HealthMetrics :=
  {| blood_pressure := blood_pressure h; resting_heart_rate := resting_heart_rate h;
     cholesterol := cholesterol h; fasting_glucose := fasting_glucose h;
     hba1c := hba1c h; vo2_max := vo2_max h;
     body_fat_percentage := v |}.

(** The block shared by three scenarios: above a BMI of 25 the weight is
    cut by a drawn share and the BMI is computed again from the height. *)
Definition reduce_weight (lowest highest u : Q) (p : UserProfile)
  : option exn * UserProfile :=
  if bmi p >? 25 then
    let weight_reduction_factor := uniform lowest highest u in
    let new_weight := weight_kg p * (1 - weight_reduction_factor) in
    let p := set_weight_kg (py_round_n new_weight 1) p in
    let height_m := height_cm p / 100 in
    match py_div new_weight (height_m ^ 2) with
    | Raise e => (Some e, p)
    | Ok v => (None, set_bmi (py_round_n v 1) p)
    end
  else (None, p).

(** The stress level moves one level down, when it is one of the four
    levels. *)
Definition lower_stress_level (l : LifestyleData) : option exn * LifestyleData :=
  let current_stress := stress_level l in
  match level_of stress_map current_stress with
  | Some current_level =>
      let new_level := Z.max 0 (current_level - 1) in
      match level_getitem reverse_map new_level with
      | Ok v => (None, set_stress_level v l)
      | Raise e => (Some e, l)
      end
  | None => (None, l)
  end.

(* ----------------------------------------------------------------- *)
(** *** [_apply_improved_diet_scenario] *)

Record DietDraws : Type := {
  u_diet_weight : Q;
  u_diet_chol : Q;
  u_diet_glucose : Q
}.

Module improved_diet.

(* Modify dietary patterns *)
Definition patterns (l : LifestyleData) : option exn * LifestyleData :=
  (None,
   set_diet
     {| diet_type := "Mediterranean";
        fruit_veg_servings_daily := py_min (fruit_veg_servings_daily (diet l) + 3) 7;
        processed_food_frequency := "Rarely" |} l).

(* Improve cholesterol values, glucose values and HbA1c *)
Definition metrics (draws : DietDraws) (h : HealthMetrics) : HealthMetrics :=
  let chol_improvement := uniform 0.10 0.15 (u_diet_chol draws) in
  let h :=
    set_cholesterol
      {| total := round0 (total (cholesterol h) * (1 - chol_improvement));
         hdl := round0 (hdl (cholesterol h) * (1 + chol_improvement * 0.5));
         ldl := round0 (ldl (cholesterol h) * (1 - chol_improvement * 1.2)) |} h in
  let glucose_improvement := uniform 0.05 0.10 (u_diet_glucose draws) in
  let current_glucose := fasting_glucose h in
  let target_glucose := 85 in
  let h :=
    if current_glucose >? target_glucose then
      set_fasting_glucose
        (round0 (current_glucose
                 - (current_glucose - target_glucose) * glucose_improvement)) h
    else h in
  let current_hba1c := hba1c h in
  let target_hba1c := 5.0 in
  if current_hba1c >? target_hba1c then
    set_hba1c
      (py_round_n (current_hba1c - (current_hba1c - target_hba1c) * glucose_improvement) 1)
      h
  else h.

End improved_diet.

Definition _apply_improved_diet_scenario (draws : DietDraws) : mutator :=
  on_lifestyle_data improved_diet.patterns
  ;;; on_user_profile (reduce_weight 0.05 0.10 (u_diet_weight draws))
  ;;; on_health_metrics (improved_diet.metrics draws).

(* ----------------------------------------------------------------- *)
(** *** [_apply_exercise_program_scenario] *)

Record ExerciseDraws : Type := {
  k_cardio : nat;
  k_strength : nat;
  k_flexibility : nat;
  u_exercise_heart_rate : Q;
  u_exercise_systolic : Q;
  u_exercise_diastolic : Q;
  u_exercise_vo2 : Q;
  u_exercise_fat : Q;
  u_exercise_weight : Q
}.

Definition cardio : list string := ["Walking"; "Running"; "Cycling"; "Swimming"; "HIIT"].
Definition strength : list string := ["Weight Training"; "HIIT"].
Definition flexibility : list string := ["Yoga"; "Pilates"].

(** [any(t in kind for t in types)]. *)
Definition any_in (kind types : list string) : bool :=
  existsb (fun t => str_in t kind) types.

(** [max(10 if gender == "Male" else 15, body_fat_percentage - fat_reduction)],
    the body-fat statement of two scenarios. *)
Definition reduce_body_fat (fat_reduction : Q) (p : UserProfile) (h : HealthMetrics)
  : HealthMetrics :=
  set_body_fat_percentage
    (py_max (if String.eqb (gender p) "Male" then 10 else 15)
            (body_fat_percentage h - fat_reduction)) h.

Module exercise_program.

(* Increase exercise minutes; add more exercise types if needed *)
Definition habits (draws : ExerciseDraws) (l : LifestyleData) : option exn * LifestyleData :=
  let current_exercise := exercise l in
  let current_minutes := minutes_per_week current_exercise in
  let new_minutes :=
    if current_minutes <? 150 then py_max 150 (current_minutes * 2)
    else py_min 300 (current_minutes * 1.5) in
  let current_types := types current_exercise in
  let new_types :=
    if (length current_types <? 3)%nat then
      let new_types := current_types in
      let new_types :=
        if negb (any_in cardio new_types)
        then new_types ++ [choice cardio (k_cardio draws)] else new_types in
      let new_types :=
        if negb (any_in strength new_types)
        then new_types ++ [choice strength (k_strength draws)] else new_types in
      let new_types :=
        if negb (any_in flexibility new_types)
        then new_types ++ [choice flexibility (k_flexibility draws)] else new_types in
      new_types
    else current_types in
  (None,
   set_exercise
     {| frequency := frequency current_exercise;
        minutes_per_week := inject_Z (py_int new_minutes);
        types := new_types |} l).

(* Improve cardiovascular health metrics; increase VO2 max *)
Definition metrics (draws : ExerciseDraws) (h : HealthMetrics) : HealthMetrics :=
  let heart_rate_reduction := uniform 5 15 (u_exercise_heart_rate draws) in
  let h := set_resting_heart_rate (py_max 55 (resting_heart_rate h - heart_rate_reduction)) h in
  let bp_systolic_reduction := uniform 3 10 (u_exercise_systolic draws) in
  let bp_diastolic_reduction := uniform 2 6 (u_exercise_diastolic draws) in
  let h :=
    set_blood_pressure
      {| systolic := py_max 110 (systolic (blood_pressure h) - bp_systolic_reduction);
         diastolic := py_max 70 (diastolic (blood_pressure h) - bp_diastolic_reduction) |}
      h in
  let vo2_increase := uniform 10 20 (u_exercise_vo2 draws) in
  set_vo2_max (vo2_max h + vo2_increase) h.

End exercise_program.

Definition _apply_exercise_program_scenario (draws : ExerciseDraws) : mutator :=
  on_lifestyle_data (exercise_program.habits draws)
  ;;; on_health_metrics (exercise_program.metrics draws)
  ;;; on_health_metrics_with_profile
        (reduce_body_fat (uniform 1 4 (u_exercise_fat draws)))
  ;;; on_user_profile (reduce_weight 0.03 0.08 (u_exercise_weight draws)).

(* ----------------------------------------------------------------- *)
(** *** [_apply_stress_reduction_scenario] *)

Record StressDraws : Type := {
  u_stress_systolic : Q;
  u_stress_diastolic : Q;
  u_stress_heart_rate : Q
}.

Module stress_reduction.

(* Improve sleep quality by one level *)
Definition improve_sleep_quality (l : LifestyleData) : option exn * LifestyleData :=
  let current_sleep_quality := quality (sleep l) in
  match level_of sleep_map current_sleep_quality with
  | Some current_level =>
      let new_level := Z.min 3 (current_level + 1) in
      match level_getitem reverse_sleep_map new_level with
      | Ok v => (None, set_sleep_quality v l)
      | Raise e => (Some e, l)
      end
  | None => (None, l)
  end.

(* Increase sleep hours slightly if below optimal *)
Definition increase_sleep_hours (l : LifestyleData) : LifestyleData :=
  if average_hours (sleep l) <? 7 then
    set_average_hours (py_min 8.0 (average_hours (sleep l) + 0.5)) l
  else l.

Definition habits (l : LifestyleData) : option exn * LifestyleData :=
  match lower_stress_level l with
  | (Some e, l) => (Some e, l)
  | (None, l) =>
      match improve_sleep_quality l with
      | (Some e, l) => (Some e, l)
      | (None, l) => (None, increase_sleep_hours l)
      end
  end.

(* Improve blood pressure; reduce resting heart rate *)
Definition metrics (draws : StressDraws) (h : HealthMetrics) : HealthMetrics :=
  let bp_systolic_reduction := uniform 2 8 (u_stress_systolic draws) in
  let bp_diastolic_reduction := uniform 1 5 (u_stress_diastolic draws) in
  let h :=
    set_blood_pressure
      {| systolic := py_max 110 (systolic (blood_pressure h) - bp_systolic_reduction);
         diastolic := py_max 70 (diastolic (blood_pressure h) - bp_diastolic_reduction) |}
      h in
  let heart_rate_reduction := uniform 2 8 (u_stress_heart_rate draws) in
  set_resting_heart_rate (py_max 60 (resting_heart_rate h - heart_rate_reduction)) h.

End stress_reduction.

Definition _apply_stress_reduction_scenario (draws : StressDraws) : mutator :=
  on_lifestyle_data stress_reduction.habits
  ;;; on_health_metrics (stress_reduction.metrics draws).

(* ----------------------------------------------------------------- *)
(** *** [_apply_sleep_optimization_scenario] *)

Record SleepDraws : Type := {
  u_sleep_hours : Q;
  u_sleep_heart_rate : Q;
  u_sleep_systolic : Q;
  u_sleep_diastolic : Q;
  u_sleep_glucose : Q
}.

Module sleep_optimization.

(* Optimize sleep hours to 7-8 range *)
Definition optimize_sleep_hours (draws : SleepDraws) (l : LifestyleData) : LifestyleData :=
  let current_sleep_hours := average_hours (sleep l) in
  if current_sleep_hours <? 7 then
    set_average_hours (uniform 7.0 8.0 (u_sleep_hours draws)) l
  else if current_sleep_hours >? 9 then
    set_average_hours (uniform 7.5 8.5 (u_sleep_hours draws)) l
  else l.

(* Improve sleep quality to at least "Good" *)
Definition improve_sleep_quality (l : LifestyleData) : option exn * LifestyleData :=
  let current_sleep_quality := quality (sleep l) in
  match level_of sleep_map current_sleep_quality with
  | Some current_level =>
      let new_level := Z.max 2 (current_level + 1) in
      match level_getitem reverse_sleep_map (Z.min 3 new_level) with
      | Ok v => (None, set_sleep_quality v l)
      | Raise e => (Some e, l)
      end
  | None => (None, l)
  end.

Definition habits (draws : SleepDraws) (l : LifestyleData) : option exn * LifestyleData :=
  match improve_sleep_quality (optimize_sleep_hours draws l) with
  | (Some e, l) => (Some e, l)
  | (None, l) => lower_stress_level l
  end.

(* Reduce resting heart rate; improve blood pressure and glucose *)
Definition metrics (draws : SleepDraws) (h : HealthMetrics) : HealthMetrics :=
  let heart_rate_reduction := uniform 2 5 (u_sleep_heart_rate draws) in
  let h := set_resting_heart_rate (py_max 60 (resting_heart_rate h - heart_rate_reduction)) h in
  let bp_systolic_reduction := uniform 1 5 (u_sleep_systolic draws) in
  let bp_diastolic_reduction := uniform 1 3 (u_sleep_diastolic draws) in
  let h :=
    set_blood_pressure
      {| systolic := py_max 110 (systolic (blood_pressure h) - bp_systolic_reduction);
         diastolic := py_max 70 (diastolic (blood_pressure h) - bp_diastolic_reduction) |}
      h in
  let glucose_improvement := uniform 1 3 (u_sleep_glucose draws) in
  let current_glucose := fasting_glucose h in
  let target_glucose := 85 in
  if current_glucose >? target_glucose then
    set_fasting_glucose (py_max target_glucose (current_glucose - glucose_improvement)) h
  else h.

End sleep_optimization.

Definition _apply_sleep_optimization_scenario (draws : SleepDraws) : mutator :=
  on_lifestyle_data (sleep_optimization.habits draws)
  ;;; on_health_metrics (sleep_optimization.metrics draws).

(* ----------------------------------------------------------------- *)
(** *** [_apply_optimal_lifestyle_scenario] *)

Record OptimalDraws : Type := {
  diet_draws : DietDraws;
  exercise_draws : ExerciseDraws;
  stress_draws : StressDraws;
  sleep_draws : SleepDraws;
  quit_smoking_draws : QuitSmokingDraws;
  u_optimal_weight : Q;
  u_optimal_fat : Q;
  u_optimal_vo2 : Q;
  u_optimal_chol : Q;
  u_optimal_bio_age : Q
}.

Module optimal_lifestyle.

(* Apply quit smoking if applicable *)
Definition quit_smoking (draws : QuitSmokingDraws) : mutator :=
  fun user_data =>
    match user_profile user_data with
    | None => (Some (KeyError "user_profile"), user_data)
    | Some p =>
        if String.eqb (lower (smoking_status p)) "current"
        then _apply_quit_smoking_scenario draws user_data
        else (None, user_data)
    end.

(* Optimize alcohol consumption *)
Definition alcohol (p : UserProfile) : option exn * UserProfile :=
  if String.eqb (lower (alcohol_frequency p)) "frequent"
  then (None, set_alcohol_frequency "Moderate" p) else (None, p).

(* Additional boost to VO2 max; further improvements to cholesterol *)
Definition metrics (draws : OptimalDraws) (h : HealthMetrics) : HealthMetrics :=
  let vo2_increase := uniform 5 10 (u_optimal_vo2 draws) in
  let h := set_vo2_max (vo2_max h + vo2_increase) h in
  let chol_improvement := uniform 0.05 0.10 (u_optimal_chol draws) in
  set_cholesterol
    {| total := py_max 150 (total (cholesterol h) * (1 - chol_improvement));
       hdl := py_min 90 (hdl (cholesterol h) * (1 + chol_improvement));
       ldl := py_max 70 (ldl (cholesterol h) * (1 - chol_improvement)) |} h.

(* Update impedance data to reflect biological age improvements *)
Definition biological_age (draws : OptimalDraws) (i : ImpedanceData) : ImpedanceData :=
  let bio_age_reduction := uniform 3 8 (u_optimal_bio_age draws) in
  let bio_age := estimated_biological_age i in
  let chrono_age := chronological_age i in
  if bio_age >? chrono_age then
    {| chronological_age := chronological_age i;
       estimated_biological_age :=
         py_max (chrono_age - 5) (bio_age - bio_age_reduction) |}
  else
    {| chronological_age := chronological_age i;
       estimated_biological_age := bio_age - bio_age_reduction / 2 |}.

End optimal_lifestyle.

Definition _apply_optimal_lifestyle_scenario (draws : OptimalDraws) : mutator :=
  _apply_improved_diet_scenario (diet_draws draws)
  ;;; _apply_exercise_program_scenario (exercise_draws draws)
  ;;; _apply_stress_reduction_scenario (stress_draws draws)
  ;;; _apply_sleep_optimization_scenario (sleep_draws draws)
  ;;; optimal_lifestyle.quit_smoking (quit_smoking_draws draws)
  ;;; on_user_profile optimal_lifestyle.alcohol
  ;;; on_user_profile (reduce_weight 0.05 0.12 (u_optimal_weight draws))
  ;;; on_health_metrics_with_profile
        (reduce_body_fat (uniform 2 5 (u_optimal_fat draws)))
  ;;; on_health_metrics (optimal_lifestyle.metrics draws)
  ;;; on_impedance_data (optimal_lifestyle.biological_age draws).

(** Draws for the examples: every uniform draw in the middle of its range,
    every choice the first element. *)
Module sample_draws.

Definition diet : DietDraws :=
  {| u_diet_weight := 0.5; u_diet_chol := 0.5; u_diet_glucose := 0.5 |}.

Definition exercise : ExerciseDraws :=
  {| k_cardio := 0; k_strength := 0; k_flexibility := 0;
     u_exercise_heart_rate := 0.5; u_exercise_systolic := 0.5;
     u_exercise_diastolic := 0.5; u_exercise_vo2 := 0.5; u_exercise_fat := 0.5;
     u_exercise_weight := 0.5 |}.

Definition stress : StressDraws :=
  {| u_stress_systolic := 0.5; u_stress_diastolic := 0.5; u_stress_heart_rate := 0.5 |}.

Definition sleep : SleepDraws :=
  {| u_sleep_hours := 0.5; u_sleep_heart_rate := 0.5; u_sleep_systolic := 0.5;
     u_sleep_diastolic := 0.5; u_sleep_glucose := 0.5 |}.

Definition optimal : OptimalDraws :=
  {| diet_draws := diet; exercise_draws := exercise; stress_draws := stress;
     sleep_draws := sleep; quit_smoking_draws := sample.quit_draws;
     u_optimal_weight := 0.5; u_optimal_fat := 0.5; u_optimal_vo2 := 0.5;
     u_optimal_chol := 0.5; u_optimal_bio_age := 0.5 |}.

End sample_draws.

(* ----------------------------------------------------------------- *)
(** *** The scenario chain of [run_scenario_simulation] *)

(** The [if]/[elif] chain that modifies the copied record according to the
    scenario name; an unknown name leaves the record as it is. *)
Definition apply_scenario (scenario : string) (draws : OptimalDraws) : mutator :=
  if String.eqb scenario "improved_diet" then
    _apply_improved_diet_scenario (diet_draws draws)
  else if String.eqb scenario "exercise_program" then
    _apply_exercise_program_scenario (exercise_draws draws)
  else if String.eqb scenario "stress_reduction" then
    _apply_stress_reduction_scenario (stress_draws draws)
  else if String.eqb scenario "sleep_optimization" then
    _apply_sleep_optimization_scenario (sleep_draws draws)
  else if String.eqb scenario "quit_smoking" then
    _apply_quit_smoking_scenario (quit_smoking_draws draws)
  else if String.eqb scenario "optimal_lifestyle" then
    _apply_optimal_lifestyle_scenario draws
  else
    fun user_data => (None, user_data).

(** Two profiles of the same person: identifier, gender, age and height
    agree. *)
Definition same_person (p p' : UserProfile) : Prop :=
  user_id p' = user_id p /\ gender p' = gender p /\ age p' = age p /\
  height_cm p' = height_cm p.

(** Two optional sections related by [R], both present or both absent. *)
Definition section_rel {A : Type} (R : A -> A -> Prop) (s s' : option A) : Prop :=
  match s, s' with
  | Some a, Some a' => R a a'
  | None, None => True
  | _, _ => False
  end.

(** Two records of the same subject: the same sections are present, the
    genetic data are equal, the profiles are of the same person and the
    chronological age of the impedance data is the same. *)
Definition same_subject (u u' : UserData) : Prop :=
  genetic_data u' = genetic_data u /\
  section_rel same_person (user_profile u) (user_profile u') /\
  section_rel (fun i i' => chronological_age i' = chronological_age i)
    (impedance_data u) (impedance_data u') /\
  section_rel (fun _ _ => True) (health_metrics u) (health_metrics u') /\
  section_rel (fun _ _ => True) (lifestyle_data u) (lifestyle_data u').

(** The sample profile with a height of zero. *)
Definition zero_height_profile : UserProfile :=
  {| user_id := Some "user_0001"; gender := "Male"; age := 50; height_cm := 0;
     weight_kg := 95; bmi := 31; smoking_status := "Current";
     alcohol_frequency := "Moderate" |}.

(* ================================================================= *)
(** ** The other generators of [DataGenerator] *)

(** Draws.  [random.random()] is a rational [u] with [0 <= u < 1];
    [random.uniform(a, b)] is [uniform a b u], [np.random.normal(loc, scale)]
    is [normal loc scale z] for a standard normal draw [z];
    [random.randint(a, b)] is [a] plus the offset drawn below [b - a + 1];
    [random.choice] and [random.sample] take the indices drawn below the
    length they pick from. *)

Definition randint (a b : Z) (offset : nat) : Z := a + Z.of_nat offset.

Definition randint_draw (a b : Z) (offset : nat) : Prop :=
  (Z.of_nat offset <= b - a)%Z.

(** [str(n)] for an integer. *)
Definition str_int (n : Z) : string := NilZero.string_of_int (Z.to_int n).

(** [ValueError] and [IndexError] are not among the exceptions of the
    predictor: a function that can raise one of them returns an
    [outcome]. *)
Inductive outcome (A : Type) : Type :=
| Returned (a : A)
| Raised (e : exn)
| RaisedValueError (message : string)
| RaisedIndexError (message : string).

Arguments Returned {A} a.
Arguments Raised {A} e.
Arguments RaisedValueError {A} message.
Arguments RaisedIndexError {A} message.

Definition outcome_bind {A B : Type} (c : outcome A) (k : A -> outcome B) : outcome B :=
  match c with
  | Returned a => k a
  | Raised e => Raised e
  | RaisedValueError message => RaisedValueError message
  | RaisedIndexError message => RaisedIndexError message
  end.

Definition outcome_of {A : Type} (c : result A) : outcome A :=
  match c with
  | Ok a => Returned a
  | Raise e => Raised e
  end.

Notation "x <~ c ;; k" := (outcome_bind c (fun x => k))
  (at level 61, c at next level, right associativity).

(** [np.random.normal(loc, scale)] with a scale that is computed: numpy
    refuses a negative one. *)
Definition np_normal (loc scale z : Q) : outcome Q :=
  if scale <? 0 then RaisedValueError "scale < 0" else Returned (normal loc scale z).

(** [itertools.accumulate(weights)]. *)
Fixpoint accumulate_from (acc : Q) (weights : list Q) : list Q :=
  match weights with
  | [] => []
  | w :: weights' => (acc + w) :: accumulate_from (acc + w) weights'
  end.

Definition accumulate (weights : list Q) : list Q := accumulate_from 0 weights.

(** [bisect.bisect(a, x, 0, hi)] on a list in increasing order: the number
    of leading entries among the first [hi] that are not above [x]. *)
Fixpoint bisect (a : list Q) (x : Q) (hi : nat) : nat :=
  match hi, a with
  | S hi', c :: a' => if x <? c then 0%nat else S (bisect a' x hi')
  | _, _ => 0%nat
  end.

(** [random.choices(population, weights=weights, k=1)[0]]: the element at
    the place where [random() * total] falls among the cumulative
    weights. *)
Definition choices {A : Type} (default : A) (population : list A) (weights : list Q)
    (u : Q) : A :=
  let cum_weights := accumulate weights in
  let total := last cum_weights 0 in
  let hi := (length population - 1)%nat in
  nth (bisect cum_weights (u * total) hi) population default.

(** [pool[j] = v]. *)
Fixpoint list_set (pool : list string) (j : nat) (v : string) : list string :=
  match pool, j with
  | [] , _ => []
  | _ :: pool', O => v :: pool'
  | x :: pool', S j' => x :: list_set pool' j' v
  end.

(** [random.sample(population, k)] for a population of at most 21
    elements: the [i]-th pick is [pool[j]] for [j] drawn below [n - i], and
    the last element not yet picked moves into its place. *)
Fixpoint sample_pool (pool : list string) (n : nat) (js : list nat) : list string :=
  match js with
  | [] => []
  | j :: js' =>
      nth j pool "" :: sample_pool (list_set pool j (nth (n - 1) pool "")) (n - 1) js'
  end.

Definition sample (population : list string) (k : nat) (draws : nat -> nat) : list string :=
  sample_pool population (length population) (map draws (seq 0 k)).

(** The keys of the generated dicts that [UserProfile], [ImpedanceData],
    [LifestyleData] and [GeneticData] leave out are kept beside them.  The
    [user_id] of the impedance, lifestyle and genetic dicts and of a vitals
    record is the one of the profile. *)

Record FamilyHistory : Type := {
  cardiovascular_disease_history : bool;
  diabetes_history : bool;
  cancer_history : bool;
  neurodegenerative_disease_history : bool
}.

Record GeneratedProfile : Type := {
  profile : UserProfile;
  family_history : FamilyHistory;
  created_at : string
}.

Record ScanResult : Type := {
  scan_frequency : Q;
  scan_impedance : Q;
  scan_phase : Q
}.

Record GeneratedImpedance : Type := {
  impedance : ImpedanceData;
  device_id : string;
  frequency_scan : list ScanResult;
  measured_at : string
}.

Record GeneratedLifestyle : Type := {
  lifestyle : LifestyleData;
  recorded_at : string
}.

Record GeneratedGenetics : Type := {
  genetics : GeneticData;
  autoimmune : list (string * Q);
  analysis_method : string;
  analyzed_at : string
}.

Record DailyVitals : Type := {
  vitals_date : string;
  vitals_heart_rate : Q;
  vitals_blood_pressure : BloodPressure;
  steps : Z;
  sleep_hours : Q;
  active_minutes : Z
}.

(* ----------------------------------------------------------------- *)
(** *** [generate_user_profile] *)

Record ProfileDraws : Type := {
  k_gender : nat;
  k_age : nat;
  z_height : Q;
  z_weight : Q;
  u_smoking_status : Q;
  u_alcohol_frequency : Q;
  u_history_cardiovascular : Q;
  u_history_diabetes : Q;
  u_history_cancer : Q;
  u_history_neurodegenerative : Q
}.

Definition generate_user_profile (now : string) (draws : ProfileDraws) (user_id : string)
  : outcome GeneratedProfile :=
  let genders := ["Male"; "Female"] in
  let gender := choice genders (k_gender draws) in
  let age := randint 25 65 (k_age draws) in
  let height :=
    if String.eqb gender "Male" then py_round_n (normal 175 8 (z_height draws)) 1
    else py_round_n (normal 162 7 (z_height draws)) 1 in
  let weight_mean := (height - 100) + (if String.eqb gender "Male" then 10 else 0) in
  let weight_std := weight_mean * 0.15 in
  weight <~ np_normal weight_mean weight_std (z_weight draws) ;;
  let weight := py_round_n weight 1 in
  quotient <~ outcome_of (py_div weight ((height / 100) ^ 2)) ;;
  let bmi := py_round_n quotient 1 in
  let smoking_status :=
    choices "" ["Never"; "Former"; "Current"] [0.7; 0.2; 0.1] (u_smoking_status draws) in
  let alcohol_frequency :=
    choices "" ["None"; "Rare"; "Moderate"; "Frequent"] [0.2; 0.3; 0.4; 0.1]
      (u_alcohol_frequency draws) in
  let family_history :=
    {| cardiovascular_disease_history :=
         choices false [true; false] [0.3; 0.7] (u_history_cardiovascular draws);
       diabetes_history :=
         choices false [true; false] [0.2; 0.8] (u_history_diabetes draws);
       cancer_history :=
         choices false [true; false] [0.25; 0.75] (u_history_cancer draws);
       neurodegenerative_disease_history :=
         choices false [true; false] [0.15; 0.85] (u_history_neurodegenerative draws) |} in
  Returned
    {| profile :=
         {| user_id := Some user_id; gender := gender; age := inject_Z age;
            height_cm := height; weight_kg := weight; bmi := bmi;
            smoking_status := smoking_status;
            alcohol_frequency := alcohol_frequency |};
       family_history := family_history;
       created_at := now |}.

(* ----------------------------------------------------------------- *)
(** *** [generate_impedance_data] *)

Record ImpedanceDraws : Type := {
  z_biological_age : Q;
  z_impedance_variation : nat -> Q;
  z_phase_variation : nat -> Q;
  k_device : nat
}.

Definition frequencies : list Q := [100; 200; 500; 1000; 2000; 5000; 10000; 20000].
Definition base_impedance : list Q := [1000; 900; 800; 700; 600; 500; 400; 300].
Definition base_phase : list Q := [45; 40; 35; 30; 25; 20; 15; 10].

(** The body of the loop over [enumerate(frequencies)]. *)
Definition scan (draws : ImpedanceDraws) (biological_age : Q) (i : nat) (freq : Q)
  : ScanResult :=
  let age_impedance_factor := 1 + (biological_age - 40) / 100 in
  let impedance_variation :=
    normal 0 (nth i base_impedance 0 * 0.05) (z_impedance_variation draws i) in
  let phase_variation := normal 0 3 (z_phase_variation draws i) in
  let impedance :=
    round0 (nth i base_impedance 0 * age_impedance_factor + impedance_variation) in
  let phase := py_round_n (nth i base_phase 0 + phase_variation) 1 in
  {| scan_frequency := freq; scan_impedance := impedance; scan_phase := phase |}.

Fixpoint scan_from (draws : ImpedanceDraws) (biological_age : Q) (i : nat)
    (freqs : list Q) : list ScanResult :=
  match freqs with
  | [] => []
  | freq :: freqs' =>
      scan draws biological_age i freq :: scan_from draws biological_age (S i) freqs'
  end.

Definition generate_impedance_data (now : string) (draws : ImpedanceDraws)
    (user_profile : UserProfile) : result GeneratedImpedance :=
  let age := age user_profile in
  let biological_age_factor := normal 0 5 (z_biological_age draws) in
  let biological_age := py_max 20 (age + biological_age_factor) in
  let scan_results := scan_from draws biological_age 0 frequencies in
  _ <- getitem "user_id" (user_id user_profile) ;;
  Ok {| impedance :=
          {| chronological_age := age;
             estimated_biological_age := py_round_n biological_age 1 |};
        device_id := String.append "EAR-IMP-" (str_int (randint 1000 9999 (k_device draws)));
        frequency_scan := scan_results;
        measured_at := now |}.

(* ----------------------------------------------------------------- *)
(** *** [generate_lifestyle_data] *)

Record LifestyleDraws : Type := {
  u_exercise_frequency : Q;
  k_minutes : nat;
  u_num_exercise_types : Q;
  k_exercise_types : nat -> nat;
  z_sleep_hours : Q;
  u_sleep_quality : Q;
  u_diet_type : Q;
  z_fruit_veg : Q;
  u_processed_food : Q;
  u_stress_level : Q
}.

Definition exercise_types : list string :=
  ["Walking"; "Running"; "Cycling"; "Swimming"; "Weight Training";
   "Yoga"; "Team Sports"; "HIIT"; "Pilates"; "Dancing"].

Definition generate_lifestyle_data (now : string) (draws : LifestyleDraws)
    (user_profile : UserProfile) : result GeneratedLifestyle :=
  let exercise_frequency :=
    choices "" ["Sedentary"; "Light"; "Moderate"; "Active"; "Very Active"]
      [0.2; 0.3; 0.3; 0.15; 0.05] (u_exercise_frequency draws) in
  let exercise_minutes_per_week :=
    if String.eqb exercise_frequency "Sedentary" then randint 0 30 (k_minutes draws)
    else if String.eqb exercise_frequency "Light" then randint 30 90 (k_minutes draws)
    else if String.eqb exercise_frequency "Moderate" then randint 90 180 (k_minutes draws)
    else if String.eqb exercise_frequency "Active" then randint 180 300 (k_minutes draws)
    else randint 300 600 (k_minutes draws) in
  let num_exercise_types :=
    choices 0%nat [0; 1; 2; 3; 4]%nat [0.2; 0.3; 0.3; 0.15; 0.05]
      (u_num_exercise_types draws) in
  let selected_exercise_types :=
    if Nat.eqb num_exercise_types 0 then []
    else sample exercise_types num_exercise_types (k_exercise_types draws) in
  let avg_sleep_hours := py_round_n (normal 7 1 (z_sleep_hours draws)) 1 in
  let sleep_quality :=
    choices "" ["Poor"; "Fair"; "Good"; "Excellent"] [0.1; 0.3; 0.4; 0.2]
      (u_sleep_quality draws) in
  let diet_type :=
    choices "" ["Standard"; "Mediterranean"; "Vegetarian"; "Vegan"; "Low-carb";
                "Pescatarian"]
      [0.5; 0.15; 0.15; 0.05; 0.1; 0.05] (u_diet_type draws) in
  let fruit_veg_servings := round0 (normal 3 1.5 (z_fruit_veg draws)) in
  let fruit_veg_servings := py_max 0 fruit_veg_servings in
  let processed_food_frequency :=
    choices "" ["Rarely"; "Sometimes"; "Often"; "Very Frequently"] [0.1; 0.4; 0.4; 0.1]
      (u_processed_food draws) in
  let stress_level :=
    choices "" ["Low"; "Moderate"; "High"; "Very High"] [0.1; 0.5; 0.3; 0.1]
      (u_stress_level draws) in
  _ <- getitem "user_id" (user_id user_profile) ;;
  Ok {| lifestyle :=
          {| exercise :=
               {| frequency := exercise_frequency;
                  minutes_per_week := inject_Z exercise_minutes_per_week;
                  types := selected_exercise_types |};
             sleep := {| average_hours := avg_sleep_hours; quality := sleep_quality |};
             diet :=
               {| diet_type := diet_type;
                  fruit_veg_servings_daily := fruit_veg_servings;
                  processed_food_frequency := processed_food_frequency |};
             stress_level := stress_level |};
        recorded_at := now |}.

(* ----------------------------------------------------------------- *)
(** *** [generate_genetic_risk_data] *)

Record GeneticDraws : Type := {
  u_cardiovascular_disease : Q;
  u_type_2_diabetes : Q;
  u_colorectal : Q;
  u_breast : Q;
  u_prostate : Q;
  u_lung : Q;
  u_skin : Q;
  u_alzheimers : Q;
  u_parkinsons : Q;
  u_rheumatoid_arthritis : Q;
  u_multiple_sclerosis : Q;
  u_family_cardiovascular : Q;
  u_family_diabetes : Q;
  u_family_cancer : nat -> Q;
  u_family_alzheimers : Q;
  u_family_parkinsons : Q
}.

(** [for k in d: d[k] *= random.uniform(a, b)], the draws counted from
    [i]. *)
Fixpoint scale_each (a b : Q) (u : nat -> Q) (i : nat) (d : list (string * Q))
  : list (string * Q) :=
  match d with
  | [] => []
  | (k, v) :: d' => (k, v * uniform a b (u i)) :: scale_each a b u (S i) d'
  end.

(** [for k in d: d[k] = min(1.0, d[k])]. *)
Definition cap_each (d : list (string * Q)) : list (string * Q) :=
  map (fun entry => (fst entry, py_min 1.0 (snd entry))) d.

(** [family_history] is [user_profile["family_history"]]. *)
Definition generate_genetic_risk_data (now : string) (draws : GeneticDraws)
    (family_history : FamilyHistory) (user_profile : UserProfile)
  : result GeneratedGenetics :=
  let cardiovascular := uniform 0.05 0.15 (u_cardiovascular_disease draws) in
  let diabetes := uniform 0.05 0.15 (u_type_2_diabetes draws) in
  let cancer_risks :=
    [("colorectal", uniform 0.03 0.08 (u_colorectal draws));
     ("breast", if String.eqb (gender user_profile) "Female"
                then uniform 0.03 0.08 (u_breast draws) else 0.001);
     ("prostate", if String.eqb (gender user_profile) "Male"
                  then uniform 0.05 0.10 (u_prostate draws) else 0);
     ("lung", uniform 0.02 0.06 (u_lung draws));
     ("skin", uniform 0.02 0.07 (u_skin draws))] in
  let alzheimers := uniform 0.02 0.08 (u_alzheimers draws) in
  let parkinsons := uniform 0.01 0.04 (u_parkinsons draws) in
  let autoimmune_risks :=
    [("rheumatoid_arthritis", uniform 0.01 0.03 (u_rheumatoid_arthritis draws));
     ("multiple_sclerosis", uniform 0.005 0.02 (u_multiple_sclerosis draws))] in
  let cardiovascular :=
    if cardiovascular_disease_history family_history
    then cardiovascular * uniform 1.5 2.5 (u_family_cardiovascular draws)
    else cardiovascular in
  let diabetes :=
    if diabetes_history family_history
    then diabetes * uniform 1.5 2.5 (u_family_diabetes draws)
    else diabetes in
  let cancer_risks :=
    if cancer_history family_history
    then scale_each 1.3 2.0 (u_family_cancer draws) 0 cancer_risks
    else cancer_risks in
  let alzheimers :=
    if neurodegenerative_disease_history family_history
    then alzheimers * uniform 1.5 3.0 (u_family_alzheimers draws) else alzheimers in
  let parkinsons :=
    if neurodegenerative_disease_history family_history
    then parkinsons * uniform 1.5 2.5 (u_family_parkinsons draws) else parkinsons in
  let cardiovascular := py_min 1.0 cardiovascular in
  let diabetes := py_min 1.0 diabetes in
  let cancer_risks := cap_each cancer_risks in
  let neurodegenerative_risks :=
    cap_each [("alzheimers", alzheimers); ("parkinsons", parkinsons)] in
  let autoimmune_risks := cap_each autoimmune_risks in
  _ <- getitem "user_id" (user_id user_profile) ;;
  Ok {| genetics :=
          {| risk_factors :=
               {| cardiovascular_disease := cardiovascular;
                  type_2_diabetes := diabetes;
                  cancer := cancer_risks;
                  neurodegenerative := neurodegenerative_risks |} |};
        autoimmune := autoimmune_risks;
        analysis_method := "Simulated genetic profile analysis";
        analyzed_at := now |}.

(* ----------------------------------------------------------------- *)
(** *** [generate_daily_vitals] *)

Record VitalsDraws : Type := {
  z_vitals_heart_rate : Q;
  z_vitals_systolic : Q;
  z_vitals_diastolic : Q;
  u_higher_bp_day : Q;
  k_higher_systolic : nat;
  k_higher_diastolic : nat;
  u_higher_heart_rate_day : Q;
  k_higher_heart_rate : nat;
  u_activity_level : Q;
  z_steps : Q;
  z_vitals_sleep_hours : Q
}.

(** The body of the loop for day [i]; [date] is
    [(datetime.now() - timedelta(days=days-i-1)).date().isoformat()]. *)
Definition vitals_of_day (date : string) (draws : VitalsDraws)
    (user_profile : UserProfile) (base_heart_rate base_systolic base_diastolic : Q)
  : result DailyVitals :=
  let heart_rate := round0 (normal base_heart_rate 5 (z_vitals_heart_rate draws)) in
  let systolic := round0 (normal base_systolic 8 (z_vitals_systolic draws)) in
  let diastolic := round0 (normal base_diastolic 6 (z_vitals_diastolic draws)) in
  let higher_bp_day := u_higher_bp_day draws <? 0.1 in
  let systolic :=
    if higher_bp_day
    then systolic + inject_Z (randint 5 15 (k_higher_systolic draws)) else systolic in
  let diastolic :=
    if higher_bp_day
    then diastolic + inject_Z (randint 3 8 (k_higher_diastolic draws)) else diastolic in
  let heart_rate :=
    if u_higher_heart_rate_day draws <? 0.1
    then heart_rate + inject_Z (randint 5 20 (k_higher_heart_rate draws))
    else heart_rate in
  let activity_level := u_activity_level draws in
  let steps := py_int (normal (7000 * activity_level) 2000 (z_steps draws)) in
  let steps := Z.max 0 steps in
  let sleep_hours := py_round_n (normal 7 1.2 (z_vitals_sleep_hours draws)) 1 in
  let sleep_hours := py_max 3.0 (py_min 12.0 sleep_hours) in
  _ <- getitem "user_id" (user_id user_profile) ;;
  Ok {| vitals_date := date;
        vitals_heart_rate := heart_rate;
        vitals_blood_pressure := {| systolic := systolic; diastolic := diastolic |};
        steps := steps;
        sleep_hours := sleep_hours;
        active_minutes := py_int (inject_Z steps / 100) |}.

(** The loop over [range(days)] from day [i] on, [remaining] days to go. *)
Fixpoint vitals_from (date : nat -> string) (draws : nat -> VitalsDraws)
    (user_profile : UserProfile) (base_heart_rate base_systolic base_diastolic : Q)
    (i remaining : nat) : result (list DailyVitals) :=
  match remaining with
  | O => Ok []
  | S remaining' =>
      vitals <- vitals_of_day (date i) (draws i) user_profile
                  base_heart_rate base_systolic base_diastolic ;;
      rest <- vitals_from date draws user_profile
                base_heart_rate base_systolic base_diastolic (S i) remaining' ;;
      Ok (vitals :: rest)
  end.

Definition generate_daily_vitals (date : nat -> string) (draws : nat -> VitalsDraws)
    (user_profile : UserProfile) (base_health_metrics : HealthMetrics) (days : Z)
  : result (list DailyVitals) :=
  let base_heart_rate := resting_heart_rate base_health_metrics in
  let base_systolic := systolic (blood_pressure base_health_metrics) in
  let base_diastolic := diastolic (blood_pressure base_health_metrics) in
  vitals_from date draws user_profile base_heart_rate base_systolic base_diastolic
    0 (Z.to_nat days).

(* ----------------------------------------------------------------- *)
(** *** [generate_complete_user_dataset] *)

Record DatasetDraws : Type := {
  k_user_id : nat;
  profile_draws : ProfileDraws;
  health_draws : HealthDraws;
  impedance_draws : ImpedanceDraws;
  lifestyle_draws : LifestyleDraws;
  genetic_draws : GeneticDraws;
  vitals_draws : nat -> VitalsDraws
}.

Record Dataset : Type := {
  dataset_profile : GeneratedProfile;
  dataset_health_metrics : HealthMetrics;
  dataset_impedance : GeneratedImpedance;
  dataset_lifestyle : GeneratedLifestyle;
  dataset_genetics : GeneratedGenetics;
  daily_vitals : list DailyVitals
}.

(** The five sections of a generated dataset that the predictor reads. *)
Definition user_data_of (d : Dataset) : UserData :=
  complete_record (profile (dataset_profile d)) (dataset_health_metrics d)
    (impedance (dataset_impedance d)) (lifestyle (dataset_lifestyle d))
    (genetics (dataset_genetics d)).

(** [clock] gives the readings of [datetime.now()] of the four generators
    that stamp their dict, [date] the dates of the daily vitals. *)
Definition generate_complete_user_dataset (clock : nat -> string) (date : nat -> string)
    (draws : DatasetDraws) (user_id : option string) : outcome Dataset :=
  let user_id :=
    match user_id with
    | None => String.append "user_" (str_int (randint 1000 9999 (k_user_id draws)))
    | Some user_id => user_id
    end in
  user_profile <~ generate_user_profile (clock 0%nat) (profile_draws draws) user_id ;;
  health_metrics <~
    outcome_of (generate_health_metrics (health_draws draws) (profile user_profile)) ;;
  impedance_data <~
    outcome_of (generate_impedance_data (clock 1%nat) (impedance_draws draws)
                  (profile user_profile)) ;;
  lifestyle_data <~
    outcome_of (generate_lifestyle_data (clock 2%nat) (lifestyle_draws draws)
                  (profile user_profile)) ;;
  genetic_data <~
    outcome_of (generate_genetic_risk_data (clock 3%nat) (genetic_draws draws)
                  (family_history user_profile) (profile user_profile)) ;;
  daily_vitals <~
    outcome_of (generate_daily_vitals date (vitals_draws draws) (profile user_profile)
                  health_metrics 30) ;;
  Returned
    {| dataset_profile := user_profile;
       dataset_health_metrics := health_metrics;
       dataset_impedance := impedance_data;
       dataset_lifestyle := lifestyle_data;
       dataset_genetics := genetic_data;
       daily_vitals := daily_vitals |}.

(* ----------------------------------------------------------------- *)
(** *** Draws within their range, and sample draws *)

Definition genetic_draws_in_range (draws : GeneticDraws) : Prop :=
  unit_draw (u_cardiovascular_disease draws) /\
  unit_draw (u_type_2_diabetes draws) /\
  unit_draw (u_colorectal draws) /\
  unit_draw (u_breast draws) /\
  unit_draw (u_prostate draws) /\
  unit_draw (u_lung draws) /\
  unit_draw (u_skin draws) /\
  unit_draw (u_alzheimers draws) /\
  unit_draw (u_parkinsons draws) /\
  unit_draw (u_rheumatoid_arthritis draws) /\
  unit_draw (u_multiple_sclerosis draws) /\
  unit_draw (u_family_cardiovascular draws) /\
  unit_draw (u_family_diabetes draws) /\
  (forall i : nat, unit_draw (u_family_cancer draws i)) /\
  unit_draw (u_family_alzheimers draws) /\
  unit_draw (u_family_parkinsons draws).

Module sample_generation.

Definition for_profile : ProfileDraws :=
  {| k_gender := 0; k_age := 25; z_height := 0; z_weight := 0;
     u_smoking_status := 0.95; u_alcohol_frequency := 0.5;
     u_history_cardiovascular := 0.1; u_history_diabetes := 0.5;
     u_history_cancer := 0.1; u_history_neurodegenerative := 0.5 |}.

Definition for_impedance : ImpedanceDraws :=
  {| z_biological_age := 0.4; z_impedance_variation := fun _ => 0;
     z_phase_variation := fun _ => 0; k_device := 234 |}.

Definition for_lifestyle : LifestyleDraws :=
  {| u_exercise_frequency := 0.1; k_minutes := 20; u_num_exercise_types := 0.6;
     k_exercise_types := fun _ => 0%nat; z_sleep_hours := -1.5; u_sleep_quality := 0.2;
     u_diet_type := 0.2; z_fruit_veg := -1; u_processed_food := 0.95;
     u_stress_level := 0.95 |}.

Definition for_genetic : GeneticDraws :=
  {| u_cardiovascular_disease := 0.5; u_type_2_diabetes := 0.5; u_colorectal := 0.5;
     u_breast := 0.5; u_prostate := 0.5; u_lung := 0.5; u_skin := 0.5;
     u_alzheimers := 0.5; u_parkinsons := 0.5; u_rheumatoid_arthritis := 0.5;
     u_multiple_sclerosis := 0.5; u_family_cardiovascular := 0.5;
     u_family_diabetes := 0.5; u_family_cancer := fun _ => 0.5;
     u_family_alzheimers := 0.5; u_family_parkinsons := 0.5 |}.

Definition history : FamilyHistory :=
  {| cardiovascular_disease_history := true; diabetes_history := false;
     cancer_history := true; neurodegenerative_disease_history := false |}.

(** Every normal draw at its mean. *)
Definition for_health : HealthDraws :=
  {| z_systolic := 0; z_diastolic := 0; u_fitness_level := 0.5; z_heart_rate := 0;
     z_cholesterol := 0; z_hdl := 0; z_triglycerides := 0; z_glucose := 0;
     z_hba1c := 0; z_vo2max := 0; z_body_fat := 0 |}.

Definition for_vitals : VitalsDraws :=
  {| z_vitals_heart_rate := 0; z_vitals_systolic := 0; z_vitals_diastolic := 0;
     u_higher_bp_day := 0.05; k_higher_systolic := 3; k_higher_diastolic := 2;
     u_higher_heart_rate_day := 0.5; k_higher_heart_rate := 0;
     u_activity_level := 0.5; z_steps := 0.1; z_vitals_sleep_hours := 0 |}.

Definition for_dataset : DatasetDraws :=
  {| k_user_id := 41; profile_draws := for_profile;
     health_draws := for_health; impedance_draws := for_impedance;
     lifestyle_draws := for_lifestyle; genetic_draws := for_genetic;
     vitals_draws := fun _ => for_vitals |}.

Definition date (i : nat) : string :=
  String.append "2024-04-" (str_int (Z.of_nat (i + 1))).

End sample_generation.

(* ================================================================= *)
(** ** [SimulationRunner._calculate_distribution] *)

(** A bin key [f"{a:.1f}_{b:.1f}"] is kept as the two numbers it prints,
    rounded to one decimal; two keys are the same string when both numbers
    agree. *)
Definition BinKey : Type := (Q * Q)%type.

Definition bin_key_of (current bin_size : Q) : BinKey :=
  (py_round_n current 1, py_round_n (current + bin_size) 1).

Definition key_eqb (k1 k2 : BinKey) : bool :=
  (fst k1 =? fst k2) && (snd k1 =? snd k2).

(** [bins[k] = v]: an existing key keeps its place. *)
Fixpoint bins_set (bins : list (BinKey * Z)) (k : BinKey) (v : Z) : list (BinKey * Z) :=
  match bins with
  | [] => [(k, v)]
  | (k', v') :: bins' =>
      if key_eqb k k' then (k', v) :: bins' else (k', v') :: bins_set bins' k v
  end.

(** [bins[k] += 1] for a key of the dict. *)
Fixpoint bins_increment (bins : list (BinKey * Z)) (k : BinKey) : list (BinKey * Z) :=
  match bins with
  | [] => []
  | (k', v') :: bins' =>
      if key_eqb k k' then (k', (v' + 1)%Z) :: bins' else (k', v') :: bins_increment bins' k
  end.

(** [min(values)] and [max(values)] of a list that is not empty. *)
Definition list_min (values : list Q) : Q :=
  match values with
  | [] => 0
  | v :: values' => fold_left (fun m x => if x <? m then x else m) values' v
  end.

Definition list_max (values : list Q) : Q :=
  match values with
  | [] => 0
  | v :: values' => fold_left (fun m x => if m <? x then x else m) values' v
  end.

(** The [while current <= max_val] loop; it runs out of [fuel] when it
    needs more iterations than that. *)
Fixpoint create_bins (fuel : nat) (bins : list (BinKey * Z)) (current max_val bin_size : Q)
  : option (list (BinKey * Z)) :=
  match fuel with
  | O => None
  | S fuel' =>
      if current <=? max_val then
        let bin_key := bin_key_of current bin_size in
        create_bins fuel' (bins_set bins bin_key 0%Z) (current + bin_size) max_val bin_size
      else Some bins
  end.

(** [l[i]] for an integer index: a negative index counts from the end. *)
Definition list_getitem {A : Type} (l : list A) (i : Z) : outcome A :=
  let n := Z.of_nat (length l) in
  let i := if (i <? 0)%Z then (n + i)%Z else i in
  if ((i <? 0) || (n <=? i))%Z then RaisedIndexError "list index out of range"
  else
    match nth_error l (Z.to_nat i) with
    | Some a => Returned a
    | None => RaisedIndexError "list index out of range"
    end.

(** The [for val in values] loop. *)
Fixpoint count_values (bins : list (BinKey * Z)) (min_val bin_size : Q) (values : list Q)
  : outcome (list (BinKey * Z)) :=
  match values with
  | [] => Returned bins
  | val :: values' =>
      let bin_index :=
        Z.min (py_int ((val - min_val) / bin_size)) (Z.of_nat (length bins) - 1) in
      bin_key <~ list_getitem (map fst bins) bin_index ;;
      count_values (bins_increment bins bin_key) min_val bin_size values'
  end.

(** [None]: the loop has not ended within [fuel] iterations. *)
Definition _calculate_distribution (fuel : nat) (values : list Q) (bin_size : Q)
  : option (outcome (list (BinKey * Z))) :=
  match values with
  | [] => Some (Returned [])
  | _ :: _ =>
      let min_val := list_min values in
      let max_val := list_max values in
      if bin_size =? 0 then Some (Raised ZeroDivisionError)
      else
        let min_val := bin_size * inject_Z (Qfloor (min_val / bin_size)) in
        match create_bins fuel [] min_val max_val bin_size with
        | None => None
        | Some bins => Some (count_values bins min_val bin_size values)
        end
  end.

(** [sum(bins.values())]. *)
Definition total_count (bins : list (BinKey * Z)) : Z :=
  fold_right Z.add 0%Z (map snd bins).

(* ================================================================= *)
(** ** [SimulationRunner._generate_summary_report] *)

(** One entry of [all_results], with the two keys the report reads. *)
Record SimulationResult : Type := {
  result_user_data : UserData;
  result_analysis : AnalysisResult
}.

Record Averages : Type := {
  average_life_expectancy : Q;
  average_chronological_age : Q;
  average_biological_age : Q;
  average_biological_age_difference : Q;
  average_risk_levels : list (string * Q)
}.

Record Summary : Type := {
  summary_simulation_id : string;
  num_users : Z;
  averages : Averages;
  distribution_life_expectancy : list (BinKey * Z);
  distribution_biological_vs_chronological : list (BinKey * Z);
  summary_generated_at : string
}.

(** The lists the loop over [all_results] fills. *)
Record Metrics : Type := {
  life_expectancies : list Q;
  biological_ages : list Q;
  chronological_ages : list Q;
  bio_age_diffs : list Q;
  health_risks_lists : list (string * list Q)
}.

Definition no_metrics : Metrics :=
  {| life_expectancies := []; biological_ages := []; chronological_ages := [];
     bio_age_diffs := [];
     health_risks_lists :=
       [("cardiovascular", []); ("metabolic", []); ("neurological", []); ("cancer", [])] |}.

(** [analysis["health_risks"]["risks"][risk_type]]. *)
Definition risk_of (r : Risks) (risk_type : string) : result RiskEntry :=
  if String.eqb risk_type "cardiovascular" then Ok (cardiovascular r)
  else if String.eqb risk_type "metabolic" then Ok (metabolic r)
  else if String.eqb risk_type "neurological" then Ok (neurological r)
  else if String.eqb risk_type "cancer" then Ok (cancer_entry r)
  else Raise (KeyError risk_type).

(** [for risk_type in health_risks.keys(): health_risks[risk_type].append(...)]. *)
Fixpoint append_risk_levels (r : Risks) (lists : list (string * list Q))
  : result (list (string * list Q)) :=
  match lists with
  | [] => Ok []
  | (risk_type, levels) :: lists' =>
      entry <- risk_of r risk_type ;;
      rest <- append_risk_levels r lists' ;;
      Ok ((risk_type, levels ++ [risk_level entry]) :: rest)
  end.

(** The body of the loop over [all_results]. *)
Definition collect (m : Metrics) (entry : SimulationResult) : result Metrics :=
  match result_analysis entry with
  | analysis_results _ life_expectancy biological_age_section health_risks _ _ =>
      lists <- append_risk_levels (risks health_risks) (health_risks_lists m) ;;
      Ok {| life_expectancies :=
              life_expectancies m ++ [predicted_life_expectancy life_expectancy];
            biological_ages := biological_ages m ++ [biological_age biological_age_section];
            chronological_ages :=
              chronological_ages m ++ [bio_chronological_age biological_age_section];
            bio_age_diffs := bio_age_diffs m ++ [age_difference biological_age_section];
            health_risks_lists := lists |}
  | error_results _ _ _ => Ok m
  end.

Fixpoint collect_all (m : Metrics) (all_results : list SimulationResult) : result Metrics :=
  match all_results with
  | [] => Ok m
  | entry :: all_results' =>
      m' <- collect m entry ;;
      collect_all m' all_results'
  end.

(** [sum(l) / len(l) if l else 0]. *)
Definition average (l : list Q) : Q :=
  match l with
  | [] => 0
  | _ :: _ => py_sum l / py_len l
  end.

(** [stamp] is [datetime.now().strftime('%Y%m%d%H%M%S')] and [now] is
    [datetime.now().isoformat()]; [None] when a distribution has not ended
    within [fuel] iterations. *)
Definition _generate_summary_report (stamp now : string) (fuel : nat)
    (all_results : list SimulationResult) : option (outcome Summary) :=
  match collect_all no_metrics all_results with
  | Raise e => Some (Raised e)
  | Ok m =>
      let avg_life_expectancy := average (life_expectancies m) in
      let avg_chronological_age := average (chronological_ages m) in
      let avg_biological_age := average (biological_ages m) in
      let avg_bio_age_diff := average (bio_age_diffs m) in
      let risk_averages :=
        map (fun entry => (fst entry, average (snd entry))) (health_risks_lists m) in
      match _calculate_distribution fuel (life_expectancies m) 5 with
      | None => None
      | Some by_life_expectancy =>
          match _calculate_distribution fuel (bio_age_diffs m) 3 with
          | None =>
              match by_life_expectancy with
              | Returned _ => None
              | Raised e => Some (Raised e)
              | RaisedValueError message => Some (RaisedValueError message)
              | RaisedIndexError message => Some (RaisedIndexError message)
              end
          | Some by_age_difference =>
              Some (life_expectancy <~ by_life_expectancy ;;
                    biological_vs_chronological <~ by_age_difference ;;
                    Returned
                      {| summary_simulation_id := String.append "multi_sim_" stamp;
                         num_users := Z.of_nat (length all_results);
                         averages :=
                           {| average_life_expectancy := py_round_n avg_life_expectancy 1;
                              average_chronological_age :=
                                py_round_n avg_chronological_age 1;
                              average_biological_age := py_round_n avg_biological_age 1;
                              average_biological_age_difference :=
                                py_round_n avg_bio_age_diff 1;
                              average_risk_levels :=
                                map (fun entry => (fst entry, py_round_n (snd entry) 2))
                                    risk_averages |};
                         distribution_life_expectancy := life_expectancy;
                         distribution_biological_vs_chronological :=
                           biological_vs_chronological;
                         summary_generated_at := now |})
          end
      end
  end.

(** The entries of [all_results] whose analysis succeeded. *)
Definition successes (all_results : list SimulationResult) : list SimulationResult :=
  filter (fun entry => String.eqb (status (result_analysis entry)) "success") all_results.
Definition risk_types : list string :=
  ["cardiovascular"; "metabolic"; "neurological"; "cancer"].

(* ================================================================= *)
(** ** [SimulationRunner._generate_scenario_comparison] *)

Record Change : Type := {
  change_original : Q;
  change_scenario : Q;
  change_difference : Q
}.

Record RiskChange : Type := {
  risk_original : Q;
  risk_scenario : Q;
  risk_difference : Q;
  percent_reduction : Q
}.

(** The returned dict: its [status] key tells the two shapes apart. *)
Inductive Comparison : Type :=
| comparison_error (message : string)
| comparison_results (life_expectancy_change : Change) (biological_age_change : Change)
    (health_risks_change : list (string * RiskChange)).

(** The body of the loop over the risk types. *)
Definition compare_risk (original scenario : Risks) (risk_type : string)
  : result RiskChange :=
  original_entry <- risk_of original risk_type ;;
  let original_risk := risk_level original_entry in
  scenario_entry <- risk_of scenario risk_type ;;
  let scenario_risk := risk_level scenario_entry in
  Ok {| risk_original := original_risk;
        risk_scenario := scenario_risk;
        risk_difference := py_round_n (original_risk - scenario_risk) 2;
        percent_reduction :=
          py_round_n (if original_risk >? 0
                      then (original_risk - scenario_risk) / original_risk * 100
                      else 0) 1 |}.

Fixpoint compare_risks (original scenario : Risks) (risk_types : list string)
  : result (list (string * RiskChange)) :=
  match risk_types with
  | [] => Ok []
  | risk_type :: risk_types' =>
      change <- compare_risk original scenario risk_type ;;
      rest <- compare_risks original scenario risk_types' ;;
      Ok ((risk_type, change) :: rest)
  end.

(** [original] is the analysis stored in [<user_id>_analysis.json]; [None]
    when the file does not exist. *)
Definition _generate_scenario_comparison (original : option AnalysisResult)
    (scenario_results : AnalysisResult) : result Comparison :=
  match original with
  | None => Ok (comparison_error "Original analysis not found for comparison")
  | Some original =>
      match original, scenario_results with
      | analysis_results _ original_life original_age original_risks _ _,
        analysis_results _ scenario_life scenario_age scenario_risks _ _ =>
          let life :=
            {| change_original := predicted_life_expectancy original_life;
               change_scenario := predicted_life_expectancy scenario_life;
               change_difference :=
                 py_round_n (predicted_life_expectancy scenario_life
                             - predicted_life_expectancy original_life) 1 |} in
          let age :=
            {| change_original := biological_age original_age;
               change_scenario := biological_age scenario_age;
               change_difference :=
                 py_round_n (biological_age original_age - biological_age scenario_age) 1 |} in
          changes <- compare_risks (risks original_risks) (risks scenario_risks)
                       ["cardiovascular"; "metabolic"; "neurological"; "cancer"] ;;
          Ok (comparison_results life age changes)
      | _, _ => Ok (comparison_error "One or both analyses had errors")
      end
  end.

(* ================================================================= *)
(** * Properties *)

(** ** Numbers *)

Section Numbers.

Lemma Qltb_lt (x y : Q) : Qltb x y = true <-> x < y.
Proof.
  unfold Qltb. rewrite negb_true_iff. split.
  - intros H. apply Qnot_le_lt. intros C. apply Qle_bool_iff in C. congruence.
  - intros H. destruct (Qle_bool y x) eqn:E; [|reflexivity].
    apply Qle_bool_iff in E. exfalso. exact (Qlt_not_le _ _ H E).
Qed.

Lemma Qltb_ge (x y : Q) : Qltb x y = false <-> y <= x.
Proof.
  unfold Qltb. rewrite negb_false_iff. apply Qle_bool_iff.
Qed.

Lemma Qle_bool_gt (x y : Q) : Qle_bool x y = false <-> y < x.
Proof.
  rewrite <- Qltb_lt. unfold Qltb. now rewrite negb_true_iff.
Qed.

Lemma Qeq_bool_false (x y : Q) : Qeq_bool x y = false <-> ~ x == y.
Proof.
  split.
  - apply Qeq_bool_neq.
  - intros H. destruct (Qeq_bool x y) eqn:E; [|reflexivity].
    apply Qeq_bool_iff in E. contradiction.
Qed.

End Numbers.

(** Case analysis on the comparisons of a goal, turning each boolean test
    into the order fact it decides. *)
Ltac cmp_cases :=
  repeat match goal with
  | |- context [Qltb ?a ?b] =>
      let E := fresh "E" in
      destruct (Qltb a b) eqn:E;
      [apply Qltb_lt in E | apply Qltb_ge in E]
  | |- context [Qle_bool ?a ?b] =>
      let E := fresh "E" in
      destruct (Qle_bool a b) eqn:E;
      [apply Qle_bool_iff in E | apply Qle_bool_gt in E]
  | |- context [Qeq_bool ?a ?b] =>
      let E := fresh "E" in
      destruct (Qeq_bool a b) eqn:E;
      [apply Qeq_bool_iff in E | apply Qeq_bool_false in E]
  end.

Section Rounding.

Lemma py_max_cases (a b : Q) :
  (a < b /\ py_max a b = b) \/ (b <= a /\ py_max a b = a).
Proof. unfold py_max. cmp_cases; auto. Qed.

Lemma py_min_cases (a b : Q) :
  (b < a /\ py_min a b = b) \/ (a <= b /\ py_min a b = a).
Proof. unfold py_min. cmp_cases; auto. Qed.

Lemma py_max_lub_l (a b : Q) : a <= py_max a b.
Proof. destruct (py_max_cases a b) as [[H ->]|[H ->]]; lra. Qed.

Lemma py_max_lub_r (a b : Q) : b <= py_max a b.
Proof. destruct (py_max_cases a b) as [[H ->]|[H ->]]; lra. Qed.

Lemma py_min_glb_l (a b : Q) : py_min a b <= a.
Proof. destruct (py_min_cases a b) as [[H ->]|[H ->]]; lra. Qed.

Lemma py_min_glb (a b c : Q) : c <= a -> c <= b -> c <= py_min a b.
Proof. intros. destruct (py_min_cases a b) as [[H1 ->]|[H1 ->]]; lra. Qed.

(** [round] stays within one half of its argument. *)
Lemma py_round_near (x : Q) :
  x - (1 # 2) <= inject_Z (py_round x) /\ inject_Z (py_round x) <= x + (1 # 2).
Proof.
  unfold py_round.
  pose proof (Qfloor_le x) as Hlo. pose proof (Qlt_floor x) as Hhi.
  rewrite inject_Z_plus in Hhi. change (inject_Z 1) with 1 in Hhi.
  destruct (Qcompare (x - inject_Z (Qfloor x)) (1 # 2)) eqn:E.
  - apply Qeq_alt in E. destruct (Z.even (Qfloor x)).
    + lra.
    + rewrite inject_Z_plus. change (inject_Z 1) with 1. lra.
  - apply Qlt_alt in E. lra.
  - apply Qgt_alt in E. rewrite inject_Z_plus. change (inject_Z 1) with 1. lra.
Qed.

Lemma inject_Z_lt_half (a b : Z) : inject_Z a - (1 # 2) <= inject_Z b -> (a <= b)%Z.
Proof.
  intros H. destruct (Z_le_gt_dec a b) as [L|G]; [exact L|exfalso].
  assert (b + 1 <= a)%Z as L by lia.
  rewrite Zle_Qle, inject_Z_plus in L. change (inject_Z 1) with 1 in L. lra.
Qed.

(** An integer below the argument is below its rounding. *)
Lemma py_round_ge (n : Z) (x : Q) : inject_Z n <= x -> (n <= py_round x)%Z.
Proof.
  intros H. apply inject_Z_lt_half. destruct (py_round_near x). lra.
Qed.

Lemma py_round_le (n : Z) (x : Q) : x <= inject_Z n -> (py_round x <= n)%Z.
Proof.
  intros H. destruct (py_round_near x) as [_ Hhi].
  destruct (Z_le_gt_dec (py_round x) n) as [L|G]; [exact L|exfalso].
  assert (n + 1 <= py_round x)%Z as L by lia.
  rewrite Zle_Qle, inject_Z_plus in L. change (inject_Z 1) with 1 in L. lra.
Qed.

Lemma py_round_exact (n : Z) (x : Q) : x == inject_Z n -> py_round x = n.
Proof.
  intros H. apply Z.le_antisymm.
  - apply py_round_le. lra.
  - apply py_round_ge. lra.
Qed.

(** Rounding depends on the number only, not on the fraction that
    denotes it. *)
Lemma py_round_comp (x y : Q) : x == y -> py_round x = py_round y.
Proof.
  intros H. unfold py_round. rewrite (Qfloor_comp x y H).
  assert (Qcompare (x - inject_Z (Qfloor y)) (1 # 2)
          = Qcompare (y - inject_Z (Qfloor y)) (1 # 2)) as ->; [|reflexivity].
  apply Qcompare_comp; [now rewrite H | reflexivity].
Qed.

Lemma py_round_n_comp (x y : Q) (d : nat) : x == y -> py_round_n x d = py_round_n y d.
Proof.
  intros H. unfold py_round_n. rewrite (py_round_comp (x * pow10 d) (y * pow10 d)).
  - reflexivity.
  - now rewrite H.
Qed.

Lemma pow10_pos (d : nat) : 0 < pow10 d.
Proof.
  unfold pow10. replace 0 with (inject_Z 0) by reflexivity.
  rewrite <- Zlt_Qlt. apply Z.pow_pos_nonneg; lia.
Qed.

Lemma py_round_n_ge (n : Z) (x : Q) (d : nat) :
  inject_Z n <= x -> inject_Z n <= py_round_n x d.
Proof.
  intros H. unfold py_round_n. pose proof (pow10_pos d) as Hp.
  apply Qle_shift_div_l; [exact Hp|].
  unfold pow10 in *. rewrite <- inject_Z_mult, <- Zle_Qle.
  apply py_round_ge. rewrite inject_Z_mult. nra.
Qed.

Lemma py_round_n_le (n : Z) (x : Q) (d : nat) :
  x <= inject_Z n -> py_round_n x d <= inject_Z n.
Proof.
  intros H. unfold py_round_n. pose proof (pow10_pos d) as Hp.
  apply Qle_shift_div_r; [exact Hp|].
  unfold pow10 in *. rewrite <- inject_Z_mult, <- Zle_Qle.
  apply py_round_le. rewrite inject_Z_mult. nra.
Qed.

(** A multiple of the rounding step is its own rounding. *)
Lemma py_round_n_exact (k : Z) (x : Q) (d : nat) :
  x * pow10 d == inject_Z k -> py_round_n x d == x.
Proof.
  intros H. unfold py_round_n. rewrite (py_round_exact k _ H), <- H.
  pose proof (pow10_pos d). field. lra.
Qed.

End Rounding.

Section RoundingError.

(** Rounding to [d] decimals moves a number by at most half a unit of the
    last decimal. *)
Lemma py_round_n_near (x : Q) (d : nat) :
  x - (1 # 2) / pow10 d <= py_round_n x d /\ py_round_n x d <= x + (1 # 2) / pow10 d.
Proof.
  unfold py_round_n. pose proof (pow10_pos d) as Hp.
  destruct (py_round_near (x * pow10 d)) as [Hlo Hhi].
  split.
  - apply Qle_shift_div_l; [exact Hp|].
    setoid_replace ((x - (1 # 2) / pow10 d) * pow10 d) with (x * pow10 d - (1 # 2));
      [exact Hlo | field; lra].
  - apply Qle_shift_div_r; [exact Hp|].
    setoid_replace ((x + (1 # 2) / pow10 d) * pow10 d) with (x * pow10 d + (1 # 2));
      [exact Hhi | field; lra].
Qed.

Lemma py_round_1_near (x : Q) :
  x - 0.05 <= py_round_n x 1 /\ py_round_n x 1 <= x + 0.05.
Proof.
  destruct (py_round_n_near x 1) as [Hlo Hhi].
  assert ((1 # 2) / pow10 1 == 0.05) as E by reflexivity.
  rewrite E in Hlo, Hhi. split; assumption.
Qed.

End RoundingError.

(** ** Risk categories *)

(** C3: [_categorize_risk] is a step function of the number it is given,
    with cut points 0.15, 0.35 and 0.60: below 0.15 it answers "Low", from
    0.15 and below 0.35 "Moderate", from 0.35 and below 0.60 "High", from
    0.60 on "Very High"; a value at a cut point falls in the higher
    category, and equal numbers get the same answer. *)
Theorem categorize_risk_step (x : Q) :
  (x < 0.15 -> _categorize_risk x = "Low") /\
  (0.15 <= x < 0.35 -> _categorize_risk x = "Moderate") /\
  (0.35 <= x < 0.60 -> _categorize_risk x = "High") /\
  (0.60 <= x -> _categorize_risk x = "Very High") /\
  (forall y, x == y -> _categorize_risk x = _categorize_risk y).
Proof.
  unfold _categorize_risk. repeat split.
  - intros H. cmp_cases; try reflexivity; lra.
  - intros [H1 H2]. cmp_cases; try reflexivity; lra.
  - intros [H1 H2]. cmp_cases; try reflexivity; lra.
  - intros H. cmp_cases; try reflexivity; lra.
  - intros y H. cmp_cases; try reflexivity; lra.
Qed.

Lemma categorize_risk_step_witness :
  _categorize_risk 0.1 = "Low" /\
  _categorize_risk 0.15 = "Moderate" /\
  _categorize_risk 0.35 = "High" /\
  _categorize_risk 0.60 = "Very High".
Proof.
  split; [|split; [|split]].
  - apply (proj1 (categorize_risk_step 0.1)). reflexivity.
  - apply (proj1 (proj2 (categorize_risk_step 0.15))). split; [discriminate | reflexivity].
  - apply (proj1 (proj2 (proj2 (categorize_risk_step 0.35)))). split; [discriminate | reflexivity].
  - apply (proj1 (proj2 (proj2 (proj2 (categorize_risk_step 0.60))))). discriminate.
Defined.

(** ** Top priorities and estimated impact *)

Section Priorities.

Lemma flat_map_if_filter {A B : Type} (f : A -> B) (c : A -> bool) (l : list A) :
  flat_map (fun x => if c x then [f x] else []) l = map f (filter c l).
Proof.
  induction l as [|x l IH]; simpl; [reflexivity|].
  destruct (c x); simpl; now rewrite IH.
Qed.

Lemma high_priority_items (recs : RecommendationDict) :
  flat_map (fun '(category, l) =>
      flat_map (fun rec => if is_high_priority rec then [tag category rec] else []) l) recs
  = filter (fun x => is_high x || is_very_high x) (flattened recs).
Proof.
  unfold flattened. induction recs as [|[category l] recs IH]; simpl; [reflexivity|].
  rewrite filter_app, <- IH. f_equal.
  rewrite flat_map_if_filter. clear IH.
  induction l as [|r l IHl]; simpl; [reflexivity|].
  unfold is_high_priority at 1, is_high at 1, is_very_high at 1. simpl.
  rewrite orb_false_r.
  destruct ((priority r =? "High")%string || (priority r =? "Very High")%string);
    simpl; now rewrite IHl.
Qed.

(** Inserting in front of a list whose keys are all at least the new key. *)
Lemma insert_by_key_head {A : Type} (key : A -> nat) (x : A) (l : list A) :
  Forall (fun y => (key x <= key y)%nat) l -> insert_by_key key x l = x :: l.
Proof.
  intros H. destruct l as [|y l]; simpl; [reflexivity|].
  inversion H; subst. rewrite (proj2 (Nat.leb_le _ _)); auto.
Qed.

(** Inserting behind a prefix of strictly smaller keys. *)
Lemma insert_by_key_skip {A : Type} (key : A -> nat) (x : A) (l1 l2 : list A) :
  Forall (fun y => (key y < key x)%nat) l1 ->
  insert_by_key key x (l1 ++ l2) = l1 ++ insert_by_key key x l2.
Proof.
  induction 1 as [|y l1 Hy _ IH]; simpl; [reflexivity|].
  rewrite (proj2 (Nat.leb_gt _ _)); [now rewrite IH | exact Hy].
Qed.

(** The stable sort by a key with the two values 0 and 1 puts the
    elements of key 0 first and keeps the order inside either group. *)
Lemma sort_by_key_two {A : Type} (key : A -> nat) (l : list A) :
  Forall (fun y => (key y <= 1)%nat) l ->
  sort_by_key key l =
    filter (fun y => Nat.eqb (key y) 0) l ++ filter (fun y => negb (Nat.eqb (key y) 0)) l.
Proof.
  induction 1 as [|x l Hx Hl IH]; simpl; [reflexivity|].
  rewrite IH. destruct (Nat.eqb (key x) 0) eqn:E; simpl.
  - apply Nat.eqb_eq in E. apply insert_by_key_head.
    rewrite E. apply Forall_forall. intros; lia.
  - apply Nat.eqb_neq in E. rewrite insert_by_key_skip.
    + f_equal. apply insert_by_key_head.
      apply Forall_forall. intros y Hy. apply filter_In in Hy as [_ Hy].
      apply negb_true_iff, Nat.eqb_neq in Hy. lia.
    + apply Forall_forall. intros y Hy. apply filter_In in Hy as [_ Hy].
      apply Nat.eqb_eq in Hy. lia.
Qed.

Lemma filter_twice {A : Type} (f g : A -> bool) (l : list A) :
  filter f (filter g l) = filter (fun x => g x && f x) l.
Proof.
  induction l as [|x l IH]; simpl; [reflexivity|].
  destruct (g x); simpl; [destruct (f x)|]; now rewrite IH.
Qed.

End Priorities.

(** C8: the top priorities are the entries of all categories whose priority
    is "High" or "Very High" and no others; every "Very High" entry comes
    before every "High" entry, and inside either group the entries keep the
    order in which the categories and their lists present them. *)
Theorem extract_high_priority_stable (recs : RecommendationDict) :
  _extract_high_priority_recommendations recs =
    filter is_very_high (flattened recs) ++ filter is_high (flattened recs).
Proof.
  unfold _extract_high_priority_recommendations.
  change (flat_map _ recs) with
    (flat_map (fun '(category, l) =>
       flat_map (fun rec => if is_high_priority rec then [tag category rec] else []) l) recs).
  rewrite high_priority_items, sort_by_key_two.
  - rewrite !filter_twice. f_equal; apply filter_ext; intros x;
      unfold priority_key, is_high, is_very_high;
      destruct (item_priority x =? "Very High")%string eqn:V;
      destruct (item_priority x =? "High")%string eqn:H; try reflexivity.
    apply String.eqb_eq in V. apply String.eqb_eq in H. congruence.
  - apply Forall_forall. intros x _. unfold priority_key.
    destruct (item_priority x =? "Very High")%string; lia.
Qed.

Section Impact.

Lemma is_high_priority_tag (category : string) (rec : Recommendation) :
  is_high_priority rec = is_high (tag category rec) || is_very_high (tag category rec).
Proof.
  unfold is_high_priority, is_high, is_very_high, str_in. simpl.
  now rewrite orb_false_r.
Qed.

Lemma high_priority_count_flattened (recs : RecommendationDict) :
  high_priority_count recs = count_high recs.
Proof.
  unfold high_priority_count, count_high, flattened, values.
  induction recs as [|[category l] recs IH]; simpl; [reflexivity|].
  rewrite filter_app, !length_app, IH. f_equal. clear IH.
  induction l as [|r l IHl]; simpl; [reflexivity|].
  rewrite (is_high_priority_tag category r).
  destruct (is_high (tag category r) || is_very_high (tag category r)); simpl; now rewrite IHl.
Qed.

End Impact.

(** C9: the potential years gained are min(0.8 * n, 8.0) for the number n
    of recommendations, over all categories, whose priority is "High" or
    "Very High"; the predictions handed to the estimator play no part. *)
Theorem potential_years_gained_by_count (recs : RecommendationDict) (preds : Prediction) :
  potential_years_gained (_estimate_impact_on_life_expectancy recs preds) ==
    Qmin (0.8 * inject_Z (Z.of_nat (count_high recs))) 8.0.
Proof.
  unfold _estimate_impact_on_life_expectancy. simpl potential_years_gained.
  rewrite high_priority_count_flattened.
  set (n := Z.of_nat (count_high recs)).
  destruct (py_min_cases (inject_Z n * 0.8) 8.0) as [[H ->]|[H ->]].
  - rewrite (py_round_n_exact 80); [|reflexivity].
    rewrite Q.min_r; [reflexivity | lra].
  - rewrite (py_round_n_exact (8 * n)).
    + rewrite Q.min_l; [ring | lra].
    + unfold pow10. rewrite inject_Z_mult. change (inject_Z (10 ^ Z.of_nat 1)) with 10.
      change (inject_Z 8) with 8. field.
Qed.

(** ** Life expectancy *)

Section LifeExpectancy.

Lemma py_div_ok (a b : Q) : ~ b == 0 -> py_div a b = Ok (a / b).
Proof.
  intros H. unfold py_div. now rewrite (proj2 (Qeq_bool_false b 0) H).
Qed.

Lemma py_div_zero (a b : Q) : b == 0 -> py_div a b = Raise ZeroDivisionError.
Proof.
  intros H. unfold py_div. now rewrite (proj2 (Qeq_bool_iff b 0) H).
Qed.

Lemma py_len_cons_nonzero {A : Type} (x : A) (l : list A) : ~ py_len (x :: l) == 0.
Proof.
  unfold py_len. change 0 with (inject_Z 0). rewrite inject_Z_injective.
  simpl length. lia.
Qed.

Lemma py_len_pos {A : Type} (l : list A) : l <> [] -> 0 < py_len l.
Proof.
  intros H. destruct l as [|x l]; [contradiction|].
  unfold py_len. change 0 with (inject_Z 0). rewrite <- Zlt_Qlt. simpl length. lia.
Qed.

(** The mean of a list that is not empty is defined. *)
Lemma py_mean_ok (l : list Q) :
  l <> [] -> py_div (py_sum l) (py_len l) = Ok (py_sum l / py_len l).
Proof.
  intros H. apply py_div_ok. pose proof (py_len_pos l H). lra.
Qed.

Lemma chol_adj_ok (h : HealthMetrics) :
  ~ hdl (cholesterol h) == 0 -> exists a, adjustment.chol_adj h = Ok a.
Proof.
  intros H. unfold adjustment.chol_adj. rewrite (py_div_ok _ _ H). simpl bind.
  destruct (_ >? _); eauto.
Qed.

Lemma genetic_adj_ok (g : GeneticData) :
  cancer (risk_factors g) <> [] -> neurodegenerative (risk_factors g) <> [] ->
  exists a, adjustment.genetic_adj g = Ok a.
Proof.
  intros Hc Hn. unfold adjustment.genetic_adj.
  rewrite !py_mean_ok; [simpl bind; eauto | |]; unfold values.
  - intros E. apply map_eq_nil in E. contradiction.
  - intros E. apply map_eq_nil in E. contradiction.
Qed.

(** What the function returns on a valid record. *)
Lemma predict_life_expectancy_valid (now uid : string)
    (p : UserProfile) (h : HealthMetrics) (i : ImpedanceData)
    (l : LifestyleData) (g : GeneticData) :
  user_id p = Some uid ->
  ~ hdl (cholesterol h) == 0 ->
  cancer (risk_factors g) <> [] ->
  neurodegenerative (risk_factors g) <> [] ->
  exists (r : Prediction) (chol_adj genetic_adj : Q),
    predict_life_expectancy now (complete_record p h i l g) = Ok r /\
    adjustment.chol_adj h = Ok chol_adj /\
    adjustment.genetic_adj g = Ok genetic_adj /\
    base_life_expectancy r =
      weights.item weights.base_life_expectancy
        (if String.eqb (lower (gender p)) "male" then "male" else "female") /\
    factors r =
      [("Smoking", adjustment.smoking_adj p);
       ("BMI", adjustment.bmi_adj p);
       ("Blood Pressure", adjustment.bp_adj h);
       ("Cholesterol", chol_adj);
       ("Exercise", adjustment.exercise_adj l);
       ("Diet", adjustment.diet_adj l);
       ("Sleep", adjustment.sleep_adj l);
       ("Alcohol", adjustment.alcohol_adj p);
       ("Stress", adjustment.stress_adj l);
       ("Social Connection", adjustment.social_adj l);
       ("Genetic Factors", genetic_adj);
       ("Biological Age", adjustment.bio_age_adj p i)] /\
    predicted_life_expectancy r =
      py_round_n (base_life_expectancy r + py_sum (map snd (factors r))) 1.
Proof.
  intros Hid Hh Hc Hn.
  destruct (chol_adj_ok h Hh) as [a4 E4].
  destruct (genetic_adj_ok g Hc Hn) as [a11 E11].
  unfold predict_life_expectancy, complete_record.
  cbn [user_profile health_metrics impedance_data lifestyle_data genetic_data getitem bind].
  rewrite E4, E11, Hid. cbn [getitem bind].
  eexists. exists a4, a11. repeat (split; [reflexivity|]). reflexivity.
Qed.

End LifeExpectancy.




(** ** Categorical values outside the lookup tables *)

Section Unrecognized.


End Unrecognized.




(** ** Biological age and health risks *)

Section Invariants.

Lemma chol_age_factor_ok (h : HealthMetrics) :
  ~ hdl (cholesterol h) == 0 -> exists a, age_factor.chol_age_factor h = Ok a.
Proof.
  intros H. unfold age_factor.chol_age_factor. cbv zeta.
  rewrite (py_div_ok _ _ H). simpl bind.
  repeat destruct (_ <? _); eauto.
Qed.

(** What [calculate_biological_age] returns on a valid record: the floor
    at 20 is taken before the rounding. *)
Lemma calculate_biological_age_valid (now uid : string)
    (p : UserProfile) (h : HealthMetrics) (i : ImpedanceData)
    (l : LifestyleData) (g : GeneticData) :
  user_id p = Some uid ->
  ~ hdl (cholesterol h) == 0 ->
  exists (r : BiologicalAge) (unfloored : Q),
    calculate_biological_age now (complete_record p h i l g) = Ok r /\
    biological_age r = py_round_n (py_max 20 unfloored) 1.
Proof.
  intros Hid Hh. destruct (chol_age_factor_ok h Hh) as [a Ea].
  unfold calculate_biological_age, complete_record.
  cbn [user_profile health_metrics impedance_data lifestyle_data genetic_data
       getitem bind app].
  rewrite Ea. cbn [bind].
  rewrite !py_div_ok by apply py_len_cons_nonzero. cbn [bind].
  rewrite Hid. cbn [getitem bind].
  eexists. eexists. split; reflexivity.
Qed.

Lemma py_sum_from_nonneg (l : list Q) (acc : Q) :
  0 <= acc -> Forall (fun x => 0 <= x) l -> 0 <= fold_left Qplus l acc.
Proof.
  revert acc. induction l as [|x l IH]; simpl; intros acc Ha Hl; [exact Ha|].
  inversion Hl; subst. apply IH; [lra | assumption].
Qed.

(** The mean of non-negative numbers is not negative. *)
Lemma py_mean_nonneg (l : list Q) :
  l <> [] -> Forall (fun x => 0 <= x) l -> 0 <= py_sum l / py_len l.
Proof.
  intros Hne Hl. apply Qle_shift_div_l; [now apply py_len_pos|].
  rewrite Qmult_0_l. apply py_sum_from_nonneg; [lra | exact Hl].
Qed.

(** A mean that is not negative, capped at 1 and rounded to two decimals,
    lies between 0 and 1. *)
Lemma capped_risk_in_unit_interval (m : Q) :
  0 <= m -> unit_interval (py_round_n (py_min 1.0 m) 2).
Proof.
  intros H. split.
  - apply (py_round_n_ge 0). change (inject_Z 0) with 0.
    apply py_min_glb; [lra | exact H].
  - apply (py_round_n_le 1). pose proof (py_min_glb_l 1.0 m).
    change (inject_Z 1) with 1. lra.
Qed.

Lemma bp_risk_factor_nonneg h : 0 <= risk_factor.bp_risk_factor h.
Proof. unfold risk_factor.bp_risk_factor. cbv zeta. repeat destruct (_ || _); lra. Qed.

Lemma chol_risk_factor_ok (h : HealthMetrics) :
  ~ hdl (cholesterol h) == 0 ->
  exists a, risk_factor.chol_risk_factor h = Ok a /\ 0 <= a.
Proof.
  intros H. unfold risk_factor.chol_risk_factor. cbv zeta.
  rewrite (py_div_ok _ _ H). simpl bind.
  repeat destruct (_ >? _); eexists; (split; [reflexivity | lra]).
Qed.

Lemma cv_smoking_risk_factor_nonneg s : 0 <= risk_factor.cv_smoking_risk_factor s.
Proof. unfold risk_factor.cv_smoking_risk_factor. repeat destruct (_ =? _)%string; lra. Qed.

Lemma exercise_risk_factor_nonneg m : 0 <= risk_factor.exercise_risk_factor m.
Proof. unfold risk_factor.exercise_risk_factor. repeat destruct (_ <? _); lra. Qed.

Lemma cv_bmi_risk_factor_nonneg b : 0 <= risk_factor.cv_bmi_risk_factor b.
Proof. unfold risk_factor.cv_bmi_risk_factor. repeat destruct (_ >? _); lra. Qed.

Lemma glucose_risk_factor_nonneg h : 0 <= risk_factor.glucose_risk_factor h.
Proof. unfold risk_factor.glucose_risk_factor. cbv zeta. repeat destruct (_ || _); lra. Qed.

Lemma metabolic_bmi_risk_factor_nonneg b : 0 <= risk_factor.metabolic_bmi_risk_factor b.
Proof. unfold risk_factor.metabolic_bmi_risk_factor. repeat destruct (_ >? _); lra. Qed.

Lemma metabolic_diet_risk_factor_nonneg s f :
  0 <= risk_factor.metabolic_diet_risk_factor s f.
Proof.
  unfold risk_factor.metabolic_diet_risk_factor. cbv zeta.
  repeat destruct (_ =? _)%string; destruct (_ <? _); lra.
Qed.

Lemma sleep_risk_factor_nonneg l : 0 <= risk_factor.sleep_risk_factor l.
Proof.
  unfold risk_factor.sleep_risk_factor. cbv zeta.
  destruct (_ =? _)%string; repeat destruct (_ <? _); lra.
Qed.

Lemma stress_risk_factor_nonneg l : 0 <= risk_factor.stress_risk_factor l.
Proof. unfold risk_factor.stress_risk_factor. cbv zeta. repeat destruct (_ =? _)%string; lra. Qed.

Lemma cancer_smoking_risk_factor_nonneg s : 0 <= risk_factor.cancer_smoking_risk_factor s.
Proof. unfold risk_factor.cancer_smoking_risk_factor. repeat destruct (_ =? _)%string; lra. Qed.

Lemma cancer_exercise_risk_factor_nonneg m : 0 <= risk_factor.cancer_exercise_risk_factor m.
Proof. unfold risk_factor.cancer_exercise_risk_factor. destruct (_ <? _); lra. Qed.

Lemma cancer_diet_risk_factor_nonneg f : 0 <= risk_factor.cancer_diet_risk_factor f.
Proof. unfold risk_factor.cancer_diet_risk_factor. destruct (_ <? _); lra. Qed.

Lemma dict_getitem_In {A : Type} (d : list (string * A)) (k : string) (v : A) :
  dict_getitem d k = Ok v -> In v (values d).
Proof.
  induction d as [|[k' v'] d IH]; simpl; [discriminate|].
  destruct (k =? k')%string; [intros [= ->]; now left | intros H; right; auto].
Qed.

End Invariants.

Section Risks.

(** What [calculate_health_risks] returns on a valid record whose genetic
    risk inputs are probabilities. *)
Lemma calculate_health_risks_valid (now uid : string)
    (p : UserProfile) (h : HealthMetrics) (i : ImpedanceData)
    (l : LifestyleData) (g : GeneticData) (alzheimers parkinsons : Q) :
  user_id p = Some uid ->
  ~ hdl (cholesterol h) == 0 ->
  cancer (risk_factors g) <> [] ->
  dict_getitem (neurodegenerative (risk_factors g)) "alzheimers" = Ok alzheimers ->
  dict_getitem (neurodegenerative (risk_factors g)) "parkinsons" = Ok parkinsons ->
  genetic_risks_in_unit_interval g ->
  exists r : RiskAssessment,
    calculate_health_risks now (complete_record p h i l g) = Ok r /\
    unit_interval (risk_level (cardiovascular (risks r))) /\
    unit_interval (risk_level (metabolic (risks r))) /\
    unit_interval (risk_level (neurological (risks r))) /\
    unit_interval (risk_level (cancer_entry (risks r))).
Proof.
  intros Hid Hh Hc Ha Hp (Hcv & Hdm & Hca & Hne).
  destruct (chol_risk_factor_ok h Hh) as (c & Ec & Hc0).
  assert (unit_interval alzheimers) as [Ha0 _].
  { rewrite Forall_forall in Hne. apply Hne. now apply (dict_getitem_In _ "alzheimers"). }
  assert (unit_interval parkinsons) as [Hp0 _].
  { rewrite Forall_forall in Hne. apply Hne. now apply (dict_getitem_In _ "parkinsons"). }
  assert (0 <= py_sum (values (cancer (risk_factors g))) / py_len (cancer (risk_factors g)))
    as Hmean.
  { replace (py_len (cancer (risk_factors g)))
      with (py_len (values (cancer (risk_factors g))))
      by (unfold py_len, values; now rewrite length_map).
    apply py_mean_nonneg.
    - unfold values. intros E. apply map_eq_nil in E. contradiction.
    - eapply Forall_impl; [|exact Hca]. now intros x [H0 _]. }
  unfold calculate_health_risks, complete_record.
  cbn [user_profile health_metrics impedance_data lifestyle_data genetic_data
       getitem bind app].
  rewrite Ec. cbn [bind].
  rewrite Ha, Hp. cbn [bind].
  rewrite (py_div_ok _ (py_len (cancer (risk_factors g)))).
  2:{ pose proof (py_len_pos _ Hc). lra. }
  cbn [bind].
  rewrite !py_div_ok by apply py_len_cons_nonzero. cbn [bind].
  rewrite Hid. cbn [getitem bind].
  eexists. split; [reflexivity|].
  cbn [risks cardiovascular metabolic neurological cancer_entry risk_level].
  destruct Hcv as [Hcv _]. destruct Hdm as [Hdm _].
  repeat split; apply capped_risk_in_unit_interval; apply py_mean_nonneg;
    try discriminate; repeat constructor;
    auto using bp_risk_factor_nonneg, cv_smoking_risk_factor_nonneg,
      exercise_risk_factor_nonneg, cv_bmi_risk_factor_nonneg,
      glucose_risk_factor_nonneg, metabolic_bmi_risk_factor_nonneg,
      metabolic_diet_risk_factor_nonneg, sleep_risk_factor_nonneg,
      stress_risk_factor_nonneg, cancer_smoking_risk_factor_nonneg,
      cancer_exercise_risk_factor_nonneg, cancer_diet_risk_factor_nonneg,
      py_max_lub_l.
  all: apply Qle_shift_div_l; lra.
Qed.

End Risks.

(** C2, as the code has it: on every record with its sections and user id
    present and an HDL reading that is not zero,
    [calculate_biological_age] returns a biological age of at least 20;
    if moreover the cancer risk table is not empty, the neurodegenerative
    table has its alzheimers and parkinsons entries and the genetic risk
    inputs lie in [0, 1], [calculate_health_risks] returns, for each of
    cardiovascular, metabolic, neurological and cancer, a risk level in
    [0, 1]. *)
Theorem biological_age_floor_and_risk_clamp (now uid : string)
    (p : UserProfile) (h : HealthMetrics) (i : ImpedanceData)
    (l : LifestyleData) (g : GeneticData) (alzheimers parkinsons : Q) :
  user_id p = Some uid ->
  ~ hdl (cholesterol h) == 0 ->
  (exists b : BiologicalAge,
     calculate_biological_age now (complete_record p h i l g) = Ok b /\
     20 <= biological_age b) /\
  (cancer (risk_factors g) <> [] ->
   dict_getitem (neurodegenerative (risk_factors g)) "alzheimers" = Ok alzheimers ->
   dict_getitem (neurodegenerative (risk_factors g)) "parkinsons" = Ok parkinsons ->
   genetic_risks_in_unit_interval g ->
   exists r : RiskAssessment,
     calculate_health_risks now (complete_record p h i l g) = Ok r /\
     unit_interval (risk_level (cardiovascular (risks r))) /\
     unit_interval (risk_level (metabolic (risks r))) /\
     unit_interval (risk_level (neurological (risks r))) /\
     unit_interval (risk_level (cancer_entry (risks r)))).
Proof.
  intros Hid Hh. split.
  - destruct (calculate_biological_age_valid now uid p h i l g Hid Hh) as (b & x & Hb & Hx).
    exists b. split; [exact Hb|]. rewrite Hx.
    apply (py_round_n_ge 20). change (inject_Z 20) with 20. apply py_max_lub_l.
  - intros Hc Ha Hp Hg.
    exact (calculate_health_risks_valid now uid p h i l g alzheimers parkinsons
             Hid Hh Hc Ha Hp Hg).
Qed.

Lemma sample_genetic_risks_in_unit_interval : genetic_risks_in_unit_interval sample.genetics.
Proof.
  unfold genetic_risks_in_unit_interval, unit_interval. simpl.
  repeat split; repeat constructor; simpl; lra.
Qed.

Lemma biological_age_floor_and_risk_clamp_witness :
  (exists b : BiologicalAge,
     calculate_biological_age "2024-05-01T10:00:01" sample.user_data = Ok b /\
     20 <= biological_age b) /\
  (exists r : RiskAssessment,
     calculate_health_risks "2024-05-01T10:00:01" sample.user_data = Ok r /\
     unit_interval (risk_level (cardiovascular (risks r))) /\
     unit_interval (risk_level (metabolic (risks r))) /\
     unit_interval (risk_level (neurological (risks r))) /\
     unit_interval (risk_level (cancer_entry (risks r)))).
Proof.
  destruct (biological_age_floor_and_risk_clamp "2024-05-01T10:00:01" "user_0001"
              sample.profile sample.metrics sample.impedance sample.lifestyle
              sample.genetics 0.05 0.02) as [Hb Hr].
  - reflexivity.
  - vm_compute. discriminate.
  - split; [exact Hb|]. apply Hr.
    + discriminate.
    + reflexivity.
    + reflexivity.
    + exact sample_genetic_risks_in_unit_interval.
Defined.

(** With an HDL reading of zero neither function returns: the cholesterol
    ratio raises [ZeroDivisionError]. *)
Lemma zero_hdl_no_biological_age_no_risks :
  genetic_risks_in_unit_interval sample.genetics /\
  calculate_biological_age "2024-05-01T10:00:01" sample.zero_hdl_user_data
    = Raise ZeroDivisionError /\
  calculate_health_risks "2024-05-01T10:00:02" sample.zero_hdl_user_data
    = Raise ZeroDivisionError.
Proof.
  split; [exact sample_genetic_risks_in_unit_interval|].
  split; vm_compute; reflexivity.
Qed.

(** ** The quit-smoking scenario *)

(** C6, as the code has it: applied to a record whose smoking status is
    "Current" (compared without regard to case), the quit-smoking mutator
    sets the status to "Former", raises the VO2 max strictly, and reduces
    a resting heart rate of 60 or more by the drawn amount of 5 to 12, but
    not below the floor of 60: the new heart rate is the larger of 60 and
    the original less the drawn amount, it is strictly less than the
    original when the original is above 60, and it is the original when
    the original is 60.  Applied to a record with any other smoking status
    it leaves the record as it is. *)
Theorem quit_smoking_scenario_effect (draws : QuitSmokingDraws)
    (p : UserProfile) (h : HealthMetrics) (i : ImpedanceData)
    (l : LifestyleData) (g : GeneticData) :
  (lower (smoking_status p) = "current" ->
   unit_draw (u_heart_rate_reduction draws) ->
   unit_draw (u_vo2_increase draws) ->
   exists (p' : UserProfile) (h' : HealthMetrics),
     _apply_quit_smoking_scenario draws (complete_record p h i l g)
       = (None, complete_record p' h' i l g) /\
     smoking_status p' = "Former" /\
     vo2_max h < vo2_max h' /\
     (60 <= resting_heart_rate h ->
      resting_heart_rate h' =
        py_max 60 (resting_heart_rate h - uniform 5 12 (u_heart_rate_reduction draws)) /\
      60 <= resting_heart_rate h' /\
      resting_heart_rate h' <= resting_heart_rate h /\
      (60 < resting_heart_rate h -> resting_heart_rate h' < resting_heart_rate h))) /\
  (forall u : UserData,
     user_profile u = Some p ->
     lower (smoking_status p) <> "current" ->
     _apply_quit_smoking_scenario draws u = (None, u)).
Proof.
  split.
  - intros Hs [Hr0 Hr1] [Hv0 Hv1].
    unfold _apply_quit_smoking_scenario, complete_record.
    cbn [user_profile]. rewrite Hs. cbn [String.eqb Ascii.eqb Bool.eqb negb].
    cbn [set_user_profile health_metrics set_health_metrics user_profile
         impedance_data lifestyle_data genetic_data].
    eexists. eexists. split; [reflexivity|].
    cbn [smoking_status set_smoking_status vo2_max resting_heart_rate].
    split; [reflexivity|]. unfold uniform.
    split; [lra|]. intros H60. split; [reflexivity|].
    destruct (py_max_cases 60
                (resting_heart_rate h - (5 + (12 - 5) * u_heart_rate_reduction draws)))
      as [[H ->]|[H ->]]; repeat split; lra.
  - intros u Hu Hs. unfold _apply_quit_smoking_scenario. rewrite Hu.
    destruct (String.eqb_spec (lower (smoking_status p)) "current") as [E|N];
      [contradiction | reflexivity].
Qed.

Lemma quit_smoking_scenario_effect_witness :
  (exists (p' : UserProfile) (h' : HealthMetrics),
     _apply_quit_smoking_scenario sample.quit_draws
       (complete_record sample.profile sample.fast_heart_metrics sample.impedance
          sample.lifestyle sample.genetics)
       = (None, complete_record p' h' sample.impedance sample.lifestyle sample.genetics) /\
     smoking_status p' = "Former" /\
     vo2_max sample.fast_heart_metrics < vo2_max h' /\
     resting_heart_rate h' < 78) /\
  _apply_quit_smoking_scenario sample.quit_draws odd_sample.user_data
    = (None, odd_sample.user_data).
Proof.
  split.
  - destruct (proj1 (quit_smoking_scenario_effect sample.quit_draws sample.profile
               sample.fast_heart_metrics sample.impedance sample.lifestyle
               sample.genetics))
      as (p' & h' & H & Hs & Hv & Hr).
    + reflexivity.
    + split; [discriminate | reflexivity].
    + split; [discriminate | reflexivity].
    + exists p', h'. repeat (split; [assumption|]).
      apply Hr; [discriminate | reflexivity].
  - apply (proj2 (quit_smoking_scenario_effect sample.quit_draws odd_sample.profile
             sample.metrics sample.impedance sample.lifestyle sample.genetics)).
    + reflexivity.
    + discriminate.
Defined.

(** A current smoker whose resting heart rate is at the floor of 60: the
    mutator leaves it at 60, which is not strictly less than the
    original. *)
Lemma quit_smoking_heart_rate_kept_at_floor :
  smoking_status sample.profile = "Current" /\
  resting_heart_rate sample.slow_heart_metrics == 60 /\
  exists (u' : UserData) (h' : HealthMetrics),
    _apply_quit_smoking_scenario sample.quit_draws
      (complete_record sample.profile sample.slow_heart_metrics sample.impedance
         sample.lifestyle sample.genetics) = (None, u') /\
    health_metrics u' = Some h' /\
    resting_heart_rate h' == 60 /\
    ~ resting_heart_rate h' < resting_heart_rate sample.slow_heart_metrics.
Proof.
  split; [reflexivity|]. split; [reflexivity|]. do 2 eexists.
  split; [vm_compute; reflexivity|].
  split; [reflexivity|].
  split; [reflexivity|].
  vm_compute. discriminate.
Qed.

(** Below the floor the mutator does not reduce the heart rate, it raises
    it: on the sample record, a current smoker with a resting heart rate
    of 58, the lines under the comment [# Reduce heart rate] leave a
    resting heart rate of 60. *)
Lemma quit_smoking_heart_rate_not_decreased :
  smoking_status sample.profile = "Current" /\
  exists (u' : UserData) (h' : HealthMetrics),
    _apply_quit_smoking_scenario sample.quit_draws sample.user_data = (None, u') /\
    health_metrics u' = Some h' /\
    resting_heart_rate h' == 60 /\
    ~ resting_heart_rate h' < resting_heart_rate sample.metrics.
Proof.
  split; [reflexivity|]. do 2 eexists.
  split; [vm_compute; reflexivity|].
  split; [reflexivity|].
  split; [reflexivity|].
  vm_compute. discriminate.
Qed.

(** ** The generated HDL reading *)

Section Generator.

(** The HDL reading of a generated record is the rounded draw, capped at
    the total cholesterol less 50; nothing bounds it from below. *)
Lemma generate_health_metrics_hdl (draws : HealthDraws) (p : UserProfile)
    (h : HealthMetrics) :
  generate_health_metrics draws p = Ok h ->
  hdl (cholesterol h) =
    py_min (round0 (normal (if String.eqb (gender p) "Female" then 50 else 40) 8
                           (z_hdl draws)))
           (total (cholesterol h) - 50).
Proof.
  unfold generate_health_metrics.
  destruct (user_id p) as [uid|]; cbn [getitem bind]; [|discriminate].
  intros [= <-]. reflexivity.
Qed.

End Generator.

(** C7 fails on the code: with the HDL draw five standard deviations below
    its mean, the generator returns for the male sample profile an HDL
    reading of 0, and the three scoring functions raise
    [ZeroDivisionError] on the generated record. *)
Theorem generated_hdl_can_be_zero :
  exists h : HealthMetrics,
    generate_health_metrics sample.low_hdl_draws sample.profile = Ok h /\
    hdl (cholesterol h) == 0 /\
    let user_data :=
      complete_record sample.profile h sample.impedance sample.lifestyle sample.genetics in
    predict_life_expectancy (sample.clock 0) user_data = Raise ZeroDivisionError /\
    calculate_biological_age (sample.clock 1) user_data = Raise ZeroDivisionError /\
    calculate_health_risks (sample.clock 2) user_data = Raise ZeroDivisionError.
Proof.
  eexists. split; [vm_compute; reflexivity|].
  split; [reflexivity|]. cbv zeta.
  repeat split; vm_compute; reflexivity.
Qed.

(** ** The orchestrator *)

Section Orchestrator.

(** Whatever the record, the orchestrator either returns a result or lets
    the [KeyError] of its own handler reach the caller; the latter happens
    only for a profile without [user_id]. *)
Lemma run_complete_analysis_outcome (clock : nat -> string) (user_data : UserData) :
  (exists r : AnalysisResult,
     run_complete_analysis clock user_data = Ok r /\
     (status r = "success" \/ status r = "error")) \/
  (run_complete_analysis clock user_data = Raise (KeyError "user_id") /\
   exists p : UserProfile, user_profile user_data = Some p /\ user_id p = None).
Proof.
  unfold run_complete_analysis.
  assert (forall n e,
    (exists r : AnalysisResult,
       (uid <- match user_profile user_data with
               | Some user_profile => getitem "user_id" (user_id user_profile)
               | None => Ok "unknown"
               end ;; Ok (error_results uid (str e) (clock n))) = Ok r /\
       (status r = "success" \/ status r = "error")) \/
    ((uid <- match user_profile user_data with
             | Some user_profile => getitem "user_id" (user_id user_profile)
             | None => Ok "unknown"
             end ;; Ok (error_results uid (str e) (clock n)))
       = Raise (KeyError "user_id") /\
     exists p : UserProfile, user_profile user_data = Some p /\ user_id p = None)) as Hexcept.
  { intros n e. destruct (user_profile user_data) as [p|]; cbn [bind].
    - destruct (user_id p) as [uid|] eqn:E; cbn [getitem bind].
      + left. eexists. split; [reflexivity | now right].
      + right. split; [reflexivity | eauto].
    - left. eexists. split; [reflexivity | now right]. }
  destruct (predict_life_expectancy _ _); [|apply Hexcept].
  destruct (calculate_biological_age _ _); [|apply Hexcept].
  destruct (calculate_health_risks _ _); [|apply Hexcept].
  destruct (generate_recommendations _ _ _ _); [|apply Hexcept].
  destruct (bind _ _); [|apply Hexcept].
  left. eexists. split; [reflexivity | now left].
Qed.

End Orchestrator.

(** C4 fails on the code: on the sample record without the [user_id] key
    the pipeline raises [KeyError], the handler reads the same key to
    build the error result, and the [KeyError] reaches the caller: no
    result object is returned. *)
Theorem run_complete_analysis_propagates_key_error :
  predict_life_expectancy (sample.clock 0) sample.anonymous_user_data
    = Raise (KeyError "user_id") /\
  run_complete_analysis sample.clock sample.anonymous_user_data
    = Raise (KeyError "user_id").
Proof.
  split; vm_compute; reflexivity.
Qed.


(* ================================================================= *)
(** * Further properties of the scoring engine *)

(** ** Rounding is monotone *)

Section RoundingOrder.

Lemma py_round_mono (x y : Q) : x <= y -> (py_round x <= py_round y)%Z.
Proof.
  intros H. destruct (Z_le_gt_dec (py_round x) (py_round y)) as [L|G]; [exact L|exfalso].
  assert (py_round y + 1 <= py_round x)%Z as L by lia.
  rewrite Zle_Qle, inject_Z_plus in L. change (inject_Z 1) with 1 in L.
  destruct (py_round_near x) as [_ Hx]. destruct (py_round_near y) as [Hy _].
  assert (x == y) as E by (apply Qle_antisym; lra).
  rewrite (py_round_comp x y E) in G. lia.
Qed.

Lemma py_round_n_mono (x y : Q) (d : nat) : x <= y -> py_round_n x d <= py_round_n y d.
Proof.
  intros H. unfold py_round_n. pose proof (pow10_pos d) as Hp.
  apply Qmult_le_compat_r.
  - rewrite <- Zle_Qle. apply py_round_mono. nra.
  - apply Qlt_le_weak, Qinv_lt_0_compat, Hp.
Qed.

(** Rounding to [d] decimals does not cross a number with [d] decimals. *)
Lemma py_round_n_le_grid (k : Z) (x : Q) (d : nat) :
  x <= inject_Z k / pow10 d -> py_round_n x d <= inject_Z k / pow10 d.
Proof.
  intros H. pose proof (pow10_pos d) as Hp.
  assert (py_round_n (inject_Z k / pow10 d) d == inject_Z k / pow10 d) as <-.
  { apply (py_round_n_exact k). field. lra. }
  now apply py_round_n_mono.
Qed.

Lemma py_round_n_ge_grid (k : Z) (x : Q) (d : nat) :
  inject_Z k / pow10 d <= x -> inject_Z k / pow10 d <= py_round_n x d.
Proof.
  intros H. pose proof (pow10_pos d) as Hp.
  assert (py_round_n (inject_Z k / pow10 d) d == inject_Z k / pow10 d) as <-.
  { apply (py_round_n_exact k). field. lra. }
  now apply py_round_n_mono.
Qed.

End RoundingOrder.

(** ** The prediction record *)

Section PredictionRecord.

(** The fields that [predict_life_expectancy] derives from the unrounded
    life expectancy. *)
Lemma predict_life_expectancy_fields (now uid : string)
    (p : UserProfile) (h : HealthMetrics) (i : ImpedanceData)
    (l : LifestyleData) (g : GeneticData) :
  user_id p = Some uid ->
  ~ hdl (cholesterol h) == 0 ->
  cancer (risk_factors g) <> [] ->
  neurodegenerative (risk_factors g) <> [] ->
  exists (r : Prediction) (life_expectancy : Q),
    predict_life_expectancy now (complete_record p h i l g) = Ok r /\
    pred_user_id r = uid /\
    current_age r = age p /\
    pred_gender r = gender p /\
    predicted_at r = now /\
    predicted_life_expectancy r = py_round_n life_expectancy 1 /\
    confidence_interval r =
      (py_round_n (life_expectancy - 4.2) 1, py_round_n (life_expectancy + 4.2) 1) /\
    expected_remaining_years r = py_round_n (life_expectancy - age p) 1.
Proof.
  intros Hid Hh Hc Hn.
  destruct (chol_adj_ok h Hh) as [a4 E4].
  destruct (genetic_adj_ok g Hc Hn) as [a11 E11].
  unfold predict_life_expectancy, complete_record.
  cbn [user_profile health_metrics impedance_data lifestyle_data genetic_data getitem bind].
  rewrite E4, E11, Hid. cbn [getitem bind].
  eexists. eexists. repeat (split; [reflexivity|]). reflexivity.
Qed.

End PredictionRecord.

(** X1: on a valid record the confidence interval contains the predicted
    life expectancy, each bound lies between 4.1 and 4.3 years from it, and
    the expected remaining years differ from the predicted life expectancy
    less the current age by at most 0.1. *)
Theorem confidence_interval_brackets_prediction (now uid : string)
    (p : UserProfile) (h : HealthMetrics) (i : ImpedanceData)
    (l : LifestyleData) (g : GeneticData) :
  user_id p = Some uid ->
  ~ hdl (cholesterol h) == 0 ->
  cancer (risk_factors g) <> [] ->
  neurodegenerative (risk_factors g) <> [] ->
  exists r : Prediction,
    predict_life_expectancy now (complete_record p h i l g) = Ok r /\
    fst (confidence_interval r) <= predicted_life_expectancy r /\
    predicted_life_expectancy r <= snd (confidence_interval r) /\
    4.1 <= predicted_life_expectancy r - fst (confidence_interval r) <= 4.3 /\
    4.1 <= snd (confidence_interval r) - predicted_life_expectancy r <= 4.3 /\
    -0.1 <= expected_remaining_years r - (predicted_life_expectancy r - current_age r)
         <= 0.1.
Proof.
  intros Hid Hh Hc Hn.
  destruct (predict_life_expectancy_fields now uid p h i l g Hid Hh Hc Hn)
    as (r & le & Hr & _ & Ha & _ & _ & Hp & Hci & Hy).
  exists r. split; [exact Hr|].
  rewrite Hp, Hci, Hy, Ha. cbn [fst snd].
  destruct (py_round_1_near le) as [A1 A2].
  destruct (py_round_1_near (le - 4.2)) as [B1 B2].
  destruct (py_round_1_near (le + 4.2)) as [C1 C2].
  destruct (py_round_1_near (le - age p)) as [D1 D2].
  repeat split; lra.
Qed.

Lemma confidence_interval_brackets_prediction_witness :
  exists r : Prediction,
    predict_life_expectancy "2024-05-01T10:00:00" sample.user_data = Ok r /\
    fst (confidence_interval r) <= predicted_life_expectancy r /\
    predicted_life_expectancy r <= snd (confidence_interval r).
Proof.
  destruct (confidence_interval_brackets_prediction "2024-05-01T10:00:00" "user_0001"
              sample.profile sample.metrics sample.impedance sample.lifestyle
              sample.genetics)
    as (r & H & H1 & H2 & _).
  - reflexivity.
  - vm_compute. discriminate.
  - discriminate.
  - discriminate.
  - exists r. auto.
Defined.

(** ** Ceilings of the health risks *)

Section RiskCeilings.

Lemma py_min_glb_r (a b : Q) : py_min a b <= b.
Proof. destruct (py_min_cases a b) as [[H ->]|[H ->]]; lra. Qed.

Lemma py_sum_from_le_len (l : list Q) (acc : Q) :
  Forall (fun x => x <= 1) l -> fold_left Qplus l acc <= acc + py_len l.
Proof.
  revert acc. induction l as [|x l IH]; intros acc Hl.
  - cbn [fold_left]. unfold py_len. cbn [length Z.of_nat].
    change (inject_Z 0) with 0. lra.
  - inversion Hl; subst. simpl fold_left.
    eapply Qle_trans; [apply IH; assumption|].
    unfold py_len. simpl length. rewrite Nat2Z.inj_succ, <- Z.add_1_r, inject_Z_plus.
    change (inject_Z 1) with 1. lra.
Qed.

(** The mean of numbers that are at most 1 is at most 1. *)
Lemma py_mean_le_one (l : list Q) :
  l <> [] -> Forall (fun x => x <= 1) l -> py_sum l / py_len l <= 1.
Proof.
  intros Hne Hl. apply Qle_shift_div_r; [now apply py_len_pos|].
  pose proof (py_sum_from_le_len l 0 Hl) as H. unfold py_sum. lra.
Qed.

Lemma bp_risk_factor_le h : risk_factor.bp_risk_factor h <= 0.3.
Proof. unfold risk_factor.bp_risk_factor. cbv zeta. repeat destruct (_ || _); lra. Qed.

Lemma chol_risk_factor_le (h : HealthMetrics) (a : Q) :
  risk_factor.chol_risk_factor h = Ok a -> a <= 0.3.
Proof.
  unfold risk_factor.chol_risk_factor. cbv zeta.
  destruct (py_div _ _); cbn [bind]; [|discriminate].
  repeat destruct (_ >? _); intros [= <-]; lra.
Qed.

Lemma cv_smoking_risk_factor_le s : risk_factor.cv_smoking_risk_factor s <= 0.4.
Proof. unfold risk_factor.cv_smoking_risk_factor. repeat destruct (_ =? _)%string; lra. Qed.

Lemma exercise_risk_factor_le m : risk_factor.exercise_risk_factor m <= 0.2.
Proof. unfold risk_factor.exercise_risk_factor. repeat destruct (_ <? _); lra. Qed.

Lemma cv_bmi_risk_factor_le b : risk_factor.cv_bmi_risk_factor b <= 0.2.
Proof. unfold risk_factor.cv_bmi_risk_factor. repeat destruct (_ >? _); lra. Qed.

Lemma glucose_risk_factor_le h : risk_factor.glucose_risk_factor h <= 0.5.
Proof. unfold risk_factor.glucose_risk_factor. cbv zeta. repeat destruct (_ || _); lra. Qed.

Lemma metabolic_bmi_risk_factor_le b : risk_factor.metabolic_bmi_risk_factor b <= 0.3.
Proof. unfold risk_factor.metabolic_bmi_risk_factor. repeat destruct (_ >? _); lra. Qed.

Lemma metabolic_diet_risk_factor_le s f : risk_factor.metabolic_diet_risk_factor s f <= 0.3.
Proof.
  unfold risk_factor.metabolic_diet_risk_factor. cbv zeta.
  repeat destruct (_ =? _)%string; destruct (_ <? _); lra.
Qed.

Lemma sleep_risk_factor_le l : risk_factor.sleep_risk_factor l <= 0.3.
Proof.
  unfold risk_factor.sleep_risk_factor. cbv zeta.
  destruct (_ =? _)%string; repeat destruct (_ <? _); lra.
Qed.

Lemma stress_risk_factor_le l : risk_factor.stress_risk_factor l <= 0.3.
Proof. unfold risk_factor.stress_risk_factor. cbv zeta. repeat destruct (_ =? _)%string; lra. Qed.

Lemma neuro_diet_risk_factor_le s f : py_max 0 (risk_factor.neuro_diet_risk_factor s f) <= 0.1.
Proof.
  unfold risk_factor.neuro_diet_risk_factor. cbv zeta.
  destruct (_ =? _)%string; destruct (_ <? _);
    match goal with |- py_max ?a ?b <= _ =>
      destruct (py_max_cases a b) as [[H ->]|[H ->]]; lra
    end.
Qed.

Lemma cancer_smoking_risk_factor_le s : risk_factor.cancer_smoking_risk_factor s <= 0.3.
Proof. unfold risk_factor.cancer_smoking_risk_factor. repeat destruct (_ =? _)%string; lra. Qed.

Lemma cancer_exercise_risk_factor_le m : risk_factor.cancer_exercise_risk_factor m <= 0.1.
Proof. unfold risk_factor.cancer_exercise_risk_factor. destruct (_ <? _); lra. Qed.

Lemma cancer_diet_risk_factor_le f : risk_factor.cancer_diet_risk_factor f <= 0.1.
Proof. unfold risk_factor.cancer_diet_risk_factor. destruct (_ <? _); lra. Qed.

(** A risk below 0.6 is not in the highest category. *)
Lemma categorize_risk_below_very_high (x : Q) :
  x < 0.60 -> _categorize_risk x <> "Very High".
Proof.
  intros H. unfold _categorize_risk. cmp_cases; try discriminate. lra.
Qed.

(** A mean with a ceiling below 1, capped and rounded to two decimals. *)
Lemma capped_risk_ceiling (k : Z) (s n c : Q) :
  0 < n -> s <= c * n -> c == inject_Z k / pow10 2 -> c < 0.60 ->
  py_round_n (py_min 1.0 (s / n)) 2 <= c /\
  _categorize_risk (py_min 1.0 (s / n)) <> "Very High".
Proof.
  intros Hn Hs Hc Hlt.
  assert (py_min 1.0 (s / n) <= c) as Hm.
  { eapply Qle_trans; [apply py_min_glb_r|]. now apply Qle_shift_div_r. }
  split.
  - rewrite Hc. apply py_round_n_le_grid. now rewrite <- Hc.
  - apply categorize_risk_below_very_high. lra.
Qed.

End RiskCeilings.

Section RiskEntries.

Variables (now uid : string) (p : UserProfile) (h : HealthMetrics)
  (i : ImpedanceData) (l : LifestyleData) (g : GeneticData)
  (chol alzheimers parkinsons : Q).

Hypothesis Hid : user_id p = Some uid.
Hypothesis Hchol : risk_factor.chol_risk_factor h = Ok chol.
Hypothesis Hcancer : cancer (risk_factors g) <> [].
Hypothesis Halz :
  dict_getitem (neurodegenerative (risk_factors g)) "alzheimers" = Ok alzheimers.
Hypothesis Hpark :
  dict_getitem (neurodegenerative (risk_factors g)) "parkinsons" = Ok parkinsons.

(** Each risk level is the capped mean of its factors rounded to two
    decimals; each category is read off the capped mean before rounding. *)
Lemma calculate_health_risks_entries :
  exists r : RiskAssessment,
    calculate_health_risks now (complete_record p h i l g) = Ok r /\
    risk_user_id r = uid /\ assessed_at r = now /\
    risk_level (cardiovascular (risks r)) =
      py_round_n (capped_mean (cv_risk_factors p h l g chol)) 2 /\
    category (cardiovascular (risks r)) =
      _categorize_risk (capped_mean (cv_risk_factors p h l g chol)) /\
    risk_level (metabolic (risks r)) =
      py_round_n (capped_mean (metabolic_risk_factors p h l g)) 2 /\
    category (metabolic (risks r)) =
      _categorize_risk (capped_mean (metabolic_risk_factors p h l g)) /\
    risk_level (neurological (risks r)) =
      py_round_n (capped_mean (neuro_risk_factors l alzheimers parkinsons)) 2 /\
    category (neurological (risks r)) =
      _categorize_risk (capped_mean (neuro_risk_factors l alzheimers parkinsons)) /\
    risk_level (cancer_entry (risks r)) =
      py_round_n (capped_mean (cancer_risk_factors p l g)) 2 /\
    category (cancer_entry (risks r)) =
      _categorize_risk (capped_mean (cancer_risk_factors p l g)).
Proof.
  unfold calculate_health_risks, complete_record.
  cbn [user_profile health_metrics impedance_data lifestyle_data genetic_data
       getitem bind app].
  rewrite Hchol. cbn [bind].
  rewrite Halz, Hpark. cbn [bind].
  rewrite (py_div_ok _ (py_len (cancer (risk_factors g)))).
  2:{ pose proof (py_len_pos _ Hcancer). lra. }
  cbn [bind].
  rewrite !py_div_ok by apply py_len_cons_nonzero. cbn [bind].
  rewrite Hid. cbn [getitem bind].
  eexists. repeat (split; [reflexivity|]). reflexivity.
Qed.

End RiskEntries.

(** X2: on a valid record whose genetic risk inputs lie in [0, 1] the
    cardiovascular risk level is at most 0.40, the metabolic at most 0.46,
    the neurological and the cancer risk level at most 0.38, and none of
    the four categories is "Very High": the cap at 1.0 is never reached. *)
Theorem health_risks_never_very_high (now uid : string)
    (p : UserProfile) (h : HealthMetrics) (i : ImpedanceData)
    (l : LifestyleData) (g : GeneticData) (alzheimers parkinsons : Q) :
  user_id p = Some uid ->
  ~ hdl (cholesterol h) == 0 ->
  cancer (risk_factors g) <> [] ->
  dict_getitem (neurodegenerative (risk_factors g)) "alzheimers" = Ok alzheimers ->
  dict_getitem (neurodegenerative (risk_factors g)) "parkinsons" = Ok parkinsons ->
  genetic_risks_in_unit_interval g ->
  exists r : RiskAssessment,
    calculate_health_risks now (complete_record p h i l g) = Ok r /\
    risk_level (cardiovascular (risks r)) <= 0.40 /\
    category (cardiovascular (risks r)) <> "Very High" /\
    risk_level (metabolic (risks r)) <= 0.46 /\
    category (metabolic (risks r)) <> "Very High" /\
    risk_level (neurological (risks r)) <= 0.38 /\
    category (neurological (risks r)) <> "Very High" /\
    risk_level (cancer_entry (risks r)) <= 0.38 /\
    category (cancer_entry (risks r)) <> "Very High".
Proof.
  intros Hid Hh Hc Ha Hp (Hcv & Hdm & Hca & Hne).
  destruct (chol_risk_factor_ok h Hh) as (c & Ec & Hc0).
  pose proof (chol_risk_factor_le h c Ec) as Hc1.
  assert (unit_interval alzheimers) as [_ Ha1].
  { rewrite Forall_forall in Hne. apply Hne. now apply (dict_getitem_In _ "alzheimers"). }
  assert (unit_interval parkinsons) as [_ Hp1].
  { rewrite Forall_forall in Hne. apply Hne. now apply (dict_getitem_In _ "parkinsons"). }
  assert (py_sum (values (cancer (risk_factors g))) / py_len (cancer (risk_factors g)) <= 1)
    as Hmean.
  { replace (py_len (cancer (risk_factors g)))
      with (py_len (values (cancer (risk_factors g))))
      by (unfold py_len, values; now rewrite length_map).
    apply py_mean_le_one.
    - unfold values. intros E. apply map_eq_nil in E. contradiction.
    - eapply Forall_impl; [|exact Hca]. now intros x [_ H1]. }
  destruct Hcv as [_ Hcv]. destruct Hdm as [_ Hdm].
  destruct (calculate_health_risks_entries now uid p h i l g c alzheimers parkinsons
              Hid Ec Hc Ha Hp)
    as (r & Hr & _ & _ & L1 & C1 & L2 & C2 & L3 & C3 & L4 & C4).
  exists r. split; [exact Hr|].
  rewrite L1, C1, L2, C2, L3, C3, L4, C4. unfold capped_mean.
  pose proof (bp_risk_factor_le h).
  pose proof (cv_smoking_risk_factor_le (lower (smoking_status p))).
  pose proof (exercise_risk_factor_le (minutes_per_week (exercise l))).
  pose proof (cv_bmi_risk_factor_le (bmi p)).
  pose proof (glucose_risk_factor_le h).
  pose proof (metabolic_bmi_risk_factor_le (bmi p)).
  pose proof (metabolic_diet_risk_factor_le
                (lower (processed_food_frequency (diet l)))
                (fruit_veg_servings_daily (diet l))).
  pose proof (sleep_risk_factor_le l).
  pose proof (stress_risk_factor_le l).
  pose proof (neuro_diet_risk_factor_le
                (lower (diet_type (diet l))) (fruit_veg_servings_daily (diet l))).
  pose proof (cancer_smoking_risk_factor_le (lower (smoking_status p))).
  pose proof (cancer_exercise_risk_factor_le (minutes_per_week (exercise l))).
  pose proof (cancer_diet_risk_factor_le (fruit_veg_servings_daily (diet l))).
  assert ((alzheimers + parkinsons) / 2 <= 1) by (apply Qle_shift_div_r; lra).
  set (cancer_genetic :=
         py_sum (values (cancer (risk_factors g))) / py_len (cancer (risk_factors g))) in *.
  rewrite <- !and_assoc. repeat split.
  - apply (capped_risk_ceiling 40); [reflexivity | | reflexivity | reflexivity].
    unfold cv_risk_factors, py_sum. cbn [fold_left].
    change (py_len _) with 6. lra.
  - apply (capped_risk_ceiling 40 _ _ 0.40); [reflexivity | | reflexivity | reflexivity].
    unfold cv_risk_factors, py_sum. cbn [fold_left].
    change (py_len _) with 6. lra.
  - apply (capped_risk_ceiling 46); [reflexivity | | reflexivity | reflexivity].
    unfold metabolic_risk_factors, py_sum. cbn [fold_left].
    change (py_len _) with 5. lra.
  - apply (capped_risk_ceiling 46 _ _ 0.46); [reflexivity | | reflexivity | reflexivity].
    unfold metabolic_risk_factors, py_sum. cbn [fold_left].
    change (py_len _) with 5. lra.
  - apply (capped_risk_ceiling 38); [reflexivity | | reflexivity | reflexivity].
    unfold neuro_risk_factors, py_sum. cbn [fold_left].
    change (py_len _) with 5. lra.
  - apply (capped_risk_ceiling 38 _ _ 0.38); [reflexivity | | reflexivity | reflexivity].
    unfold neuro_risk_factors, py_sum. cbn [fold_left].
    change (py_len _) with 5. lra.
  - apply (capped_risk_ceiling 38); [reflexivity | | reflexivity | reflexivity].
    unfold cancer_risk_factors. fold cancer_genetic. unfold py_sum. cbn [fold_left].
    change (py_len [_; _; _; _]) with 4. lra.
  - apply (capped_risk_ceiling 38 _ _ 0.38); [reflexivity | | reflexivity | reflexivity].
    unfold cancer_risk_factors. fold cancer_genetic. unfold py_sum. cbn [fold_left].
    change (py_len [_; _; _; _]) with 4. lra.
Qed.

Lemma health_risks_never_very_high_witness :
  exists r : RiskAssessment,
    calculate_health_risks "2024-05-01T10:00:02" sample.user_data = Ok r /\
    risk_level (cardiovascular (risks r)) <= 0.40 /\
    category (cardiovascular (risks r)) <> "Very High".
Proof.
  destruct (health_risks_never_very_high "2024-05-01T10:00:02" "user_0001"
              sample.profile sample.metrics sample.impedance sample.lifestyle
              sample.genetics 0.05 0.02)
    as (r & H & H1 & H2 & _).
  - reflexivity.
  - vm_compute. discriminate.
  - discriminate.
  - reflexivity.
  - reflexivity.
  - exact sample_genetic_risks_in_unit_interval.
  - exists r. auto.
Defined.

(** ** The biological age *)

(** X3: on a valid record the biological age is the impedance-based age
    plus the plain mean of the three cardiovascular factors, of the three
    metabolic factors, of the two fitness factors and of the three
    lifestyle factors, floored at 20 and rounded to one decimal: every
    domain enters with weight one, whatever the nominal weights listed in
    the breakdown (0.4, 0.2, 0.2, 0.1, 0.1), and the chronological age
    enters only through the VO2 reference of the fitness factor. *)
Theorem biological_age_unweighted_sum (now uid : string)
    (p : UserProfile) (h : HealthMetrics) (i : ImpedanceData)
    (l : LifestyleData) (g : GeneticData) :
  user_id p = Some uid ->
  ~ hdl (cholesterol h) == 0 ->
  exists (r : BiologicalAge) (chol_age_factor unfloored : Q),
    calculate_biological_age now (complete_record p h i l g) = Ok r /\
    age_factor.chol_age_factor h = Ok chol_age_factor /\
    unfloored ==
      estimated_biological_age i
      + (age_factor.bp_age_factor h + age_factor.hr_age_factor h + chol_age_factor) / 3
      + (age_factor.glucose_age_factor h + age_factor.hba1c_age_factor h
         + age_factor.bmi_age_factor p) / 3
      + (age_factor.fitness_age_factor (gender p) (age p) h
         + age_factor.exercise_age_factor l) / 2
      + (age_factor.sleep_age_factor l + age_factor.diet_age_factor l
         + age_factor.stress_age_factor l) / 3 /\
    biological_age r = py_round_n (py_max 20 unfloored) 1 /\
    age_difference r = py_round_n (py_max 20 unfloored - age p) 1 /\
    map (fun entry => snd (snd entry)) (bio_factors r) = [0.4; 0.2; 0.2; 0.1; 0.1].
Proof.
  intros Hid Hh. destruct (chol_age_factor_ok h Hh) as [a Ea].
  unfold calculate_biological_age, complete_record.
  cbn [user_profile health_metrics impedance_data lifestyle_data genetic_data
       getitem bind app].
  rewrite Ea. cbn [bind].
  rewrite !py_div_ok by apply py_len_cons_nonzero. cbn [bind].
  rewrite Hid. cbn [getitem bind].
  eexists. exists a. eexists.
  split; [reflexivity|]. split; [reflexivity|].
  cbn [biological_age age_difference bio_factors].
  split; [|split; [reflexivity|split; [reflexivity|reflexivity]]].
  unfold py_sum. cbn [fold_left].
  change (py_len [_; _; _]) with 3. change (py_len [_; _]) with 2.
  field.
Qed.

Lemma biological_age_unweighted_sum_witness :
  exists r : BiologicalAge,
    calculate_biological_age "2024-05-01T10:00:01" sample.user_data = Ok r /\
    map (fun entry => snd (snd entry)) (bio_factors r) = [0.4; 0.2; 0.2; 0.1; 0.1].
Proof.
  destruct (biological_age_unweighted_sum "2024-05-01T10:00:01" "user_0001"
              sample.profile sample.metrics sample.impedance sample.lifestyle
              sample.genetics)
    as (r & a & x & H & _ & _ & _ & _ & W).
  - reflexivity.
  - vm_compute. discriminate.
  - exists r. auto.
Defined.

(** ** How the prediction responds to its inputs *)

Section Response.

(** The sleep adjustment falls, or stays, as the hours of sleep grow. *)
Lemma sleep_adj_antitone (l : LifestyleData) (hours1 hours2 : Q) :
  hours1 <= hours2 ->
  adjustment.sleep_adj (set_average_hours hours2 l)
    <= adjustment.sleep_adj (set_average_hours hours1 l).
Proof.
  intros H. unfold adjustment.sleep_adj, set_average_hours. cbv zeta.
  cbn [sleep average_hours quality].
  unfold weights.optimal_hours, weights.per_hour_deficit.
  cmp_cases; lra.
Qed.

(** Two predictions whose unrounded sums are ordered are ordered. *)
Lemma predicted_le (r1 r2 : Prediction) :
  predicted_life_expectancy r1 =
    py_round_n (base_life_expectancy r1 + py_sum (map snd (factors r1))) 1 ->
  predicted_life_expectancy r2 =
    py_round_n (base_life_expectancy r2 + py_sum (map snd (factors r2))) 1 ->
  base_life_expectancy r1 + py_sum (map snd (factors r1))
    <= base_life_expectancy r2 + py_sum (map snd (factors r2)) ->
  predicted_life_expectancy r1 <= predicted_life_expectancy r2.
Proof.
  intros -> -> H. now apply py_round_n_mono.
Qed.

End Response.

(** X4: of two valid records that differ in the average hours of sleep
    only, the one with more sleep never gets the higher predicted life
    expectancy: below 7.5 hours each missing hour adds 0.5 year to the
    sleep factor, from 7.5 hours on the hours play no part. *)
Theorem more_sleep_never_raises_prediction (now uid : string)
    (p : UserProfile) (h : HealthMetrics) (i : ImpedanceData)
    (l : LifestyleData) (g : GeneticData) (hours1 hours2 : Q) :
  user_id p = Some uid ->
  ~ hdl (cholesterol h) == 0 ->
  cancer (risk_factors g) <> [] ->
  neurodegenerative (risk_factors g) <> [] ->
  hours1 <= hours2 ->
  exists r1 r2 : Prediction,
    predict_life_expectancy now
      (complete_record p h i (set_average_hours hours1 l) g) = Ok r1 /\
    predict_life_expectancy now
      (complete_record p h i (set_average_hours hours2 l) g) = Ok r2 /\
    predicted_life_expectancy r2 <= predicted_life_expectancy r1 /\
    (hours2 < 7.5 ->
     adjustment.sleep_adj (set_average_hours hours1 l)
       == adjustment.sleep_adj (set_average_hours hours2 l) + 0.5 * (hours2 - hours1)) /\
    (7.5 <= hours1 ->
     predicted_life_expectancy r2 = predicted_life_expectancy r1).
Proof.
  intros Hid Hh Hc Hn Hle.
  destruct (predict_life_expectancy_valid now uid p h i (set_average_hours hours1 l) g
              Hid Hh Hc Hn) as (r1 & a & b & Hr1 & Ea & Eb & Hb1 & Hf1 & Hp1).
  destruct (predict_life_expectancy_valid now uid p h i (set_average_hours hours2 l) g
              Hid Hh Hc Hn) as (r2 & a' & b' & Hr2 & Ea' & Eb' & Hb2 & Hf2 & Hp2).
  assert (a' = a) as -> by congruence. assert (b' = b) as -> by congruence.
  exists r1, r2. split; [exact Hr1|]. split; [exact Hr2|].
  pose proof (sleep_adj_antitone l hours1 hours2 Hle) as Hs.
  split; [|split].
  - apply predicted_le; [exact Hp2 | exact Hp1 |].
    rewrite Hb1, Hb2, Hf1, Hf2. unfold py_sum. cbn [map snd fold_left].
    change (adjustment.exercise_adj (set_average_hours hours2 l))
      with (adjustment.exercise_adj (set_average_hours hours1 l)).
    change (adjustment.diet_adj (set_average_hours hours2 l))
      with (adjustment.diet_adj (set_average_hours hours1 l)).
    change (adjustment.stress_adj (set_average_hours hours2 l))
      with (adjustment.stress_adj (set_average_hours hours1 l)).
    change (adjustment.social_adj (set_average_hours hours2 l))
      with (adjustment.social_adj (set_average_hours hours1 l)).
    lra.
  - intros H2. unfold adjustment.sleep_adj, set_average_hours. cbv zeta.
    cbn [sleep average_hours quality].
    unfold weights.optimal_hours, weights.per_hour_deficit.
    cmp_cases; lra.
  - intros H1. rewrite Hp1, Hp2. apply py_round_n_comp.
    rewrite Hb1, Hb2, Hf1, Hf2. unfold py_sum. cbn [map snd fold_left].
    change (adjustment.exercise_adj (set_average_hours hours2 l))
      with (adjustment.exercise_adj (set_average_hours hours1 l)).
    change (adjustment.diet_adj (set_average_hours hours2 l))
      with (adjustment.diet_adj (set_average_hours hours1 l)).
    change (adjustment.stress_adj (set_average_hours hours2 l))
      with (adjustment.stress_adj (set_average_hours hours1 l)).
    change (adjustment.social_adj (set_average_hours hours2 l))
      with (adjustment.social_adj (set_average_hours hours1 l)).
    assert (adjustment.sleep_adj (set_average_hours hours2 l)
            == adjustment.sleep_adj (set_average_hours hours1 l)) as E.
    { unfold adjustment.sleep_adj, set_average_hours. cbv zeta.
      cbn [sleep average_hours quality].
      unfold weights.optimal_hours, weights.per_hour_deficit.
      cmp_cases; lra. }
    rewrite E. reflexivity.
Qed.

Lemma more_sleep_never_raises_prediction_witness :
  exists r1 r2 : Prediction,
    predict_life_expectancy "2024-05-01T10:00:00"
      (complete_record sample.profile sample.metrics sample.impedance
         (set_average_hours 5 sample.lifestyle) sample.genetics) = Ok r1 /\
    predict_life_expectancy "2024-05-01T10:00:00"
      (complete_record sample.profile sample.metrics sample.impedance
         (set_average_hours 7 sample.lifestyle) sample.genetics) = Ok r2 /\
    predicted_life_expectancy r2 <= predicted_life_expectancy r1.
Proof.
  destruct (more_sleep_never_raises_prediction "2024-05-01T10:00:00" "user_0001"
              sample.profile sample.metrics sample.impedance sample.lifestyle
              sample.genetics 5 7)
    as (r1 & r2 & H1 & H2 & H & _).
  - reflexivity.
  - vm_compute. discriminate.
  - discriminate.
  - discriminate.
  - discriminate.
  - exists r1, r2. auto.
Defined.

(** ** The quit-smoking scenario and the prediction *)

Section QuitSmokingResponse.

(** The blood pressure adjustment falls, or stays, as the systolic
    pressure grows. *)
Lemma bp_adj_antitone (h1 h2 : HealthMetrics) :
  systolic (blood_pressure h1) <= systolic (blood_pressure h2) ->
  adjustment.bp_adj h2 <= adjustment.bp_adj h1.
Proof.
  intros H. unfold adjustment.bp_adj. cbv zeta.
  unfold weights.optimal_systolic, weights.per_10mmHg_above.
  cmp_cases; try lra.
  - apply Qle_minus_iff.
    setoid_replace ((systolic (blood_pressure h1) - 115) / 10 * -1.2 +
                    - ((systolic (blood_pressure h2) - 115) / 10 * -1.2))
      with ((systolic (blood_pressure h2) - systolic (blood_pressure h1)) * 0.12)
      by field.
    nra.
  - setoid_replace ((systolic (blood_pressure h2) - 115) / 10 * -1.2)
      with ((systolic (blood_pressure h2) - 115) * -0.12) by field.
    nra.
Qed.

(** A systolic pressure lowered towards the floor of 110 does not lower
    the blood pressure adjustment, even when the floor raises it. *)
Lemma bp_adj_after_reduction (h1 h2 : HealthMetrics) (reduction : Q) :
  0 <= reduction ->
  systolic (blood_pressure h2) = py_max 110 (systolic (blood_pressure h1) - reduction) ->
  adjustment.bp_adj h1 <= adjustment.bp_adj h2.
Proof.
  intros Hr E.
  destruct (py_max_cases 110 (systolic (blood_pressure h1) - reduction)) as [[H E']|[H E']];
    rewrite E' in E.
  - apply bp_adj_antitone. rewrite E. lra.
  - unfold adjustment.bp_adj. cbv zeta. rewrite E.
    unfold weights.optimal_systolic, weights.per_10mmHg_above.
    cmp_cases; try lra.
    setoid_replace ((systolic (blood_pressure h1) - 115) / 10 * -1.2)
      with ((systolic (blood_pressure h1) - 115) * -0.12) by field.
    nra.
Qed.

(** With the same positive HDL, less total cholesterol does not lower the
    cholesterol adjustment. *)
Lemma chol_adj_antitone (h1 h2 : HealthMetrics) (a1 : Q) :
  0 < hdl (cholesterol h1) ->
  hdl (cholesterol h2) = hdl (cholesterol h1) ->
  total (cholesterol h2) <= total (cholesterol h1) ->
  adjustment.chol_adj h1 = Ok a1 ->
  exists a2, adjustment.chol_adj h2 = Ok a2 /\ a1 <= a2.
Proof.
  intros Hpos Eh Ht. unfold adjustment.chol_adj. rewrite Eh.
  rewrite !py_div_ok by lra. cbn [bind].
  assert (total (cholesterol h2) / hdl (cholesterol h1)
          <= total (cholesterol h1) / hdl (cholesterol h1)) as Hratio.
  { apply Qmult_le_compat_r; [exact Ht|].
    apply Qlt_le_weak, Qinv_lt_0_compat, Hpos. }
  unfold weights.optimal_ratio, weights.cholesterol_per_unit_above.
  cmp_cases; intros [= <-]; eexists; (split; [reflexivity|]); lra.
Qed.

End QuitSmokingResponse.

(** X5: for a current smoker with a valid record, a positive HDL and a
    total cholesterol of at least 150, the quit-smoking scenario raises
    the predicted life expectancy by at least 7.9 years: the smoking
    factor goes from -10.0 to -2.0, and neither the blood pressure factor
    nor the cholesterol factor of the second prediction is below that of
    the first. *)
Theorem quit_smoking_raises_prediction (draws : QuitSmokingDraws) (now1 now2 uid : string)
    (p : UserProfile) (h : HealthMetrics) (i : ImpedanceData)
    (l : LifestyleData) (g : GeneticData) :
  user_id p = Some uid ->
  lower (smoking_status p) = "current" ->
  0 < hdl (cholesterol h) ->
  150 <= total (cholesterol h) ->
  cancer (risk_factors g) <> [] ->
  neurodegenerative (risk_factors g) <> [] ->
  unit_draw (u_bp_systolic_reduction draws) ->
  unit_draw (u_chol_improvement draws) ->
  exists (u' : UserData) (r r' : Prediction),
    _apply_quit_smoking_scenario draws (complete_record p h i l g) = (None, u') /\
    predict_life_expectancy now1 (complete_record p h i l g) = Ok r /\
    predict_life_expectancy now2 u' = Ok r' /\
    In ("Smoking", -10.0) (factors r) /\
    In ("Smoking", -2.0) (factors r') /\
    predicted_life_expectancy r + 7.9 <= predicted_life_expectancy r' /\
    exists bp_adj bp_adj' chol_adj chol_adj' : Q,
      In ("Blood Pressure", bp_adj) (factors r) /\
      In ("Blood Pressure", bp_adj') (factors r') /\
      bp_adj <= bp_adj' /\
      In ("Cholesterol", chol_adj) (factors r) /\
      In ("Cholesterol", chol_adj') (factors r') /\
      chol_adj <= chol_adj'.
Proof.
  intros Hid Hs Hpos Ht Hc Hn [Hb0 Hb1] [Hc0 Hc1].
  pose (p' := set_smoking_status "Former" p).
  pose (h' :=
    {| blood_pressure :=
         {| systolic :=
              py_max 110 (systolic (blood_pressure h)
                          - uniform 5 12 (u_bp_systolic_reduction draws));
            diastolic :=
              py_max 70 (diastolic (blood_pressure h)
                         - uniform 3 8 (u_bp_diastolic_reduction draws)) |};
       resting_heart_rate :=
         py_max 60 (resting_heart_rate h - uniform 5 12 (u_heart_rate_reduction draws));
       cholesterol :=
         {| total :=
              py_max 150 (total (cholesterol h)
                          * (1 - uniform 0.05 0.10 (u_chol_improvement draws)));
            hdl := hdl (cholesterol h);
            ldl :=
              py_max 70 (ldl (cholesterol h)
                         * (1 - uniform 0.05 0.10 (u_chol_improvement draws))) |};
       fasting_glucose := fasting_glucose h;
       hba1c := hba1c h;
       vo2_max := vo2_max h + uniform 5 15 (u_vo2_increase draws);
       body_fat_percentage := body_fat_percentage h |}).
  assert (_apply_quit_smoking_scenario draws (complete_record p h i l g)
          = (None, complete_record p' h' i l g)) as Happly.
  { unfold _apply_quit_smoking_scenario, complete_record.
    cbn [user_profile]. rewrite Hs. reflexivity. }
  assert (~ hdl (cholesterol h) == 0) as Hh by lra.
  assert (~ hdl (cholesterol h') == 0) as Hh' by (subst h'; cbn [cholesterol hdl]; lra).
  destruct (predict_life_expectancy_valid now1 uid p h i l g Hid Hh Hc Hn)
    as (r & a & b & Hr & Ea & Eb & Hbase & Hf & Hp).
  destruct (predict_life_expectancy_valid now2 uid p' h' i l g Hid Hh' Hc Hn)
    as (r' & a' & b' & Hr' & Ea' & Eb' & Hbase' & Hf' & Hp').
  assert (b' = b) as -> by congruence.
  assert (adjustment.smoking_adj p = -10.0) as Hs1.
  { unfold adjustment.smoking_adj. cbv zeta. rewrite Hs. reflexivity. }
  assert (adjustment.smoking_adj p' = -2.0) as Hs2 by reflexivity.
  assert (adjustment.bp_adj h <= adjustment.bp_adj h') as Hbp.
  { apply (bp_adj_after_reduction h h' (uniform 5 12 (u_bp_systolic_reduction draws)));
      [unfold uniform; lra | reflexivity]. }
  assert (a <= a') as Hchol.
  { destruct (chol_adj_antitone h h' a Hpos) as (a2 & E2 & H2);
      [reflexivity | | exact Ea | congruence].
    subst h'. cbn [cholesterol total]. unfold uniform.
    match goal with |- py_max ?x ?y <= _ =>
      destruct (py_max_cases x y) as [[H ->]|[H ->]]
    end; nra. }
  exists (complete_record p' h' i l g), r, r'.
  split; [exact Happly|]. split; [exact Hr|]. split; [exact Hr'|].
  split; [rewrite Hf, Hs1; simpl; tauto|].
  split; [rewrite Hf', Hs2; simpl; tauto|].
  split;
    [|exists (adjustment.bp_adj h), (adjustment.bp_adj h'), a, a';
      rewrite Hf, Hf'; simpl; tauto].
  rewrite Hp, Hp'.
  destruct (py_round_1_near (base_life_expectancy r + py_sum (map snd (factors r))))
    as [_ A].
  destruct (py_round_1_near (base_life_expectancy r' + py_sum (map snd (factors r'))))
    as [B _].
  assert (base_life_expectancy r + py_sum (map snd (factors r)) + 8
          <= base_life_expectancy r' + py_sum (map snd (factors r'))) as Hsum.
  { rewrite Hbase, Hbase', Hf, Hf', Hs1, Hs2. unfold py_sum. cbn [map snd fold_left].
    change (gender p') with (gender p).
    change (adjustment.bmi_adj p') with (adjustment.bmi_adj p).
    change (adjustment.alcohol_adj p') with (adjustment.alcohol_adj p).
    change (adjustment.bio_age_adj p' i) with (adjustment.bio_age_adj p i).
    lra. }
  lra.
Qed.

Lemma quit_smoking_raises_prediction_witness :
  exists (u' : UserData) (r r' : Prediction),
    _apply_quit_smoking_scenario sample.quit_draws sample.user_data = (None, u') /\
    predict_life_expectancy (sample.clock 0) sample.user_data = Ok r /\
    predict_life_expectancy (sample.clock 1) u' = Ok r' /\
    predicted_life_expectancy r + 7.9 <= predicted_life_expectancy r'.
Proof.
  destruct (quit_smoking_raises_prediction sample.quit_draws (sample.clock 0)
              (sample.clock 1) "user_0001" sample.profile sample.metrics
              sample.impedance sample.lifestyle sample.genetics)
    as (u' & r & r' & H1 & H2 & H3 & _ & _ & H4 & _).
  - reflexivity.
  - reflexivity.
  - reflexivity.
  - discriminate.
  - discriminate.
  - discriminate.
  - split; [discriminate | reflexivity].
  - split; [discriminate | reflexivity].
  - exists u', r, r'. auto.
Defined.

(** ** The recommendation rules as a table *)

Section RuleTable.

Variables (a b s t m f : list Recommendation).

Let D : RecommendationDict := six_categories a b s t m f.

Lemma step_exercise_first (c1 c2 : bool) (x y z : Recommendation) :
  (if c1 then dict_append D "exercise" x
   else if c2 then dict_append D "exercise" y else dict_append D "exercise" z)
  = six_categories (a ++ [if c1 then x else if c2 then y else z]) b s t m f.
Proof. destruct c1, c2; reflexivity. Qed.

Lemma step_exercise (c : bool) (x : Recommendation) :
  (if c then dict_append D "exercise" x else D)
  = six_categories (a ++ rules.when c x) b s t m f.
Proof. destruct c; cbn [rules.when]; rewrite ?app_nil_r; reflexivity. Qed.

Lemma step_nutrition (c : bool) (x : Recommendation) :
  (if c then dict_append D "nutrition" x else D)
  = six_categories a (b ++ rules.when c x) s t m f.
Proof. destruct c; cbn [rules.when]; rewrite ?app_nil_r; reflexivity. Qed.

Lemma step_sleep (c c' : bool) (x y : Recommendation) :
  (if c
   then let recommendations := dict_append D "sleep" x in
        if c' then dict_append recommendations "sleep" y else recommendations
   else D)
  = six_categories a b (s ++ (if c then x :: rules.when c' y else [])) t m f.
Proof.
  destruct c, c'; cbn [rules.when]; cbv zeta; rewrite ?app_nil_r; try reflexivity.
  unfold D, six_categories. cbn. now rewrite <- app_assoc.
Qed.

Lemma step_stress_management (c : bool) (x y : Recommendation) :
  (if c
   then let recommendations := dict_append D "stress_management" x in
        dict_append recommendations "stress_management" y
   else D)
  = six_categories a b s (t ++ (if c then [x; y] else [])) m f.
Proof.
  destruct c; cbv zeta; rewrite ?app_nil_r; try reflexivity.
  unfold D, six_categories. cbn. now rewrite <- app_assoc.
Qed.

Lemma step_health_monitoring (c : bool) (x : Recommendation) :
  (if c then dict_append D "health_monitoring" x else D)
  = six_categories a b s t (m ++ rules.when c x) f.
Proof. destruct c; cbn [rules.when]; rewrite ?app_nil_r; reflexivity. Qed.

Lemma step_lifestyle (c : bool) (x : Recommendation) :
  (if c then dict_append D "lifestyle" x else D)
  = six_categories a b s t m (f ++ rules.when c x).
Proof. destruct c; cbn [rules.when]; rewrite ?app_nil_r; reflexivity. Qed.

End RuleTable.

(** Replace the first [let] of the left-hand side by its value. *)
Ltac head_let :=
  match goal with
  | |- (let x := ?e in @?body x) = ?rhs => change (body e = rhs); cbv beta
  end.

(** The chain of rule statements, category by category. *)
Lemma recommendation_rules_by_category (p : UserProfile) (h : HealthMetrics)
    (l : LifestyleData) (r : RiskAssessment) :
  recommendation_rules p h l r =
    six_categories (rules.for_exercise p h l r) (rules.for_nutrition l r)
      (rules.for_sleep l) (rules.for_stress_management l)
      (rules.for_health_monitoring p h r) (rules.for_lifestyle p).
Proof.
  cbv beta delta [recommendation_rules].
  do 14 head_let.
  fold (six_categories [] [] [] [] [] []).
  rewrite step_exercise_first. head_let.
  rewrite step_exercise. head_let.
  rewrite step_exercise. head_let.
  rewrite step_nutrition. head_let.
  rewrite step_nutrition. head_let.
  rewrite step_nutrition. head_let.
  rewrite step_sleep. head_let.
  rewrite step_stress_management. head_let.
  rewrite step_health_monitoring. head_let.
  rewrite step_health_monitoring. head_let.
  rewrite step_health_monitoring. head_let.
  rewrite step_lifestyle. head_let.
  rewrite step_lifestyle. cbv zeta.
  unfold rules.for_exercise, rules.for_nutrition, rules.for_sleep,
    rules.for_stress_management, rules.for_health_monitoring, rules.for_lifestyle,
    rules.is_raised.
  cbn [app]. rewrite <- !app_assoc. reflexivity.
Qed.

(** X6: whatever the input, the recommendations are a dict of the six
    categories exercise, nutrition, sleep, stress_management,
    health_monitoring and lifestyle, in this order, and the list of each
    category is what the rules of that category yield, in rule order. *)
Theorem recommendation_rules_table (p : UserProfile) (h : HealthMetrics)
    (l : LifestyleData) (r : RiskAssessment) :
  recommendation_rules p h l r =
    six_categories (rules.for_exercise p h l r) (rules.for_nutrition l r)
      (rules.for_sleep l) (rules.for_stress_management l)
      (rules.for_health_monitoring p h r) (rules.for_lifestyle p).
Proof. apply recommendation_rules_by_category. Qed.

(** ** Recommendations and the clock *)

(** The rules read the risk assessment through three of its categories
    only. *)
Lemma recommendation_rules_reads_categories (p : UserProfile) (h : HealthMetrics)
    (l : LifestyleData) (risks1 risks2 : RiskAssessment) :
  category (cardiovascular (risks risks1)) = category (cardiovascular (risks risks2)) ->
  category (metabolic (risks risks1)) = category (metabolic (risks risks2)) ->
  category (cancer_entry (risks risks1)) = category (cancer_entry (risks risks2)) ->
  recommendation_rules p h l risks1 = recommendation_rules p h l risks2.
Proof.
  intros Hcv Hm Hc. rewrite !recommendation_rules_by_category.
  unfold rules.for_exercise, rules.for_nutrition, rules.for_health_monitoring.
  rewrite Hcv, Hm, Hc. reflexivity.
Qed.

(** The impact estimate reads the prediction through its predicted life
    expectancy only. *)
Lemma estimate_impact_reads_prediction (recs : RecommendationDict)
    (predictions1 predictions2 : Prediction) :
  predicted_life_expectancy predictions1 = predicted_life_expectancy predictions2 ->
  _estimate_impact_on_life_expectancy recs predictions1
  = _estimate_impact_on_life_expectancy recs predictions2.
Proof.
  intros H. unfold _estimate_impact_on_life_expectancy. cbv zeta. rewrite H. reflexivity.
Qed.

(** C5, as the code has it: the output of [generate_recommendations] is
    determined by its inputs and by the reading of the clock that the call
    takes, and by nothing else.  Two calls on the same user record,
    prediction and risk assessment (more generally, on inputs that agree
    on what the function reads: the user profile, the health metrics and
    the lifestyle data of the record, the predicted life expectancy, and
    the cardiovascular, metabolic and cancer risk categories) either
    raise the same exception or return outputs with the same user id, the
    same recommendations, the same top priorities and the same potential
    impact; [generated_at] is the reading that each call takes, so that the
    two outputs are identical exactly when the two readings are. *)
Theorem generate_recommendations_same_up_to_clock (now1 now2 : string)
    (user_data1 user_data2 : UserData) (predictions1 predictions2 : Prediction)
    (risks1 risks2 : RiskAssessment) :
  user_profile user_data1 = user_profile user_data2 ->
  health_metrics user_data1 = health_metrics user_data2 ->
  lifestyle_data user_data1 = lifestyle_data user_data2 ->
  predicted_life_expectancy predictions1 = predicted_life_expectancy predictions2 ->
  category (cardiovascular (risks risks1)) = category (cardiovascular (risks risks2)) ->
  category (metabolic (risks risks1)) = category (metabolic (risks risks2)) ->
  category (cancer_entry (risks risks1)) = category (cancer_entry (risks risks2)) ->
  match generate_recommendations now1 user_data1 predictions1 risks1,
        generate_recommendations now2 user_data2 predictions2 risks2 with
  | Ok a, Ok b =>
      rec_user_id a = rec_user_id b /\
      recommendations a = recommendations b /\
      top_priorities a = top_priorities b /\
      potential_impact a = potential_impact b /\
      generated_at a = now1 /\ generated_at b = now2 /\
      (a = b <-> now1 = now2)
  | Raise e1, Raise e2 => e1 = e2
  | _, _ => False
  end.
Proof.
  intros Hp Hh Hl Hpred Hcv Hm Hc.
  unfold generate_recommendations. rewrite <- Hp, <- Hh, <- Hl.
  destruct (user_profile user_data1) as [p|]; cbn [getitem bind]; [|reflexivity].
  destruct (health_metrics user_data1) as [h|]; cbn [getitem bind]; [|reflexivity].
  destruct (lifestyle_data user_data1) as [l|]; cbn [getitem bind]; [|reflexivity].
  destruct (user_id p) as [uid|]; cbn [getitem bind]; [|reflexivity].
  rewrite <- (recommendation_rules_reads_categories p h l risks1 risks2 Hcv Hm Hc).
  rewrite <- (estimate_impact_reads_prediction _ predictions1 predictions2 Hpred).
  cbn [rec_user_id recommendations top_priorities potential_impact generated_at].
  repeat (split; [reflexivity|]). split.
  - intros E. exact (f_equal generated_at E).
  - intros ->. reflexivity.
Qed.

Lemma generate_recommendations_same_up_to_clock_witness :
  match generate_recommendations (sample.clock 3) sample.user_data
          sample_results.prediction sample_results.assessment,
        generate_recommendations (sample.clock 4)
          (complete_record sample.profile sample.metrics
             {| chronological_age := 50; estimated_biological_age := 47 |}
             sample.lifestyle sample.genetics)
          sample_results.prediction sample_results.assessment with
  | Ok a, Ok b =>
      rec_user_id a = rec_user_id b /\
      recommendations a = recommendations b /\
      top_priorities a = top_priorities b /\
      potential_impact a = potential_impact b /\
      generated_at a = sample.clock 3 /\ generated_at b = sample.clock 4 /\
      (a = b <-> sample.clock 3 = sample.clock 4)
  | Raise e1, Raise e2 => e1 = e2
  | _, _ => False
  end.
Proof.
  apply (generate_recommendations_same_up_to_clock (sample.clock 3) (sample.clock 4)
           sample.user_data
           (complete_record sample.profile sample.metrics
              {| chronological_age := 50; estimated_biological_age := 47 |}
              sample.lifestyle sample.genetics)
           sample_results.prediction sample_results.prediction
           sample_results.assessment sample_results.assessment);
    reflexivity.
Defined.

(** Two calls on the sample record, a hundred microseconds apart: the two
    outputs are different objects. *)
Lemma generate_recommendations_outputs_differ :
  exists (predictions : Prediction) (risks_arg : RiskAssessment) (a b : Recommendations),
    predict_life_expectancy "2024-05-01T10:00:00.000100" sample.user_data = Ok predictions /\
    calculate_health_risks "2024-05-01T10:00:00.000300" sample.user_data = Ok risks_arg /\
    generate_recommendations "2024-05-01T10:00:00.000400" sample.user_data
      predictions risks_arg = Ok a /\
    generate_recommendations "2024-05-01T10:00:00.000500" sample.user_data
      predictions risks_arg = Ok b /\
    a <> b.
Proof.
  do 4 eexists.
  split; [vm_compute; reflexivity|].
  split; [vm_compute; reflexivity|].
  split; [vm_compute; reflexivity|].
  split; [vm_compute; reflexivity|].
  intros H. apply (f_equal generated_at) in H. vm_compute in H. discriminate.
Qed.

(** ** What the table shows about the output *)

Section TableFacts.

Variables (p : UserProfile) (h : HealthMetrics) (l : LifestyleData) (r : RiskAssessment).

(** Case analysis on every condition of a rule list. *)
Ltac rule_cases :=
  repeat match goal with
  | |- context [if ?c then _ else _] => destruct c
  | |- context [rules.when ?c _] => destruct c; cbn [rules.when]
  end.

Lemma flattened_six (a b s t m f : list Recommendation) :
  flattened (six_categories a b s t m f)
  = map (tag "exercise") a ++ map (tag "nutrition") b ++ map (tag "sleep") s
    ++ map (tag "stress_management") t ++ map (tag "health_monitoring") m
    ++ map (tag "lifestyle") f.
Proof. unfold flattened, six_categories. cbn [flat_map]. now rewrite app_nil_r. Qed.

Lemma filter_tag (c : string) (test : Recommendation -> bool) (recs : list Recommendation) :
  filter (fun x => test {| priority := item_priority x;
                           recommendation := item_recommendation x;
                           impact := item_impact x |}) (map (tag c) recs)
  = map (tag c) (filter test recs).
Proof.
  induction recs as [|x recs IH]; [reflexivity|]. cbn [map filter].
  destruct x as [pr re im]. cbn [tag item_priority item_recommendation item_impact
                                 priority recommendation impact].
  destruct (test _); cbn [map]; now rewrite IH.
Qed.

Lemma no_very_high_exercise : filter is_very_high_rec (rules.for_exercise p h l r) = [].
Proof. unfold rules.for_exercise. rule_cases; reflexivity. Qed.

Lemma no_very_high_nutrition : filter is_very_high_rec (rules.for_nutrition l r) = [].
Proof. unfold rules.for_nutrition. rule_cases; reflexivity. Qed.

Lemma no_very_high_sleep : filter is_very_high_rec (rules.for_sleep l) = [].
Proof. unfold rules.for_sleep. rule_cases; reflexivity. Qed.

Lemma no_very_high_stress_management :
  filter is_very_high_rec (rules.for_stress_management l) = [].
Proof. unfold rules.for_stress_management. rule_cases; reflexivity. Qed.

Lemma no_very_high_health_monitoring :
  filter is_very_high_rec (rules.for_health_monitoring p h r) = [].
Proof. unfold rules.for_health_monitoring. rule_cases; reflexivity. Qed.

Lemma very_high_lifestyle :
  filter is_very_high_rec (rules.for_lifestyle p)
  = rules.when (String.eqb (lower (smoking_status p)) "current") catalog.quit_smoking.
Proof. unfold rules.for_lifestyle. rule_cases; reflexivity. Qed.

End TableFacts.

Section TopPriorities.

(** The top priorities of any dict: the entries of the highest priority,
    then those of priority "High", each group in encounter order. *)
Lemma top_priorities_partition (recs : RecommendationDict) :
  _extract_high_priority_recommendations recs =
    filter is_very_high (flattened recs) ++ filter is_high (flattened recs).
Proof.
  unfold _extract_high_priority_recommendations.
  change (flat_map _ recs) with
    (flat_map (fun '(category, l) =>
       flat_map (fun rec => if is_high_priority rec then [tag category rec] else []) l) recs).
  rewrite high_priority_items, sort_by_key_two.
  - rewrite !filter_twice. f_equal; apply filter_ext; intros x;
      unfold priority_key, is_high, is_very_high;
      destruct (item_priority x =? "Very High")%string eqn:V;
      destruct (item_priority x =? "High")%string eqn:H; try reflexivity.
    apply String.eqb_eq in V. apply String.eqb_eq in H. congruence.
  - apply Forall_forall. intros x _. unfold priority_key.
    destruct (item_priority x =? "Very High")%string; lia.
Qed.

Lemma filter_very_high_tag (c : string) (recs : list Recommendation) :
  filter is_very_high (map (tag c) recs) = map (tag c) (filter is_very_high_rec recs).
Proof.
  rewrite <- (filter_tag c is_very_high_rec). apply filter_ext. reflexivity.
Qed.

(** What [generate_recommendations] returns when the sections it reads
    and the user id are present. *)
Lemma generate_recommendations_present (now uid : string) (u : UserData)
    (p : UserProfile) (h : HealthMetrics) (l : LifestyleData)
    (predictions : Prediction) (risks_arg : RiskAssessment) :
  user_profile u = Some p -> health_metrics u = Some h -> lifestyle_data u = Some l ->
  user_id p = Some uid ->
  generate_recommendations now u predictions risks_arg =
    Ok {| rec_user_id := uid;
          recommendations := recommendation_rules p h l risks_arg;
          top_priorities :=
            _extract_high_priority_recommendations (recommendation_rules p h l risks_arg);
          potential_impact :=
            _estimate_impact_on_life_expectancy (recommendation_rules p h l risks_arg)
              predictions;
          generated_at := now |}.
Proof.
  intros Hp Hh Hl Hid. unfold generate_recommendations.
  rewrite Hp, Hh, Hl. cbn [getitem bind]. rewrite Hid. reflexivity.
Qed.

End TopPriorities.

(** X7: when [generate_recommendations] has the sections it reads and the
    user id, the only entry of priority "Very High" it can produce is the
    quit-smoking entry of the lifestyle category: for a current smoker
    (compared without regard to case) it is the first top priority, and
    all the others have priority "High"; for anyone else every top
    priority has priority "High". *)
Theorem top_priorities_smoking_first (now uid : string) (u : UserData)
    (p : UserProfile) (h : HealthMetrics) (l : LifestyleData)
    (predictions : Prediction) (risks_arg : RiskAssessment) :
  user_profile u = Some p -> health_metrics u = Some h -> lifestyle_data u = Some l ->
  user_id p = Some uid ->
  exists r : Recommendations,
    generate_recommendations now u predictions risks_arg = Ok r /\
    top_priorities r =
      (if String.eqb (lower (smoking_status p)) "current" then [quit_smoking_item] else [])
      ++ filter is_high (flattened (recommendations r)) /\
    Forall (fun x => item_priority x = "High")
      (filter is_high (flattened (recommendations r))).
Proof.
  intros Hp Hh Hl Hid.
  rewrite (generate_recommendations_present now uid u p h l predictions risks_arg
             Hp Hh Hl Hid).
  eexists. split; [reflexivity|]. cbn [top_priorities recommendations]. split.
  - rewrite top_priorities_partition. f_equal.
    rewrite recommendation_rules_by_category, flattened_six.
    rewrite !filter_app, !filter_very_high_tag.
    rewrite no_very_high_exercise, no_very_high_nutrition, no_very_high_sleep,
      no_very_high_stress_management, no_very_high_health_monitoring,
      very_high_lifestyle.
    cbn [map app]. destruct (_ =? _)%string; reflexivity.
  - apply Forall_forall. intros x Hx. apply filter_In in Hx as [_ Hx].
    unfold is_high in Hx. now apply String.eqb_eq in Hx.
Qed.

Lemma top_priorities_smoking_first_witness :
  exists r : Recommendations,
    generate_recommendations (sample.clock 3) sample.user_data
      sample_results.prediction sample_results.assessment = Ok r /\
    hd_error (top_priorities r) = Some quit_smoking_item.
Proof.
  match goal with
  | |- exists r, generate_recommendations ?n ?u ?pr ?ri = _ /\ _ =>
      destruct (top_priorities_smoking_first n "user_0001" u sample.profile
                  sample.metrics sample.lifestyle pr ri)
        as (r & H & Ht & _)
  end.
  - reflexivity.
  - reflexivity.
  - reflexivity.
  - reflexivity.
  - exists r. split; [exact H|]. rewrite Ht. reflexivity.
Defined.

Section HighPriorityCount.

Variables (p : UserProfile) (h : HealthMetrics) (l : LifestyleData) (r : RiskAssessment).

Ltac rule_cases :=
  repeat match goal with
  | |- context [if ?c then _ else _] => destruct c
  | |- context [rules.when ?c _] => destruct c; cbn [rules.when]
  end.

Lemma high_count_exercise :
  (length (filter is_high_priority (rules.for_exercise p h l r)) <= 2)%nat.
Proof. unfold rules.for_exercise. rule_cases; cbn; lia. Qed.

Lemma high_count_nutrition :
  (length (filter is_high_priority (rules.for_nutrition l r)) <= 2)%nat.
Proof. unfold rules.for_nutrition. rule_cases; cbn; lia. Qed.

Lemma high_count_sleep :
  (length (filter is_high_priority (rules.for_sleep l)) <= 1)%nat.
Proof. unfold rules.for_sleep. rule_cases; cbn; lia. Qed.

Lemma high_count_stress_management :
  (length (filter is_high_priority (rules.for_stress_management l)) <= 1)%nat.
Proof. unfold rules.for_stress_management. rule_cases; cbn; lia. Qed.

Lemma high_count_health_monitoring :
  (length (filter is_high_priority (rules.for_health_monitoring p h r)) <= 2)%nat.
Proof. unfold rules.for_health_monitoring. rule_cases; cbn; lia. Qed.

Lemma high_count_lifestyle :
  (length (filter is_high_priority (rules.for_lifestyle p)) <= 2)%nat.
Proof. unfold rules.for_lifestyle. rule_cases; cbn; lia. Qed.

(** The rules yield at most ten entries of priority "High" or "Very High". *)
Lemma high_priority_count_at_most_ten :
  (high_priority_count (recommendation_rules p h l r) <= 10)%nat.
Proof.
  rewrite recommendation_rules_by_category.
  unfold high_priority_count, six_categories, values.
  cbn [map snd flat_map]. rewrite !length_app. cbn [length].
  pose proof high_count_exercise. pose proof high_count_nutrition.
  pose proof high_count_sleep. pose proof high_count_stress_management.
  pose proof high_count_health_monitoring. pose proof high_count_lifestyle.
  lia.
Qed.

End HighPriorityCount.

(** X8: the rules never yield more than ten recommendations of priority
    "High" or "Very High", so the cap of the impact estimate never cuts:
    on an output of [generate_recommendations] the potential years gained
    are exactly 0.8 per such recommendation, and at most 8.0. *)
Theorem potential_years_gained_uncapped (now uid : string) (u : UserData)
    (p : UserProfile) (h : HealthMetrics) (l : LifestyleData)
    (predictions : Prediction) (risks_arg : RiskAssessment) :
  user_profile u = Some p -> health_metrics u = Some h -> lifestyle_data u = Some l ->
  user_id p = Some uid ->
  exists r : Recommendations,
    generate_recommendations now u predictions risks_arg = Ok r /\
    (count_high (recommendations r) <= 10)%nat /\
    potential_years_gained (potential_impact r)
      == 0.8 * inject_Z (Z.of_nat (count_high (recommendations r))) /\
    potential_years_gained (potential_impact r) <= 8.0.
Proof.
  intros Hp Hh Hl Hid.
  rewrite (generate_recommendations_present now uid u p h l predictions risks_arg
             Hp Hh Hl Hid).
  eexists. split; [reflexivity|]. cbn [recommendations potential_impact].
  pose proof (high_priority_count_at_most_ten p h l risks_arg) as Hten.
  rewrite <- high_priority_count_flattened.
  unfold _estimate_impact_on_life_expectancy. cbn [potential_years_gained].
  set (n := Z.of_nat (high_priority_count (recommendation_rules p h l risks_arg))) in *.
  assert (inject_Z n <= 10) as Hn.
  { change 10 with (inject_Z 10). rewrite <- Zle_Qle. lia. }
  assert (py_round_n (py_min (inject_Z n * 0.8) 8.0) 1 == 0.8 * inject_Z n) as E.
  { destruct (py_min_cases (inject_Z n * 0.8) 8.0) as [[H ->]|[H ->]]; [lra|].
    rewrite (py_round_n_exact (8 * n)); [ring|].
    unfold pow10. rewrite inject_Z_mult.
    change (inject_Z (10 ^ Z.of_nat 1)) with 10. change (inject_Z 8) with 8. field. }
  split; [exact Hten|]. rewrite E. split; [reflexivity | lra].
Qed.

Lemma potential_years_gained_uncapped_witness :
  exists r : Recommendations,
    generate_recommendations (sample.clock 3) sample.user_data
      sample_results.prediction sample_results.assessment = Ok r /\
    potential_years_gained (potential_impact r) <= 8.0.
Proof.
  match goal with
  | |- exists r, generate_recommendations ?n ?u ?pr ?ri = _ /\ _ =>
      destruct (potential_years_gained_uncapped n "user_0001" u sample.profile
                  sample.metrics sample.lifestyle pr ri)
        as (r & H & _ & _ & Hc)
  end.
  - reflexivity.
  - reflexivity.
  - reflexivity.
  - reflexivity.
  - exists r. auto.
Defined.

(** X9: the advice to reduce processed food is matched without
    lowercasing, unlike the other string rules: it is issued exactly when
    the processed food frequency is spelled "often" or "very frequently",
    and for no other spelling such as "Often". *)
Theorem processed_food_rule_is_case_sensitive (now uid : string) (u : UserData)
    (p : UserProfile) (h : HealthMetrics) (l : LifestyleData)
    (predictions : Prediction) (risks_arg : RiskAssessment) :
  user_profile u = Some p -> health_metrics u = Some h -> lifestyle_data u = Some l ->
  user_id p = Some uid ->
  exists r : Recommendations,
    generate_recommendations now u predictions risks_arg = Ok r /\
    (In catalog.processed_food (dict_get (recommendations r) "nutrition" []) <->
     processed_food_frequency (diet l) = "often" \/
     processed_food_frequency (diet l) = "very frequently").
Proof.
  intros Hp Hh Hl Hid.
  rewrite (generate_recommendations_present now uid u p h l predictions risks_arg
             Hp Hh Hl Hid).
  eexists. split; [reflexivity|]. cbn [recommendations].
  rewrite recommendation_rules_by_category.
  change (dict_get (six_categories _ _ _ _ _ _) "nutrition" [])
    with (rules.for_nutrition l risks_arg).
  unfold rules.for_nutrition, str_in. cbn [existsb].
  rewrite orb_false_r.
  destruct (String.eqb_spec (processed_food_frequency (diet l)) "often") as [E1|N1];
    destruct (String.eqb_spec (processed_food_frequency (diet l)) "very frequently")
      as [E2|N2]; cbn [orb rules.when]; split; try tauto.
  - intros _. apply in_or_app. right. apply in_or_app. left. now left.
  - intros _. apply in_or_app. right. apply in_or_app. left. now left.
  - intros _. apply in_or_app. right. apply in_or_app. left. now left.
  - intros H. exfalso.
    apply in_app_or in H as [H|H]; [|apply in_app_or in H as [H|H]].
    + destruct (_ <? _); cbn in H; [destruct H as [H|[]]; discriminate | contradiction].
    + contradiction.
    + destruct (_ && _); cbn in H; [destruct H as [H|[]]; discriminate | contradiction].
Qed.

Lemma processed_food_rule_is_case_sensitive_witness :
  exists r : Recommendations,
    generate_recommendations (sample.clock 3) sample.user_data
      sample_results.prediction sample_results.assessment = Ok r /\
    processed_food_frequency (diet sample.lifestyle) = "Often" /\
    ~ In catalog.processed_food (dict_get (recommendations r) "nutrition" []).
Proof.
  destruct (processed_food_rule_is_case_sensitive (sample.clock 3) "user_0001"
              sample.user_data sample.profile sample.metrics sample.lifestyle
              sample_results.prediction sample_results.assessment)
    as (r & H & Hiff).
  - reflexivity.
  - reflexivity.
  - reflexivity.
  - reflexivity.
  - exists r. split; [exact H|]. split; [reflexivity|].
    intros C. apply Hiff in C. destruct C as [C|C]; discriminate.
Defined.

(** ** The orchestrator on valid and on deficient records *)

Section OrchestratorPaths.

Lemma dict_getitem_nonempty {A : Type} (d : list (string * A)) (k : string) (v : A) :
  dict_getitem d k = Ok v -> d <> [].
Proof. destruct d; [discriminate | discriminate]. Qed.

Lemma predict_life_expectancy_zero_hdl (now : string)
    (p : UserProfile) (h : HealthMetrics) (i : ImpedanceData)
    (l : LifestyleData) (g : GeneticData) :
  hdl (cholesterol h) == 0 ->
  predict_life_expectancy now (complete_record p h i l g) = Raise ZeroDivisionError.
Proof.
  intros H. unfold predict_life_expectancy, complete_record.
  cbn [user_profile health_metrics impedance_data lifestyle_data genetic_data getitem bind].
  unfold adjustment.chol_adj. rewrite (py_div_zero _ _ H). reflexivity.
Qed.

End OrchestratorPaths.

(** The stages of the orchestrator on a valid record. *)
Lemma run_complete_analysis_stages (clock : nat -> string) (uid : string)
    (p : UserProfile) (h : HealthMetrics) (i : ImpedanceData)
    (l : LifestyleData) (g : GeneticData) (alzheimers parkinsons : Q) :
  user_id p = Some uid ->
  ~ hdl (cholesterol h) == 0 ->
  cancer (risk_factors g) <> [] ->
  dict_getitem (neurodegenerative (risk_factors g)) "alzheimers" = Ok alzheimers ->
  dict_getitem (neurodegenerative (risk_factors g)) "parkinsons" = Ok parkinsons ->
  exists (le : Prediction) (ba : BiologicalAge) (hr : RiskAssessment)
         (recs : Recommendations),
    predict_life_expectancy (clock 0%nat) (complete_record p h i l g) = Ok le /\
    calculate_biological_age (clock 1%nat) (complete_record p h i l g) = Ok ba /\
    calculate_health_risks (clock 2%nat) (complete_record p h i l g) = Ok hr /\
    generate_recommendations (clock 3%nat) (complete_record p h i l g) le hr = Ok recs /\
    run_complete_analysis clock (complete_record p h i l g)
      = Ok (analysis_results uid le ba hr recs (clock 4%nat)) /\
    status (analysis_results uid le ba hr recs (clock 4%nat)) = "success".
Proof.
  intros Hid Hh Hc Ha Hp.
  pose proof (dict_getitem_nonempty _ _ _ Ha) as Hn.
  destruct (predict_life_expectancy_valid (clock 0%nat) uid p h i l g Hid Hh Hc Hn)
    as (le & _ & _ & Hle & _).
  destruct (calculate_biological_age_valid (clock 1%nat) uid p h i l g Hid Hh)
    as (ba & _ & Hba & _).
  destruct (chol_risk_factor_ok h Hh) as (c & Ec & _).
  destruct (calculate_health_risks_entries (clock 2%nat) uid p h i l g c
              alzheimers parkinsons Hid Ec Hc Ha Hp) as (hr & Hhr & _).
  pose proof (generate_recommendations_present (clock 3%nat) uid
                (complete_record p h i l g) p h l le hr eq_refl eq_refl eq_refl Hid)
    as Hrec.
  eexists le, ba, hr, _.
  split; [exact Hle|]. split; [exact Hba|]. split; [exact Hhr|].
  split; [exact Hrec|]. split; [|reflexivity].
  unfold run_complete_analysis. rewrite Hle, Hba, Hhr, Hrec.
  cbn [complete_record user_profile getitem bind]. rewrite Hid. reflexivity.
Qed.

(** X10: on a valid record the orchestrator returns the success result
    made of the four stage results, each computed at its own clock
    reading, the recommendations from the prediction and the risk
    assessment of the same call, together with the user id and the fifth
    clock reading. *)
Theorem run_complete_analysis_success (clock : nat -> string) (uid : string)
    (p : UserProfile) (h : HealthMetrics) (i : ImpedanceData)
    (l : LifestyleData) (g : GeneticData) (alzheimers parkinsons : Q) :
  user_id p = Some uid ->
  ~ hdl (cholesterol h) == 0 ->
  cancer (risk_factors g) <> [] ->
  dict_getitem (neurodegenerative (risk_factors g)) "alzheimers" = Ok alzheimers ->
  dict_getitem (neurodegenerative (risk_factors g)) "parkinsons" = Ok parkinsons ->
  exists (le : Prediction) (ba : BiologicalAge) (hr : RiskAssessment)
         (recs : Recommendations),
    predict_life_expectancy (clock 0%nat) (complete_record p h i l g) = Ok le /\
    calculate_biological_age (clock 1%nat) (complete_record p h i l g) = Ok ba /\
    calculate_health_risks (clock 2%nat) (complete_record p h i l g) = Ok hr /\
    generate_recommendations (clock 3%nat) (complete_record p h i l g) le hr = Ok recs /\
    run_complete_analysis clock (complete_record p h i l g)
      = Ok (analysis_results uid le ba hr recs (clock 4%nat)) /\
    status (analysis_results uid le ba hr recs (clock 4%nat)) = "success".
Proof. apply run_complete_analysis_stages. Qed.

Lemma run_complete_analysis_success_witness :
  exists r : AnalysisResult,
    run_complete_analysis sample.clock sample.user_data = Ok r /\ status r = "success".
Proof.
  destruct (run_complete_analysis_success sample.clock "user_0001" sample.profile
              sample.metrics sample.impedance sample.lifestyle sample.genetics 0.05 0.02)
    as (le & ba & hr & recs & _ & _ & _ & _ & H & Hs).
  - reflexivity.
  - vm_compute. discriminate.
  - discriminate.
  - reflexivity.
  - reflexivity.
  - eexists. split; [exact H | exact Hs].
Defined.



(** ** The generated health metrics *)

(** X12: whatever the draws, the health metrics generated for a profile
    with a user id have an LDL of at least 30 and an HDL that is at most
    the total cholesterol less 50. *)
Theorem generated_cholesterol_bounds (draws : HealthDraws) (p : UserProfile)
    (uid : string) :
  user_id p = Some uid ->
  exists h : HealthMetrics,
    generate_health_metrics draws p = Ok h /\
    30 <= ldl (cholesterol h) /\
    hdl (cholesterol h) <= total (cholesterol h) - 50 /\
    hdl (cholesterol h) < total (cholesterol h).
Proof.
  intros Hid. unfold generate_health_metrics. rewrite Hid. cbn [getitem bind].
  eexists. split; [reflexivity|]. cbn [cholesterol total hdl ldl].
  match goal with |- _ <= py_max ?a ?b /\ py_min ?c ?d <= _ /\ _ =>
    pose proof (py_max_lub_r a b); pose proof (py_min_glb_r c d)
  end.
  repeat split; lra.
Qed.

Lemma generated_cholesterol_bounds_witness :
  exists h : HealthMetrics,
    generate_health_metrics sample.low_hdl_draws sample.profile = Ok h /\
    30 <= ldl (cholesterol h).
Proof.
  destruct (generated_cholesterol_bounds sample.low_hdl_draws sample.profile "user_0001")
    as (h & H & Hl & _).
  - reflexivity.
  - exists h. auto.
Defined.

(* ================================================================= *)
(** * The scenario mutators *)

(** ** Sequencing and frames *)

Lemma and_then_frame {A : Type} (proj : UserData -> A) (m1 m2 : mutator) u :
  (forall v, proj (snd (m2 v)) = proj v) ->
  proj (snd ((m1 ;;; m2) u)) = proj (snd (m1 u)).
Proof.
  intros H. unfold and_then. destruct (m1 u) as [[e|] u1]; cbn [snd]; auto.
Qed.

Lemma and_then_ok (m1 m2 : mutator) u u1 :
  m1 u = (None, u1) -> (m1 ;;; m2) u = m2 u1.
Proof. intros H. unfold and_then. rewrite H. reflexivity. Qed.

Lemma and_then_raise (m1 m2 : mutator) u e u1 :
  m1 u = (Some e, u1) -> (m1 ;;; m2) u = (Some e, u1).
Proof. intros H. unfold and_then. rewrite H. reflexivity. Qed.

Lemma on_health_metrics_lifestyle f v :
  lifestyle_data (snd (on_health_metrics f v)) = lifestyle_data v.
Proof. unfold on_health_metrics. destruct (health_metrics v); reflexivity. Qed.

Lemma on_user_profile_lifestyle f v :
  lifestyle_data (snd (on_user_profile f v)) = lifestyle_data v.
Proof.
  unfold on_user_profile. destruct (user_profile v); [|reflexivity].
  destruct (f u); reflexivity.
Qed.

Lemma on_health_metrics_with_profile_lifestyle f v :
  lifestyle_data (snd (on_health_metrics_with_profile f v)) = lifestyle_data v.
Proof.
  unfold on_health_metrics_with_profile. destruct (user_profile v); [|reflexivity].
  apply on_health_metrics_lifestyle.
Qed.

Lemma on_impedance_data_lifestyle f v :
  lifestyle_data (snd (on_impedance_data f v)) = lifestyle_data v.
Proof. unfold on_impedance_data. destruct (impedance_data v); reflexivity. Qed.

Lemma on_lifestyle_data_lifestyle f v l :
  lifestyle_data v = Some l ->
  lifestyle_data (snd (on_lifestyle_data f v)) = Some (snd (f l)).
Proof.
  intros H. unfold on_lifestyle_data. rewrite H. destruct (f l); reflexivity.
Qed.

Lemma py_int_nonneg x : 0 <= x -> py_int x = Qfloor x.
Proof.
  intros H. unfold py_int. destruct (0 <=? x) eqn:E; [reflexivity|].
  apply Qle_bool_iff in H. congruence.
Qed.

Lemma py_int_between x (a b : Z) :
  0 <= inject_Z a -> inject_Z a <= x -> x <= inject_Z b -> (a <= py_int x <= b)%Z.
Proof.
  intros H0 Ha Hb. rewrite py_int_nonneg by lra. split.
  - rewrite <- (Qfloor_Z a). apply Qfloor_resp_le. exact Ha.
  - rewrite <- (Qfloor_Z b). apply Qfloor_resp_le. exact Hb.
Qed.

(** ** The exercise programme *)

Lemma and_then_preserves {A : Type} (proj : UserData -> A) (m1 m2 : mutator) :
  (forall v, proj (snd (m1 v)) = proj v) ->
  (forall v, proj (snd (m2 v)) = proj v) ->
  forall v, proj (snd ((m1 ;;; m2) v)) = proj v.
Proof.
  intros H1 H2 v. unfold and_then. specialize (H1 v).
  destruct (m1 v) as [[e|] u1]; cbn [snd] in *; [exact H1|].
  rewrite H2. exact H1.
Qed.

Ltac keeps_lifestyle :=
  repeat first
    [ apply and_then_preserves
    | intro; apply on_health_metrics_lifestyle
    | intro; apply on_user_profile_lifestyle
    | intro; apply on_health_metrics_with_profile_lifestyle
    | intro; apply on_impedance_data_lifestyle ].

Lemma exercise_adj_band (l : LifestyleData) (n : Z) :
  minutes_per_week (exercise l) = inject_Z n -> (150 <= n <= 300)%Z ->
  (n = 150%Z /\ adjustment.exercise_adj l == 2.5) \/
  ((150 < n)%Z /\ adjustment.exercise_adj l == 3.5).
Proof.
  intros Hm Hn. unfold adjustment.exercise_adj. cbv zeta. rewrite Hm.
  assert (H150 : inject_Z 150 == 150) by reflexivity.
  assert (H300 : inject_Z 300 == 300) by reflexivity.
  assert (Hlo : inject_Z 150 <= inject_Z n) by (rewrite <- Zle_Qle; lia).
  assert (Hhi : inject_Z n <= inject_Z 300) by (rewrite <- Zle_Qle; lia).
  destruct (Z.eq_dec n 150) as [->|Hne].
  - left. split; [reflexivity|]. vm_compute. reflexivity.
  - right. split; [lia|].
    assert (Hlt : inject_Z 150 < inject_Z n) by (rewrite <- Zlt_Qlt; lia).
    cmp_cases; try lra. vm_compute. reflexivity.
Qed.

Lemma exercise_adj_top (l : LifestyleData) :
  300 < minutes_per_week (exercise l) -> adjustment.exercise_adj l == 4.2.
Proof.
  intros H. unfold adjustment.exercise_adj. cbv zeta.
  cmp_cases; try lra. vm_compute. reflexivity.
Qed.

(** The minutes after the habits part of the exercise programme. *)
Lemma exercise_habits_minutes (draws : ExerciseDraws) (l : LifestyleData) :
  exists (l' : LifestyleData) (n : Z),
    exercise_program.habits draws l = (None, l') /\
    minutes_per_week (exercise l') = inject_Z n /\
    (150 <= n <= 300)%Z /\
    (200 <= minutes_per_week (exercise l) -> n = 300%Z) /\
    sleep l' = sleep l /\ diet l' = diet l /\ stress_level l' = stress_level l.
Proof.
  unfold exercise_program.habits. cbv zeta.
  eexists. eexists. split; [reflexivity|].
  cbn [exercise set_exercise minutes_per_week sleep diet stress_level].
  split; [reflexivity|].
  set (m := minutes_per_week (exercise l)).
  set (new_minutes := if m <? 150 then py_max 150 (m * 2) else py_min 300 (m * 1.5)).
  assert (Hrange : inject_Z 150 <= new_minutes /\ new_minutes <= inject_Z 300).
  { change (inject_Z 150) with 150. change (inject_Z 300) with 300.
    unfold new_minutes, py_max, py_min. cmp_cases; lra. }
  split; [apply py_int_between; [vm_compute; discriminate | tauto | tauto]|].
  split; [|repeat split].
  intros H200.
  assert (E : new_minutes == inject_Z 300).
  { change (inject_Z 300) with 300. unfold new_minutes, py_min. cmp_cases; lra. }
  rewrite py_int_nonneg by (rewrite E; vm_compute; discriminate).
  rewrite E. apply Qfloor_Z.
Qed.

(** X13: whatever the draws, and whether or not a later statement of the
    scenario raises, the exercise programme leaves a whole number of weekly
    minutes between 150 and 300 (300 for a user at 200 minutes or more).  The
    predictor's exercise factor is then 2.5 (at exactly 150 minutes) or 3.5:
    a user above 300 minutes is cut back and goes from 4.2 to 3.5. *)
Theorem exercise_program_minutes (draws : ExerciseDraws) (u : UserData) (l : LifestyleData) :
  lifestyle_data u = Some l ->
  exists (l' : LifestyleData) (n : Z),
    lifestyle_data (snd (_apply_exercise_program_scenario draws u)) = Some l' /\
    minutes_per_week (exercise l') = inject_Z n /\
    (150 <= n <= 300)%Z /\
    (200 <= minutes_per_week (exercise l) -> n = 300%Z) /\
    ((n = 150%Z /\ adjustment.exercise_adj l' == 2.5) \/
     ((150 < n)%Z /\ adjustment.exercise_adj l' == 3.5)) /\
    (300 < minutes_per_week (exercise l) ->
     adjustment.exercise_adj l == 4.2 /\ adjustment.exercise_adj l' == 3.5).
Proof.
  intros Hl. unfold _apply_exercise_program_scenario.
  rewrite and_then_frame by keeps_lifestyle.
  rewrite (on_lifestyle_data_lifestyle _ _ _ Hl).
  destruct (exercise_habits_minutes draws l) as (l' & n & E & Hm & Hn & Htop & _).
  rewrite E. cbn [snd]. exists l', n.
  split; [reflexivity|]. split; [exact Hm|]. split; [exact Hn|]. split; [exact Htop|].
  pose proof (exercise_adj_band l' n Hm Hn) as Hband.
  split; [exact Hband|].
  intros H300. split; [apply exercise_adj_top; exact H300|].
  destruct Hband as [[E0 _]|[_ E0]]; [|exact E0].
  rewrite Htop in E0 by lra. discriminate.
Qed.

Lemma exercise_program_minutes_witness :
  exists (l' : LifestyleData) (n : Z),
    lifestyle_data (snd (_apply_exercise_program_scenario sample_draws.exercise
                           sample.user_data)) = Some l' /\
    minutes_per_week (exercise l') = inject_Z n /\ (150 <= n <= 300)%Z.
Proof.
  destruct (exercise_program_minutes sample_draws.exercise sample.user_data
              sample.lifestyle)
    as (l' & n & H & Hm & Hn & _).
  - reflexivity.
  - exists l', n. auto.
Defined.

Lemma any_in_app_l kind ts xs : any_in kind ts = true -> any_in kind (ts ++ xs) = true.
Proof.
  unfold any_in. intros H. rewrite existsb_app, H. reflexivity.
Qed.

Lemma str_in_In s l : str_in s l = true <-> In s l.
Proof.
  unfold str_in. rewrite existsb_exists. split.
  - intros (x & Hx & E). apply String.eqb_eq in E. now subst.
  - intros H. exists s. split; [exact H | apply String.eqb_refl].
Qed.

Lemma any_in_choice kind ts k :
  (k < length kind)%nat -> any_in kind (ts ++ [choice kind k]) = true.
Proof.
  intros Hk. unfold any_in. rewrite existsb_app. apply orb_true_iff. right.
  cbn [existsb]. rewrite orb_false_r. apply str_in_In. unfold choice.
  apply nth_In. exact Hk.
Qed.

(** X14: with fewer than three exercise types, the exercise programme
    appends at most one type each from the cardio, strength and flexibility
    lists, so that afterwards every one of the three kinds is present; the
    types already there are kept in order.  With three or more types the
    list is left alone, whatever kinds it lacks. *)
Theorem exercise_program_types (draws : ExerciseDraws) (u : UserData) (l : LifestyleData) :
  lifestyle_data u = Some l ->
  (k_cardio draws < 5)%nat -> (k_strength draws < 2)%nat -> (k_flexibility draws < 2)%nat ->
  exists (l' : LifestyleData) (added : list string),
    lifestyle_data (snd (_apply_exercise_program_scenario draws u)) = Some l' /\
    types (exercise l') = types (exercise l) ++ added /\
    (length added <= 3)%nat /\
    Forall (fun t => In t (cardio ++ strength ++ flexibility)) added /\
    ((length (types (exercise l)) < 3)%nat ->
     any_in cardio (types (exercise l')) = true /\
     any_in strength (types (exercise l')) = true /\
     any_in flexibility (types (exercise l')) = true) /\
    ((3 <= length (types (exercise l)))%nat -> added = []).
Proof.
  intros Hl Hc Hs Hf. unfold _apply_exercise_program_scenario.
  rewrite and_then_frame by keeps_lifestyle.
  rewrite (on_lifestyle_data_lifestyle _ _ _ Hl). unfold exercise_program.habits.
  cbn [snd].
  set (ts := types (exercise l)).
  assert (Hcin : In (choice cardio (k_cardio draws)) (cardio ++ strength ++ flexibility)).
  { apply in_or_app. left. apply nth_In. exact Hc. }
  assert (Hsin : In (choice strength (k_strength draws)) (cardio ++ strength ++ flexibility)).
  { apply in_or_app. right. apply in_or_app. left. apply nth_In. exact Hs. }
  assert (Hfin : In (choice flexibility (k_flexibility draws))
                    (cardio ++ strength ++ flexibility)).
  { apply in_or_app. right. apply in_or_app. right. apply nth_In. exact Hf. }
  destruct (Nat.ltb_spec (length ts) 3) as [Hlt|Hge].
  - set (t1 := if negb (any_in cardio ts)
               then ts ++ [choice cardio (k_cardio draws)] else ts).
    set (t2 := if negb (any_in strength t1)
               then t1 ++ [choice strength (k_strength draws)] else t1).
    set (t3 := if negb (any_in flexibility t2)
               then t2 ++ [choice flexibility (k_flexibility draws)] else t2).
    assert (H1 : exists a1, t1 = ts ++ a1 /\ (length a1 <= 1)%nat /\
                   Forall (fun t => In t (cardio ++ strength ++ flexibility)) a1 /\
                   any_in cardio t1 = true).
    { unfold t1. destruct (any_in cardio ts) eqn:E; cbn [negb].
      - exists []. rewrite app_nil_r. repeat split; auto.
      - exists [choice cardio (k_cardio draws)]. repeat split; auto.
        apply any_in_choice. exact Hc. }
    destruct H1 as (a1 & E1 & L1 & F1 & C1).
    assert (H2 : exists a2, t2 = t1 ++ a2 /\ (length a2 <= 1)%nat /\
                   Forall (fun t => In t (cardio ++ strength ++ flexibility)) a2 /\
                   any_in strength t2 = true).
    { unfold t2. destruct (any_in strength t1) eqn:E; cbn [negb].
      - exists []. rewrite app_nil_r. repeat split; auto.
      - exists [choice strength (k_strength draws)]. repeat split; auto.
        apply any_in_choice. exact Hs. }
    destruct H2 as (a2 & E2 & L2 & F2 & C2).
    assert (H3 : exists a3, t3 = t2 ++ a3 /\ (length a3 <= 1)%nat /\
                   Forall (fun t => In t (cardio ++ strength ++ flexibility)) a3 /\
                   any_in flexibility t3 = true).
    { unfold t3. destruct (any_in flexibility t2) eqn:E; cbn [negb].
      - exists []. rewrite app_nil_r. repeat split; auto.
      - exists [choice flexibility (k_flexibility draws)]. repeat split; auto.
        apply any_in_choice. exact Hf. }
    destruct H3 as (a3 & E3 & L3 & F3 & C3).
    eexists. exists (a1 ++ a2 ++ a3). split; [reflexivity|].
    cbn [exercise set_exercise types].
    split; [rewrite E3, E2, E1, <- !app_assoc; reflexivity|].
    split; [rewrite !length_app; lia|].
    split; [apply Forall_app; split; [|apply Forall_app; split]; assumption|].
    split; [|intros; lia].
    intros _. rewrite E3. split; [|split].
    + apply any_in_app_l. rewrite E2. apply any_in_app_l. exact C1.
    + apply any_in_app_l. exact C2.
    + rewrite <- E3. exact C3.
  - eexists. exists []. split; [reflexivity|].
    cbn [exercise set_exercise types]. rewrite app_nil_r.
    split; [reflexivity|]. split; [cbn; lia|]. split; [constructor|].
    split; [intros; lia | reflexivity].
Qed.

Lemma exercise_program_types_witness :
  exists (l' : LifestyleData) (added : list string),
    lifestyle_data (snd (_apply_exercise_program_scenario sample_draws.exercise
                           sample.user_data)) = Some l' /\
    types (exercise l') = types (exercise sample.lifestyle) ++ added /\
    any_in strength (types (exercise l')) = true.
Proof.
  destruct (exercise_program_types sample_draws.exercise sample.user_data
              sample.lifestyle)
    as (l' & added & H & Ht & _ & _ & Hall & _).
  - reflexivity.
  - cbn. lia.
  - cbn. lia.
  - cbn. lia.
  - exists l', added. split; [exact H|]. split; [exact Ht|].
    apply Hall. cbn. lia.
Defined.

(** ** Stress reduction and sleep optimisation *)

Lemma stress_level_cases (s : string) :
  (s = "Low" /\ level_of stress_map s = Some 0%Z) \/
  (s = "Moderate" /\ level_of stress_map s = Some 1%Z) \/
  (s = "High" /\ level_of stress_map s = Some 2%Z) \/
  (s = "Very High" /\ level_of stress_map s = Some 3%Z) \/
  (level_of stress_map s = None /\ s <> "Low" /\ s <> "Moderate" /\ s <> "High" /\
   s <> "Very High").
Proof.
  unfold stress_map. cbn [level_of].
  destruct (String.eqb_spec s "Low") as [->|H1]; [left; split; reflexivity|].
  destruct (String.eqb_spec s "Moderate") as [->|H2]; [right; left; split; reflexivity|].
  destruct (String.eqb_spec s "High") as [->|H3]; [right; right; left; split; reflexivity|].
  destruct (String.eqb_spec s "Very High") as [->|H4];
    [right; right; right; left; split; reflexivity|].
  right; right; right; right. repeat split; assumption.
Qed.

Lemma sleep_quality_cases (s : string) :
  (s = "Poor" /\ level_of sleep_map s = Some 0%Z) \/
  (s = "Fair" /\ level_of sleep_map s = Some 1%Z) \/
  (s = "Good" /\ level_of sleep_map s = Some 2%Z) \/
  (s = "Excellent" /\ level_of sleep_map s = Some 3%Z) \/
  (level_of sleep_map s = None /\ s <> "Poor" /\ s <> "Fair" /\ s <> "Good" /\
   s <> "Excellent").
Proof.
  unfold sleep_map. cbn [level_of].
  destruct (String.eqb_spec s "Poor") as [->|H1]; [left; split; reflexivity|].
  destruct (String.eqb_spec s "Fair") as [->|H2]; [right; left; split; reflexivity|].
  destruct (String.eqb_spec s "Good") as [->|H3]; [right; right; left; split; reflexivity|].
  destruct (String.eqb_spec s "Excellent") as [->|H4];
    [right; right; right; left; split; reflexivity|].
  right; right; right; right. repeat split; assumption.
Qed.

Lemma stress_adj_of (l : LifestyleData) (s : string) (w : Q) :
  stress_level l = s -> dict_get weights.stress (lower s) 0 = w ->
  adjustment.stress_adj l = w.
Proof. intros E W. unfold adjustment.stress_adj. cbv zeta. rewrite E. exact W. Qed.


Lemma set_sleep_quality_same (l : LifestyleData) (q' : string) :
  quality (sleep l) = q' -> l = set_sleep_quality q' l.
Proof. destruct l as [e [h q] d s]. cbn. intros ->. reflexivity. Qed.

Lemma set_stress_level_same (l : LifestyleData) (s' : string) :
  stress_level l = s' -> l = set_stress_level s' l.
Proof. destruct l as [e sl d s]. cbn. intros ->. reflexivity. Qed.

Lemma stress_improve_sleep_quality_spec (l : LifestyleData) :
  exists q' : string,
    (forall l2, quality (sleep l2) = quality (sleep l) ->
       stress_reduction.improve_sleep_quality l2 = (None, set_sleep_quality q' l2)) /\
    (quality (sleep l) = "Poor" -> q' = "Fair") /\
    (quality (sleep l) = "Fair" -> q' = "Good") /\
    (quality (sleep l) = "Good" -> q' = "Excellent") /\
    (quality (sleep l) = "Excellent" -> q' = "Excellent") /\
    (level_of sleep_map (quality (sleep l)) = None -> q' = quality (sleep l)).
Proof.
  unfold stress_reduction.improve_sleep_quality. cbv zeta.
  destruct (sleep_quality_cases (quality (sleep l)))
    as [[E L]|[[E L]|[[E L]|[[E L]|(L & N1 & N2 & N3 & N4)]]]].
  - exists "Fair". rewrite E.
    split; [intros l2 ->; reflexivity|].
    repeat split; intros; try discriminate; reflexivity.
  - exists "Good". rewrite E.
    split; [intros l2 ->; reflexivity|].
    repeat split; intros; try discriminate; reflexivity.
  - exists "Excellent". rewrite E.
    split; [intros l2 ->; reflexivity|].
    repeat split; intros; try discriminate; reflexivity.
  - exists "Excellent". rewrite E.
    split; [intros l2 ->; reflexivity|].
    repeat split; intros; try discriminate; reflexivity.
  - exists (quality (sleep l)).
    split; [intros l2 E2; rewrite E2, L; f_equal; apply set_sleep_quality_same; exact E2|].
    repeat split; intros; try contradiction; try congruence.
Qed.

Lemma sleep_improve_sleep_quality_spec (l : LifestyleData) :
  exists q' : string,
    (forall l2, quality (sleep l2) = quality (sleep l) ->
       sleep_optimization.improve_sleep_quality l2 = (None, set_sleep_quality q' l2)) /\
    (quality (sleep l) = "Poor" -> q' = "Good") /\
    (quality (sleep l) = "Fair" -> q' = "Good") /\
    (quality (sleep l) = "Good" -> q' = "Excellent") /\
    (quality (sleep l) = "Excellent" -> q' = "Excellent") /\
    (level_of sleep_map (quality (sleep l)) = None -> q' = quality (sleep l)) /\
    (level_of sleep_map (quality (sleep l)) <> None -> q' = "Good" \/ q' = "Excellent").
Proof.
  unfold sleep_optimization.improve_sleep_quality. cbv zeta.
  destruct (sleep_quality_cases (quality (sleep l)))
    as [[E L]|[[E L]|[[E L]|[[E L]|(L & N1 & N2 & N3 & N4)]]]].
  - exists "Good". rewrite E.
    split; [intros l2 ->; reflexivity|].
    repeat split; intros; try discriminate; auto.
  - exists "Good". rewrite E.
    split; [intros l2 ->; reflexivity|].
    repeat split; intros; try discriminate; auto.
  - exists "Excellent". rewrite E.
    split; [intros l2 ->; reflexivity|].
    repeat split; intros; try discriminate; auto.
  - exists "Excellent". rewrite E.
    split; [intros l2 ->; reflexivity|].
    repeat split; intros; try discriminate; auto.
  - exists (quality (sleep l)).
    split; [intros l2 E2; rewrite E2, L; f_equal; apply set_sleep_quality_same; exact E2|].
    repeat split; intros; try contradiction; try congruence.
Qed.

(** The stress level after [lower_stress_level], as a function of the level
    before. *)
Lemma lower_stress_level_spec (l : LifestyleData) :
  exists s' : string,
    (forall l2, stress_level l2 = stress_level l ->
       lower_stress_level l2 = (None, set_stress_level s' l2)) /\
    (stress_level l = "Very High" -> s' = "High") /\
    (stress_level l = "High" -> s' = "Moderate") /\
    (stress_level l = "Moderate" -> s' = "Low") /\
    (stress_level l = "Low" -> s' = "Low") /\
    (level_of stress_map (stress_level l) = None -> s' = stress_level l).
Proof.
  unfold lower_stress_level. cbv zeta.
  destruct (stress_level_cases (stress_level l))
    as [[E L]|[[E L]|[[E L]|[[E L]|(L & N1 & N2 & N3 & N4)]]]].
  - exists "Low". rewrite E.
    split; [intros l2 ->; reflexivity|].
    repeat split; intros; try discriminate; reflexivity.
  - exists "Low". rewrite E.
    split; [intros l2 ->; reflexivity|].
    repeat split; intros; try discriminate; reflexivity.
  - exists "Moderate". rewrite E.
    split; [intros l2 ->; reflexivity|].
    repeat split; intros; try discriminate; reflexivity.
  - exists "High". rewrite E.
    split; [intros l2 ->; reflexivity|].
    repeat split; intros; try discriminate; reflexivity.
  - exists (stress_level l).
    split; [intros l2 E2; rewrite E2, L; f_equal; apply set_stress_level_same; exact E2|].
    repeat split; intros; try contradiction; try congruence.
Qed.

(** The habits part of the stress reduction scenario never raises; it
    changes the stress level, the sleep quality and the sleep hours. *)
Lemma stress_habits_spec (l : LifestyleData) :
  exists (s' q' : string) (l' : LifestyleData),
    stress_reduction.habits l = (None, l') /\
    lower_stress_level l = (None, set_stress_level s' l) /\
    stress_reduction.improve_sleep_quality l = (None, set_sleep_quality q' l) /\
    stress_level l' = s' /\ quality (sleep l') = q' /\
    average_hours (sleep l') =
      (if average_hours (sleep l) <? 7 then py_min 8.0 (average_hours (sleep l) + 0.5)
       else average_hours (sleep l)) /\
    exercise l' = exercise l /\ diet l' = diet l.
Proof.
  destruct (lower_stress_level_spec l) as (s' & E & _).
  destruct (stress_improve_sleep_quality_spec l) as (q' & Eq & _).
  exists s', q'. unfold stress_reduction.habits.
  rewrite (E l eq_refl).
  rewrite (Eq (set_stress_level s' l)) by reflexivity.
  eexists. split; [reflexivity|]. split; [reflexivity|].
  split; [apply Eq; reflexivity|].
  unfold stress_reduction.increase_sleep_hours.
  cbn [set_sleep_quality set_stress_level sleep average_hours].
  destruct (average_hours (sleep l) <? 7); repeat split; reflexivity.
Qed.

Lemma sleep_habits_spec (draws : SleepDraws) (l : LifestyleData) :
  exists (s' q' : string) (l' : LifestyleData),
    sleep_optimization.habits draws l = (None, l') /\
    lower_stress_level l = (None, set_stress_level s' l) /\
    sleep_optimization.improve_sleep_quality l = (None, set_sleep_quality q' l) /\
    stress_level l' = s' /\ quality (sleep l') = q' /\
    average_hours (sleep l') =
      (if average_hours (sleep l) <? 7 then uniform 7.0 8.0 (u_sleep_hours draws)
       else if average_hours (sleep l) >? 9 then uniform 7.5 8.5 (u_sleep_hours draws)
       else average_hours (sleep l)) /\
    exercise l' = exercise l /\ diet l' = diet l.
Proof.
  destruct (lower_stress_level_spec l) as (s' & E & _).
  destruct (sleep_improve_sleep_quality_spec l) as (q' & Eq & _).
  exists s', q'. unfold sleep_optimization.habits.
  set (l0 := sleep_optimization.optimize_sleep_hours draws l).
  assert (H0 : quality (sleep l0) = quality (sleep l) /\ stress_level l0 = stress_level l /\
               exercise l0 = exercise l /\ diet l0 = diet l /\
               average_hours (sleep l0) =
                 (if average_hours (sleep l) <? 7 then uniform 7.0 8.0 (u_sleep_hours draws)
                  else if average_hours (sleep l) >? 9
                       then uniform 7.5 8.5 (u_sleep_hours draws)
                       else average_hours (sleep l))).
  { unfold l0, sleep_optimization.optimize_sleep_hours. cbv zeta.
    destruct (average_hours (sleep l) <? 7); [repeat split; reflexivity|].
    destruct (9 <? average_hours (sleep l)); repeat split; reflexivity. }
  destruct H0 as (Hq & Hs & He & Hd & Hh).
  rewrite (Eq l0 Hq).
  rewrite (E (set_sleep_quality q' l0)) by exact Hs.
  eexists. split; [reflexivity|]. split; [apply E; reflexivity|].
  split; [apply Eq; reflexivity|].
  cbn [set_sleep_quality set_stress_level sleep average_hours stress_level quality
       exercise diet].
  repeat split; assumption.
Qed.

(** X15: the stress reduction scenario moves a stress level of the four
    known spellings one level down ("Low" stays) and leaves any other
    string alone.  The predictor's table has no entry for "Very High"
    (its key is "very_high"), so for such a user the stress factor falls
    from 0 to -2.0; for every other user it does not fall. *)
Theorem stress_reduction_stress_factor (draws : StressDraws) (u : UserData)
    (l : LifestyleData) :
  lifestyle_data u = Some l ->
  exists l' : LifestyleData,
    lifestyle_data (snd (_apply_stress_reduction_scenario draws u)) = Some l' /\
    (stress_level l = "Very High" ->
     stress_level l' = "High" /\
     adjustment.stress_adj l == 0 /\ adjustment.stress_adj l' == -2.0) /\
    (stress_level l = "High" ->
     stress_level l' = "Moderate" /\
     adjustment.stress_adj l == -2.0 /\ adjustment.stress_adj l' == 0) /\
    (stress_level l = "Moderate" ->
     stress_level l' = "Low" /\
     adjustment.stress_adj l == 0 /\ adjustment.stress_adj l' == 1.0) /\
    (stress_level l = "Low" -> stress_level l' = "Low") /\
    (level_of stress_map (stress_level l) = None -> stress_level l' = stress_level l) /\
    (stress_level l <> "Very High" ->
     adjustment.stress_adj l <= adjustment.stress_adj l').
Proof.
  intros Hl. unfold _apply_stress_reduction_scenario.
  rewrite and_then_frame by keeps_lifestyle.
  rewrite (on_lifestyle_data_lifestyle _ _ _ Hl).
  destruct (stress_habits_spec l) as (s' & q' & l' & E & Es & _ & Hs & _).
  destruct (lower_stress_level_spec l) as (s2 & E2 & VH & HI & MO & LO & NO).
  assert (s2 = s').
  { rewrite (E2 l eq_refl) in Es.
    apply (f_equal (fun r => stress_level (snd r))) in Es. exact Es. }
  subst s2. rewrite E. cbn [snd]. exists l'. split; [reflexivity|].
  rewrite Hs.
  assert (A : forall s w, stress_level l = s -> dict_get weights.stress (lower s) 0 = w ->
                          adjustment.stress_adj l == w).
  { intros s w Hs0 Hw. rewrite (stress_adj_of l s w Hs0 Hw). reflexivity. }
  assert (A' : forall w, dict_get weights.stress (lower s') 0 = w ->
                         adjustment.stress_adj l' == w).
  { intros w Hw. rewrite (stress_adj_of l' s' w Hs Hw). reflexivity. }
  split; [intros H; rewrite (VH H) in *; split; [reflexivity|]; split;
          [apply (A _ _ H); reflexivity | apply A'; reflexivity]|].
  split; [intros H; rewrite (HI H) in *; split; [reflexivity|]; split;
          [apply (A _ _ H); reflexivity | apply A'; reflexivity]|].
  split; [intros H; rewrite (MO H) in *; split; [reflexivity|]; split;
          [apply (A _ _ H); reflexivity | apply A'; reflexivity]|].
  split; [exact LO|]. split; [exact NO|].
  intros NVH.
  destruct (stress_level_cases (stress_level l))
    as [[E0 L]|[[E0 L]|[[E0 L]|[[E0 L]|(L & N1 & N2 & N3 & N4)]]]].
  - rewrite (LO E0) in *. rewrite (A _ _ E0 eq_refl), (A' _ eq_refl). lra.
  - rewrite (MO E0) in *. rewrite (A _ _ E0 eq_refl), (A' _ eq_refl).
    vm_compute. discriminate.
  - rewrite (HI E0) in *. rewrite (A _ _ E0 eq_refl), (A' _ eq_refl).
    vm_compute. discriminate.
  - contradiction.
  - rewrite (NO L) in *. unfold adjustment.stress_adj. cbv zeta. rewrite Hs. lra.
Qed.

Lemma stress_reduction_stress_factor_witness :
  exists l' : LifestyleData,
    lifestyle_data (snd (_apply_stress_reduction_scenario sample_draws.stress
                           sample.user_data)) = Some l' /\
    stress_level l' = "Moderate" /\
    adjustment.stress_adj sample.lifestyle <= adjustment.stress_adj l'.
Proof.
  destruct (stress_reduction_stress_factor sample_draws.stress sample.user_data
              sample.lifestyle)
    as (l' & H & _ & HI & _ & _ & _ & LE).
  - reflexivity.
  - exists l'. split; [exact H|]. split; [apply HI; reflexivity|].
    apply LE. discriminate.
Defined.

Lemma sleep_quality_weight_good_or_excellent (q : string) :
  q = "Good" \/ q = "Excellent" ->
  0 <= dict_get weights.sleep_quality (lower q) 0 <= 0.8.
Proof.
  intros [->| ->]; vm_compute; split; discriminate.
Qed.

(** X16: after the sleep optimisation scenario the average hours lie
    between 7 and 9 (hours already there are kept), a sleep quality of the
    four known spellings is "Good" or "Excellent", and the predictor's sleep
    factor then lies between 0 and 1.05. *)
Theorem sleep_optimization_outcome (draws : SleepDraws) (u : UserData)
    (l : LifestyleData) :
  lifestyle_data u = Some l ->
  unit_draw (u_sleep_hours draws) ->
  exists l' : LifestyleData,
    lifestyle_data (snd (_apply_sleep_optimization_scenario draws u)) = Some l' /\
    7 <= average_hours (sleep l') <= 9 /\
    (7 <= average_hours (sleep l) <= 9 ->
     average_hours (sleep l') = average_hours (sleep l)) /\
    (quality (sleep l) = "Poor" \/ quality (sleep l) = "Fair" ->
     quality (sleep l') = "Good") /\
    (quality (sleep l) = "Good" \/ quality (sleep l) = "Excellent" ->
     quality (sleep l') = "Excellent") /\
    (level_of sleep_map (quality (sleep l)) = None ->
     quality (sleep l') = quality (sleep l)) /\
    (level_of sleep_map (quality (sleep l)) <> None ->
     0 <= adjustment.sleep_adj l' <= 1.05).
Proof.
  intros Hl [Hu0 Hu1]. unfold _apply_sleep_optimization_scenario.
  rewrite and_then_frame by keeps_lifestyle.
  rewrite (on_lifestyle_data_lifestyle _ _ _ Hl).
  destruct (sleep_habits_spec draws l) as (s' & q' & l' & E & _ & Eq & _ & Hq & Hh & _).
  destruct (sleep_improve_sleep_quality_spec l)
    as (q2 & E2 & PO & FA & GO & EX & NO & KN).
  assert (q2 = q').
  { rewrite (E2 l eq_refl) in Eq.
    apply (f_equal (fun r => quality (sleep (snd r)))) in Eq.
    destruct l as [e [h q] d s]. exact Eq. }
  subst q2. rewrite E. cbn [snd]. exists l'. split; [reflexivity|].
  assert (Hrange : 7 <= average_hours (sleep l') <= 9).
  { rewrite Hh. unfold uniform. cmp_cases; split; nra. }
  split; [exact Hrange|].
  split; [intros [H7 H9]; rewrite Hh; cmp_cases; solve [reflexivity | lra]|].
  rewrite Hq.
  split; [intros [H|H]; [apply PO | apply FA]; exact H|].
  split; [intros [H|H]; [apply GO | apply EX]; exact H|].
  split; [exact NO|].
  intros Hkn. specialize (KN Hkn).
  pose proof (sleep_quality_weight_good_or_excellent q' KN) as W.
  unfold adjustment.sleep_adj. cbv zeta. rewrite Hq.
  unfold weights.optimal_hours, weights.per_hour_deficit.
  cmp_cases; split; lra.
Qed.

Lemma sleep_optimization_outcome_witness :
  exists l' : LifestyleData,
    lifestyle_data (snd (_apply_sleep_optimization_scenario sample_draws.sleep
                           sample.user_data)) = Some l' /\
    7 <= average_hours (sleep l') <= 9 /\ quality (sleep l') = "Good".
Proof.
  destruct (sleep_optimization_outcome sample_draws.sleep sample.user_data
              sample.lifestyle)
    as (l' & H & R & _ & Q & _).
  - reflexivity.
  - vm_compute. split; [discriminate | reflexivity].
  - exists l'. split; [exact H|]. split; [exact R|]. apply Q. right. reflexivity.
Defined.

(** ** The improved diet *)

Lemma processed_food_weight_nonpos (k : string) :
  dict_get weights.processed_food k 0 <= 0.
Proof.
  unfold weights.processed_food. cbn [dict_get].
  repeat match goal with |- context [String.eqb ?a ?b] => destruct (String.eqb a b) end;
    vm_compute; discriminate.
Qed.

Lemma diet_adj_upper (l : LifestyleData) :
  adjustment.diet_adj l <= fruit_veg_servings_daily (diet l) * 0.4 + 2.5.
Proof.
  unfold adjustment.diet_adj. cbv zeta.
  pose proof (processed_food_weight_nonpos (lower (processed_food_frequency (diet l)))) as W.
  unfold weights.fruit_veg_servings, weights.mediterranean.
  destruct (String.eqb _ "mediterranean"); lra.
Qed.

(** X17: the improved diet scenario sets the diet to "Mediterranean" with
    processed food "Rarely" and the daily servings to min(servings + 3, 7):
    a user above 7 servings is cut back to 7.  The predictor's diet factor is
    then 0.4 times the new servings plus 2.5, at most 5.3, and it does not
    fall for a user with at most 7 servings. *)
Theorem improved_diet_diet_factor (draws : DietDraws) (u : UserData) (l : LifestyleData) :
  lifestyle_data u = Some l ->
  exists l' : LifestyleData,
    lifestyle_data (snd (_apply_improved_diet_scenario draws u)) = Some l' /\
    diet_type (diet l') = "Mediterranean" /\
    processed_food_frequency (diet l') = "Rarely" /\
    (fruit_veg_servings_daily (diet l) <= 4 ->
     fruit_veg_servings_daily (diet l') == fruit_veg_servings_daily (diet l) + 3) /\
    (4 <= fruit_veg_servings_daily (diet l) ->
     fruit_veg_servings_daily (diet l') == 7) /\
    adjustment.diet_adj l' == 0.4 * fruit_veg_servings_daily (diet l') + 2.5 /\
    adjustment.diet_adj l' <= 5.3 /\
    (fruit_veg_servings_daily (diet l) <= 7 ->
     adjustment.diet_adj l <= adjustment.diet_adj l') /\
    exercise l' = exercise l /\ sleep l' = sleep l /\ stress_level l' = stress_level l.
Proof.
  intros Hl. unfold _apply_improved_diet_scenario.
  rewrite and_then_frame by keeps_lifestyle.
  rewrite (on_lifestyle_data_lifestyle _ _ _ Hl).
  unfold improved_diet.patterns. cbn [snd]. eexists. split; [reflexivity|].
  cbn [set_diet diet diet_type processed_food_frequency fruit_veg_servings_daily
       exercise sleep stress_level].
  split; [reflexivity|]. split; [reflexivity|].
  pose proof (diet_adj_upper l) as U.
  set (fv := fruit_veg_servings_daily (diet l)) in *.
  assert (Hadj : forall x,
            adjustment.diet_adj
              (set_diet {| diet_type := "Mediterranean"; fruit_veg_servings_daily := x;
                           processed_food_frequency := "Rarely" |} l) == 0.4 * x + 2.5).
  { intros x. unfold adjustment.diet_adj. cbv zeta.
    cbn [set_diet diet diet_type processed_food_frequency fruit_veg_servings_daily].
    change (String.eqb (lower "Mediterranean") "mediterranean") with true.
    change (dict_get weights.processed_food (lower "Rarely") 0) with 0.
    unfold weights.fruit_veg_servings, weights.mediterranean. cbv iota. lra. }
  rewrite !Hadj.
  destruct (py_min_cases (fv + 3) 7) as [[H E]|[H E]]; rewrite E;
    repeat split; intros; try reflexivity; lra.
Qed.

Lemma improved_diet_diet_factor_witness :
  exists l' : LifestyleData,
    lifestyle_data (snd (_apply_improved_diet_scenario sample_draws.diet
                           sample.user_data)) = Some l' /\
    fruit_veg_servings_daily (diet l') == 5 /\
    adjustment.diet_adj sample.lifestyle <= adjustment.diet_adj l'.
Proof.
  destruct (improved_diet_diet_factor sample_draws.diet sample.user_data sample.lifestyle)
    as (l' & H & _ & _ & F & _ & _ & _ & LE & _).
  - reflexivity.
  - exists l'. split; [exact H|]. split.
    + rewrite F; [reflexivity | vm_compute; discriminate].
    + apply LE. vm_compute. discriminate.
Defined.

(** ** What no scenario changes *)

Lemma same_person_refl (p : UserProfile) : same_person p p.
Proof. repeat split. Qed.

Lemma same_person_trans (p1 p2 p3 : UserProfile) :
  same_person p1 p2 -> same_person p2 p3 -> same_person p1 p3.
Proof.
  unfold same_person. intros (A1 & B1 & C1 & D1) (A2 & B2 & C2 & D2).
  repeat split; congruence.
Qed.

Lemma section_rel_refl {A : Type} (R : A -> A -> Prop) (s : option A) :
  (forall a, R a a) -> section_rel R s s.
Proof. intros H. destruct s; cbn; auto. Qed.

Lemma section_rel_trans {A : Type} (R : A -> A -> Prop) (s1 s2 s3 : option A) :
  (forall a b c, R a b -> R b c -> R a c) ->
  section_rel R s1 s2 -> section_rel R s2 s3 -> section_rel R s1 s3.
Proof.
  intros H. destruct s1, s2, s3; cbn; try tauto. apply H.
Qed.

Lemma same_subject_refl (u : UserData) : same_subject u u.
Proof.
  unfold same_subject. split; [reflexivity|].
  split; [apply section_rel_refl, same_person_refl|].
  repeat split; apply section_rel_refl; auto.
Qed.

Lemma same_subject_trans (u1 u2 u3 : UserData) :
  same_subject u1 u2 -> same_subject u2 u3 -> same_subject u1 u3.
Proof.
  unfold same_subject. intros (G1 & P1 & I1 & H1 & L1) (G2 & P2 & I2 & H2 & L2).
  split; [congruence|].
  split; [eapply section_rel_trans; [apply same_person_trans | exact P1 | exact P2]|].
  split; [eapply section_rel_trans; [|exact I1 | exact I2]; intros; congruence|].
  split; eapply section_rel_trans; eauto.
Qed.

Lemma and_then_same_subject (m1 m2 : mutator) :
  (forall v, same_subject v (snd (m1 v))) ->
  (forall v, same_subject v (snd (m2 v))) ->
  forall v, same_subject v (snd ((m1 ;;; m2) v)).
Proof.
  intros H1 H2 v. unfold and_then. specialize (H1 v).
  destruct (m1 v) as [[e|] u1]; cbn [snd] in *; [exact H1|].
  eapply same_subject_trans; [exact H1 | apply H2].
Qed.

Lemma on_lifestyle_data_same_subject f v :
  same_subject v (snd (on_lifestyle_data f v)).
Proof.
  unfold on_lifestyle_data. destruct (lifestyle_data v) eqn:E;
    [|apply same_subject_refl].
  destruct (f l). cbn [snd]. unfold same_subject, set_lifestyle_data.
  cbn [genetic_data user_profile impedance_data health_metrics lifestyle_data].
  rewrite E. split; [reflexivity|].
  split; [apply section_rel_refl, same_person_refl|].
  split; [apply section_rel_refl; auto|]. split; [apply section_rel_refl; auto|].
  exact I.
Qed.

Lemma on_health_metrics_same_subject f v :
  same_subject v (snd (on_health_metrics f v)).
Proof.
  unfold on_health_metrics. destruct (health_metrics v) eqn:E;
    [|apply same_subject_refl].
  cbn [snd]. unfold same_subject, set_health_metrics.
  cbn [genetic_data user_profile impedance_data health_metrics lifestyle_data].
  rewrite E. split; [reflexivity|].
  split; [apply section_rel_refl, same_person_refl|].
  split; [apply section_rel_refl; auto|]. split; [exact I|].
  apply section_rel_refl; auto.
Qed.

Lemma on_health_metrics_with_profile_same_subject f v :
  same_subject v (snd (on_health_metrics_with_profile f v)).
Proof.
  unfold on_health_metrics_with_profile. destruct (user_profile v);
    [apply on_health_metrics_same_subject | apply same_subject_refl].
Qed.

Lemma on_impedance_data_same_subject f v :
  (forall i, chronological_age (f i) = chronological_age i) ->
  same_subject v (snd (on_impedance_data f v)).
Proof.
  intros Hf. unfold on_impedance_data. destruct (impedance_data v) eqn:E;
    [|apply same_subject_refl].
  cbn [snd]. unfold same_subject, set_impedance_data.
  cbn [genetic_data user_profile impedance_data health_metrics lifestyle_data].
  rewrite E. split; [reflexivity|].
  split; [apply section_rel_refl, same_person_refl|].
  split; [apply Hf|]. split; apply section_rel_refl; auto.
Qed.

Lemma on_user_profile_same_subject f v :
  (forall p, same_person p (snd (f p))) ->
  same_subject v (snd (on_user_profile f v)).
Proof.
  intros Hf. unfold on_user_profile. destruct (user_profile v) eqn:E;
    [|apply same_subject_refl].
  specialize (Hf u). destruct (f u) as [e p']. cbn [snd] in *.
  unfold same_subject, set_user_profile.
  cbn [genetic_data user_profile impedance_data health_metrics lifestyle_data].
  rewrite E. split; [reflexivity|]. split; [exact Hf|].
  repeat split; apply section_rel_refl; auto.
Qed.

Lemma reduce_weight_same_person lowest highest u p :
  same_person p (snd (reduce_weight lowest highest u p)).
Proof.
  unfold reduce_weight. cbv zeta. destruct (25 <? bmi p); [|apply same_person_refl].
  destruct (py_div _ _); cbn [snd]; repeat split.
Qed.

Lemma alcohol_same_person p : same_person p (snd (optimal_lifestyle.alcohol p)).
Proof.
  unfold optimal_lifestyle.alcohol.
  destruct (String.eqb _ _); cbn [snd]; repeat split.
Qed.

Lemma quit_smoking_same_subject draws v :
  same_subject v (snd (_apply_quit_smoking_scenario draws v)).
Proof.
  unfold _apply_quit_smoking_scenario.
  destruct (user_profile v) as [p|] eqn:Ep; [|apply same_subject_refl].
  destruct (negb _); [apply same_subject_refl|]. cbv zeta.
  cbn [set_user_profile health_metrics].
  destruct (health_metrics v) as [h|] eqn:Eh; cbn [snd];
    unfold same_subject, set_health_metrics, set_user_profile;
    cbn [genetic_data user_profile impedance_data health_metrics lifestyle_data];
    rewrite Ep, ?Eh;
    (split; [reflexivity|]); (split; [repeat split|]);
    (split; [apply section_rel_refl; auto|]);
    (split; [try exact I; apply section_rel_refl; auto|]);
    apply section_rel_refl; auto.
Qed.

Lemma optimal_quit_smoking_same_subject draws v :
  same_subject v (snd (optimal_lifestyle.quit_smoking draws v)).
Proof.
  unfold optimal_lifestyle.quit_smoking.
  destruct (user_profile v); [|apply same_subject_refl].
  destruct (String.eqb _ _); [apply quit_smoking_same_subject | apply same_subject_refl].
Qed.

Ltac keeps_subject :=
  repeat first
    [ apply and_then_same_subject
    | intro; apply on_lifestyle_data_same_subject
    | intro; apply on_health_metrics_same_subject
    | intro; apply on_health_metrics_with_profile_same_subject
    | intro; apply on_user_profile_same_subject; intro; apply reduce_weight_same_person
    | intro; apply on_user_profile_same_subject; intro; apply alcohol_same_person
    | intro; apply on_impedance_data_same_subject; intro;
      unfold optimal_lifestyle.biological_age; cbv zeta;
      match goal with |- context [if ?c then _ else _] => destruct c end; reflexivity
    | intro; apply optimal_quit_smoking_same_subject ].

Lemma improved_diet_same_subject draws v :
  same_subject v (snd (_apply_improved_diet_scenario draws v)).
Proof. revert v. unfold _apply_improved_diet_scenario. keeps_subject. Qed.

Lemma exercise_program_same_subject draws v :
  same_subject v (snd (_apply_exercise_program_scenario draws v)).
Proof. revert v. unfold _apply_exercise_program_scenario. keeps_subject. Qed.

Lemma stress_reduction_same_subject draws v :
  same_subject v (snd (_apply_stress_reduction_scenario draws v)).
Proof. revert v. unfold _apply_stress_reduction_scenario. keeps_subject. Qed.

Lemma sleep_optimization_same_subject draws v :
  same_subject v (snd (_apply_sleep_optimization_scenario draws v)).
Proof. revert v. unfold _apply_sleep_optimization_scenario. keeps_subject. Qed.

Lemma optimal_lifestyle_same_subject draws v :
  same_subject v (snd (_apply_optimal_lifestyle_scenario draws v)).
Proof.
  revert v. unfold _apply_optimal_lifestyle_scenario.
  apply and_then_same_subject; [intro; apply improved_diet_same_subject|].
  apply and_then_same_subject; [intro; apply exercise_program_same_subject|].
  apply and_then_same_subject; [intro; apply stress_reduction_same_subject|].
  apply and_then_same_subject; [intro; apply sleep_optimization_same_subject|].
  keeps_subject.
Qed.

(** X20: whatever the scenario name and the draws, and whether or not the
    scenario raises, the record it leaves is of the same subject: the same
    sections are present, the genetic data are untouched, and the user id,
    gender, age, height and chronological age are unchanged; a scenario
    name that is none of the six changes nothing: the record is left as
    it is and nothing is raised. *)
Theorem apply_scenario_same_subject (scenario : string) (draws : OptimalDraws)
    (u : UserData) :
  same_subject u (snd (apply_scenario scenario draws u)) /\
  (~ In scenario ["improved_diet"; "exercise_program"; "stress_reduction";
                  "sleep_optimization"; "quit_smoking"; "optimal_lifestyle"] ->
   apply_scenario scenario draws u = (None, u)).
Proof.
  split.
  - unfold apply_scenario.
    repeat match goal with |- context [if ?c then _ else _] => destruct c end.
    + apply improved_diet_same_subject.
    + apply exercise_program_same_subject.
    + apply stress_reduction_same_subject.
    + apply sleep_optimization_same_subject.
    + apply quit_smoking_same_subject.
    + apply optimal_lifestyle_same_subject.
    + apply same_subject_refl.
  - intros N. unfold apply_scenario.
    repeat match goal with
    | |- context [String.eqb scenario ?s] =>
        destruct (String.eqb_spec scenario s) as [E|_];
        [exfalso; apply N; rewrite E; simpl; tauto|]
    end.
    reflexivity.
Qed.

Lemma apply_scenario_same_subject_witness :
  apply_scenario "intermittent_fasting" sample_draws.optimal sample.user_data
    = (None, sample.user_data).
Proof.
  apply (proj2 (apply_scenario_same_subject "intermittent_fasting" sample_draws.optimal
                  sample.user_data)).
  simpl. intuition discriminate.
Defined.

(** ** Scenarios on a complete record *)

Lemma on_lifestyle_data_complete f p h i l g e l' :
  f l = (e, l') ->
  on_lifestyle_data f (complete_record p h i l g) = (e, complete_record p h i l' g).
Proof. intros H. unfold on_lifestyle_data. cbn. rewrite H. reflexivity. Qed.

Lemma on_health_metrics_complete f p h i l g :
  on_health_metrics f (complete_record p h i l g) = (None, complete_record p (f h) i l g).
Proof. reflexivity. Qed.

Lemma on_health_metrics_with_profile_complete f p h i l g :
  on_health_metrics_with_profile f (complete_record p h i l g)
  = (None, complete_record p (f p h) i l g).
Proof. reflexivity. Qed.

Lemma on_user_profile_complete f p h i l g e p' :
  f p = (e, p') ->
  on_user_profile f (complete_record p h i l g) = (e, complete_record p' h i l g).
Proof. intros H. unfold on_user_profile. cbn. rewrite H. reflexivity. Qed.

Lemma on_impedance_data_complete f p h i l g :
  on_impedance_data f (complete_record p h i l g) = (None, complete_record p h (f i) l g).
Proof. reflexivity. Qed.

Lemma squared_height_zero (height : Q) :
  ((height / 100) ^ 2 =? 0) = true <-> height == 0.
Proof.
  rewrite Qeq_bool_iff.
  assert (E : (height / 100) ^ 2 == height * height / 10000) by (simpl; field).
  rewrite E. split; intros H.
  - assert (H2 : height * height == 0) by (apply (Qmult_inj_r _ _ (/ 10000)); [discriminate|]; rewrite H; reflexivity).
    destruct (Qmult_integral _ _ H2); assumption.
  - rewrite H. reflexivity.
Qed.

(** The weight block: nothing happens up to a BMI of 25; above it the
    weight is overwritten first, and the BMI after it unless the height is
    zero, in which case the division raises. *)
Lemma reduce_weight_spec (lowest highest u : Q) (p : UserProfile) :
  let new_weight := weight_kg p * (1 - uniform lowest highest u) in
  (bmi p <= 25 -> reduce_weight lowest highest u p = (None, p)) /\
  (25 < bmi p -> ~ height_cm p == 0 ->
   reduce_weight lowest highest u p
   = (None, set_bmi (py_round_n (new_weight / (height_cm p / 100) ^ 2) 1)
              (set_weight_kg (py_round_n new_weight 1) p))) /\
  (25 < bmi p -> height_cm p == 0 ->
   reduce_weight lowest highest u p
   = (Some ZeroDivisionError, set_weight_kg (py_round_n new_weight 1) p)).
Proof.
  intros new_weight. unfold reduce_weight. cbv zeta. fold new_weight.
  cbn [set_weight_kg height_cm].
  split; [|split].
  - intros H. destruct (25 <? bmi p) eqn:E; [|reflexivity].
    apply Qltb_lt in E. lra.
  - intros H Hh. rewrite (proj2 (Qltb_lt _ _) H). unfold py_div.
    destruct ((height_cm p / 100) ^ 2 =? 0) eqn:E; [|reflexivity].
    apply squared_height_zero in E. contradiction.
  - intros H Hh. rewrite (proj2 (Qltb_lt _ _) H). unfold py_div.
    rewrite (proj2 (squared_height_zero _) Hh). reflexivity.
Qed.

Lemma reduce_weight_ok (lowest highest u : Q) (p : UserProfile) :
  ~ height_cm p == 0 ->
  exists w b : Q,
    reduce_weight lowest highest u p = (None, set_bmi b (set_weight_kg w p)).
Proof.
  intros Hh. destruct (reduce_weight_spec lowest highest u p) as (A & B & _).
  destruct (Qlt_le_dec 25 (bmi p)) as [H|H].
  - eexists. eexists. apply B; assumption.
  - exists (weight_kg p), (bmi p). rewrite (A H). destruct p. reflexivity.
Qed.

(** X18: a scenario is not atomic.  On a record with a BMI above 25 and a
    height of zero the improved diet scenario raises ZeroDivisionError when
    it recomputes the BMI: the diet and the weight have been overwritten by
    then, the BMI and the health metrics have not.  Up to a BMI of 25 the
    height is not read and the scenario does not raise. *)
Theorem improved_diet_zero_height (draws : DietDraws) (p : UserProfile)
    (h : HealthMetrics) (i : ImpedanceData) (l : LifestyleData) (g : GeneticData) :
  height_cm p == 0 ->
  (25 < bmi p ->
   exists (p' : UserProfile) (l' : LifestyleData),
     _apply_improved_diet_scenario draws (complete_record p h i l g)
     = (Some ZeroDivisionError, complete_record p' h i l' g) /\
     diet_type (diet l') = "Mediterranean" /\
     weight_kg p'
     = py_round_n (weight_kg p * (1 - uniform 0.05 0.10 (u_diet_weight draws))) 1 /\
     bmi p' = bmi p) /\
  (bmi p <= 25 ->
   exists (h' : HealthMetrics) (l' : LifestyleData),
     _apply_improved_diet_scenario draws (complete_record p h i l g)
     = (None, complete_record p h' i l' g)).
Proof.
  intros Hh. destruct (reduce_weight_spec 0.05 0.10 (u_diet_weight draws) p)
    as (A & _ & C). cbv zeta in *.
  unfold _apply_improved_diet_scenario. split; intros Hb.
  - erewrite and_then_ok; [|apply on_lifestyle_data_complete; reflexivity].
    erewrite and_then_raise; [|apply on_user_profile_complete, (C Hb Hh)].
    eexists. eexists. split; [reflexivity|]. repeat split.
  - erewrite and_then_ok; [|apply on_lifestyle_data_complete; reflexivity].
    erewrite and_then_ok; [|apply on_user_profile_complete, (A Hb)].
    rewrite on_health_metrics_complete. eexists. eexists. reflexivity.
Qed.

Lemma improved_diet_zero_height_witness :
  exists (p' : UserProfile) (l' : LifestyleData),
    _apply_improved_diet_scenario sample_draws.diet
      (complete_record zero_height_profile sample.metrics sample.impedance
         sample.lifestyle sample.genetics)
    = (Some ZeroDivisionError,
       complete_record p' sample.metrics sample.impedance l' sample.genetics) /\
    diet_type (diet l') = "Mediterranean" /\ bmi p' = 31.
Proof.
  destruct (improved_diet_zero_height sample_draws.diet zero_height_profile
              sample.metrics sample.impedance sample.lifestyle sample.genetics)
    as [H _].
  - reflexivity.
  - destruct H as (p' & l' & E & Hd & _ & Hb).
    + reflexivity.
    + exists p', l'. split; [exact E|]. split; [exact Hd | exact Hb].
Defined.

Lemma lower_stress_level_result (l : LifestyleData) (s' : string) :
  lower_stress_level l = (None, set_stress_level s' l) ->
  (stress_level l = "Very High" -> s' = "High") /\
  (stress_level l = "High" -> s' = "Moderate") /\
  (stress_level l = "Moderate" -> s' = "Low") /\
  (stress_level l = "Low" -> s' = "Low") /\
  (level_of stress_map (stress_level l) = None -> s' = stress_level l).
Proof.
  intros E. destruct (lower_stress_level_spec l) as (s2 & E2 & H).
  rewrite (E2 l eq_refl) in E.
  apply (f_equal (fun r => stress_level (snd r))) in E. cbn in E. subst s2. exact H.
Qed.

Lemma stress_improve_sleep_quality_result (l : LifestyleData) (q' : string) :
  stress_reduction.improve_sleep_quality l = (None, set_sleep_quality q' l) ->
  (quality (sleep l) = "Poor" -> q' = "Fair") /\
  (quality (sleep l) = "Fair" -> q' = "Good") /\
  (quality (sleep l) = "Good" -> q' = "Excellent") /\
  (quality (sleep l) = "Excellent" -> q' = "Excellent") /\
  (level_of sleep_map (quality (sleep l)) = None -> q' = quality (sleep l)).
Proof.
  intros E. destruct (stress_improve_sleep_quality_spec l) as (q2 & E2 & H).
  rewrite (E2 l eq_refl) in E.
  apply (f_equal (fun r => quality (sleep (snd r)))) in E. cbn in E. subst q2. exact H.
Qed.

Lemma sleep_improve_sleep_quality_result (l : LifestyleData) (q' : string) :
  sleep_optimization.improve_sleep_quality l = (None, set_sleep_quality q' l) ->
  (quality (sleep l) = "Poor" -> q' = "Good") /\
  (quality (sleep l) = "Fair" -> q' = "Good") /\
  (quality (sleep l) = "Good" -> q' = "Excellent") /\
  (quality (sleep l) = "Excellent" -> q' = "Excellent") /\
  (level_of sleep_map (quality (sleep l)) = None -> q' = quality (sleep l)) /\
  (level_of sleep_map (quality (sleep l)) <> None -> q' = "Good" \/ q' = "Excellent").
Proof.
  intros E. destruct (sleep_improve_sleep_quality_spec l) as (q2 & E2 & H).
  rewrite (E2 l eq_refl) in E.
  apply (f_equal (fun r => quality (sleep (snd r)))) in E. cbn in E. subst q2. exact H.
Qed.

Lemma improved_diet_complete draws p h i l g :
  ~ height_cm p == 0 ->
  exists w b : Q,
    _apply_improved_diet_scenario draws (complete_record p h i l g)
    = (None, complete_record (set_bmi b (set_weight_kg w p))
               (improved_diet.metrics draws h) i (snd (improved_diet.patterns l)) g).
Proof.
  intros Hh. destruct (reduce_weight_ok 0.05 0.10 (u_diet_weight draws) p Hh) as (w & b & E).
  exists w, b. unfold _apply_improved_diet_scenario.
  erewrite and_then_ok; [|apply on_lifestyle_data_complete; reflexivity].
  erewrite and_then_ok; [|apply on_user_profile_complete, E].
  apply on_health_metrics_complete.
Qed.

Lemma exercise_program_complete draws p h i l g :
  ~ height_cm p == 0 ->
  exists (w b : Q) (h' : HealthMetrics),
    _apply_exercise_program_scenario draws (complete_record p h i l g)
    = (None, complete_record (set_bmi b (set_weight_kg w p)) h' i
               (snd (exercise_program.habits draws l)) g).
Proof.
  intros Hh.
  destruct (reduce_weight_ok 0.03 0.08 (u_exercise_weight draws) p Hh) as (w & b & E).
  exists w, b. eexists. unfold _apply_exercise_program_scenario.
  erewrite and_then_ok; [|apply on_lifestyle_data_complete; reflexivity].
  erewrite and_then_ok; [|apply on_health_metrics_complete].
  erewrite and_then_ok; [|apply on_health_metrics_with_profile_complete].
  apply on_user_profile_complete, E.
Qed.

Lemma stress_reduction_complete draws p h i l g l' :
  stress_reduction.habits l = (None, l') ->
  _apply_stress_reduction_scenario draws (complete_record p h i l g)
  = (None, complete_record p (stress_reduction.metrics draws h) i l' g).
Proof.
  intros E. unfold _apply_stress_reduction_scenario.
  erewrite and_then_ok; [|apply on_lifestyle_data_complete, E].
  apply on_health_metrics_complete.
Qed.

Lemma sleep_optimization_complete draws p h i l g l' :
  sleep_optimization.habits draws l = (None, l') ->
  _apply_sleep_optimization_scenario draws (complete_record p h i l g)
  = (None, complete_record p (sleep_optimization.metrics draws h) i l' g).
Proof.
  intros E. unfold _apply_sleep_optimization_scenario.
  erewrite and_then_ok; [|apply on_lifestyle_data_complete, E].
  apply on_health_metrics_complete.
Qed.

Lemma optimal_quit_smoking_complete draws p h i l g :
  exists (p' : UserProfile) (h' : HealthMetrics),
    optimal_lifestyle.quit_smoking draws (complete_record p h i l g)
    = (None, complete_record p' h' i l g) /\
    lower (smoking_status p') <> "current" /\
    height_cm p' = height_cm p /\ alcohol_frequency p' = alcohol_frequency p.
Proof.
  unfold optimal_lifestyle.quit_smoking, _apply_quit_smoking_scenario.
  cbn [complete_record user_profile].
  destruct (String.eqb_spec (lower (smoking_status p)) "current") as [E|N].
  - cbn [negb]. cbv zeta. eexists. eexists. split; [reflexivity|].
    cbn. repeat split. discriminate.
  - exists p, h. repeat split. exact N.
Qed.

Lemma optimal_alcohol_spec (p : UserProfile) :
  exists p' : UserProfile,
    optimal_lifestyle.alcohol p = (None, p') /\
    lower (alcohol_frequency p') <> "frequent" /\
    height_cm p' = height_cm p /\ smoking_status p' = smoking_status p.
Proof.
  unfold optimal_lifestyle.alcohol.
  destruct (String.eqb_spec (lower (alcohol_frequency p)) "frequent") as [E|N].
  - eexists. split; [reflexivity|]. cbn. repeat split. discriminate.
  - exists p. repeat split. exact N.
Qed.

Lemma optimal_biological_age_lt (draws : OptimalDraws) (i : ImpedanceData) :
  unit_draw (u_optimal_bio_age draws) ->
  estimated_biological_age (optimal_lifestyle.biological_age draws i)
    < estimated_biological_age i /\
  chronological_age (optimal_lifestyle.biological_age draws i) = chronological_age i.
Proof.
  intros [H0 H1]. unfold optimal_lifestyle.biological_age. cbv zeta.
  destruct (chronological_age i <? estimated_biological_age i) eqn:E;
    cbn [estimated_biological_age chronological_age]; (split; [|reflexivity]).
  - apply Qltb_lt in E. unfold uniform.
    destruct (py_max_cases (chronological_age i - 5)
                (estimated_biological_age i - (3 + (8 - 3) * u_optimal_bio_age draws)))
      as [[H ->]|[H ->]]; nra.
  - unfold uniform.
    setoid_replace ((3 + (8 - 3) * u_optimal_bio_age draws) / 2)
      with (1.5 + 2.5 * u_optimal_bio_age draws) by field.
    nra.
Qed.

Lemma stress_adj_by_level (l l' : LifestyleData) :
  stress_level l' = stress_level l ->
  adjustment.stress_adj l' = adjustment.stress_adj l.
Proof. intros E. unfold adjustment.stress_adj. cbv zeta. rewrite E. reflexivity. Qed.

(** X19: on a record with its five sections and a height that is not zero
    the optimal lifestyle scenario does not raise.  It leaves a user who is
    neither a current smoker nor a frequent drinker, on a Mediterranean diet,
    with 150 to 300 weekly exercise minutes, 7 to 9 hours of sleep and an
    estimated biological age strictly below the one before.  Both
    scenarios that touch them have run on the stress level and the sleep
    quality: "Very High" stress has become "Moderate" and any other known
    level "Low", "Poor" sleep has become "Good" and any other known quality
    "Excellent"; the predictor's stress factor has not fallen. *)
Theorem optimal_lifestyle_outcome (draws : OptimalDraws) (p : UserProfile)
    (h : HealthMetrics) (i : ImpedanceData) (l : LifestyleData) (g : GeneticData) :
  ~ height_cm p == 0 ->
  unit_draw (u_sleep_hours (sleep_draws draws)) ->
  unit_draw (u_optimal_bio_age draws) ->
  exists (p' : UserProfile) (h' : HealthMetrics) (i' : ImpedanceData)
         (l' : LifestyleData),
    _apply_optimal_lifestyle_scenario draws (complete_record p h i l g)
    = (None, complete_record p' h' i' l' g) /\
    lower (smoking_status p') <> "current" /\
    lower (alcohol_frequency p') <> "frequent" /\
    estimated_biological_age i' < estimated_biological_age i /\
    diet_type (diet l') = "Mediterranean" /\
    processed_food_frequency (diet l') = "Rarely" /\
    (exists n : Z, minutes_per_week (exercise l') = inject_Z n /\ (150 <= n <= 300)%Z) /\
    7 <= average_hours (sleep l') <= 9 /\
    (stress_level l = "Very High" -> stress_level l' = "Moderate") /\
    (stress_level l = "High" \/ stress_level l = "Moderate" \/ stress_level l = "Low" ->
     stress_level l' = "Low") /\
    (level_of stress_map (stress_level l) = None -> stress_level l' = stress_level l) /\
    (quality (sleep l) = "Poor" -> quality (sleep l') = "Good") /\
    (quality (sleep l) = "Fair" \/ quality (sleep l) = "Good" \/
     quality (sleep l) = "Excellent" -> quality (sleep l') = "Excellent") /\
    (level_of sleep_map (quality (sleep l)) = None ->
     quality (sleep l') = quality (sleep l)) /\
    adjustment.stress_adj l <= adjustment.stress_adj l'.
Proof.
  intros Hh Hus Hub. unfold _apply_optimal_lifestyle_scenario.
  (* the four scenarios *)
  destruct (improved_diet_complete (diet_draws draws) p h i l g Hh) as (w1 & b1 & E1).
  erewrite and_then_ok; [|exact E1].
  set (p1 := set_bmi b1 (set_weight_kg w1 p)) in *.
  set (l1 := snd (improved_diet.patterns l)) in *.
  assert (Hh1 : ~ height_cm p1 == 0) by exact Hh.
  destruct (exercise_program_complete (exercise_draws draws) p1
              (improved_diet.metrics (diet_draws draws) h) i l1 g Hh1)
    as (w2 & b2 & h2 & E2).
  erewrite and_then_ok; [|exact E2].
  set (p2 := set_bmi b2 (set_weight_kg w2 p1)) in *.
  destruct (exercise_habits_minutes (exercise_draws draws) l1)
    as (l2 & n & Eh2 & Hm & Hn & _ & Hsl2 & Hd2 & Hst2).
  rewrite Eh2 in *. cbn [snd] in *.
  destruct (stress_habits_spec l2)
    as (s3 & q3 & l3 & Eh3 & Es3 & Eq3 & Hs3 & Hq3 & Hhr3 & He3 & Hd3).
  erewrite and_then_ok; [|apply stress_reduction_complete, Eh3].
  destruct (sleep_habits_spec (sleep_draws draws) l3)
    as (s4 & q4 & l4 & Eh4 & Es4 & Eq4 & Hs4 & Hq4 & Hhr4 & He4 & Hd4).
  erewrite and_then_ok; [|apply sleep_optimization_complete, Eh4].
  (* the statements of the scenario itself *)
  match goal with
  | |- context [complete_record p2 ?hh i l4 g] => set (h4 := hh)
  end.
  destruct (optimal_quit_smoking_complete (quit_smoking_draws draws) p2 h4 i l4 g)
    as (p5 & h5 & E5 & Hsm5 & Hh5 & _).
  erewrite and_then_ok; [|exact E5].
  destruct (optimal_alcohol_spec p5) as (p6 & E6 & Hal6 & Hh6 & Hsm6).
  erewrite and_then_ok; [|apply on_user_profile_complete, E6].
  assert (Hh6' : ~ height_cm p6 == 0) by (rewrite Hh6, Hh5; exact Hh).
  destruct (reduce_weight_ok 0.05 0.12 (u_optimal_weight draws) p6 Hh6') as (w7 & b7 & E7).
  erewrite and_then_ok; [|apply on_user_profile_complete, E7].
  erewrite and_then_ok; [|apply on_health_metrics_with_profile_complete].
  erewrite and_then_ok; [|apply on_health_metrics_complete].
  rewrite on_impedance_data_complete.
  destruct (optimal_biological_age_lt draws i Hub) as [Hbio _].
  eexists. eexists. eexists. exists l4. split; [reflexivity|].
  cbn [set_bmi set_weight_kg smoking_status alcohol_frequency].
  split; [rewrite Hsm6; exact Hsm5|]. split; [exact Hal6|]. split; [exact Hbio|].
  (* the lifestyle data *)
  assert (Hd1 : diet_type (diet l1) = "Mediterranean" /\
                processed_food_frequency (diet l1) = "Rarely") by (split; reflexivity).
  assert (Hst1 : stress_level l1 = stress_level l) by reflexivity.
  assert (Hq1 : quality (sleep l1) = quality (sleep l)) by reflexivity.
  rewrite Hd4, Hd3, Hd2. split; [apply Hd1|]. split; [apply Hd1|].
  rewrite He4, He3. split; [exists n; split; assumption|].
  split.
  { rewrite Hhr4. destruct Hus as [U0 U1]. unfold uniform. cmp_cases; split; nra. }
  assert (S2 : stress_level l2 = stress_level l) by (rewrite Hst2; exact Hst1).
  assert (Q2 : quality (sleep l2) = quality (sleep l)) by (rewrite Hsl2; exact Hq1).
  destruct (lower_stress_level_result l2 s3 Es3) as (VH3 & HI3 & MO3 & LO3 & NO3).
  destruct (lower_stress_level_result l3 s4 Es4) as (VH4 & HI4 & MO4 & LO4 & NO4).
  rewrite S2 in VH3, HI3, MO3, LO3, NO3. rewrite Hs3 in VH4, HI4, MO4, LO4, NO4.
  destruct (stress_improve_sleep_quality_result l2 q3 Eq3) as (PO3 & FA3 & GO3 & EX3 & NQ3).
  destruct (sleep_improve_sleep_quality_result l3 q4 Eq4)
    as (PO4 & FA4 & GO4 & EX4 & NQ4 & _).
  rewrite Q2 in PO3, FA3, GO3, EX3, NQ3. rewrite Hq3 in PO4, FA4, GO4, EX4, NQ4.
  assert (NO : level_of stress_map (stress_level l) = None -> s4 = stress_level l).
  { intros H. pose proof (NO3 H) as E3. rewrite E3 in NO4. exact (NO4 H). }
  assert (NQ : level_of sleep_map (quality (sleep l)) = None -> q4 = quality (sleep l)).
  { intros H. pose proof (NQ3 H) as E3. rewrite E3 in NQ4. exact (NQ4 H). }
  rewrite Hs4, Hq4.
  split; [intros H; apply HI4, VH3, H|].
  split; [intros [H|[H|H]];
          [apply MO4, HI3, H | apply LO4, MO3, H | apply LO4, LO3, H]|].
  split; [exact NO|].
  split; [intros H; apply FA4, PO3, H|].
  split; [intros [H|[H|H]];
          [apply GO4, FA3, H | apply EX4, GO3, H | apply EX4, EX3, H]|].
  split; [exact NQ|].
  (* the stress factor *)
  assert (A : forall (x : LifestyleData) s w, stress_level x = s ->
                dict_get weights.stress (lower s) 0 = w -> adjustment.stress_adj x == w).
  { intros x s w Hs0 Hw. rewrite (stress_adj_of x s w Hs0 Hw). reflexivity. }
  destruct (stress_level_cases (stress_level l))
    as [[E0 L]|[[E0 L]|[[E0 L]|[[E0 L]|(L & _)]]]].
  - rewrite (A l _ _ E0 eq_refl), (A l4 "Low" _ (eq_trans Hs4 (LO4 (LO3 E0))) eq_refl).
    vm_compute. discriminate.
  - rewrite (A l _ _ E0 eq_refl), (A l4 "Low" _ (eq_trans Hs4 (LO4 (MO3 E0))) eq_refl).
    vm_compute. discriminate.
  - rewrite (A l _ _ E0 eq_refl), (A l4 "Low" _ (eq_trans Hs4 (MO4 (HI3 E0))) eq_refl).
    vm_compute. discriminate.
  - rewrite (A l _ _ E0 eq_refl),
      (A l4 "Moderate" _ (eq_trans Hs4 (HI4 (VH3 E0))) eq_refl).
    vm_compute. discriminate.
  - rewrite (stress_adj_by_level l l4 (eq_trans Hs4 (NO L))). lra.
Qed.

Lemma optimal_lifestyle_outcome_witness :
  exists (p' : UserProfile) (h' : HealthMetrics) (i' : ImpedanceData)
         (l' : LifestyleData),
    _apply_optimal_lifestyle_scenario sample_draws.optimal sample.user_data
    = (None, complete_record p' h' i' l' sample.genetics) /\
    lower (smoking_status p') <> "current" /\
    estimated_biological_age i' < 52 /\
    stress_level l' = "Low".
Proof.
  destruct (optimal_lifestyle_outcome sample_draws.optimal sample.profile sample.metrics
              sample.impedance sample.lifestyle sample.genetics)
    as (p' & h' & i' & l' & E & Hs & _ & Hb & _ & _ & _ & _ & _ & Hl & _).
  - vm_compute. discriminate.
  - vm_compute. split; [discriminate | reflexivity].
  - vm_compute. split; [discriminate | reflexivity].
  - exists p', h', i', l'. split; [exact E|]. split; [exact Hs|]. split; [exact Hb|].
    apply Hl. left. reflexivity.
Defined.

(* ================================================================= *)
(** * The generators *)

Lemma bisect_le (a : list Q) (x : Q) (hi : nat) : (bisect a x hi <= hi)%nat.
Proof.
  revert a. induction hi as [|hi IH]; intros [|c a']; cbn [bisect]; try lia.
  destruct (x <? c); [lia|]. specialize (IH a'). lia.
Qed.

(** Whatever the draw, [choices] yields an element of a population that is
    not empty. *)
Lemma choices_In {A : Type} (default : A) (population : list A) (weights : list Q) (u : Q) :
  population <> [] -> In (choices default population weights u) population.
Proof.
  intros Hne. unfold choices. cbv zeta. apply nth_In.
  pose proof (bisect_le (accumulate weights) (u * last (accumulate weights) 0)
                (length population - 1)).
  destruct population; [contradiction|]. cbn [length] in *. lia.
Qed.

Lemma choices_stress_last (u : Q) :
  0.9 <= u ->
  choices "" ["Low"; "Moderate"; "High"; "Very High"] [0.1; 0.5; 0.3; 0.1] u = "Very High".
Proof.
  intros H. unfold choices, accumulate. cbv zeta.
  cbn [accumulate_from last length Nat.sub bisect].
  assert (E : forall c, c <= 0.9 -> (u * (0 + 0.1 + 0.5 + 0.3 + 0.1) <? c) = false).
  { intros c Hc. apply Qltb_ge. lra. }
  rewrite !E by lra. reflexivity.
Qed.

Lemma choices_processed_last (u : Q) :
  0.9 <= u ->
  choices "" ["Rarely"; "Sometimes"; "Often"; "Very Frequently"] [0.1; 0.4; 0.4; 0.1] u
  = "Very Frequently".
Proof.
  intros H. unfold choices, accumulate. cbv zeta.
  cbn [accumulate_from last length Nat.sub bisect].
  assert (E : forall c, c <= 0.9 -> (u * (0 + 0.1 + 0.4 + 0.4 + 0.1) <? c) = false).
  { intros c Hc. apply Qltb_ge. lra. }
  rewrite !E by lra. reflexivity.
Qed.

Lemma generate_lifestyle_data_fields (now : string) (draws : LifestyleDraws)
    (p : UserProfile) (uid : string) :
  user_id p = Some uid ->
  exists gl : GeneratedLifestyle,
    generate_lifestyle_data now draws p = Ok gl /\
    recorded_at gl = now /\
    stress_level (lifestyle gl)
    = choices "" ["Low"; "Moderate"; "High"; "Very High"] [0.1; 0.5; 0.3; 0.1]
        (u_stress_level draws) /\
    processed_food_frequency (diet (lifestyle gl))
    = choices "" ["Rarely"; "Sometimes"; "Often"; "Very Frequently"] [0.1; 0.4; 0.4; 0.1]
        (u_processed_food draws) /\
    fruit_veg_servings_daily (diet (lifestyle gl))
    = py_max 0 (round0 (normal 3 1.5 (z_fruit_veg draws))) /\
    quality (sleep (lifestyle gl))
    = choices "" ["Poor"; "Fair"; "Good"; "Excellent"] [0.1; 0.3; 0.4; 0.2]
        (u_sleep_quality draws).
Proof.
  intros Hid. unfold generate_lifestyle_data. rewrite Hid. cbn [getitem bind].
  eexists. split; [reflexivity|]. repeat split.
Qed.

(** X22: the lifestyle generator and the predictor do not share a
    vocabulary.  Whatever the draws, the generated stress level is "Low",
    "Moderate", "High" or "Very High" and the processed food frequency is
    "Rarely", "Sometimes", "Often" or "Very Frequently"; the predictor has
    the keys "very_high" and "very_frequently", so its stress factor for a
    generated record is never below -2.0 and its processed food weight never
    below -1.8: the top draws give "Very High" and "Very Frequently", which
    weigh 0.  The capitalised "Often" and "Very Frequently" also never
    trigger the processed food recommendation. *)
Theorem generated_lifestyle_vocabulary (now : string) (draws : LifestyleDraws)
    (p : UserProfile) (uid : string) :
  user_id p = Some uid ->
  exists gl : GeneratedLifestyle,
    generate_lifestyle_data now draws p = Ok gl /\
    In (stress_level (lifestyle gl)) ["Low"; "Moderate"; "High"; "Very High"] /\
    In (processed_food_frequency (diet (lifestyle gl)))
       ["Rarely"; "Sometimes"; "Often"; "Very Frequently"] /\
    -2.0 <= adjustment.stress_adj (lifestyle gl) /\
    -1.8 <= dict_get weights.processed_food
              (lower (processed_food_frequency (diet (lifestyle gl)))) 0 /\
    (0.9 <= u_stress_level draws ->
     stress_level (lifestyle gl) = "Very High" /\
     adjustment.stress_adj (lifestyle gl) == 0) /\
    (0.9 <= u_processed_food draws ->
     processed_food_frequency (diet (lifestyle gl)) = "Very Frequently" /\
     dict_get weights.processed_food
       (lower (processed_food_frequency (diet (lifestyle gl)))) 0 == 0) /\
    (forall (now' : string) (u : UserData) (p' : UserProfile) (h : HealthMetrics)
            (uid' : string) (predictions : Prediction) (risks_arg : RiskAssessment),
       user_profile u = Some p' -> health_metrics u = Some h ->
       lifestyle_data u = Some (lifestyle gl) -> user_id p' = Some uid' ->
       exists r : Recommendations,
         generate_recommendations now' u predictions risks_arg = Ok r /\
         ~ In catalog.processed_food (dict_get (recommendations r) "nutrition" [])).
Proof.
  intros Hid.
  destruct (generate_lifestyle_data_fields now draws p uid Hid) as (gl & E & _ & Hs & Hp & _).
  exists gl. split; [exact E|].
  assert (Sin : In (stress_level (lifestyle gl)) ["Low"; "Moderate"; "High"; "Very High"]).
  { rewrite Hs. apply choices_In. discriminate. }
  assert (Pin : In (processed_food_frequency (diet (lifestyle gl)))
                   ["Rarely"; "Sometimes"; "Often"; "Very Frequently"]).
  { rewrite Hp. apply choices_In. discriminate. }
  split; [exact Sin|]. split; [exact Pin|].
  split.
  { unfold adjustment.stress_adj. cbv zeta.
    destruct Sin as [<-|[<-|[<-|[<-|[]]]]]; vm_compute; discriminate. }
  split.
  { destruct Pin as [<-|[<-|[<-|[<-|[]]]]]; vm_compute; discriminate. }
  split.
  { intros H. rewrite Hs, (choices_stress_last _ H) in *. split; [reflexivity|].
    unfold adjustment.stress_adj. cbv zeta. rewrite Hs. reflexivity. }
  split.
  { intros H. rewrite Hp, (choices_processed_last _ H) in *. split; reflexivity. }
  intros now' u p' h uid' predictions risks_arg Hp' Hh Hl Hid'.
  rewrite (generate_recommendations_present now' uid' u p' h (lifestyle gl) predictions
             risks_arg Hp' Hh Hl Hid').
  eexists. split; [reflexivity|]. cbn [recommendations].
  rewrite recommendation_rules_by_category.
  change (dict_get (six_categories _ _ _ _ _ _) "nutrition" [])
    with (rules.for_nutrition (lifestyle gl) risks_arg).
  unfold rules.for_nutrition, str_in. cbn [existsb]. rewrite orb_false_r.
  assert (N : (String.eqb (processed_food_frequency (diet (lifestyle gl))) "often"
               || String.eqb (processed_food_frequency (diet (lifestyle gl)))
                    "very frequently")%bool = false).
  { destruct Pin as [<-|[<-|[<-|[<-|[]]]]]; reflexivity. }
  rewrite N. cbn [rules.when app]. intros H.
  apply in_app_or in H as [H|H].
  - destruct (_ <? _); cbn in H; [destruct H as [H|[]]; discriminate | contradiction].
  - destruct (_ && _); cbn in H; [destruct H as [H|[]]; discriminate | contradiction].
Qed.

Lemma uniform_range (a b u : Q) :
  a <= b -> unit_draw u -> a <= uniform a b u <= b.
Proof. intros Hab [H0 H1]. unfold uniform. split; nra. Qed.

Lemma scaled_range (x lo hi a b u : Q) :
  0 <= lo -> lo <= x <= hi -> 1 <= a -> a <= b -> unit_draw u ->
  lo <= x * uniform a b u <= hi * b.
Proof.
  intros Hlo [Hx1 Hx2] Ha Hab Hu.
  destruct (uniform_range a b u Hab Hu) as [U1 U2]. split; nra.
Qed.

Lemma capped_range (v lo hi : Q) :
  lo <= v <= hi -> hi <= 1 -> lo <= py_min 1.0 v <= hi.
Proof.
  intros [H1 H2] Hhi. destruct (py_min_cases 1.0 v) as [[H ->]|[H ->]]; split; lra.
Qed.

Lemma family_scaled_range (flag : bool) (x lo hi a b u cap : Q) :
  0 <= lo -> lo <= x <= hi -> 1 <= a -> a <= b -> unit_draw u ->
  hi * b <= cap -> cap <= 1 ->
  lo <= py_min 1.0 (if flag then x * uniform a b u else x) <= cap.
Proof.
  intros Hlo Hx Ha Hab Hu Hcap H1. apply capped_range; [|exact H1].
  destruct flag.
  - destruct (scaled_range x lo hi a b u Hlo Hx Ha Hab Hu). split; lra.
  - destruct Hx. split; nra.
Qed.

(** X21: with every draw in its range and a profile that has a user id,
    the genetic generator returns risk factors that satisfy the
    precondition of the risk assessment: the cancer table has its five
    entries, the neurodegenerative table has "alzheimers" and "parkinsons",
    and every risk lies in [0, 1].  In fact the cardiovascular and diabetes
    risks lie in [0.05, 0.375], the cancer risks in [0, 0.2], the
    neurodegenerative ones in [0.01, 0.24] and the autoimmune ones in
    [0.005, 0.03], so the final caps at 1.0 never cut. *)
Theorem generated_genetic_risks_in_range (now : string) (draws : GeneticDraws)
    (history : FamilyHistory) (p : UserProfile) (uid : string) :
  user_id p = Some uid ->
  genetic_draws_in_range draws ->
  exists gg : GeneratedGenetics,
    generate_genetic_risk_data now draws history p = Ok gg /\
    genetic_risks_in_unit_interval (genetics gg) /\
    keys (cancer (risk_factors (genetics gg)))
    = ["colorectal"; "breast"; "prostate"; "lung"; "skin"] /\
    (exists alzheimers : Q,
       dict_getitem (neurodegenerative (risk_factors (genetics gg))) "alzheimers"
       = Ok alzheimers /\ 0.02 <= alzheimers <= 0.24) /\
    (exists parkinsons : Q,
       dict_getitem (neurodegenerative (risk_factors (genetics gg))) "parkinsons"
       = Ok parkinsons /\ 0.01 <= parkinsons <= 0.1) /\
    0.05 <= cardiovascular_disease (risk_factors (genetics gg)) <= 0.375 /\
    0.05 <= type_2_diabetes (risk_factors (genetics gg)) <= 0.375 /\
    Forall (fun v => 0 <= v <= 0.2) (values (cancer (risk_factors (genetics gg)))) /\
    Forall (fun v => 0.005 <= v <= 0.03) (values (autoimmune gg)).
Proof.
  intros Hid (Hcv & Hdi & Hco & Hbr & Hpr & Hlu & Hsk & Hal & Hpa & Hra & Hms
              & Hfcv & Hfdi & Hfca & Hfal & Hfpa).
  unfold generate_genetic_risk_data. rewrite Hid. cbn [getitem bind]. cbv zeta.
  eexists. split; [reflexivity|].
  cbn [genetics risk_factors cancer neurodegenerative cardiovascular_disease
       type_2_diabetes autoimmune].
  (* the single risks *)
  pose proof (uniform_range 0.05 0.15 _ ltac:(lra) Hcv) as Rcv.
  pose proof (uniform_range 0.05 0.15 _ ltac:(lra) Hdi) as Rdi.
  pose proof (uniform_range 0.02 0.08 _ ltac:(lra) Hal) as Ral.
  pose proof (uniform_range 0.01 0.04 _ ltac:(lra) Hpa) as Rpa.
  pose proof (family_scaled_range (cardiovascular_disease_history history)
                _ 0.05 0.15 1.5 2.5 _ 0.375 ltac:(lra) Rcv ltac:(lra) ltac:(lra) Hfcv
                ltac:(lra) ltac:(lra)) as Ccv.
  pose proof (family_scaled_range (diabetes_history history)
                _ 0.05 0.15 1.5 2.5 _ 0.375 ltac:(lra) Rdi ltac:(lra) ltac:(lra) Hfdi
                ltac:(lra) ltac:(lra)) as Cdi.
  pose proof (family_scaled_range (neurodegenerative_disease_history history)
                _ 0.02 0.08 1.5 3.0 _ 0.24 ltac:(lra) Ral ltac:(lra) ltac:(lra) Hfal
                ltac:(lra) ltac:(lra)) as Cal.
  pose proof (family_scaled_range (neurodegenerative_disease_history history)
                _ 0.01 0.04 1.5 2.5 _ 0.1 ltac:(lra) Rpa ltac:(lra) ltac:(lra) Hfpa
                ltac:(lra) ltac:(lra)) as Cpa.
  (* the cancer table *)
  set (breast := if String.eqb (gender p) "Female"
                 then uniform 0.03 0.08 (u_breast draws) else 0.001).
  set (prostate := if String.eqb (gender p) "Male"
                   then uniform 0.05 0.10 (u_prostate draws) else 0).
  assert (Rco : 0 <= uniform 0.03 0.08 (u_colorectal draws) <= 0.1)
    by (pose proof (uniform_range 0.03 0.08 _ ltac:(lra) Hco); lra).
  assert (Rbr : 0 <= breast <= 0.1).
  { unfold breast. destruct (String.eqb (gender p) "Female"); [|lra].
    pose proof (uniform_range 0.03 0.08 _ ltac:(lra) Hbr). lra. }
  assert (Rpr : 0 <= prostate <= 0.1).
  { unfold prostate. destruct (String.eqb (gender p) "Male"); [|lra].
    pose proof (uniform_range 0.05 0.10 _ ltac:(lra) Hpr). lra. }
  assert (Rlu : 0 <= uniform 0.02 0.06 (u_lung draws) <= 0.1)
    by (pose proof (uniform_range 0.02 0.06 _ ltac:(lra) Hlu); lra).
  assert (Rsk : 0 <= uniform 0.02 0.07 (u_skin draws) <= 0.1)
    by (pose proof (uniform_range 0.02 0.07 _ ltac:(lra) Hsk); lra).
  assert (Cancer :
    forall x i, 0 <= x <= 0.1 ->
      0 <= py_min 1.0 x <= 0.2 /\
      0 <= py_min 1.0 (x * uniform 1.3 2.0 (u_family_cancer draws i)) <= 0.2).
  { intros x i Hx. split.
    - apply capped_range; lra.
    - pose proof (family_scaled_range true x 0 0.1 1.3 2.0 _ 0.2 ltac:(lra) Hx ltac:(lra)
                    ltac:(lra) (Hfca i) ltac:(lra) ltac:(lra)) as H. exact H. }
  set (table := if cancer_history history
                then scale_each 1.3 2.0 (u_family_cancer draws) 0
                       [("colorectal", uniform 0.03 0.08 (u_colorectal draws));
                        ("breast", breast); ("prostate", prostate);
                        ("lung", uniform 0.02 0.06 (u_lung draws));
                        ("skin", uniform 0.02 0.07 (u_skin draws))]
                else [("colorectal", uniform 0.03 0.08 (u_colorectal draws));
                      ("breast", breast); ("prostate", prostate);
                      ("lung", uniform 0.02 0.06 (u_lung draws));
                      ("skin", uniform 0.02 0.07 (u_skin draws))]).
  assert (Hcancer :
    keys (cap_each table) = ["colorectal"; "breast"; "prostate"; "lung"; "skin"] /\
    Forall (fun v => 0 <= v <= 0.2) (values (cap_each table))).
  { unfold table. destruct (cancer_history history);
      cbn [scale_each cap_each map keys values fst snd]; (split; [reflexivity|]).
    - apply Forall_cons; [exact (proj2 (Cancer _ 0%nat Rco))|].
      apply Forall_cons; [exact (proj2 (Cancer _ 1%nat Rbr))|].
      apply Forall_cons; [exact (proj2 (Cancer _ 2%nat Rpr))|].
      apply Forall_cons; [exact (proj2 (Cancer _ 3%nat Rlu))|].
      apply Forall_cons; [exact (proj2 (Cancer _ 4%nat Rsk))|]. constructor.
    - apply Forall_cons; [exact (proj1 (Cancer _ 0%nat Rco))|].
      apply Forall_cons; [exact (proj1 (Cancer _ 0%nat Rbr))|].
      apply Forall_cons; [exact (proj1 (Cancer _ 0%nat Rpr))|].
      apply Forall_cons; [exact (proj1 (Cancer _ 0%nat Rlu))|].
      apply Forall_cons; [exact (proj1 (Cancer _ 0%nat Rsk))|]. constructor. }
  destruct Hcancer as [Hkeys Hvalues].
  assert (Hauto : Forall (fun v => 0.005 <= v <= 0.03)
            (values (cap_each
               [("rheumatoid_arthritis", uniform 0.01 0.03 (u_rheumatoid_arthritis draws));
                ("multiple_sclerosis", uniform 0.005 0.02 (u_multiple_sclerosis draws))]))).
  { cbn [cap_each map values fst snd].
    pose proof (uniform_range 0.01 0.03 _ ltac:(lra) Hra).
    pose proof (uniform_range 0.005 0.02 _ ltac:(lra) Hms).
    repeat (apply Forall_cons; [apply capped_range; lra|]). constructor. }
  split.
  { unfold genetic_risks_in_unit_interval, unit_interval.
    cbn [risk_factors cardiovascular_disease type_2_diabetes cancer neurodegenerative].
    split; [lra|]. split; [lra|]. split.
    - eapply Forall_impl; [|exact Hvalues]. cbv beta. intros v Hv. lra.
    - cbn [cap_each map values fst snd]. repeat (apply Forall_cons; [lra|]). constructor. }
  split; [exact Hkeys|].
  split; [eexists; split; [reflexivity|]; cbn [fst snd]; exact Cal|].
  split; [eexists; split; [reflexivity|]; cbn [fst snd]; exact Cpa|].
  split; [exact Ccv|]. split; [exact Cdi|]. split; [exact Hvalues | exact Hauto].
Qed.

Lemma py_int_hundredth (s : Z) :
  (0 <= s)%Z ->
  (0 <= py_int (inject_Z s / 100))%Z /\ (100 * py_int (inject_Z s / 100) <= s)%Z /\
  (s < 100 * py_int (inject_Z s / 100) + 100)%Z.
Proof.
  intros Hs.
  assert (H0 : 0 <= inject_Z s / 100).
  { assert (0 <= inject_Z s) by (change 0 with (inject_Z 0); rewrite <- Zle_Qle; exact Hs).
    apply Qle_shift_div_l; lra. }
  rewrite (py_int_nonneg _ H0).
  pose proof (Qfloor_le (inject_Z s / 100)) as Hle.
  pose proof (Qlt_floor (inject_Z s / 100)) as Hlt.
  set (f := Qfloor (inject_Z s / 100)) in *.
  assert (Hle' : inject_Z f * 100 <= inject_Z s).
  { apply (Qmult_le_compat_r _ _ 100) in Hle; [|lra].
    setoid_replace (inject_Z s / 100 * 100) with (inject_Z s) in Hle by field. exact Hle. }
  assert (Hlt' : inject_Z s < inject_Z (f + 1) * 100).
  { apply (Qmult_lt_compat_r _ _ 100) in Hlt; [|lra].
    setoid_replace (inject_Z s / 100 * 100) with (inject_Z s) in Hlt by field. exact Hlt. }
  change 100 with (inject_Z 100) in Hle', Hlt'.
  rewrite <- inject_Z_mult in Hle', Hlt'.
  rewrite <- Zle_Qle in Hle'. rewrite <- Zlt_Qlt in Hlt'.
  assert (0 <= f)%Z.
  { unfold f. rewrite <- (Qfloor_Z 0). apply Qfloor_resp_le. exact H0. }
  lia.
Qed.

(** What holds of every record of the daily vitals. *)
Lemma vitals_of_day_spec (date : string) (draws : VitalsDraws) (p : UserProfile)
    (base_heart_rate base_systolic base_diastolic : Q) (uid : string) :
  user_id p = Some uid ->
  exists v : DailyVitals,
    vitals_of_day date draws p base_heart_rate base_systolic base_diastolic = Ok v /\
    vitals_date v = date /\
    (0 <= steps v)%Z /\
    3 <= sleep_hours v <= 12 /\
    (0 <= active_minutes v)%Z /\
    (100 * active_minutes v <= steps v < 100 * active_minutes v + 100)%Z.
Proof.
  intros Hid. unfold vitals_of_day. rewrite Hid. cbn [getitem bind]. cbv zeta.
  eexists. split; [reflexivity|].
  cbn [vitals_date steps sleep_hours active_minutes].
  split; [reflexivity|].
  set (s := Z.max 0 (py_int _)).
  assert (Hs : (0 <= s)%Z) by (unfold s; lia).
  split; [exact Hs|].
  split.
  { match goal with |- _ <= py_max 3.0 (py_min 12.0 ?x) <= _ =>
      destruct (py_min_cases 12.0 x) as [[H1 ->]|[H1 ->]];
      match goal with |- _ <= py_max 3.0 ?y <= _ =>
        destruct (py_max_cases 3.0 y) as [[H2 ->]|[H2 ->]]
      end
    end; split; lra. }
  destruct (py_int_hundredth s Hs) as (A & B & C).
  split; [exact A|]. split; [exact B | exact C].
Qed.

Lemma vitals_from_spec (date : nat -> string) (draws : nat -> VitalsDraws)
    (p : UserProfile) (base_heart_rate base_systolic base_diastolic : Q) (uid : string) :
  user_id p = Some uid ->
  forall remaining i : nat,
  exists vs : list DailyVitals,
    vitals_from date draws p base_heart_rate base_systolic base_diastolic i remaining
    = Ok vs /\
    length vs = remaining /\
    map vitals_date vs = map date (seq i remaining) /\
    Forall (fun v => (0 <= steps v)%Z /\ 3 <= sleep_hours v <= 12 /\
                     (0 <= active_minutes v)%Z /\
                     (100 * active_minutes v <= steps v < 100 * active_minutes v + 100)%Z)
           vs.
Proof.
  intros Hid. induction remaining as [|remaining IH]; intros i.
  - exists []. repeat split. constructor.
  - cbn [vitals_from].
    destruct (vitals_of_day_spec (date i) (draws i) p base_heart_rate base_systolic
                base_diastolic uid Hid) as (v & E & Hd & Hv).
    destruct (IH (S i)) as (vs & Evs & Hlen & Hdates & Hall).
    rewrite E, Evs. cbn [bind]. exists (v :: vs).
    split; [reflexivity|]. cbn [length map seq].
    split; [congruence|]. split; [congruence|].
    constructor; assumption.
Qed.

(** The daily vitals of a profile with a user id. *)
Lemma generated_daily_vitals_spec (date : nat -> string) (draws : nat -> VitalsDraws)
    (p : UserProfile) (h : HealthMetrics) (days : Z) (uid : string) :
  user_id p = Some uid ->
  exists vs : list DailyVitals,
    generate_daily_vitals date draws p h days = Ok vs /\
    length vs = Z.to_nat days /\
    map vitals_date vs = map date (seq 0 (Z.to_nat days)) /\
    Forall (fun v => (0 <= steps v)%Z /\ 3 <= sleep_hours v <= 12 /\
                     (0 <= active_minutes v)%Z /\
                     (100 * active_minutes v <= steps v < 100 * active_minutes v + 100)%Z)
           vs.
Proof.
  intros Hid. unfold generate_daily_vitals. cbv zeta.
  apply (vitals_from_spec date draws p _ _ _ uid Hid).
Qed.

(** X23: for a profile with a user id, [generate_daily_vitals] returns one
    record per day, [days] of them (none for a number of days that is not
    positive), dated in the order of the loop.  Whatever the draws, every
    record has a step count that is not negative, between 3 and 12 hours of
    sleep, and as active minutes the hundreds of its step count. *)
Theorem generated_daily_vitals (date : nat -> string) (draws : nat -> VitalsDraws)
    (p : UserProfile) (h : HealthMetrics) (days : Z) (uid : string) :
  user_id p = Some uid ->
  exists vs : list DailyVitals,
    generate_daily_vitals date draws p h days = Ok vs /\
    length vs = Z.to_nat days /\
    map vitals_date vs = map date (seq 0 (Z.to_nat days)) /\
    Forall (fun v => (0 <= steps v)%Z /\ 3 <= sleep_hours v <= 12 /\
                     (0 <= active_minutes v)%Z /\
                     (100 * active_minutes v <= steps v < 100 * active_minutes v + 100)%Z)
           vs.
Proof. apply generated_daily_vitals_spec. Qed.

Lemma generated_daily_vitals_witness :
  exists vs : list DailyVitals,
    generate_daily_vitals sample_generation.date (fun _ => sample_generation.for_vitals)
      sample.profile sample.metrics 30 = Ok vs /\
    length vs = 30%nat.
Proof.
  destruct (generated_daily_vitals sample_generation.date
              (fun _ => sample_generation.for_vitals) sample.profile sample.metrics 30
              "user_0001")
    as (vs & H & Hlen & _).
  - reflexivity.
  - exists vs. split; [exact H | exact Hlen].
Defined.

(** The drawn height and the mean weight it gives, as
    [generate_user_profile] computes them. *)
Lemma generate_user_profile_cases (now : string) (draws : ProfileDraws) (uid : string) :
  let drawn_gender := choice ["Male"; "Female"] (k_gender draws) in
  let male := String.eqb drawn_gender "Male" in
  let height :=
    if male then py_round_n (normal 175 8 (z_height draws)) 1
    else py_round_n (normal 162 7 (z_height draws)) 1 in
  let least := if male then 90 else 100 in
  (height < least ->
   generate_user_profile now draws uid = RaisedValueError "scale < 0") /\
  (least <= height ->
   exists gp : GeneratedProfile,
     generate_user_profile now draws uid = Returned gp /\
     user_id (profile gp) = Some uid /\
     gender (profile gp) = drawn_gender /\
     age (profile gp) = inject_Z (25 + Z.of_nat (k_age draws)) /\
     height_cm (profile gp) = height /\
     bmi (profile gp) = py_round_n (weight_kg (profile gp) / (height / 100) ^ 2) 1 /\
     In (smoking_status (profile gp)) ["Never"; "Former"; "Current"] /\
     In (alcohol_frequency (profile gp)) ["None"; "Rare"; "Moderate"; "Frequent"] /\
     created_at gp = now).
Proof.
  cbv zeta. unfold generate_user_profile. cbv zeta.
  set (drawn_gender := choice ["Male"; "Female"] (k_gender draws)).
  set (height := if String.eqb drawn_gender "Male"
                 then py_round_n (normal 175 8 (z_height draws)) 1
                 else py_round_n (normal 162 7 (z_height draws)) 1).
  set (weight_mean := height - 100 + (if String.eqb drawn_gender "Male" then 10 else 0)).
  assert (Hmean : weight_mean == height - (if String.eqb drawn_gender "Male" then 90 else 100)).
  { unfold weight_mean. destruct (String.eqb drawn_gender "Male"); ring. }
  unfold np_normal. split; intros H.
  - assert (E : (weight_mean * 0.15 <? 0) = true) by (apply Qltb_lt; lra).
    rewrite E. reflexivity.
  - assert (E : (weight_mean * 0.15 <? 0) = false) by (apply Qltb_ge; lra).
    rewrite E. cbn [outcome_bind].
    assert (Hpos : ~ height == 0).
    { destruct (String.eqb drawn_gender "Male"); lra. }
    unfold py_div.
    destruct ((height / 100) ^ 2 =? 0) eqn:Ez;
      [apply squared_height_zero in Ez; contradiction|].
    cbn [outcome_of outcome_bind]. eexists. split; [reflexivity|].
    cbn [profile user_id gender age height_cm bmi weight_kg smoking_status
         alcohol_frequency created_at].
    repeat split; try reflexivity; apply choices_In; discriminate.
Qed.

(** X25: [generate_user_profile] never raises ZeroDivisionError.  A drawn
    height below 90 cm for "Male" (below 100 cm otherwise) makes the mean and
    so the standard deviation of the weight negative, which
    [np.random.normal] refuses with ValueError before the BMI is computed;
    from these heights on the function returns a profile with the user id it
    was given, an age of 25 plus the drawn offset, a smoking status and an
    alcohol frequency of the generator's vocabulary, and as BMI the weight
    by the squared height in metres, rounded to one decimal. *)
Theorem generate_user_profile_outcome (now : string) (draws : ProfileDraws)
    (uid : string) :
  let drawn_gender := choice ["Male"; "Female"] (k_gender draws) in
  let male := String.eqb drawn_gender "Male" in
  let height :=
    if male then py_round_n (normal 175 8 (z_height draws)) 1
    else py_round_n (normal 162 7 (z_height draws)) 1 in
  let least := if male then 90 else 100 in
  (forall e : exn, generate_user_profile now draws uid <> Raised e) /\
  (height < least ->
   generate_user_profile now draws uid = RaisedValueError "scale < 0") /\
  (least <= height ->
   exists gp : GeneratedProfile,
     generate_user_profile now draws uid = Returned gp /\
     user_id (profile gp) = Some uid /\
     gender (profile gp) = drawn_gender /\
     age (profile gp) = inject_Z (25 + Z.of_nat (k_age draws)) /\
     height_cm (profile gp) = height /\
     bmi (profile gp) = py_round_n (weight_kg (profile gp) / (height / 100) ^ 2) 1 /\
     In (smoking_status (profile gp)) ["Never"; "Former"; "Current"] /\
     In (alcohol_frequency (profile gp)) ["None"; "Rare"; "Moderate"; "Frequent"] /\
     created_at gp = now).
Proof.
  pose proof (generate_user_profile_cases now draws uid) as H. cbv zeta in *.
  destruct H as [Hlow Hhigh]. split; [|split; assumption].
  intros e.
  match type of Hlow with ?height < ?least -> _ =>
    destruct (Qlt_le_dec height least) as [Hlt|Hle]
  end.
  - rewrite (Hlow Hlt). discriminate.
  - destruct (Hhigh Hle) as (gp & E & _). rewrite E. discriminate.
Qed.

Lemma generate_health_metrics_returns (draws : HealthDraws) (p : UserProfile) (uid : string) :
  user_id p = Some uid -> exists h : HealthMetrics, generate_health_metrics draws p = Ok h.
Proof.
  intros Hid. unfold generate_health_metrics. rewrite Hid. cbn [getitem bind].
  eexists. reflexivity.
Qed.

Lemma generate_impedance_data_fields (now : string) (draws : ImpedanceDraws)
    (p : UserProfile) (uid : string) :
  user_id p = Some uid ->
  exists gi : GeneratedImpedance,
    generate_impedance_data now draws p = Ok gi /\
    chronological_age (impedance gi) = age p /\
    estimated_biological_age (impedance gi)
    = py_round_n (py_max 20 (age p + normal 0 5 (z_biological_age draws))) 1 /\
    map scan_frequency (frequency_scan gi) = frequencies /\
    measured_at gi = now.
Proof.
  intros Hid. unfold generate_impedance_data. rewrite Hid. cbn [getitem bind].
  eexists. split; [reflexivity|]. repeat split.
Qed.

Lemma generate_genetic_risk_data_tables (now : string) (draws : GeneticDraws)
    (history : FamilyHistory) (p : UserProfile) (uid : string) :
  user_id p = Some uid ->
  exists (gg : GeneratedGenetics) (alzheimers parkinsons : Q),
    generate_genetic_risk_data now draws history p = Ok gg /\
    cancer (risk_factors (genetics gg)) <> [] /\
    dict_getitem (neurodegenerative (risk_factors (genetics gg))) "alzheimers"
    = Ok alzheimers /\
    dict_getitem (neurodegenerative (risk_factors (genetics gg))) "parkinsons"
    = Ok parkinsons.
Proof.
  intros Hid. unfold generate_genetic_risk_data. rewrite Hid. cbn [getitem bind]. cbv zeta.
  eexists. eexists. eexists. split; [reflexivity|].
  cbn [genetics risk_factors cancer neurodegenerative].
  split; [|split; reflexivity].
  destruct (cancer_history history); discriminate.
Qed.

Lemma run_complete_analysis_zero_hdl (clock : nat -> string) (uid : string)
    (p : UserProfile) (h : HealthMetrics) (i : ImpedanceData) (l : LifestyleData)
    (g : GeneticData) :
  user_id p = Some uid -> hdl (cholesterol h) == 0 ->
  run_complete_analysis clock (complete_record p h i l g)
  = Ok (error_results uid (str ZeroDivisionError) (clock 0%nat)).
Proof.
  intros Hid Hh. unfold run_complete_analysis.
  rewrite (predict_life_expectancy_zero_hdl _ p h i l g Hh).
  cbn [complete_record user_profile bind]. rewrite Hid. reflexivity.
Qed.

(** X24: the generator and the orchestrator end to end.  Whatever the
    draws, [generate_complete_user_dataset] either raises the ValueError of
    a negative weight deviation or returns a dataset; it raises no KeyError
    and no ZeroDivisionError.  On the returned dataset
    [run_complete_analysis] lets no exception through, and its result has
    status "success" exactly when the generated HDL is not zero; with an HDL
    of zero it is the error result of the division by zero. *)
Theorem generated_dataset_analysis (clock clock' date : nat -> string)
    (draws : DatasetDraws) (user_id : option string) :
  generate_complete_user_dataset clock date draws user_id = RaisedValueError "scale < 0" \/
  exists (d : Dataset) (r : AnalysisResult),
    generate_complete_user_dataset clock date draws user_id = Returned d /\
    length (daily_vitals d) = 30%nat /\
    run_complete_analysis clock' (user_data_of d) = Ok r /\
    (~ hdl (cholesterol (dataset_health_metrics d)) == 0 -> status r = "success") /\
    (hdl (cholesterol (dataset_health_metrics d)) == 0 ->
     exists uid : string,
       r = error_results uid (str ZeroDivisionError) (clock' 0%nat)).
Proof.
  unfold generate_complete_user_dataset. cbv zeta.
  set (uid := match user_id with
              | Some user_id0 => user_id0
              | None => String.append "user_" (str_int (randint 1000 9999 (k_user_id draws)))
              end).
  pose proof (generate_user_profile_cases (clock 0%nat) (profile_draws draws) uid) as H.
  cbv zeta in H. destruct H as [Hlow Hhigh].
  match type of Hlow with ?height < ?least -> _ =>
    destruct (Qlt_le_dec height least) as [Hlt|Hle]
  end.
  - left. rewrite (Hlow Hlt). reflexivity.
  - right. destruct (Hhigh Hle) as (gp & Egp & Hid & _). rewrite Egp. cbn [outcome_bind].
    destruct (generate_health_metrics_returns (health_draws draws) (profile gp) uid Hid)
      as (h & Eh).
    destruct (generate_impedance_data_fields (clock 1%nat) (impedance_draws draws)
                (profile gp) uid Hid) as (gi & Egi & _).
    destruct (generate_lifestyle_data_fields (clock 2%nat) (lifestyle_draws draws)
                (profile gp) uid Hid) as (gl & Egl & _).
    destruct (generate_genetic_risk_data_tables (clock 3%nat) (genetic_draws draws)
                (family_history gp) (profile gp) uid Hid)
      as (gg & alzheimers & parkinsons & Egg & Hc & Ha & Hp).
    destruct (generated_daily_vitals_spec date (vitals_draws draws) (profile gp) h 30 uid Hid)
      as (vs & Evs & Hlen & _).
    rewrite Eh. cbn [outcome_of outcome_bind].
    rewrite Egi. cbn [outcome_of outcome_bind].
    rewrite Egl. cbn [outcome_of outcome_bind].
    rewrite Egg. cbn [outcome_of outcome_bind].
    rewrite Evs. cbn [outcome_of outcome_bind].
    eexists.
    destruct (Qeq_dec (hdl (cholesterol h)) 0) as [Hz|Hnz].
    + exists (error_results uid (str ZeroDivisionError) (clock' 0%nat)).
      split; [reflexivity|]. cbn [daily_vitals dataset_health_metrics].
      split; [exact Hlen|].
      split; [apply run_complete_analysis_zero_hdl; assumption|].
      split; [intros N; contradiction | intros _; exists uid; reflexivity].
    + destruct (run_complete_analysis_stages clock' uid (profile gp) h (impedance gi)
                  (lifestyle gl) (genetics gg) alzheimers parkinsons Hid Hnz Hc Ha Hp)
        as (le & ba & hr & recs & _ & _ & _ & _ & Erun & Hstatus).
      exists (analysis_results uid le ba hr recs (clock' 4%nat)).
      split; [reflexivity|]. cbn [daily_vitals dataset_health_metrics].
      split; [exact Hlen|]. split; [exact Erun|].
      split; [intros _; exact Hstatus | intros Z; contradiction].
Qed.

Lemma generated_lifestyle_vocabulary_witness :
  exists gl : GeneratedLifestyle,
    generate_lifestyle_data "2024-05-01T09:00:02" sample_generation.for_lifestyle
      sample.profile = Ok gl /\
    stress_level (lifestyle gl) = "Very High" /\
    adjustment.stress_adj (lifestyle gl) == 0.
Proof.
  destruct (generated_lifestyle_vocabulary "2024-05-01T09:00:02"
              sample_generation.for_lifestyle sample.profile "user_0001")
    as (gl & H & _ & _ & _ & _ & Hs & _).
  - reflexivity.
  - exists gl. split; [exact H|]. apply Hs. vm_compute. discriminate.
Defined.

Lemma generated_genetic_risks_in_range_witness :
  exists gg : GeneratedGenetics,
    generate_genetic_risk_data "2024-05-01T09:00:03" sample_generation.for_genetic
      sample_generation.history sample.profile = Ok gg /\
    genetic_risks_in_unit_interval (genetics gg).
Proof.
  destruct (generated_genetic_risks_in_range "2024-05-01T09:00:03"
              sample_generation.for_genetic sample_generation.history sample.profile
              "user_0001")
    as (gg & H & U & _).
  - reflexivity.
  - unfold genetic_draws_in_range, unit_draw.
    repeat split; vm_compute; first [reflexivity | discriminate].
  - exists gg. split; [exact H | exact U].
Defined.

(* ================================================================= *)
(** * The reports *)

Lemma key_eqb_refl (k : BinKey) : key_eqb k k = true.
Proof.
  unfold key_eqb. apply andb_true_iff. split; apply Qeq_bool_iff; reflexivity.
Qed.

Lemma bins_set_nonempty bins k v : bins_set bins k v <> [].
Proof. destruct bins as [|[k' v'] bins']; cbn; [|destruct (key_eqb k k')]; discriminate. Qed.

Lemma bins_set_zero bins k :
  Forall (fun entry => snd entry = 0%Z) bins ->
  Forall (fun entry => snd entry = 0%Z) (bins_set bins k 0%Z).
Proof.
  induction bins as [|[k' v'] bins' IH]; intros H; cbn [bins_set].
  - constructor; [reflexivity | constructor].
  - inversion H; subst. destruct (key_eqb k k'); constructor; auto.
Qed.

Lemma total_count_zero bins :
  Forall (fun entry => snd entry = 0%Z) bins -> total_count bins = 0%Z.
Proof.
  unfold total_count. induction 1 as [|[k v] bins' Hv _ IH]; cbn; [reflexivity|].
  cbn in Hv. lia.
Qed.

Lemma bins_increment_length bins k : length (bins_increment bins k) = length bins.
Proof.
  induction bins as [|[k' v'] bins' IH]; cbn [bins_increment]; [reflexivity|].
  destruct (key_eqb k k'); cbn [length]; congruence.
Qed.

Lemma bins_increment_keys bins k : map fst (bins_increment bins k) = map fst bins.
Proof.
  induction bins as [|[k' v'] bins' IH]; cbn [bins_increment]; [reflexivity|].
  destruct (key_eqb k k'); cbn [map fst]; congruence.
Qed.

Lemma bins_increment_total bins k :
  In k (map fst bins) -> total_count (bins_increment bins k) = (total_count bins + 1)%Z.
Proof.
  unfold total_count. induction bins as [|[k' v'] bins' IH]; intros H; [contradiction|].
  cbn [bins_increment]. destruct (key_eqb k k') eqn:E; cbn [map snd fold_right].
  - lia.
  - destruct H as [H|H].
    + cbn in H. subst k'. rewrite key_eqb_refl in E. discriminate.
    + rewrite (IH H). lia.
Qed.

Lemma bins_increment_counts bins k :
  Forall (fun entry => (0 <= snd entry)%Z) bins ->
  Forall (fun entry => (0 <= snd entry)%Z) (bins_increment bins k).
Proof.
  induction 1 as [|[k' v'] bins' Hv Hrest IH]; cbn [bins_increment]; [constructor|].
  cbn in Hv. destruct (key_eqb k k'); constructor; cbn; auto; lia.
Qed.

Lemma list_getitem_In {A : Type} (l : list A) (i : Z) :
  (0 <= i < Z.of_nat (length l))%Z ->
  exists a : A, list_getitem l i = Returned a /\ In a l.
Proof.
  intros Hi. unfold list_getitem. cbv zeta.
  assert (E1 : (i <? 0)%Z = false) by (apply Z.ltb_ge; lia).
  assert (E2 : (Z.of_nat (length l) <=? i)%Z = false) by (apply Z.leb_gt; lia).
  rewrite E1. cbv iota. rewrite E1, E2. cbn [orb].
  destruct (nth_error l (Z.to_nat i)) as [a|] eqn:E.
  - exists a. split; [reflexivity|]. eapply nth_error_In, E.
  - apply nth_error_None in E. lia.
Qed.

Lemma list_getitem_empty {A : Type} (i : Z) :
  list_getitem (@nil A) i = RaisedIndexError "list index out of range".
Proof.
  unfold list_getitem. cbv zeta. cbn [length Z.of_nat].
  destruct (i <? 0)%Z eqn:E1.
  - rewrite Z.add_0_l, E1. reflexivity.
  - assert (E2 : (0 <=? i)%Z = true) by (apply Z.leb_le; apply Z.ltb_ge in E1; lia).
    rewrite E1, E2. reflexivity.
Qed.

(** Every value is counted once, in a bin that exists. *)
Lemma count_values_total (values : list Q) (min_val bin_size : Q) :
  forall bins : list (BinKey * Z),
    bins <> [] ->
    (forall val, In val values -> min_val <= val) -> 0 < bin_size ->
    exists bins' : list (BinKey * Z),
      count_values bins min_val bin_size values = Returned bins' /\
      total_count bins' = (total_count bins + Z.of_nat (length values))%Z /\
      map fst bins' = map fst bins /\
      (Forall (fun entry => (0 <= snd entry)%Z) bins ->
       Forall (fun entry => (0 <= snd entry)%Z) bins').
Proof.
  induction values as [|val values' IH]; intros bins Hne Hmin Hb; cbn [count_values length].
  - exists bins. split; [reflexivity|]. split; [lia|]. split; [reflexivity | auto].
  - cbv zeta.
    set (bin_index := Z.min (py_int ((val - min_val) / bin_size))
                        (Z.of_nat (length bins) - 1)).
    assert (Hlen : (0 < length bins)%nat) by (destruct bins; [contradiction | cbn; lia]).
    assert (Hq : 0 <= (val - min_val) / bin_size).
    { pose proof (Hmin val (or_introl eq_refl)). apply Qle_shift_div_l; lra. }
    assert (Hidx : (0 <= bin_index < Z.of_nat (length (map fst bins)))%Z).
    { rewrite length_map. unfold bin_index. rewrite (py_int_nonneg _ Hq).
      assert (0 <= Qfloor ((val - min_val) / bin_size))%Z.
      { rewrite <- (Qfloor_Z 0). apply Qfloor_resp_le. exact Hq. }
      lia. }
    destruct (list_getitem_In _ _ Hidx) as (k & Ek & Hin).
    rewrite Ek. cbn [outcome_bind].
    assert (Hne' : bins_increment bins k <> []).
    { intros E. apply (f_equal (@length _)) in E. rewrite bins_increment_length in E.
      destruct bins; [contradiction | discriminate]. }
    destruct (IH (bins_increment bins k) Hne') as (bins' & E' & Ht & Hk & Hc).
    + intros v Hv. apply Hmin. right. exact Hv.
    + exact Hb.
    + exists bins'. split; [exact E'|].
      rewrite Ht, Hk, (bins_increment_total bins k Hin), bins_increment_keys.
      split; [lia|]. split; [reflexivity|].
      intros H. apply Hc, bins_increment_counts, H.
Qed.

Lemma list_min_le (values : list Q) (val : Q) : In val values -> list_min values <= val.
Proof.
  destruct values as [|v values']; [contradiction|]. cbn [list_min].
  assert (H : forall l m,
            fold_left (fun m x => if x <? m then x else m) l m <= m /\
            (forall x, In x l -> fold_left (fun m x => if x <? m then x else m) l m <= x)).
  { induction l as [|x l IH]; intros m; cbn [fold_left].
    - split; [lra | intros x []].
    - destruct (IH (if x <? m then x else m)) as [H1 H2]. split.
      + revert H1. cmp_cases; lra.
      + intros y [<-|Hy]; [revert H1; cmp_cases; lra | apply H2, Hy]. }
  destruct (H values' v) as [H1 H2]. intros [<-|Hin]; [exact H1 | apply H2, Hin].
Qed.

(** The loop ends once [current] has passed [max_val], which it does after
    [n] steps when [n] bin sizes reach beyond it. *)
Lemma create_bins_ends (max_val bin_size : Q) :
  forall (n : nat) (current : Q) (bins : list (BinKey * Z)) (fuel : nat),
    max_val < current + inject_Z (Z.of_nat n) * bin_size ->
    0 < bin_size ->
    Forall (fun entry => snd entry = 0%Z) bins ->
    (n < fuel)%nat ->
    exists bins' : list (BinKey * Z),
      create_bins fuel bins current max_val bin_size = Some bins' /\
      Forall (fun entry => snd entry = 0%Z) bins' /\
      (bins <> [] \/ current <= max_val -> bins' <> []).
Proof.
  induction n as [|n IH]; intros current bins fuel Hn Hb Hz Hf.
  - destruct fuel as [|fuel]; [lia|]. cbn [create_bins].
    change (inject_Z (Z.of_nat 0)) with 0 in Hn.
    assert (E : (current <=? max_val) = false) by (apply Qle_bool_gt; lra).
    rewrite E. exists bins. split; [reflexivity|]. split; [exact Hz|].
    intros [H|H]; [exact H | lra].
  - destruct fuel as [|fuel]; [lia|]. cbn [create_bins].
    destruct (current <=? max_val) eqn:E.
    + cbv zeta.
      destruct (IH (current + bin_size) (bins_set bins (bin_key_of current bin_size) 0%Z)
                  fuel) as (bins' & Eb & Hz' & Hne).
      * rewrite Nat2Z.inj_succ, <- Z.add_1_r, inject_Z_plus in Hn.
        change (inject_Z 1) with 1 in Hn. lra.
      * exact Hb.
      * apply bins_set_zero, Hz.
      * lia.
      * exists bins'. split; [exact Eb|]. split; [exact Hz'|].
        intros _. apply Hne. left. apply bins_set_nonempty.
    + exists bins. split; [reflexivity|]. split; [exact Hz|].
      apply Qle_bool_gt in E. intros [H|H]; [exact H | lra].
Qed.

(** With a negative bin size [current] only moves away from [max_val]. *)
Lemma create_bins_never_ends (max_val bin_size : Q) :
  bin_size < 0 ->
  forall (fuel : nat) (current : Q) (bins : list (BinKey * Z)),
    current <= max_val -> create_bins fuel bins current max_val bin_size = None.
Proof.
  intros Hb. induction fuel as [|fuel IH]; intros current bins Hc; cbn [create_bins];
    [reflexivity|].
  rewrite (proj2 (Qle_bool_iff _ _) Hc). cbv zeta. apply IH. lra.
Qed.

Lemma list_min_le_max (values : list Q) : list_min values <= list_max values.
Proof.
  destruct values as [|v values']; cbn [list_min list_max]; [lra|].
  assert (H : forall l lo hi, lo <= hi ->
            fold_left (fun m x => if x <? m then x else m) l lo
            <= fold_left (fun m x => if m <? x then x else m) l hi).
  { induction l as [|x l IH]; intros lo hi Hle; cbn [fold_left]; [exact Hle|].
    apply IH. cmp_cases; lra. }
  apply H. lra.
Qed.

Lemma floor_multiple_le (x bin_size : Q) :
  0 < bin_size -> bin_size * inject_Z (Qfloor (x / bin_size)) <= x.
Proof.
  intros Hb. pose proof (Qfloor_le (x / bin_size)) as H.
  apply (Qmult_le_compat_r _ _ bin_size) in H; [|lra].
  setoid_replace (x / bin_size * bin_size) with x in H by (field; lra). lra.
Qed.

Lemma floor_multiple_ge (x bin_size : Q) :
  bin_size < 0 -> x <= bin_size * inject_Z (Qfloor (x / bin_size)).
Proof.
  intros Hb. pose proof (Qfloor_le (x / bin_size)) as H.
  assert (H' : x / bin_size * bin_size <= inject_Z (Qfloor (x / bin_size)) * bin_size).
  { setoid_replace (x / bin_size * bin_size)
      with (- (x / bin_size * - bin_size)) by ring.
    setoid_replace (inject_Z (Qfloor (x / bin_size)) * bin_size)
      with (- (inject_Z (Qfloor (x / bin_size)) * - bin_size)) by ring.
    apply Qopp_le_compat. apply Qmult_le_compat_r; lra. }
  setoid_replace (x / bin_size * bin_size) with x in H' by (field; lra). lra.
Qed.

(** Enough steps to pass [max_val]. *)
Lemma steps_beyond (current max_val bin_size : Q) :
  0 < bin_size ->
  exists n : nat, max_val < current + inject_Z (Z.of_nat n) * bin_size.
Proof.
  intros Hb.
  set (q := (max_val - current) / bin_size).
  exists (Z.to_nat (Qfloor q + 1)).
  pose proof (Qlt_floor q) as Hq.
  assert (Hle : inject_Z (Qfloor q + 1) <= inject_Z (Z.of_nat (Z.to_nat (Qfloor q + 1)))).
  { rewrite <- Zle_Qle. lia. }
  assert (Hm : max_val - current < inject_Z (Qfloor q + 1) * bin_size).
  { apply (Qmult_lt_compat_r _ _ bin_size) in Hq; [|exact Hb].
    unfold q in Hq at 1.
    setoid_replace ((max_val - current) / bin_size * bin_size)
      with (max_val - current) in Hq by (field; lra).
    exact Hq. }
  assert (inject_Z (Qfloor q + 1) * bin_size
          <= inject_Z (Z.of_nat (Z.to_nat (Qfloor q + 1))) * bin_size)
    by (apply Qmult_le_compat_r; lra).
  lra.
Qed.

(** With a bin size above zero the function returns, and counts every
    value once. *)
Lemma calculate_distribution_returns (values : list Q) (bin_size : Q) :
  values <> [] -> 0 < bin_size ->
  exists (enough : nat) (bins : list (BinKey * Z)),
    (forall fuel, (enough <= fuel)%nat ->
       _calculate_distribution fuel values bin_size = Some (Returned bins)) /\
    bins <> [] /\
    Forall (fun entry => (0 <= snd entry)%Z) bins /\
    total_count bins = Z.of_nat (length values).
Proof.
  intros Hne Hb. destruct values as [|v values'] eqn:Ev; [contradiction|].
    rewrite <- Ev in *.
    set (first := bin_size * inject_Z (Qfloor (list_min values / bin_size))).
    assert (Hfirst : first <= list_min values) by (apply floor_multiple_le, Hb).
    destruct (steps_beyond first (list_max values) bin_size Hb) as (n & Hn).
    destruct (create_bins_ends (list_max values) bin_size n first [] (S n) Hn Hb
                (Forall_nil _) (Nat.lt_succ_diag_r n)) as (bins0 & E0 & Hz0 & Hne0).
    assert (Hbins0 : bins0 <> []).
    { apply Hne0. right. pose proof (list_min_le_max values). lra. }
    destruct (count_values_total values first bin_size bins0 Hbins0) as (bins & Ec & Ht & Hk & Hc).
    { intros val Hin. pose proof (list_min_le values val Hin). lra. }
    { exact Hb. }
    exists (S n), bins. split; [|split; [|split]].
    + intros fuel Hfuel. unfold _calculate_distribution. rewrite Ev, <- Ev. cbv zeta.
      assert (E : (bin_size =? 0) = false) by (apply Qeq_bool_false; lra).
      rewrite E. fold first.
      destruct (create_bins_ends (list_max values) bin_size n first [] fuel Hn Hb
                  (Forall_nil _) ltac:(lia)) as (bins1 & E1 & _).
      assert (bins1 = bins0).
      { (* more fuel gives the same bins *)
        clear - E0 E1 Hfuel.
        revert E0 E1. generalize (@nil (BinKey * Z)) as acc. generalize first as current.
        revert fuel Hfuel. induction (S n) as [|m IH]; intros fuel Hfuel current acc E0 E1;
          [discriminate|].
        destruct fuel as [|fuel]; [lia|]. cbn [create_bins] in E0, E1.
        destruct (current <=? list_max values).
        - cbv zeta in E0, E1. eapply (IH fuel); [lia | exact E0 | exact E1].
        - congruence. }
      subst bins1. rewrite E1, Ec. reflexivity.
    + intros Eb. subst bins. destruct bins0; [contradiction | discriminate Hk].
    + apply Hc. eapply Forall_impl; [|exact Hz0]. cbv beta. intros entry ->. lia.
    + rewrite Ht, (total_count_zero bins0 Hz0). lia.
Qed.

(** X26: the distribution of a report.  For a bin size above zero and a
    list that is not empty the loop that creates the bins ends, and with
    enough fuel [_calculate_distribution] returns a dict that is not empty,
    whose counts are not negative and add up to the number of values: every
    value is counted exactly once.  An empty list gives the empty dict and a
    bin size of zero raises ZeroDivisionError.  With a negative bin size the
    function never returns a dict: when the first bin starts at or below the
    maximum the loop never ends, whatever the fuel, and otherwise no bin is
    created and the first lookup raises IndexError. *)
Theorem calculate_distribution_counts (values : list Q) (bin_size : Q) :
  (values = [] ->
   forall fuel, _calculate_distribution fuel values bin_size = Some (Returned [])) /\
  (values <> [] -> bin_size == 0 ->
   forall fuel,
     _calculate_distribution fuel values bin_size = Some (Raised ZeroDivisionError)) /\
  (values <> [] -> bin_size < 0 ->
   let first := bin_size * inject_Z (Qfloor (list_min values / bin_size)) in
   (first <= list_max values ->
    forall fuel, _calculate_distribution fuel values bin_size = None) /\
   (list_max values < first ->
    forall fuel, (1 <= fuel)%nat ->
      _calculate_distribution fuel values bin_size
      = Some (RaisedIndexError "list index out of range"))) /\
  (values <> [] -> 0 < bin_size ->
   exists (enough : nat) (bins : list (BinKey * Z)),
     (forall fuel, (enough <= fuel)%nat ->
        _calculate_distribution fuel values bin_size = Some (Returned bins)) /\
     bins <> [] /\
     Forall (fun entry => (0 <= snd entry)%Z) bins /\
     total_count bins = Z.of_nat (length values)).
Proof.
  split; [intros ->; reflexivity|].
  split; [|split].
  - intros Hne Hz fuel. destruct values as [|v values']; [contradiction|].
    unfold _calculate_distribution. cbv zeta.
    rewrite (proj2 (Qeq_bool_iff _ _) Hz). reflexivity.
  - intros Hne Hb. cbv zeta. destruct values as [|v values']; [contradiction|].
    assert (E : (bin_size =? 0) = false) by (apply Qeq_bool_false; lra).
    split.
    + intros Hfirst fuel. unfold _calculate_distribution. cbv zeta. rewrite E.
      rewrite create_bins_never_ends; [reflexivity | exact Hb | exact Hfirst].
    + intros Hfirst fuel Hfuel. unfold _calculate_distribution. cbv zeta. rewrite E.
      destruct fuel as [|fuel]; [lia|]. cbn [create_bins].
      rewrite (proj2 (Qle_bool_gt _ _) Hfirst).
      cbn [count_values]. cbv zeta. cbn [map]. rewrite list_getitem_empty. reflexivity.
  - apply calculate_distribution_returns.
Qed.

Lemma calculate_distribution_counts_witness :
  exists (enough : nat) (bins : list (BinKey * Z)),
    (forall fuel, (enough <= fuel)%nat ->
       _calculate_distribution fuel [76.1; 81.4; 79.0] 5 = Some (Returned bins)) /\
    total_count bins = 3%Z.
Proof.
  destruct (calculate_distribution_counts [76.1; 81.4; 79.0] 5) as (_ & _ & _ & H).
  destruct H as (enough & bins & Hf & _ & _ & Ht).
  - discriminate.
  - reflexivity.
  - exists enough, bins. split; [exact Hf | exact Ht].
Defined.

Lemma append_risk_levels_keys (r : Risks) (lists : list (string * list Q)) :
  map fst lists = risk_types ->
  exists lists' : list (string * list Q),
    append_risk_levels r lists = Ok lists' /\ map fst lists' = risk_types.
Proof.
  unfold risk_types. intros H.
  destruct lists as [|[k1 l1] [|[k2 l2] [|[k3 l3] [|[k4 l4] [|]]]]]; try discriminate.
  cbn in H. injection H as -> -> -> ->.
  eexists. split; reflexivity.
Qed.

(** The lists after the loop: one entry per successful analysis. *)
Lemma collect_all_lengths (all_results : list SimulationResult) :
  forall m : Metrics,
    map fst (health_risks_lists m) = risk_types ->
    exists m' : Metrics,
      collect_all m all_results = Ok m' /\
      map fst (health_risks_lists m') = risk_types /\
      length (life_expectancies m')
      = (length (life_expectancies m) + length (successes all_results))%nat /\
      length (bio_age_diffs m')
      = (length (bio_age_diffs m) + length (successes all_results))%nat /\
      (successes all_results = [] -> m' = m).
Proof.
  induction all_results as [|entry all_results' IH]; intros m Hk; cbn [collect_all].
  - exists m. cbn. repeat split; auto.
  - unfold collect, successes. cbn [filter]. fold (successes all_results').
    destruct (result_analysis entry) as [uid le ba hr recs t|uid msg t];
      cbn [status String.eqb Ascii.eqb Bool.eqb andb].
    + destruct (append_risk_levels_keys (risks hr) (health_risks_lists m) Hk)
        as (lists & El & Hl).
      rewrite El. cbn [bind].
      match goal with |- context [collect_all ?m1 _] =>
        destruct (IH m1 Hl) as (m' & E & Hk' & H1 & H2 & _)
      end.
      exists m'. split; [exact E|]. split; [exact Hk'|].
      cbn [life_expectancies bio_age_diffs] in H1, H2. rewrite length_app in H1, H2.
      change (String.eqb "success" "success") with true. cbn [length] in *.
      split; [lia|]. split; [lia | discriminate].
    + cbn [bind]. destruct (IH m Hk) as (m' & E & Hk' & H1 & H2 & H3).
      exists m'. change (String.eqb "error" "success") with false.
      repeat split; assumption.
Qed.

Lemma distribution_of (values : list Q) (bin_size : Q) :
  0 < bin_size ->
  exists (enough : nat) (bins : list (BinKey * Z)),
    (forall fuel, (enough <= fuel)%nat ->
       _calculate_distribution fuel values bin_size = Some (Returned bins)) /\
    total_count bins = Z.of_nat (length values) /\
    (values = [] -> bins = []).
Proof.
  intros Hb. destruct values as [|v values'] eqn:E.
  - exists 0%nat, []. repeat split.
  - rewrite <- E. destruct (calculate_distribution_returns values bin_size)
      as (enough & bins & Hf & _ & _ & Ht); [subst; discriminate | exact Hb |].
    exists enough, bins. split; [exact Hf|]. split; [exact Ht|]. subst. discriminate.
Qed.

(** X27: the summary report.  For every list of results the report is
    returned (with enough fuel for its two distributions, whose bin sizes
    are 5 and 3): [num_users] counts every entry, while the averages and the
    two distributions are over the successful analyses only, so the counts
    of each distribution add up to the number of successes.  The risk
    averages have the four risk types as keys; with no success at all every
    average is 0 and both distributions are empty. *)
Theorem summary_report_counts (stamp now : string) (all_results : list SimulationResult) :
  exists (enough : nat) (s : Summary),
    (forall fuel, (enough <= fuel)%nat ->
       _generate_summary_report stamp now fuel all_results = Some (Returned s)) /\
    num_users s = Z.of_nat (length all_results) /\
    total_count (distribution_life_expectancy s)
    = Z.of_nat (length (successes all_results)) /\
    total_count (distribution_biological_vs_chronological s)
    = Z.of_nat (length (successes all_results)) /\
    map fst (average_risk_levels (averages s))
    = ["cardiovascular"; "metabolic"; "neurological"; "cancer"] /\
    (successes all_results = [] ->
     distribution_life_expectancy s = [] /\
     distribution_biological_vs_chronological s = [] /\
     average_life_expectancy (averages s) == 0 /\
     average_chronological_age (averages s) == 0 /\
     average_biological_age (averages s) == 0 /\
     average_biological_age_difference (averages s) == 0 /\
     Forall (fun entry => snd entry == 0) (average_risk_levels (averages s))).
Proof.
  destruct (collect_all_lengths all_results no_metrics eq_refl)
    as (m & Em & Hk & Hl & Hd & Hnone).
  cbn [no_metrics life_expectancies bio_age_diffs length Nat.add] in Hl, Hd.
  destruct (distribution_of (life_expectancies m) 5 ltac:(reflexivity))
    as (e1 & bins1 & Hf1 & Ht1 & He1).
  destruct (distribution_of (bio_age_diffs m) 3 ltac:(reflexivity))
    as (e2 & bins2 & Hf2 & Ht2 & He2).
  exists (Nat.max e1 e2). eexists. split; [|split; [|split; [|split; [|split]]]].
  - intros fuel Hfuel. unfold _generate_summary_report. rewrite Em. cbv zeta.
    rewrite (Hf1 fuel) by lia. rewrite (Hf2 fuel) by lia.
    cbn [outcome_bind]. reflexivity.
  - reflexivity.
  - cbn [distribution_life_expectancy]. rewrite Ht1, Hl. reflexivity.
  - cbn [distribution_biological_vs_chronological]. rewrite Ht2, Hd. reflexivity.
  - cbn [averages average_risk_levels]. rewrite !map_map. cbn [fst]. exact Hk.
  - intros Hs. rewrite (Hnone Hs) in *.
    cbn [distribution_life_expectancy distribution_biological_vs_chronological averages
         average_life_expectancy average_chronological_age average_biological_age
         average_biological_age_difference average_risk_levels].
    split; [apply He1; reflexivity|]. split; [apply He2; reflexivity|].
    cbn [no_metrics life_expectancies chronological_ages biological_ages bio_age_diffs
         health_risks_lists average map fst snd].
    repeat split; try reflexivity.
    repeat (constructor; [reflexivity|]). constructor.
Qed.

Lemma py_round_n_zero (d : nat) : py_round_n 0 d == 0.
Proof. apply (py_round_n_exact 0). ring. Qed.

(** What holds of every entry of the risk comparison. *)
Lemma compare_risk_spec (original scenario : Risks) (risk_type : string) :
  In risk_type risk_types ->
  exists change : RiskChange,
    compare_risk original scenario risk_type = Ok change /\
    (risk_original change <= 0 -> percent_reduction change == 0) /\
    (0 < risk_original change -> 0 <= risk_scenario change ->
     percent_reduction change <= 100) /\
    (0 < risk_original change -> risk_scenario change <= risk_original change ->
     0 <= percent_reduction change).
Proof.
  intros Hin. unfold compare_risk.
  assert (Hr : forall r, exists entry, risk_of r risk_type = Ok entry).
  { intros r. unfold risk_types in Hin.
    destruct Hin as [<-|[<-|[<-|[<-|[]]]]]; eexists; reflexivity. }
  destruct (Hr original) as (eo & Eo). destruct (Hr scenario) as (es & Es).
  rewrite Eo. cbn [bind]. cbv zeta. rewrite Es. cbn [bind].
  eexists. split; [reflexivity|].
  cbn [risk_original risk_scenario percent_reduction].
  set (o := risk_level eo). set (s := risk_level es).
  split; [|split].
  - intros Ho. rewrite (proj2 (Qltb_ge _ _) Ho). apply py_round_n_zero.
  - intros Ho Hs. rewrite (proj2 (Qltb_lt _ _) Ho).
    change 100 with (inject_Z 100). apply py_round_n_le. change (inject_Z 100) with 100.
    assert ((o - s) / o <= 1) by (apply Qle_shift_div_r; lra). lra.
  - intros Ho Hs. rewrite (proj2 (Qltb_lt _ _) Ho).
    change 0 with (inject_Z 0) at 1. apply py_round_n_ge. change (inject_Z 0) with 0.
    assert (0 <= (o - s) / o) by (apply Qle_shift_div_l; lra). lra.
Qed.

Lemma compare_risks_spec (original scenario : Risks) (types : list string) :
  incl types risk_types ->
  exists changes : list (string * RiskChange),
    compare_risks original scenario types = Ok changes /\
    map fst changes = types /\
    Forall (fun entry =>
              (risk_original (snd entry) <= 0 -> percent_reduction (snd entry) == 0) /\
              (0 < risk_original (snd entry) -> 0 <= risk_scenario (snd entry) ->
               percent_reduction (snd entry) <= 100) /\
              (0 < risk_original (snd entry) ->
               risk_scenario (snd entry) <= risk_original (snd entry) ->
               0 <= percent_reduction (snd entry))) changes.
Proof.
  induction types as [|t types' IH]; intros Hincl; cbn [compare_risks].
  - exists []. repeat split. constructor.
  - destruct (compare_risk_spec original scenario t (Hincl t (or_introl eq_refl)))
      as (change & Ec & Hc).
    destruct IH as (changes & Ecs & Hk & Hall).
    { intros x Hx. apply Hincl. right. exact Hx. }
    rewrite Ec, Ecs. cbn [bind]. eexists. split; [reflexivity|].
    cbn [map fst]. split; [congruence|]. constructor; assumption.
Qed.

(** X28: the scenario comparison never raises.  Without a stored original
    analysis, or when one of the two analyses is an error result, it
    returns an error dict with the message of the case.  For two successful
    analyses it returns one entry for each of the four risk types; the
    percentage of reduction is guarded against an original risk of zero (it
    is then 0, whatever the scenario risk), is at most 100 when the scenario
    risk is not negative, and is not negative when the risk has not risen.
    The life expectancy difference is scenario less original, the
    biological age difference original less scenario. *)
Theorem scenario_comparison_total (original : option AnalysisResult)
    (scenario_results : AnalysisResult) :
  exists c : Comparison,
    _generate_scenario_comparison original scenario_results = Ok c /\
    (original = None -> c = comparison_error "Original analysis not found for comparison") /\
    (forall o : AnalysisResult,
       original = Some o ->
       status o <> "success" \/ status scenario_results <> "success" ->
       c = comparison_error "One or both analyses had errors") /\
    (forall (uid uid' t t' : string) (le le' : Prediction) (ba ba' : BiologicalAge)
            (hr hr' : RiskAssessment) (recs recs' : Recommendations),
       original = Some (analysis_results uid le ba hr recs t) ->
       scenario_results = analysis_results uid' le' ba' hr' recs' t' ->
       exists changes : list (string * RiskChange),
         c = comparison_results
               {| change_original := predicted_life_expectancy le;
                  change_scenario := predicted_life_expectancy le';
                  change_difference :=
                    py_round_n (predicted_life_expectancy le'
                                - predicted_life_expectancy le) 1 |}
               {| change_original := biological_age ba;
                  change_scenario := biological_age ba';
                  change_difference :=
                    py_round_n (biological_age ba - biological_age ba') 1 |}
               changes /\
         map fst changes = ["cardiovascular"; "metabolic"; "neurological"; "cancer"] /\
         Forall (fun entry =>
                   (risk_original (snd entry) <= 0 ->
                    percent_reduction (snd entry) == 0) /\
                   (0 < risk_original (snd entry) -> 0 <= risk_scenario (snd entry) ->
                    percent_reduction (snd entry) <= 100) /\
                   (0 < risk_original (snd entry) ->
                    risk_scenario (snd entry) <= risk_original (snd entry) ->
                    0 <= percent_reduction (snd entry))) changes).
Proof.
  unfold _generate_scenario_comparison.
  destruct original as [[uid le ba hr recs t|uid msg t]|].
  - destruct scenario_results as [uid' le' ba' hr' recs' t'|uid' msg' t'].
    + destruct (compare_risks_spec (risks hr) (risks hr') risk_types (incl_refl _))
        as (changes & Ec & Hk & Hall).
      unfold risk_types in Ec at 1. cbv zeta. rewrite Ec. cbn [bind].
      eexists. split; [reflexivity|]. split; [discriminate|].
      split.
      * intros o [= <-] [H|H]; exfalso; apply H; reflexivity.
      * intros ? ? ? ? ? ? ? ? ? ? ? ? [= <- <- <- <- <- <-] [= <- <- <- <- <- <-].
        exists changes. split; [reflexivity|]. split; [exact Hk | exact Hall].
    + eexists. split; [reflexivity|]. split; [discriminate|].
      split; [intros; reflexivity | intros; discriminate].
  - eexists. split; [reflexivity|]. split; [discriminate|].
    split; [intros; reflexivity | intros; discriminate].
  - eexists. split; [reflexivity|]. split; [reflexivity|].
    split; intros; discriminate.
Qed.
